(* ===== verification/_CoqProject ===== *)
-Q . S2P
Prelude.v
AIFlows.v
Data.v
WebRTC.v
Store.v
CallView.v
Home.v
ChatView.v
Voice.v
Friends.v
FriendGraph.v
FriendsAsync.v
Profile.v
SettingsView.v
Login.v
Durations.v
ChatMessages.v
ChatScreen.v
Presentation.v
CallScreen.v
RecorderView.v
People.v
HomeView.v
FriendsPage.v
System.v
Invariants.v
Tasks.v
Scenarios.v
