(* ===== verification/Prelude.v ===== *)
(** * Mitho Chat: a verification development of the chat client

    This development models, in Rocq, the Mitho Chat web client (TypeScript
    sources under [src/src]): its calling feature, messaging, voice
    messages, friends and chats, and profiles.  It proves what makes each part
    correct, and where a part is not correct, it proves that too.

    ** The program

    Two browsers exchange audio and video over a WebRTC peer connection.  Call
    setup goes through a Firestore document database used as a signaling bus:

    - [src/src/lib/webrtc.ts], class [WebRTCManager]: wraps one
      [RTCPeerConnection] (offer, answer, remote description, ICE candidates,
      mute and camera toggles, hang up).
    - [src/src/components/call-view.tsx], component [CallView]: the per-call
      screen.  It acquires the local media, builds a [WebRTCManager], binds it
      to the call document [calls/{id}] and to the two candidate
      sub-collections ([callerCandidates], [calleeCandidates]), and ends the
      call ([handleEndCall]) on a terminal status or a lost connection.
    - [src/src/app/page.tsx], component [Home]: listens for ringing calls
      addressed to the user, accepts or declines them ([handleCallAction]),
      starts calls ([handleInitiateCall]), follows the active call's
      document, and on the end of a call ([handleEndCall]) writes the final
      status and, on the caller's side, the call-log message
      ([createCallMessage]) into the chat.
    - [src/src/lib/data.ts]: the records stored in Firestore ([Call],
      [Message], [CallInfo], [Chat], ...).
    - [src/src/components/chat-view.tsx], component [ChatView]: one open
      chat; sends text and attachments into the chat's [messages] and
      updates the chat's summary, and mutes, clears, deletes and blocks.
    - [src/src/components/voice-recorder.tsx], component [VoiceRecorder]:
      records from the microphone and sends a voice message.
    - [page.tsx] again, for friends: friend requests (send, cancel, accept,
      decline), unfriending, opening the direct chat of two users (id: the
      two uids sorted and joined by [_]), and the listeners that keep the
      chat list and the request statuses.
    - [src/src/hooks/use-auth.tsx], [AuthProvider]: on a first sign-in,
      creates the profile document (name, avatar, a generated handle, the
      default theme); [src/src/app/settings/page.tsx]: edits the name and
      handle after checking the handle is free, the theme, the ringtone
      and the avatar.
    - [src/src/app/login/page.tsx], [LoginPage]: signs up or in with an
      e-mail and a password, or with Google, through Firebase Auth, and
      redirects once the [AuthProvider] reports a user.
    - [src/src/ai/flows]: two Genkit flows, smart replies and a chat
      summary, which fill a prompt template and ask a language model;
      no page calls them.
    - The page's render and the components it draws: [ChatList],
      [BottomNavBar], [SettingsTab], [FriendsList], [IncomingCallDialog],
      and, inside [ChatView], the messages listener, [MessageItem] and the
      voice player.

    ** Files, in dependency order

    - [Prelude] (this file): the [mitho_scope] notations, the result type and
      the state-and-exception monad [SE] in which asynchronous handlers are
      written, the development's tactics and the [mitho] hint database, and
      the generic lemmas on lists the components share.
    - [AIFlows]: the Genkit flows of [src/src/ai/flows]: their schemas,
      the prompts as parsed Handlebars templates with a renderer of the
      constructs they use, and the flows over the language model as an
      input; the smart-reply prompt reads back to its history exactly
      when no message holds a line break ([read_history_prompt]).
    - [Data]: the records and enumerations of [data.ts], with decidable
      equality instances.
    - [WebRTC]: [Peer], the browser's [RTCPeerConnection] as the environment
      (its W3C signaling state machine, descriptions, senders, candidates),
      the shared media-track store ([Tracks]), and [Manager], the
      [WebRTCManager] class, one definition per method.
    - [Store]: Firestore as the environment of the clients: the [calls]
      collection with its candidate sub-collections, [chats] with their
      messages (each document with its id, deleted by id), [users]; [setDoc], [addDoc], [updateDoc] (which rejects with
      [not-found] on a missing document), [serverTimestamp()] as the store's
      clock, queries ordered by document id, and a journal of every write.
    - [CallView]: the [CallView] component.  Its state and refs are the record
      [CallView.t]; each run of the WebRTC effect is a [run] (its manager,
      the start time its listeners captured, its listeners);
      [setupSignaling] is cut at each [await] into [sig_stage]s run by
      [sig_step]; each listener and callback is one definition
      ([candidate_snapshot], [doc_snapshot], [local_candidate],
      [connection_change]); [handle] dispatches an [event].
    - [Home]: the calling part of the [Home] page.  Each async handler is cut
      at every await into [task]s that run in any order ([run_task],
      [resume]): the writes of [handleEndCall] and [createCallMessage] are
      data ([op], [end_ops], [call_message_ops]) sent one per task
      ([send_op]), and accept awaits its status write and both its reads
      (the chat, then the other member's profile); [end_writes] is the same
      writes run with nothing in between.  The listeners, the effects'
      re-subscription and the render that mounts the call screen are
      definitions; [settle] is what React does after a step.
    - [ChatView]: the [ChatView] component's handlers, each a function of
      the screen's state and the store, with the pure helpers
      ([formatCallDuration], [getFileType], the call-log texts, [trim]).
    - [Voice]: the [VoiceRecorder] component: its state and refs, the
      browser's [MediaRecorder] as the environment (which may also stop
      by itself, its track ended or failing), the mount effect, the
      timer, [sendVoiceMessage] and [handleCancel]; [handle] dispatches an
      event and [handle_all] runs a list of them.
    - [Friends]: the friends and chats part of [Home]: the write batches
      ([accept_batch], [unfriend_batch]), the handlers, the listeners, the
      people tab's buttons ([people_click]) and the friends page
      ([page_handleUnfriend]), and [fstep], any handler or listener of any
      user's page on a shared store.
    - [FriendGraph]: the specification of the friend handlers, an
      undirected friendship graph whose steps add or remove one edge,
      compared up to pointwise equivalence (a setoid with [Proper]
      operations), and the refinement of [Friends.fstep] into it.
    - [FriendsAsync]: [handleSendFriendRequest] cut at its await, equal
      to the atomic handler when nothing interleaves and refining the
      graph's [GSkip] either way; two tabs of one user write two
      requests, and a cancel leaves one.
    - [Profile]: the string helpers of [use-auth.tsx] ([generateHandle],
      [getDisplayNameFromEmail], [encodeURIComponent] on bytes), the
      [AuthProvider]'s state and [onAuthStateChanged] callback, and the
      settings page's state, handle check, form schema and handlers.
    - [SettingsView]: what the settings page shows (avatar, form with the
      availability line and Save's state, theme, colours, ringtones), the
      state the page keeps beside [Profile]'s (debounced handle, handle
      queries in flight, upload flags, image viewed), the handle check
      split at its await, and the handlers the page wires.
    - [Login]: the sign-in page over Firebase Auth (accounts, signed-in
      user, verification mails), its handlers cut at their first await
      into pending handlers ([resolve]), the redirect effect, the form
      schema (zod's e-mail check a section variable), what the page shows,
      and [lstep], the page with Firebase Auth, the [AuthProvider] and the
      store.
    - [Durations]: JavaScript numbers (finite rationals, [Infinity],
      [NaN]) with [/], [%], [Math.floor], [toString] and [padStart], the
      voice player's state, events and duration text, and the recorder's
      [formatTime].
    - [ChatMessages]: the messages listener of [ChatView] ordered by
      timestamp, the other member's profile fetch, [MessageItem] (call
      lines and bubbles with their parts), and that no friends handler
      writes messages.
    - [ChatScreen]: what an open chat shows (header, messages, blocked
      banner, composer, attachment preview, dialog) and the handlers the
      screen wires that [ChatView] does not hold.
    - [Presentation]: the contact sheet, the image viewer and the drag
      hook of the local preview (gestures compose by adding their
      movements).
    - [CallScreen]: what the call screen shows (status line, initials,
      local preview, controls) and the [CallTimer] component (effect,
      interval tick, [mm:ss] text).
    - [RecorderView]: the recorder's [Waveform] bars drawn from the
      analyser's bins, the draw loop, and what the recorder shows.
    - [People]: the users listener and the people tab's search
      ([filteredUsers]): exactly the other users whose lower-cased name or
      handle contains the lower-cased term; what the people tab shows
      (request rows, heading, one card and button per user).
    - [HomeView]: what the [Home] page shows as a function of the modelled
      state (loading, call screen, mobile and desktop layouts, sidebar,
      chat list, settings tab, friends list, bottom bar, incoming-call
      dialog), the search filters with the [TypeError] they throw, and the
      handlers the view wires.
    - [FriendsPage]: the friends page: its [friends] state filled by
      reads that settle in any order, its render, its redirect, and the
      unfriend followed by the effect on the refreshed profile.
    - [System]: two clients and the store as a transition system: a [label]
      names a user action, a snapshot, a settling promise, a media or
      connection event, or time passing; [exec_label] checks that the label
      can happen and performs it; [step] and [reach] are the relations;
      [run_steps] executes a list of labels, and [run_steps_reach] makes any
      execution a proof of reachability.
    - [Invariants]: what every step keeps, by induction on [reach].
    - [Tasks]: the suspended handlers of one page: the task queue can
      always be drained (a weight that every resumed await lowers), an end
      of call always completes and marks the call [ended], and does not
      when its chat was deleted.
    - [Scenarios]: the races of the call handlers stated for every store
      and call (both pages ending a call, a cancel racing a decline, a
      stale dialog, a screen unmounted with its media pending), and
      concrete executions from the starting world [w0] (alice and bob,
      friends with a direct chat) showing each is reachable.

    ** What is proved

    - The session negotiator: each method on every branch, errors
      included ([createOffer_spec], [createAnswer_stable]); [hangUp]
      closes the connection, stops every track ([hangUp_releases]) and is
      idempotent; [addIceCandidate] never rejects; candidates delivered
      before the remote description are lost ([addIceCandidates_lost]);
      once it is set a batch is applied whole, in order
      ([addIceCandidates_applied]); toggles flip exactly one kind of track
      and a second toggle restores it.
    - The call screen: [onEndCall] is reported at most once in every
      reachable state, whatever the events ([onEndCall_at_most_once]); the
      first [handleEndCall] tears the manager down before reporting; a
      terminal snapshot reaching an effect run that captured no start time
      reports 0 seconds; a failed media request leaves every manager without
      a track.
    - The page: [handleEndCall]'s writes on every branch ([end_writes_spec],
      [end_writes_over]); accept writes [connected] over any status; decline
      writes [declined] and one [missed] entry; initiate creates the ringing
      call for the chat's other member.  When the caller ends a connected
      call and the callee's page follows, the chat gets exactly one entry
      [{type, ended, d}] ([caller_end_logs_once]).
    - The system: every stored call of every reachable world is well
      formed and never [missed] ([calls_ok_reachable]); along every
      execution the store evolves as the handlers allow (documents keep
      their identity, messages and candidates are appended or deleted by
      id, the journal grows).  The specification's scenario runs and ends
      as specified (one offer, one answer, the call [ended], exactly one
      entry [{video, ended, 42}]).
    - Messaging: sending appends exactly one trimmed, non-empty text
      message and updates the summary ([send_text_spec], [send_no_blank]);
      blocking then unblocking restores the block list; a send into a
      deleted chat leaves an orphan message and clears the input; blocking
      is one-sided; clearing keeps messages that arrive during the clear;
      deleting keeps the messages; the caller reads its own missed-call
      entry as missed.
    - Voice messages: unless the browser stops the recorder by itself, no
      voice message is ever sent (the recorder has no timeslice, and
      [sendVoiceMessage] returns on an empty chunk list before it stops
      the recorder); the interval is never cleared; a recorder unmounted
      before the permission resolves leaves the microphone on for as
      long as the browser keeps the track.
    - Friends: friendship stays mutual along every run of the handlers of
      any users' pages ([friends_symmetric]); accepting and unfriending on
      every field they write; the two users of a direct chat share one
      document; the chat list is exactly the user's chats, latest first.
      After an unfriend the page keeps the status [friends], and a new
      request to the former friend writes nothing; two tabs of one user
      that send the same request both write it, and a cancel leaves one
      ([two_tabs_request_survives_cancel]).  Every run of the
      friends handlers refines the friendship-graph specification
      ([friends_refinement]).  Unfriending keeps the chat's messages,
      which a chat created again shows ([unfriend_keeps_history]).
    - The page's awaits: once [handleEndCall] has started on a call whose
      document and chat exist, it can always complete and, whenever it
      has, in any interleaving, the call is [ended]
      ([end_call_completes]); when the chat was deleted the caller's end
      rejects before the status write, and the call is never ended
      ([end_call_chat_deleted]).
    - Signing in: at most one sign-in is in flight and the spinner shows
      exactly while one is ([login_one_in_flight]); a sign-up whose
      verification mail fails reports failure yet signs the user in
      ([signup_mail_failure]); e-mail verification is never required
      ([unverified_sign_in]).
    - Display: for every finite duration the player shows [m:ss] with
      [ss] from [00] to [59] ([format_duration_bounds]), and a duration of
      [Infinity] shows [Infinity:NaN]; the call timer reads [mm:ss]
      for the whole seconds elapsed; the waveform's 66 bars all read the
      first of the analyser's 64 bins; the sidebar lists at most five
      friends; a chat with no name makes the home page throw; the people
      tab shows exactly the matching users with the button their
      request status selects; the friends page lists a removed friend
      again when its earlier read settles last ([unfriended_reappears]).
    - Profiles: generated handles hold only [a-z0-9_]; a long name yields
      a handle the settings form refuses; the first sign-in stores the
      profile and later ones only read it; a theme change stores mode and
      colour and keeps the ringtone; two users who check the same free
      handle both get it, and one user whose handle queries settle out
      of order is told a taken handle is available and saves it
      ([stale_check_saves_taken]).
    - The chat screen: the messages of a user one has blocked keep
      arriving and are shown under the banner that says they cannot
      ([blocked_messages_still_shown]).
    - Races that break the specification, each stated for every store
      and call: the callee ending a call leaves no log entry
      ([callee_end_loses_log]); a cancel racing a decline logs twice and
      overwrites [declined] with [ended] ([cancel_decline_logs_twice]); a
      stale dialog reconnects a cancelled call
      ([ended_call_reconnected]); the caller's screen writes a second
      offer when its media arrive ([CallView.offer_written_twice]); a
      screen unmounted before its media resolve leaves the camera on
      ([camera_left_on]).

    ** Bounds and fuel

    Every definition is structural ([Fixpoint]s over lists of candidates,
    operations, events, labels, chats or characters), so no model runs on
    fuel; executions are finite lists of labels, and every theorem about
    all executions is an induction over [reach] or [rtc].  [Tasks.drain n]
    resumes the first pending task [n] times: its only use is to show a
    run that empties the queue, and any [n] at least the queue's weight
    (the resumptions each task has left, at most four for an end of
    call: its read and up to three writes) is enough ([drain_empties]),
    since each resumption lowers the weight ([task_step_weight]).  Numbers displayed
    with two digits are checked below 100 by evaluating all hundred cases,
    which bounds the timers' two-digit claims to the first 100 minutes
    ([formatTime_short], [timer_shows_elapsed]); the waveform's canvas is
    the source's 200 by 32 pixels and the analyser's 64 bins.  The scenarios run by [vm_compute]
    on concrete worlds; time is the store's clock in milliseconds and
    durations are [Z] seconds, [Math.floor] being [Z.div] by 1000.

    ** Not modelled

    Markup (icons, class names), the locale-dependent time formats
    ([toLocaleTimeString]), the playback of the audio elements (ringing,
    ringtones, voice messages); the browser's ICE gathering and media
    transport (candidates and connection states are events the
    environment delivers when it could); the caller profile carried by a
    call ([callerUser]); the analyser's frequency analysis (its bins are
    an input of the draw loop); uploads to Storage, whose outcome is an
    argument of the handlers; the debounce timer of the handle field
    (the debounced value is an input of [SettingsView.check_start]);
    strings beyond ASCII in [toLowerCase] and [\s]; zod's e-mail check
    and field messages.
    The root layout ([layout.tsx]) is markup and a provider tree, and
    [firebase.ts] is configuration; the language model behind the AI
    flows, Genkit itself and [@/ai/genkit] (absent from the sources) are
    the environment.  The friends handlers other than the request sender
    run each [await] to completion; the interleavings modelled are those
    of the call handlers, the sign-in page, the handle check, the
    friends page's reads and [handleSendFriendRequest].

    ** Conventions

    Asynchronous code is cut at its [await]s: each segment is one step, the
    rest of the handler a continuation kept in the client's state, so that
    other steps interleave exactly where JavaScript lets them.  A rejected
    promise is [Err e] of [result]; state changes made before the rejection
    persist ([SE] keeps the state on both branches).  Timestamps and
    durations are integers ([Z]) in milliseconds and seconds. *)

From stdpp Require Export base gmap strings list.
From Stdlib Require Export ZArith Lia.

Declare Scope mitho_scope.
Delimit Scope mitho_scope with mitho.
Open Scope mitho_scope.

(** ** Failures

    The failures the modelled code can observe: the [DOMException] names the
    browser's media and peer-connection APIs reject with, Firestore's
    [not-found] code for [updateDoc] on a missing document, and an [Error]
    the code throws itself or an upload that fails, the [TypeError] of a
    property read on [undefined], and the error codes of Firebase Auth
    ([auth/...]) its sign-in calls reject with. *)
Inductive error :=
| InvalidStateError
| InvalidAccessError
| OperationError
| NotFoundError
| NotAllowedError
| FirestoreNotFound
| ScriptError
| TypeError
| AuthError (code : string).

#[export] Instance error_eq_dec : EqDecision error.
Proof. solve_decision. Defined.

(** The outcome of a promise: fulfilled with a value, or rejected. *)
Inductive result (A : Type) :=
| Ok (a : A)
| Err (e : error).
Arguments Ok {A} a.
Arguments Err {A} e.

(** ** The state-and-exception monad

    [SE S A] runs on a state [S] and fulfils with an [A] or rejects; the
    state reached is returned in both cases, as JavaScript keeps the
    effects performed before an exception. *)
Definition SE (S A : Type) : Type := S -> result A * S.

Definition se_ret {S A} (a : A) : SE S A := fun s => (Ok a, s).
Definition se_throw {S A} (e : error) : SE S A := fun s => (Err e, s).
Definition se_bind {S A B} (c : SE S A) (k : A -> SE S B) : SE S B :=
  fun s => match c s with
           | (Ok a, s') => k a s'
           | (Err e, s') => (Err e, s')
           end.
Definition se_get {S} : SE S S := fun s => (Ok s, s).
Definition se_put {S} (s : S) : SE S unit := fun _ => (Ok tt, s).
Definition se_modify {S} (f : S -> S) : SE S unit := fun s => (Ok tt, f s).
(** [try { c } catch (e) { h(e) }]. *)
Definition se_catch {S A} (c : SE S A) (h : error -> SE S A) : SE S A :=
  fun s => match c s with
           | (Err e, s') => h e s'
           | r => r
           end.
(** A step of the environment that fails without changing anything. *)
Definition se_lift {S A} (r : result A) : SE S A := fun s => (r, s).

#[export] Instance se_mret {S} : MRet (SE S) := fun A a => se_ret a.
#[export] Instance se_mbind {S} : MBind (SE S) := fun A B k c => se_bind c k.
#[export] Instance se_mthrow {S} : MThrow error (SE S) := fun A e => se_throw e.

(** The value and the state of a run. *)
Definition se_val {S A} (c : SE S A) (s : S) : result A := fst (c s).
Definition se_state {S A} (c : SE S A) (s : S) : S := snd (c s).

(** [s |> c]: the state reached by running [c] from [s]. *)
Notation "s |> c" := (se_state c s) (at level 50, left associativity) : mitho_scope.

(** ** Generic lemmas *)

Lemma se_bind_ok {S A B} (c : SE S A) (k : A -> SE S B) s a s' :
  c s = (Ok a, s') -> se_bind c k s = k a s'.
Proof. intros H. unfold se_bind. by rewrite H. Qed.

Lemma se_bind_err {S A B} (c : SE S A) (k : A -> SE S B) s e s' :
  c s = (Err e, s') -> se_bind c k s = (Err e, s').
Proof. intros H. unfold se_bind. by rewrite H. Qed.

(** The number of elements of a list a boolean test accepts. *)
Definition count {A} (f : A -> bool) (l : list A) : nat := length (List.filter f l).

Lemma count_app {A} (f : A -> bool) l1 l2 :
  count f (l1 ++ l2) = count f l1 + count f l2.
Proof.
  unfold count. induction l1 as [|x l1 IH]; simpl; [done|].
  destruct (f x); simpl; lia.
Qed.

Lemma count_cons_true {A} (f : A -> bool) x l :
  f x = true -> count f (x :: l) = S (count f l).
Proof. intros H. unfold count. simpl. by rewrite H. Qed.

Lemma count_cons_false {A} (f : A -> bool) x l :
  f x = false -> count f (x :: l) = count f l.
Proof. intros H. unfold count. simpl. by rewrite H. Qed.

Lemma count_nil {A} (f : A -> bool) : count f [] = 0.
Proof. reflexivity. Qed.

Lemma count_snoc {A} (f : A -> bool) l x :
  count f (l ++ [x]) = count f l + (if f x then 1 else 0).
Proof. rewrite count_app. unfold count. simpl. destruct (f x); simpl; lia. Qed.

(** The element just pushed onto the end of a list is at index [length]. *)
Lemma snoc_lookup {A} (l : list A) x : (l ++ [x]) !! length l = Some x.
Proof. by apply list_lookup_middle. Qed.

Lemma snoc_delete {A} (l : list A) x : delete (length l) (l ++ [x]) = l.
Proof. rewrite delete_middle. apply app_nil_r. Qed.

(** The first element satisfying a test, with its position:
    [Array.prototype.find] and [findIndex] at once. *)
Fixpoint find_pos {A} (f : A -> bool) (l : list A) : option (nat * A) :=
  match l with
  | [] => None
  | x :: l' => if f x then Some (0, x)
               else match find_pos f l' with
                    | Some (i, y) => Some (S i, y)
                    | None => None
                    end
  end.

Lemma find_pos_lookup {A} (f : A -> bool) l i x :
  find_pos f l = Some (i, x) -> l !! i = Some x /\ f x = true.
Proof.
  revert i. induction l as [|y l IH]; intros i H; simpl in H; [done|].
  destruct (f y) eqn:Hf.
  - by inversion H; subst.
  - destruct (find_pos f l) as [[j z]|] eqn:E; [|done].
    inversion H; subst. simpl. by apply IH.
Qed.

Lemma find_pos_none {A} (f : A -> bool) l :
  find_pos f l = None -> forall x, x ∈ l -> f x = false.
Proof.
  induction l as [|y l IH]; intros H x Hx; simpl in H.
  - by apply not_elem_of_nil in Hx.
  - destruct (f y) eqn:Hf; [done|].
    destruct (find_pos f l) as [[j z]|]; [done|].
    apply elem_of_cons in Hx as [->|Hx]; [done|]. by apply IH.
Qed.

Lemma find_pos_first {A} (f : A -> bool) l i x :
  find_pos f l = Some (i, x) -> forall j y, j < i -> l !! j = Some y -> f y = false.
Proof.
  revert i. induction l as [|z l IH]; intros i H j y Hj Hl; simpl in H; [done|].
  destruct (f z) eqn:Hf.
  - inversion H; subst. lia.
  - destruct (find_pos f l) as [[k w]|] eqn:E; [|done].
    inversion H; subst. destruct j as [|j]; simpl in Hl.
    + by inversion Hl; subst.
    + eapply IH; [done| |done]. lia.
Qed.

(** ** Tactics and hints *)

(** Filtering out the elements whose key is in [ids]: a list whose keys
    are all in [ids] goes entirely, a list with none of them stays. *)
Lemma filter_keys_in `{EqDecision A} {B} (ids : list A) (l : list (A * B)) :
  Forall (fun p => p.1 ∈ ids) l -> filter (fun p => p.1 ∉ ids) l = [].
Proof. induction 1; [done|]. by rewrite filter_cons_False by naive_solver. Qed.

Lemma filter_keys_out `{EqDecision A} {B} (ids : list A) (l : list (A * B)) :
  Forall (fun p => p.1 ∉ ids) l -> filter (fun p => p.1 ∉ ids) l = l.
Proof. induction 1; [done|]. rewrite filter_cons_True by done. by f_equal. Qed.

(** Removing the keys of [l1] from [l1 ++ l2], all keys distinct, leaves [l2]. *)
Lemma filter_keys_app `{EqDecision A} {B} (l1 l2 : list (A * B)) :
  NoDup (fst <$> (l1 ++ l2)) -> filter (fun p => p.1 ∉ fst <$> l1) (l1 ++ l2) = l2.
Proof.
  rewrite fmap_app, NoDup_app. intros (_ & Hd & _). rewrite filter_app.
  rewrite filter_keys_in, filter_keys_out; [done| |].
  - apply Forall_forall. intros p Hp. intros Hin. apply (Hd p.1); [exact Hin|].
    by apply list_elem_of_fmap_2.
  - apply Forall_forall. intros p Hp. by apply list_elem_of_fmap_2.
Qed.

Create HintDb mitho discriminated.
Create Rewrite HintDb mitho_rw.

#[export] Hint Resolve count_app count_nil : mitho.
#[export] Hint Rewrite @count_app @count_nil @snoc_lookup @snoc_delete : mitho_rw.

(** Unfold the monad's combinators and compute. *)
Ltac se_simpl :=
  unfold mbind, mret, mthrow, se_mbind, se_mret, se_mthrow, se_val, se_state,
    se_bind, se_ret, se_throw, se_get, se_put, se_modify, se_catch, se_lift in *;
  simpl in *.

(** Case on every [if] and [match] of the goal until none is left, naming
    the equations. *)
Ltac split_ifs :=
  repeat match goal with
         | |- context [if ?b then _ else _] => destruct b eqn:?
         | |- context [match ?x with _ => _ end] =>
             lazymatch x with
             | context [match _ with _ => _ end] => fail
             | _ => destruct x eqn:?
             end
         end.

(** Inversion that substitutes and clears. *)
Ltac invc H := inversion H; subst; clear H.
