(* ===== verification/Data.v ===== *)
(** * The stored records of [src/src/lib/data.ts]

    One Module per TypeScript type, holding its record [t] with the source's
    field names; string unions become inductive types.  Firestore
    [Timestamp]s are [Z] (milliseconds of the server clock).  Optional fields
    ([x?: T]) are [option T], except where noted. *)

From S2P Require Import Prelude.

(** ['audio' | 'video']: [Call.type] and [CallInfo.type]. *)
Inductive media := Audio | Video.

(** [Call.status]. *)
Inductive call_status := Ringing | Connected | Declined | Ended | Missed.

(** [CallInfo.status]: the outcome the call log records. *)
Inductive outcome := OutcomeMissed | OutcomeEnded.

(** [Message.type]. *)
Inductive message_type :=
| MsgText | MsgImage | MsgVoice | MsgCall | MsgVideo | MsgDocument.

(** [Chat.type]. *)
Inductive chat_type := Direct | Group.

(** [ThemeSettings.mode]. *)
Inductive theme_mode := Light | Dark | System.

(** [FriendRequest.status]. *)
Inductive request_status := Pending | Accepted | RequestDeclined.

(** [RTCSdpType] as the code produces it: an offer or an answer. *)
Inductive sdp_type := Offer | Answer.

#[export] Instance media_eq_dec : EqDecision media.
Proof. solve_decision. Defined.
#[export] Instance call_status_eq_dec : EqDecision call_status.
Proof. solve_decision. Defined.
#[export] Instance outcome_eq_dec : EqDecision outcome.
Proof. solve_decision. Defined.
#[export] Instance message_type_eq_dec : EqDecision message_type.
Proof. solve_decision. Defined.
#[export] Instance chat_type_eq_dec : EqDecision chat_type.
Proof. solve_decision. Defined.
#[export] Instance theme_mode_eq_dec : EqDecision theme_mode.
Proof. solve_decision. Defined.
#[export] Instance request_status_eq_dec : EqDecision request_status.
Proof. solve_decision. Defined.
#[export] Instance sdp_type_eq_dec : EqDecision sdp_type.
Proof. solve_decision. Defined.

(** [RTCSessionDescriptionInit], the [offer] and [answer] fields of a call:
    [{ sdp: string; type: string }]. *)
Module SessionDescription.
Record t := { sdp : string; type : sdp_type }.
End SessionDescription.

#[export] Instance session_description_eq_dec : EqDecision SessionDescription.t.
Proof. solve_decision. Defined.

(** [RTCIceCandidateInit], what [candidate.toJSON()] stores in a candidate
    sub-collection. *)
Module IceCandidate.
Record t := { candidate : string; sdpMid : string; sdpMLineIndex : Z }.
End IceCandidate.

#[export] Instance ice_candidate_eq_dec : EqDecision IceCandidate.t.
Proof. solve_decision. Defined.

(** [CallInfo]: the payload of a call-log message.  The field [duration?] is
    a [Z]: [createCallMessage] always writes [duration || 0]. *)
Module CallInfo.
Record t := { type : media; status : outcome; duration : Z }.
End CallInfo.

#[export] Instance call_info_eq_dec : EqDecision CallInfo.t.
Proof. solve_decision. Defined.

(** [Message], one document of [chats/{id}/messages].  [reactions] and
    [edited] are declared but never written by the code and are left out. *)
Module Message.
Record t := {
  senderId : string;
  text : option string;
  timestamp : Z;
  type : message_type;
  attachmentUrl : option string;
  callInfo : option CallInfo.t;
  fileName : option string;
  fileSize : option Z
}.
End Message.

#[export] Instance message_eq_dec : EqDecision Message.t.
Proof. solve_decision. Defined.

(** [Chat], one document of [chats].  [name] and [avatar] are filled in on
    the client from the other member's profile and are not stored; [messages]
    is the sub-collection, kept apart in the store. *)
Module Chat.
Record t := {
  id : string;
  type : chat_type;
  members : list string;
  unreadCount : Z;
  lastMessage : string;
  lastMessageTimestamp : Z;
  lastMessageSenderId : string;
  muted : bool
}.
End Chat.

#[export] Instance chat_eq_dec : EqDecision Chat.t.
Proof. solve_decision. Defined.

(** [Call], one document of [calls].  [duration?] is declared but never
    written by the code and is left out. *)
Module Call.
Record t := {
  id : string;
  chatId : string;
  callerId : string;
  calleeId : string;
  members : list string;
  type : media;
  status : call_status;
  createdAt : Z;
  endedAt : option Z;
  offer : option SessionDescription.t;
  answer : option SessionDescription.t
}.
End Call.

#[export] Instance call_eq_dec : EqDecision Call.t.
Proof. solve_decision. Defined.

(** [ThemeSettings]. *)
Module ThemeSettings.
Record t := { mode : theme_mode; primaryColor : string; ringtoneUrl : option string }.
End ThemeSettings.

(** [User], one document of [users]. *)
Module User.
Record t := {
  id : string;
  uid : string;
  displayName : string;
  email : string;
  photoURL : string;
  handle : string;
  createdAt : option Z;
  theme : option ThemeSettings.t;
  friends : list string;
  blockedUsers : list string
}.
End User.

(** [FriendRequest], one document of [friendRequests]. *)
Module FriendRequest.
Record t := {
  id : string;
  from : string;
  to : string;
  status : request_status;
  createdAt : Z
}.
End FriendRequest.

(** ** Status classes the code tests *)

(** [status === 'ended' || status === 'declined']: the test of the call
    view's document listener ([call-view.tsx], line 214). *)
Definition is_over (s : call_status) : bool :=
  match s with Ended | Declined => true | _ => false end.

(** [['ringing', 'connected'].includes(status)]: the test of the active-call
    listener ([page.tsx], line 252). *)
Definition is_live (s : call_status) : bool :=
  match s with Ringing | Connected => true | _ => false end.
