(* ===== verification/WebRTC.v ===== *)
(** * The session negotiator: [src/src/lib/webrtc.ts]

    [Track]: the client's [MediaStreamTrack] objects, kept in one shared
    store [Tracks] keyed by a track id, since a track is one object shared by
    the local [MediaStream], the peer connection's senders and the UI: muting
    through a sender mutes the stream's track, stopping one stops the other.

    [Peer]: the browser's [RTCPeerConnection], the environment the manager
    drives, after the W3C WebRTC specification: the signaling state machine
    ([stable], [have-local-offer], [have-remote-offer], [closed]), the local
    and remote descriptions, the senders, the remote candidates, and the
    connection state the ICE agent reports.  Each operation returns the new
    connection or the [DOMException] the promise rejects with.

    [Manager]: the class [WebRTCManager], one definition per method, in the
    monad [SE Manager.t] where the method is [async]. *)

From S2P Require Import Prelude Data.

(** ** Media tracks *)

Module Track.
(** [MediaStreamTrack]: [kind], [enabled], and [readyState] ([live] is
    [readyState === 'live']). *)
Record t := { kind : media; enabled : bool; live : bool }.

Definition set_enabled (b : bool) (tr : t) : t :=
  {| kind := kind tr; enabled := b; live := live tr |}.

(** [track.stop()]: the device is released and the track ends. *)
Definition stop (tr : t) : t :=
  {| kind := kind tr; enabled := enabled tr; live := false |}.
End Track.

(** The client's track objects, by identity. *)
Abbreviation Tracks := (gmap nat Track.t).

(** ** The browser's peer connection *)

Module Peer.

(** [RTCSignalingState]. *)
Inductive signaling_state := Stable | HaveLocalOffer | HaveRemoteOffer | SigClosed.

(** [RTCPeerConnectionState]. *)
Inductive connection_state :=
| PcNew | PcConnecting | PcConnected | PcDisconnected | PcFailed | PcClosed.

(** [RTCRtpSender]: the id and the kind of its track, if any. *)
Record sender := { track : option (nat * media) }.

Record t := {
  signalingState : signaling_state;
  connectionState : connection_state;
  localDescription : option SessionDescription.t;
  remoteDescription : option SessionDescription.t;
  senders : list sender;
  remoteCandidates : list IceCandidate.t
}.

(** [new RTCPeerConnection(servers)]. *)
Definition init : t := {|
  signalingState := Stable; connectionState := PcNew;
  localDescription := None; remoteDescription := None;
  senders := []; remoteCandidates := [] |}.

Definition closed (p : t) : bool :=
  match signalingState p with SigClosed => true | _ => false end.

Definition with_signaling (st : signaling_state) (p : t) : t := {|
  signalingState := st; connectionState := connectionState p;
  localDescription := localDescription p; remoteDescription := remoteDescription p;
  senders := senders p; remoteCandidates := remoteCandidates p |}.

Definition with_local (st : signaling_state) (d : SessionDescription.t) (p : t) : t := {|
  signalingState := st; connectionState := connectionState p;
  localDescription := Some d; remoteDescription := remoteDescription p;
  senders := senders p; remoteCandidates := remoteCandidates p |}.

Definition with_remote (st : signaling_state) (d : SessionDescription.t) (p : t) : t := {|
  signalingState := st; connectionState := connectionState p;
  localDescription := localDescription p; remoteDescription := Some d;
  senders := senders p; remoteCandidates := remoteCandidates p |}.

Definition with_senders (ss : list sender) (p : t) : t := {|
  signalingState := signalingState p; connectionState := connectionState p;
  localDescription := localDescription p; remoteDescription := remoteDescription p;
  senders := ss; remoteCandidates := remoteCandidates p |}.

Definition with_candidates (cs : list IceCandidate.t) (p : t) : t := {|
  signalingState := signalingState p; connectionState := connectionState p;
  localDescription := localDescription p; remoteDescription := remoteDescription p;
  senders := senders p; remoteCandidates := cs |}.

Definition with_connection (c : connection_state) (p : t) : t := {|
  signalingState := signalingState p; connectionState := c;
  localDescription := localDescription p; remoteDescription := remoteDescription p;
  senders := senders p; remoteCandidates := remoteCandidates p |}.

(** The media sections of a description: one line per sender, after the
    session line. *)
Definition media_line (s : sender) : string :=
  match track s with
  | Some (_, Audio) => "m=audio "
  | Some (_, Video) => "m=video "
  | None => "m=inactive "
  end.

Definition sdp_of (ss : list sender) : string :=
  "v=0 " +:+ foldr (fun s acc => media_line s +:+ acc) "" ss.

(** A description the browser cannot parse. *)
Definition malformed (d : SessionDescription.t) : bool :=
  bool_decide (SessionDescription.sdp d = "").

(** [pc.addTrack(track, stream)]: a track already sent is refused. *)
Definition addTrack (tid : nat) (k : media) (p : t) : result t :=
  if closed p then Err InvalidStateError
  else if bool_decide (Exists (fun s => option_map fst (track s) = Some tid) (senders p))
  then Err InvalidAccessError
  else Ok (with_senders (senders p ++ [{| track := Some (tid, k) |}]) p).

(** [pc.createOffer()]. *)
Definition createOffer (p : t) : result SessionDescription.t :=
  if closed p then Err InvalidStateError
  else Ok {| SessionDescription.sdp := sdp_of (senders p);
             SessionDescription.type := Offer |}.

(** [pc.createAnswer()]: only with a remote offer pending. *)
Definition createAnswer (p : t) : result SessionDescription.t :=
  match signalingState p with
  | HaveRemoteOffer => Ok {| SessionDescription.sdp := sdp_of (senders p);
                             SessionDescription.type := Answer |}
  | _ => Err InvalidStateError
  end.

(** [pc.setLocalDescription(d)]. *)
Definition setLocalDescription (d : SessionDescription.t) (p : t) : result t :=
  match signalingState p, SessionDescription.type d with
  | (Stable | HaveLocalOffer), Offer => Ok (with_local HaveLocalOffer d p)
  | HaveRemoteOffer, Answer => Ok (with_local Stable d p)
  | _, _ => Err InvalidStateError
  end.

(** [pc.setRemoteDescription(d)]. *)
Definition setRemoteDescription (d : SessionDescription.t) (p : t) : result t :=
  if closed p then Err InvalidStateError
  else if malformed d then Err OperationError
  else match signalingState p, SessionDescription.type d with
       | (Stable | HaveRemoteOffer), Offer => Ok (with_remote HaveRemoteOffer d p)
       | HaveLocalOffer, Answer => Ok (with_remote Stable d p)
       | _, _ => Err InvalidStateError
       end.

(** [pc.addIceCandidate(c)]: refused until a remote description is set. *)
Definition addIceCandidate (c : IceCandidate.t) (p : t) : result t :=
  if closed p then Err InvalidStateError
  else match remoteDescription p with
       | None => Err InvalidStateError
       | Some _ => Ok (with_candidates (remoteCandidates p ++ [c]) p)
       end.

(** [pc.close()]: fires no [connectionstatechange]. *)
Definition close (p : t) : t :=
  with_connection PcClosed (with_signaling SigClosed p).

(** The ICE agent may report [connected] only once both descriptions are
    applied, the negotiation is complete and a remote candidate is known. *)
Definition can_connect (p : t) : bool :=
  match signalingState p, localDescription p, remoteDescription p, remoteCandidates p with
  | Stable, Some _, Some _, _ :: _ => true
  | _, _, _, _ => false
  end.

(** The signaling invariant of the W3C state machine. *)
Definition desc_type (d : option SessionDescription.t) : option sdp_type :=
  option_map SessionDescription.type d.

Definition wf (p : t) : bool :=
  match signalingState p with
  | Stable =>
      match desc_type (localDescription p), desc_type (remoteDescription p) with
      | None, None | Some Offer, Some Answer | Some Answer, Some Offer => true
      | _, _ => false
      end
  | HaveLocalOffer => bool_decide (desc_type (localDescription p) = Some Offer)
  | HaveRemoteOffer => bool_decide (desc_type (remoteDescription p) = Some Offer)
  | SigClosed => true
  end.

(** ** The signaling invariant is preserved by the connection's operations *)

Ltac wf_crush :=
  unfold wf, desc_type in *; simpl in *;
  repeat match goal with
         | H : bool_decide _ = true |- _ => apply bool_decide_eq_true in H
         | H : option_map _ ?d = Some _ |- _ =>
             destruct d; simpl in H; [injection H as H|discriminate]
         end;
  simpl in *;
  repeat match goal with H : ?x = _ |- context [?x] => rewrite H end;
  try reflexivity; try (apply bool_decide_eq_true; reflexivity).

Lemma setLocalDescription_wf d p p' :
  wf p = true -> setLocalDescription d p = Ok p' -> wf p' = true.
Proof.
  unfold setLocalDescription. intros Hwf H.
  destruct (signalingState p) eqn:Hs, (SessionDescription.type d) eqn:Ht; invc H;
    unfold wf in Hwf; rewrite Hs in Hwf; wf_crush.
Qed.

Lemma setRemoteDescription_wf d p p' :
  wf p = true -> setRemoteDescription d p = Ok p' -> wf p' = true.
Proof.
  unfold setRemoteDescription, closed. intros Hwf H.
  destruct (signalingState p) eqn:Hs; [| | |discriminate];
  destruct (malformed d); [discriminate| | discriminate| |discriminate|];
  destruct (SessionDescription.type d) eqn:Ht; invc H;
    unfold wf in Hwf; rewrite Hs in Hwf; wf_crush.
Qed.

(** [wf] reads only the signaling state and the two descriptions. *)
Lemma wf_frame p p' :
  signalingState p' = signalingState p ->
  localDescription p' = localDescription p ->
  remoteDescription p' = remoteDescription p ->
  wf p' = wf p.
Proof. intros H1 H2 H3. unfold wf. by rewrite H1, H2, H3. Qed.

Lemma addIceCandidate_wf c p p' :
  wf p = true -> addIceCandidate c p = Ok p' -> wf p' = true.
Proof.
  unfold addIceCandidate. intros Hwf H.
  destruct (closed p); [done|]. destruct (remoteDescription p); invc H.
  rewrite <- Hwf. by apply wf_frame.
Qed.

Lemma addTrack_wf tid k p p' :
  wf p = true -> addTrack tid k p = Ok p' -> wf p' = true.
Proof.
  unfold addTrack. intros Hwf H.
  destruct (closed p); [done|]. case_bool_decide; invc H.
  rewrite <- Hwf. by apply wf_frame.
Qed.


(** Only [addTrack] changes the senders. *)
Lemma setLocalDescription_senders d p p' :
  setLocalDescription d p = Ok p' -> senders p' = senders p.
Proof. unfold setLocalDescription. intros H. by repeat case_match; simplify_eq. Qed.

Lemma setRemoteDescription_senders d p p' :
  setRemoteDescription d p = Ok p' -> senders p' = senders p.
Proof. unfold setRemoteDescription. intros H. by repeat case_match; simplify_eq. Qed.

Lemma addIceCandidate_senders c p p' :
  addIceCandidate c p = Ok p' -> senders p' = senders p.
Proof. unfold addIceCandidate. intros H. by repeat case_match; simplify_eq. Qed.


End Peer.

(** ** The class [WebRTCManager] *)

Module Manager.

Import Peer.

(** The fields [pc] and [isCaller]; the three callbacks given to the
    constructor are the call view's handlers. *)
Record t := { pc : Peer.t; isCaller : bool }.

(** [new WebRTCManager(options)] (lines 39-52). *)
Definition create : t := {| pc := Peer.init; isCaller := false |}.

Definition set_pc (p : Peer.t) (m : t) : t := {| pc := p; isCaller := isCaller m |}.
Definition set_caller (m : t) : t := {| pc := pc m; isCaller := true |}.

(** An operation of the connection that changes it, as a step of the
    manager; a rejection leaves the connection as it was. *)
Definition pc_update (f : Peer.t -> result Peer.t) : SE t unit :=
  fun m => match f (pc m) with
           | Ok p => (Ok tt, set_pc p m)
           | Err e => (Err e, m)
           end.

(** An operation of the connection that only answers. *)
Definition pc_query {A} (f : Peer.t -> result A) : SE t A :=
  fun m => (f (pc m), m).

(** [addTrack(track, stream)] (lines 54-57). *)
Definition addTrack (tid : nat) (k : media) : SE t unit :=
  fun m => if Peer.closed (pc m) then (Ok tt, m)
           else pc_update (Peer.addTrack tid k) m.

(** [createOffer()] (lines 59-64). *)
Definition createOffer : SE t SessionDescription.t :=
  offer ← pc_query Peer.createOffer;
  pc_update (Peer.setLocalDescription offer);;
  se_modify set_caller;;
  mret offer.

(** [setRemoteDescription(description)] (lines 73-77). *)
Definition setRemoteDescription (d : SessionDescription.t) : SE t unit :=
  fun m => if Peer.closed (pc m) then (Ok tt, m)
           else pc_update (Peer.setRemoteDescription d) m.

(** [createAnswer(offer)] (lines 66-71). *)
Definition createAnswer (offer : SessionDescription.t) : SE t SessionDescription.t :=
  setRemoteDescription offer;;
  answer ← pc_query Peer.createAnswer;
  pc_update (Peer.setLocalDescription answer);;
  mret answer.

(** [addIceCandidate(candidate)] (lines 79-87): a rejection is logged and
    swallowed. *)
Definition addIceCandidate (c : option IceCandidate.t) : SE t unit :=
  fun m => match c with
           | Some c' =>
               if Peer.closed (pc m) then (Ok tt, m)
               else se_catch (pc_update (Peer.addIceCandidate c'))
                             (fun _ => mret tt) m
           | None => (Ok tt, m)
           end.

(** [senders.find(s => s.track?.kind === k)]. *)
Definition has_kind (k : media) (s : Peer.sender) : bool :=
  match Peer.track s with
  | Some (_, k') => bool_decide (k' = k)
  | None => false
  end.

(** The body shared by [toggleMute] and [toggleCamera]: flip [enabled] of
    the first sender's track of kind [k] and return the new disabled
    state, or [false] when there is none. *)
Definition toggle_kind (k : media) (m : t) (ts : Tracks) : bool * Tracks :=
  match find_pos (has_kind k) (Peer.senders (pc m)) with
  | Some (_, s) =>
      match Peer.track s with
      | Some (tid, _) =>
          match ts !! tid with
          | Some tr =>
              let tr' := Track.set_enabled (negb (Track.enabled tr)) tr in
              (negb (Track.enabled tr'), <[tid := tr']> ts)
          | None => (false, ts)
          end
      | None => (false, ts)
      end
  | None => (false, ts)
  end.

(** [toggleMute()] (lines 89-97). *)
Definition toggleMute (m : t) (ts : Tracks) : bool * Tracks := toggle_kind Audio m ts.

(** [toggleCamera()] (lines 99-107). *)
Definition toggleCamera (m : t) (ts : Tracks) : bool * Tracks := toggle_kind Video m ts.

(** [sender.track.stop()] for one sender. *)
Definition stop_sender (ts : Tracks) (s : Peer.sender) : Tracks :=
  match Peer.track s with
  | Some (tid, _) => alter Track.stop tid ts
  | None => ts
  end.

(** [hangUp()] (lines 109-118). *)
Definition hangUp (m : t) (ts : Tracks) : t * Tracks :=
  let ts' := foldl stop_sender ts (Peer.senders (pc m)) in
  if Peer.closed (pc m) then (m, ts') else (set_pc (Peer.close (pc m)) m, ts').

(** The candidates of one snapshot, applied in order (the [forEach] of the
    call view's candidate listeners). *)
Fixpoint addIceCandidates (cs : list IceCandidate.t) : SE t unit :=
  match cs with
  | [] => mret tt
  | c :: cs' => addIceCandidate (Some c);; addIceCandidates cs'
  end.

Lemma pc_update_wf f m :
  (forall p p', Peer.wf p = true -> f p = Ok p' -> Peer.wf p' = true) ->
  Peer.wf (pc m) = true -> Peer.wf (pc (m |> pc_update f)) = true.
Proof.
  intros Hf Hwf. unfold se_state, pc_update.
  destruct (f (pc m)) eqn:E; simpl; [by eapply Hf|done].
Qed.

(** The offer [pc.createOffer()] produces. *)
Definition offer_of (m : Manager.t) : SessionDescription.t :=
  {| SessionDescription.sdp := sdp_of (senders (pc m)); SessionDescription.type := Offer |}.

(** [createOffer()] on every branch: on a [stable] or
    [have-local-offer] connection it fulfils with an offer describing the
    senders, commits it as the local description, enters [have-local-offer]
    and sets [isCaller]; on any other state (a pending remote offer, a closed
    connection) it rejects with [InvalidStateError] and changes nothing. *)
Lemma createOffer_spec m :
  createOffer m =
    match signalingState (pc m) with
    | Stable | HaveLocalOffer =>
        (Ok (offer_of m), set_caller (set_pc (with_local HaveLocalOffer (offer_of m) (pc m)) m))
    | _ => (Err InvalidStateError, m)
    end.
Proof.
  unfold createOffer. se_simpl. unfold pc_query, Peer.createOffer, closed, pc_update.
  destruct (signalingState (pc m)) eqn:Hs; simpl;
    unfold setLocalDescription; rewrite ?Hs; reflexivity.
Qed.

Definition answer_of (p : Peer.t) : SessionDescription.t :=
  {| SessionDescription.sdp := sdp_of (senders p); SessionDescription.type := Answer |}.

(** [createAnswer(offer)] on a [stable] connection with a
    well-formed offer fulfils with an answer describing the senders, leaving
    the connection [stable] with the offer as remote and the answer as local
    description. *)
Lemma createAnswer_stable offer m :
  signalingState (pc m) = Stable ->
  SessionDescription.type offer = Offer ->
  malformed offer = false ->
  createAnswer offer m =
    (Ok (answer_of (pc m)),
     set_pc (with_local Stable (answer_of (pc m)) (with_remote HaveRemoteOffer offer (pc m))) m).
Proof.
  intros Hs Ht Hm. unfold createAnswer. se_simpl.
  unfold Manager.setRemoteDescription, closed, pc_update, pc_query.
  rewrite Hs. unfold Peer.setRemoteDescription, closed. rewrite Hs, Hm, Ht. simpl.
  reflexivity.
Qed.

Lemma createAnswer_malformed offer m :
  closed (pc m) = false -> malformed offer = true ->
  createAnswer offer m = (Err OperationError, m).
Proof.
  intros Hc Hm. unfold createAnswer. se_simpl.
  unfold Manager.setRemoteDescription, pc_update. rewrite Hc.
  unfold Peer.setRemoteDescription. rewrite Hc, Hm. reflexivity.
Qed.

Lemma setRemoteDescription_closed d m :
  closed (pc m) = true -> Manager.setRemoteDescription d m = (Ok tt, m).
Proof. intros Hc. unfold Manager.setRemoteDescription. by rewrite Hc. Qed.

(** [addIceCandidate] never rejects: a failure of the
    connection is logged and swallowed, whatever the candidate and state. *)
Lemma addIceCandidate_total c m : fst (Manager.addIceCandidate c m) = Ok tt.
Proof.
  unfold Manager.addIceCandidate. destruct c as [c|]; [|done].
  destruct (closed (pc m)); [done|]. se_simpl. unfold pc_update.
  by destruct (Peer.addIceCandidate c (pc m)).
Qed.

Lemma addIceCandidate_lost c m :
  remoteDescription (pc m) = None -> Manager.addIceCandidate c m = (Ok tt, m).
Proof.
  intros Hr. unfold Manager.addIceCandidate. destruct c as [c|]; [|done].
  destruct (closed (pc m)) eqn:Hc; [done|]. se_simpl. unfold pc_update, Peer.addIceCandidate.
  by rewrite Hc, Hr.
Qed.

Lemma addIceCandidate_applied c m :
  closed (pc m) = false -> remoteDescription (pc m) <> None ->
  Manager.addIceCandidate (Some c) m =
    (Ok tt, set_pc (with_candidates (remoteCandidates (pc m) ++ [c]) (pc m)) m).
Proof.
  intros Hc Hr. unfold Manager.addIceCandidate. rewrite Hc. se_simpl.
  unfold pc_update, Peer.addIceCandidate. rewrite Hc.
  by destruct (remoteDescription (pc m)).
Qed.

(** C39: Candidates delivered before a remote description is
    set are dropped: the browser refuses them, the manager swallows the
    error, and the manager is left exactly as it was, so they are never
    applied later (there is no queue). *)
Lemma addIceCandidates_lost cs m :
  remoteDescription (pc m) = None -> addIceCandidates cs m = (Ok tt, m).
Proof.
  intros Hr. induction cs as [|c cs IH]; [done|]. cbn [addIceCandidates].
  unfold mbind, se_mbind, se_bind. by rewrite addIceCandidate_lost.
Qed.

(** C40: Once the remote description is set on an open connection,
    [addIceCandidates] applies the whole batch: every candidate is added,
    in the order delivered, after those already there, and nothing else
    changes. *)
Theorem addIceCandidates_applied cs m :
  closed (pc m) = false -> remoteDescription (pc m) <> None ->
  addIceCandidates cs m =
    (Ok tt, set_pc (with_candidates (remoteCandidates (pc m) ++ cs) (pc m)) m).
Proof.
  revert m. induction cs as [|c cs IH]; intros m Hc Hr; simpl.
  - rewrite app_nil_r. by destruct m as [[] ?].
  - unfold mbind, se_mbind, se_bind. rewrite addIceCandidate_applied by done.
    rewrite IH by done. simpl. by rewrite <- app_assoc.
Qed.



(** [addTrack] leaves the signaling state as it was. *)
Lemma addTrack_signaling tid k m :
  signalingState (pc (m |> addTrack tid k)) = signalingState (pc m).
Proof.
  unfold se_state, addTrack. case_match; [done|]. unfold pc_update, Peer.addTrack.
  by repeat case_match; simplify_eq/=.
Qed.

(** The ids of the senders' tracks. *)
Definition sender_ids (ss : list Peer.sender) : list nat :=
  omap (fun s => option_map fst (track s)) ss.

Lemma stop_idem tr : Track.stop (Track.stop tr) = Track.stop tr.
Proof. by destruct tr. Qed.

Lemma foldl_stop_lookup ss ts i :
  foldl stop_sender ts ss !! i =
    if bool_decide (i ∈ sender_ids ss) then Track.stop <$> ts !! i else ts !! i.
Proof.
  revert ts. induction ss as [|s ss IH]; intros ts; [done|]. cbn [foldl].
  rewrite IH. unfold stop_sender.
  destruct (track s) as [[tid k]|] eqn:Ht.
  - assert (sender_ids (s :: ss) = tid :: sender_ids ss) as ->
      by (unfold sender_ids; simpl; by rewrite Ht).
    rewrite lookup_alter. destruct (decide (tid = i)) as [->|Hne].
    + rewrite (bool_decide_eq_true_2 (i ∈ i :: _)) by set_solver.
      destruct (bool_decide (i ∈ sender_ids ss)), (ts !! i); simpl; by rewrite ?stop_idem.
    + replace (bool_decide (i ∈ tid :: sender_ids ss)) with (bool_decide (i ∈ sender_ids ss));
        [done|]. apply bool_decide_ext. set_solver.
  - assert (sender_ids (s :: ss) = sender_ids ss) as ->
      by (unfold sender_ids; simpl; by rewrite Ht). done.
Qed.

(** [hangUp()] is idempotent: hanging up a second time
    changes neither the manager nor any track. *)
Theorem hangUp_idempotent m ts :
  let '(m1, ts1) := hangUp m ts in hangUp m1 ts1 = (m1, ts1).
Proof.
  unfold hangUp. destruct (closed (pc m)) eqn:Hc; simpl.
  - rewrite Hc. f_equal. apply map_eq. intros i. rewrite !foldl_stop_lookup.
    case_bool_decide; [|done]. destruct (ts !! i); simpl; [by rewrite stop_idem|done].
  - f_equal. apply map_eq. intros i. rewrite !foldl_stop_lookup. simpl.
    case_bool_decide; [|done]. destruct (ts !! i); simpl; [by rewrite stop_idem|done].
Qed.

(** C18: After [hangUp()] the connection is closed and every
    track the manager was sending is stopped. *)
Theorem hangUp_releases m ts :
  let '(m1, ts1) := hangUp m ts in
  closed (pc m1) = true /\
  forall tid tr, tid ∈ sender_ids (senders (pc m)) -> ts1 !! tid = Some tr -> Track.live tr = false.
Proof.
  unfold hangUp. destruct (closed (pc m)) eqn:Hc; split; try done;
    intros tid tr Hin Hl; rewrite foldl_stop_lookup, bool_decide_eq_true_2 in Hl by done;
    destruct (ts !! tid); simpl in Hl; by inversion Hl.
Qed.

(** Toggling mute (or camera) twice restores every track,
    and when a track was toggled the second call reports the opposite
    disabled-state of the first. *)
Theorem toggle_twice k m ts :
  let '(b1, ts1) := toggle_kind k m ts in
  let '(b2, ts2) := toggle_kind k m ts1 in
  ts2 = ts /\ (b1 = false \/ b2 = negb b1).
Proof.
  unfold toggle_kind.
  destruct (find_pos (has_kind k) (senders (pc m))) as [[i s]|]; [|by simpl; split; [|left]].
  destruct (track s) as [[tid k']|]; [|by simpl; split; [|left]].
  destruct (ts !! tid) as [tr|] eqn:Htr; [|by simpl; rewrite Htr; split; [|left]].
  rewrite lookup_insert_eq. simpl. split.
  - rewrite insert_insert_eq. destruct tr as [kd en lv]; simpl.
    rewrite negb_involutive. by apply insert_id.
  - right. reflexivity.
Qed.

Theorem toggleMute_flips m ts i s tid k tr :
  find_pos (has_kind Audio) (senders (pc m)) = Some (i, s) ->
  track s = Some (tid, k) -> ts !! tid = Some tr ->
  toggleMute m ts = (Track.enabled tr, <[tid := Track.set_enabled (negb (Track.enabled tr)) tr]> ts) /\
  k = Audio.
Proof.
  intros Hf Ht Htr. unfold toggleMute, toggle_kind. rewrite Hf, Ht, Htr. simpl.
  split; [by rewrite negb_involutive|].
  apply find_pos_lookup in Hf as [_ Hk]. unfold has_kind in Hk. rewrite Ht in Hk.
  by apply bool_decide_eq_true in Hk.
Qed.

(** Without a sender of the toggled kind (for instance
    [toggleCamera] in an audio-only call), the toggle returns [false] and
    leaves every track unchanged. *)
Theorem toggle_without_track k m ts :
  (forall s, s ∈ senders (pc m) -> has_kind k s = false) ->
  toggle_kind k m ts = (false, ts).
Proof.
  intros H. unfold toggle_kind.
  destruct (find_pos (has_kind k) (senders (pc m))) as [[i s]|] eqn:Hf; [|done].
  apply find_pos_lookup in Hf as [Hl Hk].
  rewrite H in Hk; [done|]. by eapply list_elem_of_lookup_2.
Qed.

(** ** Every method preserves the signaling invariant *)

Definition preserves {A} (c : SE Manager.t A) : Prop :=
  forall m, wf (pc m) = true -> wf (pc (m |> c)) = true.

Lemma preserves_bind {A B} (c : SE Manager.t A) (k : A -> SE Manager.t B) :
  preserves c -> (forall a, preserves (k a)) -> preserves (c ≫= k).
Proof.
  intros Hc Hk m Hm. unfold se_state, mbind, se_mbind, se_bind.
  specialize (Hc m Hm). unfold se_state in Hc.
  destruct (c m) as [[a|e] m'] eqn:E; simpl in *; [by apply Hk|done].
Qed.

Lemma preserves_ret {A} (a : A) : preserves (mret a).
Proof. by intros m Hm. Qed.

Lemma preserves_query {A} (f : Peer.t -> result A) : preserves (pc_query f).
Proof. by intros m Hm. Qed.

Lemma preserves_update f :
  (forall p p', wf p = true -> f p = Ok p' -> wf p' = true) -> preserves (pc_update f).
Proof. intros Hf m Hm. by apply pc_update_wf. Qed.

Lemma preserves_set_caller : preserves (se_modify set_caller).
Proof. by intros m Hm. Qed.

Lemma preserves_setRemoteDescription d : preserves (Manager.setRemoteDescription d).
Proof.
  intros m Hm. unfold Manager.setRemoteDescription, se_state.
  destruct (closed (pc m)) eqn:Hc; [done|].
  apply (preserves_update _ (setRemoteDescription_wf d) m Hm).
Qed.

Lemma preserves_addIceCandidate c : preserves (Manager.addIceCandidate c).
Proof.
  intros m Hm. unfold Manager.addIceCandidate, se_state.
  destruct c as [c|]; [|done]. destruct (closed (pc m)); [done|].
  unfold se_catch, pc_update. destruct (Peer.addIceCandidate c (pc m)) eqn:E; simpl; [|done].
  by eapply addIceCandidate_wf.
Qed.

Lemma preserves_addTrack tid k : preserves (Manager.addTrack tid k).
Proof.
  intros m Hm. unfold Manager.addTrack, se_state.
  destruct (closed (pc m)); [done|].
  apply (preserves_update _ (addTrack_wf tid k) m Hm).
Qed.


#[local] Hint Resolve preserves_bind preserves_ret preserves_query preserves_update
  preserves_set_caller preserves_setRemoteDescription preserves_addIceCandidate
  preserves_addTrack Peer.setLocalDescription_wf : mitho.

Lemma preserves_createOffer : preserves createOffer.
Proof. unfold createOffer. eauto 8 with mitho. Qed.

Lemma preserves_createAnswer offer : preserves (createAnswer offer).
Proof. unfold createAnswer. eauto 8 with mitho. Qed.



(** ** Only [addTrack] changes what the manager sends *)

Definition keeps_senders {A} (c : SE Manager.t A) : Prop :=
  forall m, senders (pc (m |> c)) = senders (pc m).

Lemma keeps_senders_bind {A B} (c : SE Manager.t A) (k : A -> SE Manager.t B) :
  keeps_senders c -> (forall a, keeps_senders (k a)) -> keeps_senders (c ≫= k).
Proof.
  intros Hc Hk m. unfold se_state, mbind, se_mbind, se_bind.
  specialize (Hc m). unfold se_state in Hc.
  destruct (c m) as [[a|e] m'] eqn:E; simpl in *; [|done].
  specialize (Hk a m'). unfold se_state in Hk. by rewrite Hk.
Qed.

Lemma keeps_senders_ret {A} (a : A) : keeps_senders (mret a).
Proof. by intros m. Qed.

Lemma keeps_senders_query {A} (f : Peer.t -> result A) : keeps_senders (pc_query f).
Proof. by intros m. Qed.

Lemma keeps_senders_update f :
  (forall p p', f p = Ok p' -> senders p' = senders p) -> keeps_senders (pc_update f).
Proof.
  intros Hf m. unfold se_state, pc_update. destruct (f (pc m)) eqn:E; simpl; [|done].
  by apply Hf.
Qed.

Lemma keeps_senders_set_caller : keeps_senders (se_modify set_caller).
Proof. by intros m. Qed.

Lemma keeps_senders_setRemoteDescription d : keeps_senders (Manager.setRemoteDescription d).
Proof.
  intros m. unfold Manager.setRemoteDescription, se_state.
  destruct (closed (pc m)); [done|].
  apply (keeps_senders_update _ (setRemoteDescription_senders d) m).
Qed.

Lemma keeps_senders_addIceCandidate c : keeps_senders (Manager.addIceCandidate c).
Proof.
  intros m. unfold Manager.addIceCandidate, se_state.
  destruct c as [c|]; [|done]. destruct (closed (pc m)); [done|].
  unfold se_catch, pc_update. destruct (Peer.addIceCandidate c (pc m)) eqn:E; simpl; [|done].
  by eapply addIceCandidate_senders.
Qed.


#[local] Hint Resolve keeps_senders_bind keeps_senders_ret keeps_senders_query
  keeps_senders_update keeps_senders_set_caller keeps_senders_setRemoteDescription
  keeps_senders_addIceCandidate Peer.setLocalDescription_senders : mitho.

Lemma keeps_senders_createOffer : keeps_senders createOffer.
Proof. unfold createOffer. eauto 8 with mitho. Qed.

Lemma keeps_senders_createAnswer offer : keeps_senders (createAnswer offer).
Proof. unfold createAnswer. eauto 8 with mitho. Qed.

Lemma keeps_senders_addIceCandidates cs : keeps_senders (addIceCandidates cs).
Proof. induction cs as [|c cs IH]; simpl; eauto with mitho. Qed.

Lemma hangUp_senders m ts : senders (pc (fst (hangUp m ts))) = senders (pc m).
Proof. unfold hangUp. by destruct (closed (pc m)). Qed.


(** ** Concrete runs *)

Definition cand0 : IceCandidate.t := {|
  IceCandidate.candidate := "candidate:1 1 udp 2122260223 192.0.2.1 54400 typ host";
  IceCandidate.sdpMid := "0"; IceCandidate.sdpMLineIndex := 0 |}.
Definition cand1 : IceCandidate.t := {|
  IceCandidate.candidate := "candidate:2 1 udp 1686052607 198.51.100.7 61000 typ srflx";
  IceCandidate.sdpMid := "0"; IceCandidate.sdpMLineIndex := 0 |}.
Definition offer0 : SessionDescription.t := {|
  SessionDescription.sdp := "v=0 m=audio "; SessionDescription.type := Offer |}.

(** A callee's manager sending one microphone track (id 1). *)
Definition audio_manager : t := create |> addTrack 1 Audio.
Definition audio_tracks : Tracks :=
  {[ 1 := {| Track.kind := Audio; Track.enabled := true; Track.live := true |} ]}.
(** The same manager once it has answered [offer0]. *)
Definition answered_manager : t := audio_manager |> createAnswer offer0.

Lemma createAnswer_stable_witness :
  signalingState (pc audio_manager) = Stable /\
  SessionDescription.type offer0 = Offer /\ malformed offer0 = false /\
  createAnswer offer0 audio_manager =
    (Ok (answer_of (pc audio_manager)),
     set_pc (with_local Stable (answer_of (pc audio_manager))
       (with_remote HaveRemoteOffer offer0 (pc audio_manager))) audio_manager).
Proof.
  split; [reflexivity|]. split; [reflexivity|]. split; [reflexivity|].
  apply createAnswer_stable; reflexivity.
Defined.

Lemma addIceCandidates_lost_witness :
  remoteDescription (pc audio_manager) = None /\
  addIceCandidates [cand0; cand1] audio_manager = (Ok tt, audio_manager).
Proof. split; [reflexivity|]. apply addIceCandidates_lost. reflexivity. Defined.

Lemma addIceCandidates_applied_witness :
  closed (pc answered_manager) = false /\ remoteDescription (pc answered_manager) = Some offer0 /\
  addIceCandidates [cand0; cand1] answered_manager =
    (Ok tt, set_pc (with_candidates (remoteCandidates (pc answered_manager) ++ [cand0; cand1])
                     (pc answered_manager)) answered_manager).
Proof.
  split; [reflexivity|]. split; [reflexivity|].
  apply addIceCandidates_applied; [reflexivity|discriminate].
Defined.



Lemma toggle_without_track_witness :
  (forall s, s ∈ senders (pc audio_manager) -> has_kind Video s = false) /\
  toggle_kind Video audio_manager audio_tracks = (false, audio_tracks).
Proof.
  assert (forall s, s ∈ senders (pc audio_manager) -> has_kind Video s = false) as H.
  { intros s Hs. vm_compute in Hs. apply list_elem_of_singleton in Hs. by subst. }
  split; [exact H|]. exact (toggle_without_track _ _ _ H).
Defined.

End Manager.

(** The lemmas the components' proofs search with [eauto with mitho]. *)
#[export] Hint Resolve Peer.setLocalDescription_wf Peer.setRemoteDescription_wf Peer.addIceCandidate_wf Peer.addTrack_wf : mitho.
#[export] Hint Resolve Peer.setLocalDescription_senders Peer.setRemoteDescription_senders Peer.addIceCandidate_senders : mitho.
#[export] Hint Resolve Manager.preserves_bind Manager.preserves_ret Manager.preserves_query Manager.preserves_update Manager.preserves_set_caller Manager.preserves_setRemoteDescription Manager.preserves_addIceCandidate Manager.preserves_addTrack Peer.setLocalDescription_wf : mitho.
#[export] Hint Resolve Manager.keeps_senders_bind Manager.keeps_senders_ret Manager.keeps_senders_query Manager.keeps_senders_update Manager.keeps_senders_set_caller Manager.keeps_senders_setRemoteDescription Manager.keeps_senders_addIceCandidate : mitho.
#[export] Hint Resolve Manager.keeps_senders_createOffer Manager.keeps_senders_createAnswer Manager.keeps_senders_addIceCandidates : mitho.
