(* ===== verification/Store.v ===== *)
(** * The document store: Firestore, as the environment of the clients

    The collections the calling code reads and writes: [calls], the two
    candidate sub-collections of each call, [chats] with their [messages]
    sub-collections, and [users].  Each SDK call the code makes is one
    definition: [setDoc] and [addDoc] always succeed, [updateDoc] rejects
    with [not-found] on a missing document, [serverTimestamp()] is the
    store's [clock].  Every write is also appended to a [journal], so that
    theorems can count the offers, answers and call-log entries a run
    wrote.  Query results are ordered by document id, as Firestore orders a
    query without [orderBy]. *)

From S2P Require Import Prelude Data.

(** Which sub-collection of a call a candidate goes to:
    [callerCandidates] or [calleeCandidates]. *)
Inductive role := CallerRole | CalleeRole.

#[export] Instance role_eq_dec : EqDecision role.
Proof. solve_decision. Defined.

(** The partial updates of a call document the code makes with
    [updateDoc]. *)
Inductive call_patch :=
| PatchOffer (d : SessionDescription.t)    (** [{ offer }] *)
| PatchAnswer (d : SessionDescription.t)   (** [{ answer }] *)
| PatchStatus (s : call_status)            (** [{ status }] *)
| PatchEnd.                                (** [{ status: 'ended', endedAt: serverTimestamp() }] *)

#[export] Instance call_patch_eq_dec : EqDecision call_patch.
Proof. solve_decision. Defined.

(** One write, as the journal records it. *)
Inductive write :=
| WCallCreate (id : string)
| WCallUpdate (id : string) (p : call_patch)
| WCandidate (id : string) (r : role) (c : IceCandidate.t)
| WMessage (chatId : string) (m : Message.t)
| WChatUpdate (chatId : string)
| WChatCreate (chatId : string)
| WChatDelete (chatId : string)
| WMessagesDelete (chatId : string) (ids : list nat)   (** a batch deleting the messages [ids] *)
| WUserUpdate (uid : string)
| WRequest (id : string).

Module Store.

Record t := {
  calls : gmap string Call.t;
  callerCandidates : gmap string (list IceCandidate.t);
  calleeCandidates : gmap string (list IceCandidate.t);
  chats : gmap string Chat.t;
  messages : gmap string (list (nat * Message.t));   (** each with its document id *)
  users : gmap string User.t;
  friendRequests : gmap string FriendRequest.t;
  clock : Z;
  journal : list write
}.

Definition empty : t := {|
  calls := ∅; callerCandidates := ∅; calleeCandidates := ∅;
  chats := ∅; messages := ∅; users := ∅; friendRequests := ∅; clock := 0; journal := [] |}.

Definition with_calls (cs : gmap string Call.t) (w : write) (s : t) : t := {|
  calls := cs; callerCandidates := callerCandidates s;
  calleeCandidates := calleeCandidates s; chats := chats s;
  messages := messages s; users := users s;
  friendRequests := friendRequests s; clock := clock s;
  journal := journal s ++ [w] |}.

Definition with_candidates (r : role) (cs : gmap string (list IceCandidate.t))
    (w : write) (s : t) : t := {|
  calls := calls s;
  callerCandidates := if r is CallerRole then cs else callerCandidates s;
  calleeCandidates := if r is CalleeRole then cs else calleeCandidates s;
  chats := chats s; messages := messages s; users := users s;
  friendRequests := friendRequests s; clock := clock s;
  journal := journal s ++ [w] |}.

Definition with_chats (cs : gmap string Chat.t) (w : write) (s : t) : t := {|
  calls := calls s; callerCandidates := callerCandidates s;
  calleeCandidates := calleeCandidates s; chats := cs;
  messages := messages s; users := users s;
  friendRequests := friendRequests s; clock := clock s;
  journal := journal s ++ [w] |}.

Definition with_messages (ms : gmap string (list (nat * Message.t))) (w : write) (s : t) : t := {|
  calls := calls s; callerCandidates := callerCandidates s;
  calleeCandidates := calleeCandidates s; chats := chats s;
  messages := ms; users := users s;
  friendRequests := friendRequests s; clock := clock s;
  journal := journal s ++ [w] |}.

Definition with_users (us : gmap string User.t) (w : write) (s : t) : t := {|
  calls := calls s; callerCandidates := callerCandidates s;
  calleeCandidates := calleeCandidates s; chats := chats s;
  messages := messages s; users := us; friendRequests := friendRequests s;
  clock := clock s; journal := journal s ++ [w] |}.

Definition with_requests (rs : gmap string FriendRequest.t) (w : write) (s : t) : t := {|
  calls := calls s; callerCandidates := callerCandidates s;
  calleeCandidates := calleeCandidates s; chats := chats s;
  messages := messages s; users := users s; friendRequests := rs;
  clock := clock s; journal := journal s ++ [w] |}.

(** Time passes on the server. *)
Definition tick (dt : Z) (s : t) : t := {|
  calls := calls s; callerCandidates := callerCandidates s;
  calleeCandidates := calleeCandidates s; chats := chats s;
  messages := messages s; users := users s;
  friendRequests := friendRequests s; clock := clock s + dt;
  journal := journal s |}.

(** [getDoc(doc(db, 'calls', id))]. *)
Definition getCall (id : string) (s : t) : option Call.t := calls s !! id.

(** [setDoc(doc(db, 'calls', id), data)] with [createdAt: serverTimestamp()]. *)
Definition setCall (c : Call.t) : SE t unit :=
  fun s =>
    let c' := {| Call.id := Call.id c; Call.chatId := Call.chatId c;
                 Call.callerId := Call.callerId c; Call.calleeId := Call.calleeId c;
                 Call.members := Call.members c; Call.type := Call.type c;
                 Call.status := Call.status c; Call.createdAt := clock s;
                 Call.endedAt := Call.endedAt c; Call.offer := Call.offer c;
                 Call.answer := Call.answer c |} in
    (Ok tt, with_calls (<[Call.id c := c']> (calls s)) (WCallCreate (Call.id c)) s).

(** The fields a patch writes, over the document. *)
Definition apply_patch (now : Z) (p : call_patch) (c : Call.t) : Call.t :=
  {| Call.id := Call.id c; Call.chatId := Call.chatId c;
     Call.callerId := Call.callerId c; Call.calleeId := Call.calleeId c;
     Call.members := Call.members c; Call.type := Call.type c;
     Call.status := match p with
                    | PatchStatus st => st
                    | PatchEnd => Ended
                    | _ => Call.status c
                    end;
     Call.createdAt := Call.createdAt c;
     Call.endedAt := if p is PatchEnd then Some now else Call.endedAt c;
     Call.offer := if p is PatchOffer d then Some d else Call.offer c;
     Call.answer := if p is PatchAnswer d then Some d else Call.answer c |}.

(** [updateDoc(doc(db, 'calls', id), patch)]: [not-found] on a missing
    document. *)
Definition updateCall (id : string) (p : call_patch) : SE t unit :=
  fun s => match calls s !! id with
           | Some c => (Ok tt, with_calls (<[id := apply_patch (clock s) p c]> (calls s))
                                 (WCallUpdate id p) s)
           | None => (Err FirestoreNotFound, s)
           end.

(** The candidates of a call's sub-collection, in the order they were
    added. *)
Definition candidates (r : role) (id : string) (s : t) : list IceCandidate.t :=
  default [] ((if r is CallerRole then callerCandidates s else calleeCandidates s) !! id).

(** [addDoc(collection(db, 'calls', id, <role>Candidates), c)]. *)
Definition addCandidate (id : string) (r : role) (c : IceCandidate.t) : SE t unit :=
  fun s =>
    let m := if r is CallerRole then callerCandidates s else calleeCandidates s in
    (Ok tt, with_candidates r (<[id := candidates r id s ++ [c]]> m) (WCandidate id r c) s).

(** The message documents of a chat, with their ids, in the order they
    were added. *)
Definition chat_docs (chatId : string) (s : t) : list (nat * Message.t) :=
  default [] (messages s !! chatId).

(** The messages of a chat, in the order they were added. *)
Definition chat_messages (chatId : string) (s : t) : list Message.t := snd <$> chat_docs chatId s.

(** A message with its [timestamp] set by the server. *)
Definition stamp (now : Z) (m : Message.t) : Message.t := {|
  Message.senderId := Message.senderId m; Message.text := Message.text m;
  Message.timestamp := now; Message.type := Message.type m;
  Message.attachmentUrl := Message.attachmentUrl m; Message.callInfo := Message.callInfo m;
  Message.fileName := Message.fileName m; Message.fileSize := Message.fileSize m |}.

(** [addDoc(collection(db, 'chats', chatId, 'messages'), m)] with
    [timestamp: serverTimestamp()].  The id [addDoc] draws is the number
    of writes so far, which no other document has. *)
Definition addMessage (chatId : string) (m : Message.t) : SE t unit :=
  fun s => (Ok tt, with_messages (<[chatId := chat_docs chatId s ++ [(length (journal s), stamp (clock s) m)]]>
                                    (messages s))
                     (WMessage chatId (stamp (clock s) m)) s).

(** [updateDoc(doc(db, 'chats', chatId), ...)]: the update is given as a
    function of the stored chat and the server time. *)
Definition updateChat (chatId : string) (f : Z -> Chat.t -> Chat.t) : SE t unit :=
  fun s => match chats s !! chatId with
           | Some c => (Ok tt, with_chats (<[chatId := f (clock s) c]> (chats s))
                                 (WChatUpdate chatId) s)
           | None => (Err FirestoreNotFound, s)
           end.

(** [deleteDoc(doc(db, 'chats', chatId))]: the chat document goes; its
    [messages] sub-collection stays, as Firestore does not delete
    sub-collections with their parent. *)
Definition deleteChat (chatId : string) : SE t unit :=
  fun s => (Ok tt, with_chats (delete chatId (chats s)) (WChatDelete chatId) s).

(** [getDocs] of a chat's messages: the ids of the documents it returns. *)
Definition message_ids (chatId : string) (s : t) : list nat := fst <$> chat_docs chatId s.

(** A [writeBatch] deleting the message documents [ids] a [getDocs]
    returned ([batch.delete(doc.ref)] for each): a document already gone
    is not an error. *)
Definition deleteMessages (chatId : string) (ids : list nat) : SE t unit :=
  fun s => (Ok tt, with_messages (<[chatId := filter (fun p => p.1 ∉ ids) (chat_docs chatId s)]> (messages s))
                     (WMessagesDelete chatId ids) s).

(** [setDoc(doc(db, 'chats', chatId), chat)]. *)
Definition setChat (c : Chat.t) : SE t unit :=
  fun s => (Ok tt, with_chats (<[Chat.id c := c]> (chats s)) (WChatCreate (Chat.id c)) s).

(** [getDoc(doc(db, 'users', uid))]. *)
Definition getUser (uid : string) (s : t) : option User.t := users s !! uid.

(** [updateDoc(doc(db, 'users', uid), ...)], the update as a function of
    the stored profile: [not-found] on a missing profile. *)
Definition updateUser (uid : string) (f : User.t -> User.t) : SE t unit :=
  fun s => match users s !! uid with
           | Some u => (Ok tt, with_users (<[uid := f u]> (users s)) (WUserUpdate uid) s)
           | None => (Err FirestoreNotFound, s)
           end.

(** [setDoc(doc(db, 'users', uid), profile)]. *)
Definition setUser (uid : string) (u : User.t) : SE t unit :=
  fun s => (Ok tt, with_users (<[uid := u]> (users s)) (WUserUpdate uid) s).

(** [arrayUnion(x)]: appended unless already present. *)
Definition array_union (x : string) (l : list string) : list string :=
  if bool_decide (x ∈ l) then l else l ++ [x].

(** [arrayRemove(x)]: every occurrence removed. *)
Definition array_remove (x : string) (l : list string) : list string :=
  List.filter (fun y => negb (bool_decide (y = x))) l.

(** ** Queries *)

(** Insertion into a list of ids ordered by [String.leb]. *)
Fixpoint insert_sorted (x : string) (l : list string) : list string :=
  match l with
  | [] => [x]
  | y :: l' => if String.leb x y then x :: l else y :: insert_sorted x l'
  end.

Definition sort_ids (l : list string) : list string := foldr insert_sorted [] l.

(** [query(collection(db, 'calls'), where('calleeId', '==', uid),
    where('status', '==', 'ringing'))]: the matching ids, in id order. *)
Definition ringing_for (uid : string) (s : t) : list string :=
  sort_ids (map fst (map_to_list
    (filter (fun kv : string * Call.t =>
       Call.calleeId kv.2 = uid /\ Call.status kv.2 = Ringing) (calls s)))).

(** [addDoc(collection(db, 'friendRequests'), r)] with [createdAt:
    serverTimestamp()], the new document's id being [id]. *)
Definition addRequest (id : string) (r : FriendRequest.t) : SE t unit :=
  fun s =>
    let r' := {| FriendRequest.id := id; FriendRequest.from := FriendRequest.from r;
                 FriendRequest.to := FriendRequest.to r; FriendRequest.status := FriendRequest.status r;
                 FriendRequest.createdAt := clock s |} in
    (Ok tt, with_requests (<[id := r']> (friendRequests s)) (WRequest id) s).

(** [deleteDoc(doc(db, 'friendRequests', id))]. *)
Definition deleteRequest (id : string) : SE t unit :=
  fun s => (Ok tt, with_requests (delete id (friendRequests s)) (WRequest id) s).

(** The friend requests a query returns, in document-id order. *)
Definition requests_where (P : FriendRequest.t -> bool) (s : t) : list FriendRequest.t :=
  omap (fun id => friendRequests s !! id)
       (sort_ids (map fst (List.filter (fun kv => P kv.2) (map_to_list (friendRequests s))))).

(** ** The journal *)

Definition is_offer_write (id : string) (w : write) : bool :=
  match w with WCallUpdate id' (PatchOffer _) => bool_decide (id' = id) | _ => false end.

Definition is_answer_write (id : string) (w : write) : bool :=
  match w with WCallUpdate id' (PatchAnswer _) => bool_decide (id' = id) | _ => false end.

(** A call-log message written into a chat. *)
Definition is_call_log (chatId : string) (w : write) : bool :=
  match w with
  | WMessage c m => bool_decide (c = chatId /\ Message.type m = MsgCall)
  | _ => false
  end.

(** ** Lemmas *)

Lemma updateCall_missing id p s :
  calls s !! id = None -> updateCall id p s = (Err FirestoreNotFound, s).
Proof. intros H. unfold updateCall. by rewrite H. Qed.

Lemma updateCall_present id p s c :
  calls s !! id = Some c ->
  updateCall id p s =
    (Ok tt, with_calls (<[id := apply_patch (clock s) p c]> (calls s)) (WCallUpdate id p) s).
Proof. intros H. unfold updateCall. by rewrite H. Qed.

Lemma journal_with_calls cs w s : journal (with_calls cs w s) = journal s ++ [w].
Proof. reflexivity. Qed.

Lemma journal_tick dt s : journal (tick dt s) = journal s.
Proof. reflexivity. Qed.

(** A patch never changes the identity, the participants nor the media of
    a call. *)
Lemma apply_patch_fixed now p c :
  Call.id (apply_patch now p c) = Call.id c /\
  Call.callerId (apply_patch now p c) = Call.callerId c /\
  Call.calleeId (apply_patch now p c) = Call.calleeId c /\
  Call.chatId (apply_patch now p c) = Call.chatId c /\
  Call.members (apply_patch now p c) = Call.members c /\
  Call.type (apply_patch now p c) = Call.type c.
Proof. done. Qed.

(** The messages of a chat whose documents were just written. *)
Lemma chat_messages_with c docs ms w s :
  chat_messages c (with_messages (<[c := docs]> ms) w s) = snd <$> docs.
Proof. unfold chat_messages, chat_docs. simpl. by rewrite lookup_insert_eq. Qed.

(** Appending a message to a chat that exists and updating its summary:
    what every sender of a message does. *)
Lemma post_message c m f s ch :
  chats s !! c = Some ch ->
  exists s', (addMessage c m;; updateChat c f) s = (Ok tt, s') /\
    chat_messages c s' = chat_messages c s ++ [stamp (clock s) m] /\
    (forall k, k <> c -> chat_messages k s' = chat_messages k s) /\
    chats s' = <[c := f (clock s) ch]> (chats s) /\
    calls s' = calls s /\ users s' = users s /\ clock s' = clock s /\
    journal s' = journal s ++ [WMessage c (stamp (clock s) m); WChatUpdate c].
Proof.
  intros Hch. unfold mbind, se_mbind, se_bind, addMessage, updateChat. simpl.
  rewrite Hch. eexists. split; [reflexivity|]. unfold chat_messages, chat_docs. simpl.
  rewrite lookup_insert_eq. simpl. rewrite fmap_app. split; [done|]. split; [|by rewrite <- app_assoc].
  intros k Hk. by rewrite lookup_insert_ne.
Qed.

(** On a chat that is gone, the message is still appended (to the
    orphaned sub-collection) and the summary update fails. *)
Lemma post_message_missing c m f s :
  chats s !! c = None ->
  (addMessage c m;; updateChat c f) s =
    (Err FirestoreNotFound, with_messages (<[c := chat_docs c s ++ [(length (journal s), stamp (clock s) m)]]> (messages s))
                              (WMessage c (stamp (clock s) m)) s).
Proof. intros Hch. unfold mbind, se_mbind, se_bind, addMessage, updateChat. simpl. by rewrite Hch. Qed.

(** The messages after a post, whether or not the chat still exists. *)
Lemma post_message_messages c m f s k :
  chat_messages k (snd ((addMessage c m;; updateChat c f) s)) =
    if decide (k = c) then chat_messages c s ++ [stamp (clock s) m] else chat_messages k s.
Proof.
  unfold mbind, se_mbind, se_bind, addMessage, updateChat. simpl.
  destruct (chats s !! c); simpl; unfold chat_messages, chat_docs; simpl;
    (destruct (decide (k = c)) as [->|Hk]; [rewrite lookup_insert_eq; simpl; by rewrite fmap_app|by rewrite lookup_insert_ne]).
Qed.

Lemma updateChat_messages c f s r s' : updateChat c f s = (r, s') -> messages s' = messages s.
Proof. unfold updateChat. case_match; by intros [= _ <-]. Qed.

Lemma array_union_elem x l : x ∈ array_union x l.
Proof. unfold array_union. case_bool_decide; [done|]. apply elem_of_app. right. by constructor. Qed.

Lemma array_remove_union x l : x ∉ l -> array_remove x (array_union x l) = l.
Proof.
  intros Hx. unfold array_union. rewrite bool_decide_false by done.
  unfold array_remove. rewrite List.filter_app. simpl. rewrite bool_decide_true by done. simpl.
  rewrite app_nil_r. induction l as [|y l IH]; [done|]. simpl.
  rewrite bool_decide_false by (intros ->; apply Hx; constructor). simpl.
  f_equal. apply IH. intros H. apply Hx. by constructor.
Qed.

Lemma insert_sorted_perm x l : insert_sorted x l ≡ₚ x :: l.
Proof.
  induction l as [|y l IH]; simpl; [done|]. destruct (String.leb x y); [done|].
  rewrite IH. apply perm_swap.
Qed.

Lemma sort_ids_perm l : sort_ids l ≡ₚ l.
Proof. induction l as [|x l IH]; simpl; [done|]. by rewrite insert_sorted_perm, IH. Qed.

Lemma elem_of_sort_ids x l : x ∈ sort_ids l <-> x ∈ l.
Proof. by rewrite sort_ids_perm. Qed.

(** What a query returns: the stored documents that match, whatever the
    order. *)
Lemma query_elem {V} (m : gmap string V) (P : V -> bool) v :
  v ∈ omap (fun id => m !! id) (sort_ids (map fst (List.filter (fun kv => P kv.2) (map_to_list m))))
  <-> exists id, m !! id = Some v /\ P v = true.
Proof.
  rewrite list_elem_of_omap. setoid_rewrite elem_of_sort_ids.
  setoid_rewrite list_elem_of_In. setoid_rewrite in_map_iff. split.
  - intros (id & ([id' q] & <- & Hin) & Hr). apply List.filter_In in Hin as [Hin HP].
    apply list_elem_of_In, elem_of_map_to_list in Hin. simpl in *. rewrite Hin in Hr.
    injection Hr as ->. eauto.
  - intros (id & Hr & HP). exists id. split; [|done]. exists (id, v). split; [done|].
    apply List.filter_In. split; [|done]. by apply list_elem_of_In, elem_of_map_to_list.
Qed.

Lemma requests_where_elem P s r :
  r ∈ requests_where P s <-> exists id, friendRequests s !! id = Some r /\ P r = true.
Proof. apply query_elem. Qed.

Lemma requests_where_nil P s :
  requests_where P s = [] <-> forall id r, friendRequests s !! id = Some r -> P r = false.
Proof.
  split.
  - intros Hn id r Hr. destruct (P r) eqn:HP; [|done].
    assert (r ∈ requests_where P s) as Hin by (apply requests_where_elem; eauto).
    rewrite Hn in Hin. inversion Hin.
  - intros Hall. destruct (requests_where P s) as [|r l] eqn:E; [done|].
    assert (r ∈ requests_where P s) as Hin by (rewrite E; constructor).
    apply requests_where_elem in Hin as (id & Hr & HP). by rewrite (Hall id r Hr) in HP.
Qed.

#[export] Hint Resolve updateCall_missing updateCall_present : mitho.
#[export] Hint Rewrite journal_with_calls journal_tick : mitho_rw.

End Store.
