(* ===== verification/CallView.v ===== *)
(** * The call screen: [src/src/components/call-view.tsx], component [CallView]

    The component's React state and refs form the record [CallView.t]; the
    browser's track objects and the store are passed along with it in [St].

    The WebRTC effect (lines 141-240) runs at mount and again each time
    [localStream] changes; each run builds a new [WebRTCManager], subscribes
    to the call document and to the other role's candidates, and starts
    [setupSignaling].  Its closures capture what they saw at that render:
    the manager of the run, and [callStartTime].  A [run] records that
    capture, the run's listeners and how far its [setupSignaling] has got:
    [setupSignaling] is cut at each [await] into [sig_stage]s, and it keeps
    going after the run is cleaned up, with the manager it captured.

    Managers are kept by index in [managers]; [current] is
    [webRtcManagerRef.current].  [end_calls] lists the durations passed to
    the parent's [onEndCall]. *)

From S2P Require Import Prelude Data WebRTC Store.

Module CallView.

(** Where the [setupSignaling] of one run (lines 176-208) stands. *)
Inductive sig_stage :=
| SigCreateOffer                               (** caller: [await manager.createOffer()] *)
| SigWriteOffer (d : SessionDescription.t)     (** caller: [await updateDoc(callDocRef, { offer })] *)
| SigReadCall                                  (** callee: [await getDoc(callDocRef)] *)
| SigCreateAnswer (o : SessionDescription.t)   (** callee: [await manager.createAnswer(offer)] *)
| SigWriteAnswer (d : SessionDescription.t)    (** callee: [await updateDoc(callDocRef, { answer })] *)
| SigDone                                      (** returned *)
| SigFailed (e : error).                       (** rejected, unhandled *)

(** One run of the WebRTC effect. *)
Record run := {
  mgr : nat;                   (** the manager its closures hold *)
  captured_start : option Z;   (** [callStartTime] as its closures see it *)
  cand_seen : nat;             (** candidates of the other role delivered so far *)
  subscribed : bool;           (** its two listeners are active *)
  sig : sig_stage
}.

(** The [getMedia] effect (lines 95-137). *)
Inductive media_stage := MediaPending | MediaGranted | MediaDenied.

Record t := {
  uid : string;                       (** [user.uid] *)
  call : Call.t;                      (** [call] *)
  isMuted : bool;
  isCameraOff : bool;
  callStartTime : option Z;
  localStream : option (list nat);    (** the ids of the stream's tracks *)
  hasCameraPermission : bool;
  media_state : media_stage;
  managers : list Manager.t;
  current : option nat;               (** [webRtcManagerRef.current] *)
  callEnded : bool;                   (** [callEndedRef.current] *)
  runs : list run;
  end_calls : list Z                  (** arguments of [onEndCall] *)
}.

(** The component with what it touches: the client's tracks and the store. *)
Record St := mkSt { view : t; tracks : Tracks; db : Store.t }.

(** ** Field updates *)

Definition mk (v : t) (call' : Call.t) (muted camoff : bool) (start : option Z)
    (ls : option (list nat)) (perm : bool) (ms : media_stage) (mgrs : list Manager.t)
    (cur : option nat) (ended : bool) (rs : list run) (ec : list Z) : t := {|
  uid := uid v; call := call'; isMuted := muted; isCameraOff := camoff;
  callStartTime := start; localStream := ls; hasCameraPermission := perm;
  media_state := ms; managers := mgrs; current := cur; callEnded := ended;
  runs := rs; end_calls := ec |}.

Definition set_call c v := mk v c (isMuted v) (isCameraOff v) (callStartTime v) (localStream v)
  (hasCameraPermission v) (media_state v) (managers v) (current v) (callEnded v) (runs v) (end_calls v).
Definition set_muted b v := mk v (call v) b (isCameraOff v) (callStartTime v) (localStream v)
  (hasCameraPermission v) (media_state v) (managers v) (current v) (callEnded v) (runs v) (end_calls v).
Definition set_camera_off b v := mk v (call v) (isMuted v) b (callStartTime v) (localStream v)
  (hasCameraPermission v) (media_state v) (managers v) (current v) (callEnded v) (runs v) (end_calls v).
Definition set_start o v := mk v (call v) (isMuted v) (isCameraOff v) o (localStream v)
  (hasCameraPermission v) (media_state v) (managers v) (current v) (callEnded v) (runs v) (end_calls v).
Definition set_media ls perm ms v := mk v (call v) (isMuted v) (isCameraOff v) (callStartTime v) ls
  perm ms (managers v) (current v) (callEnded v) (runs v) (end_calls v).
Definition set_managers ms v := mk v (call v) (isMuted v) (isCameraOff v) (callStartTime v)
  (localStream v) (hasCameraPermission v) (media_state v) ms (current v) (callEnded v) (runs v) (end_calls v).
Definition set_current o v := mk v (call v) (isMuted v) (isCameraOff v) (callStartTime v)
  (localStream v) (hasCameraPermission v) (media_state v) (managers v) o (callEnded v) (runs v) (end_calls v).
Definition set_ended v := mk v (call v) (isMuted v) (isCameraOff v) (callStartTime v)
  (localStream v) (hasCameraPermission v) (media_state v) (managers v) (current v) true (runs v) (end_calls v).
Definition set_runs rs v := mk v (call v) (isMuted v) (isCameraOff v) (callStartTime v)
  (localStream v) (hasCameraPermission v) (media_state v) (managers v) (current v) (callEnded v) rs (end_calls v).
Definition push_end d v := mk v (call v) (isMuted v) (isCameraOff v) (callStartTime v)
  (localStream v) (hasCameraPermission v) (media_state v) (managers v) (current v) (callEnded v) (runs v)
  (end_calls v ++ [d]).

Definition with_run (k : nat) (f : run -> run) (v : t) : t :=
  set_runs (alter f k (runs v)) v.

Definition run_set_sig (g : sig_stage) (r : run) : run :=
  {| mgr := mgr r; captured_start := captured_start r; cand_seen := cand_seen r;
     subscribed := subscribed r; sig := g |}.
Definition run_seen (n : nat) (r : run) : run :=
  {| mgr := mgr r; captured_start := captured_start r; cand_seen := cand_seen r + n;
     subscribed := subscribed r; sig := sig r |}.
Definition run_unsubscribe (r : run) : run :=
  {| mgr := mgr r; captured_start := captured_start r; cand_seen := cand_seen r;
     subscribed := false; sig := sig r |}.

(** ** Derived values *)

(** [isCaller = call.callerId === user?.uid] (line 89). *)
Definition isCaller (v : t) : bool := bool_decide (Call.callerId (call v) = uid v).

(** The role whose candidates this client writes, and the one it reads. *)
Definition my_role (v : t) : role := if isCaller v then CallerRole else CalleeRole.
Definition other_role (v : t) : role := if isCaller v then CalleeRole else CallerRole.

(** [Math.floor((now - start) / 1000)], [0] without a start (lines 249-252). *)
Definition duration_of (start : option Z) (now : Z) : Z :=
  match start with Some t0 => (now - t0) `div` 1000 | None => 0 end.

(** Run a manager operation on the manager of index [i]. *)
Definition on_manager {A} (i : nat) (c : SE Manager.t A) (st : St) : result A * St :=
  match managers (view st) !! i with
  | Some m => let '(r, m') := c m in
              (r, mkSt (set_managers (<[i := m']> (managers (view st))) (view st)) (tracks st) (db st))
  | None => (Err InvalidStateError, st)
  end.

(** [hangUp()] on the manager of index [i]. *)
Definition hang_up (i : nat) (st : St) : St :=
  match managers (view st) !! i with
  | Some m => let '(m', ts') := Manager.hangUp m (tracks st) in
              mkSt (set_managers (<[i := m']> (managers (view st))) (view st)) ts' (db st)
  | None => st
  end.

(** ** The component *)

(** The initial render (lines 73-87): [initialCallState] from the parent. *)
Definition init (uid : string) (c : Call.t) : t := {|
  uid := uid; call := c; isMuted := false;
  isCameraOff := bool_decide (Call.type c = Audio);
  callStartTime := None; localStream := None; hasCameraPermission := true;
  media_state := MediaPending; managers := []; current := None; callEnded := false;
  runs := []; end_calls := [] |}.

(** [handleEndCall] (lines 243-260), with the [callStartTime] the calling
    closure sees: guarded by [callEndedRef], it tears the manager down
    before it reports the duration to [onEndCall]. *)
Definition handleEndCall (start : option Z) (st : St) : St :=
  let v := view st in
  if callEnded v then st
  else
    let d := duration_of start (Store.clock (db st)) in
    let st1 := mkSt (set_ended v) (tracks st) (db st) in
    let st2 := match current v with
               | Some i => let st' := hang_up i st1 in
                           mkSt (set_current None (view st')) (tracks st') (db st')
               | None => st1
               end in
    mkSt (push_end d (view st2)) (tracks st2) (db st2).

(** One run of the WebRTC effect (lines 141-229): a new manager with the
    local stream's tracks, the two listeners, and [setupSignaling] up to its
    first [await]. *)
Definition add_stream (ids : list nat) (ts : Tracks) (m : Manager.t) : Manager.t :=
  foldl (fun m tid => match ts !! tid with
                      | Some tr => m |> Manager.addTrack tid (Track.kind tr)
                      | None => m
                      end) m ids.

Definition effect_run (st : St) : St :=
  let v := view st in
  (** [if (!user || !call?.id) return;]: the page renders the screen only
      with a signed-in user, so only an empty call id returns here *)
  if bool_decide (Call.id (call v) = EmptyString) then st else
  let m := match localStream v with
           | Some ids => add_stream ids (tracks st) Manager.create
           | None => Manager.create
           end in
  let i := length (managers v) in
  let r := {| mgr := i; captured_start := callStartTime v; cand_seen := 0;
              subscribed := true;
              sig := if isCaller v then SigCreateOffer else SigReadCall |} in
  let v' := set_runs (runs v ++ [r]) (set_current (Some i) (set_managers (managers v ++ [m]) v)) in
  mkSt v' (tracks st) (db st).

(** The effect's cleanup (lines 231-238): unsubscribe the last run, hang up
    the manager the ref holds. *)
Definition effect_cleanup (st : St) : St :=
  let v := view st in
  let v1 := with_run (pred (length (runs v))) run_unsubscribe v in
  match current v with
  | Some i => let st' := hang_up i (mkSt v1 (tracks st) (db st)) in
              mkSt (set_current None (view st')) (tracks st') (db st')
  | None => mkSt v1 (tracks st) (db st)
  end.

(** [getMedia] resolved with the tracks [ids] (lines 98-108); the new
    [localStream] re-runs the WebRTC effect. *)
Definition media_granted (ids : list nat) (st : St) : St :=
  let v := view st in
  let v' := set_camera_off (bool_decide (Call.type (call v) = Audio))
              (set_media (Some ids) true MediaGranted v) in
  effect_run (effect_cleanup (mkSt v' (tracks st) (db st))).

(** [getMedia] rejected (lines 109-126): the call goes on without media. *)
Definition media_denied (st : St) : St :=
  let v := view st in
  mkSt (set_media (localStream v) false MediaDenied v) (tracks st) (db st).

(** The steps of [setupSignaling] of run [k] after each [await]. *)
Definition sig_step (k : nat) (st : St) : St :=
  let v := view st in
  match runs v !! k with
  | None => st
  | Some r =>
      let set g st' := mkSt (with_run k (run_set_sig g) (view st')) (tracks st') (db st') in
      match sig r with
      | SigCreateOffer =>
          let '(res, st') := on_manager (mgr r) Manager.createOffer st in
          match res with
          | Ok d => set (SigWriteOffer d) st'
          | Err e => set (SigFailed e) st'
          end
      | SigWriteOffer d =>
          let '(res, db') := Store.updateCall (Call.id (call v)) (PatchOffer d) (db st) in
          set (match res with Ok _ => SigDone | Err e => SigFailed e end) (mkSt v (tracks st) db')
      | SigReadCall =>
          match Store.getCall (Call.id (call v)) (db st) with
          | Some c => match Call.offer c with
                      | Some o => set (SigCreateAnswer o) st
                      | None => set SigDone st
                      end
          | None => set SigDone st
          end
      | SigCreateAnswer o =>
          let '(res, st') := on_manager (mgr r) (Manager.createAnswer o) st in
          match res with
          | Ok a => set (SigWriteAnswer a) st'
          | Err e => set (SigFailed e) st'
          end
      | SigWriteAnswer a =>
          let '(res, db') := Store.updateCall (Call.id (call v)) (PatchAnswer a) (db st) in
          set (match res with Ok _ => SigDone | Err e => SigFailed e end) (mkSt v (tracks st) db')
      | SigDone | SigFailed _ => st
      end
  end.

(** A snapshot of the other role's candidates reaching run [k]'s listener
    (lines 179-185, 192-198): [batch] is what it delivers, [n] how many
    documents it covers. *)
Definition candidate_snapshot (k : nat) (batch : list IceCandidate.t) (n : nat) (st : St) : St :=
  match runs (view st) !! k with
  | Some r =>
      if negb (subscribed r) then st else
      let '(_, st') := on_manager (mgr r) (Manager.addIceCandidates batch) st in
      mkSt (with_run k (run_seen n) (view st')) (tracks st') (db st')
  | None => st
  end.

(** A snapshot of the call document reaching run [k]'s listener (lines
    212-229). *)
Definition doc_snapshot (k : nat) (st : St) : St :=
  let v := view st in
  match runs v !! k with
  | None => st
  | Some r =>
      if negb (subscribed r) then st else
      match Store.getCall (Call.id (call v)) (db st) with
      | None => handleEndCall (captured_start r) st
      | Some c =>
          if is_over (Call.status c) then handleEndCall (captured_start r) st
          else
            let st1 := mkSt (set_call c v) (tracks st) (db st) in
            let st2 :=
              match Call.answer c, managers v !! mgr r with
              | Some a, Some m =>
                  if isCaller v && negb (bool_decide (Peer.desc_type
                                           (Peer.remoteDescription (Manager.pc m)) = Some Answer))
                  then snd (on_manager (mgr r) (Manager.setRemoteDescription a) st1)
                  else st1
              | _, _ => st1
              end in
            if bool_decide (Call.status c = Connected) && bool_decide (captured_start r = None)
            then mkSt (set_start (Some (Store.clock (db st))) (view st2)) (tracks st2) (db st2)
            else st2
      end
  end.

(** A candidate gathered by run [k]'s connection (lines 152-156): it goes to
    this client's own role's sub-collection. *)
Definition local_candidate (k : nat) (c : IceCandidate.t) (st : St) : St :=
  let v := view st in
  let '(_, db') := Store.addCandidate (Call.id (call v)) (my_role v) c (db st) in
  mkSt v (tracks st) db'.

(** A connection-state change of run [k]'s connection (lines 157-164). *)
Definition connection_change (k : nat) (s : Peer.connection_state) (st : St) : St :=
  match runs (view st) !! k with
  | Some r =>
      match s with
      | Peer.PcDisconnected | Peer.PcFailed | Peer.PcClosed => handleEndCall (captured_start r) st
      | _ => st
      end
  | None => st
  end.

(** The end button (line 383): [handleEndCall] of the current render. *)
Definition click_end (st : St) : St := handleEndCall (callStartTime (view st)) st.

(** [toggleMute] of the component (lines 262-266). *)
Definition toggleMute (st : St) : St :=
  let v := view st in
  if negb (hasCameraPermission v) then st
  else match current v with
       | Some i => match managers v !! i with
                   | Some m => let '(b, ts') := Manager.toggleMute m (tracks st) in
                               mkSt (set_muted b v) ts' (db st)
                   | None => mkSt (set_muted (negb (isMuted v)) v) (tracks st) (db st)
                   end
       | None => mkSt (set_muted (negb (isMuted v)) v) (tracks st) (db st)
       end.

(** [toggleCamera] of the component (lines 268-272). *)
Definition toggleCamera (st : St) : St :=
  let v := view st in
  if negb (bool_decide (Call.type (call v) = Video)) || negb (hasCameraPermission v) then st
  else match current v with
       | Some i => match managers v !! i with
                   | Some m => let '(b, ts') := Manager.toggleCamera m (tracks st) in
                               mkSt (set_camera_off b v) ts' (db st)
                   | None => mkSt (set_camera_off (negb (isCameraOff v)) v) (tracks st) (db st)
                   end
       | None => mkSt (set_camera_off (negb (isCameraOff v)) v) (tracks st) (db st)
       end.

(** Unmounting: the WebRTC effect's cleanup; the [getMedia] effect's
    cleanup tests the [localStream] of its first render, which is [null],
    and does nothing (lines 131-135). *)
Definition unmount (st : St) : St := effect_cleanup st.

(** Mounting (line 73 and the first run of both effects): [getMedia] is
    started and the WebRTC effect runs once. *)
Definition mount (uid : string) (c : Call.t) (ts : Tracks) (db : Store.t) : St :=
  effect_run (mkSt (init uid c) ts db).

(** ** Events reaching a mounted call screen *)

Inductive event :=
| EvMediaGranted (ids : list nat)
| EvMediaDenied
| EvSig (k : nat)
| EvCandidates (k : nat) (batch : list IceCandidate.t) (n : nat)
| EvDoc (k : nat)
| EvLocalCandidate (k : nat) (c : IceCandidate.t)
| EvConnection (k : nat) (s : Peer.connection_state)
| EvClickEnd
| EvToggleMute
| EvToggleCamera
| EvStore (db' : Store.t).

(** Dispatch an event; [getMedia] settles once, and [EvStore] stands for
    the writes of the other client and the passing of time. *)
Definition handle (e : event) (st : St) : St :=
  match e with
  | EvMediaGranted ids =>
      if media_state (view st) is MediaPending then media_granted ids st else st
  | EvMediaDenied =>
      if media_state (view st) is MediaPending then media_denied st else st
  | EvSig k => sig_step k st
  | EvCandidates k batch n => candidate_snapshot k batch n st
  | EvDoc k => doc_snapshot k st
  | EvLocalCandidate k c => local_candidate k c st
  | EvConnection k s => connection_change k s st
  | EvClickEnd => click_end st
  | EvToggleMute => toggleMute st
  | EvToggleCamera => toggleCamera st
  | EvStore db' => mkSt (view st) (tracks st) db'
  end.

Fixpoint handle_all (es : list event) (st : St) : St :=
  match es with
  | [] => st
  | e :: es' => handle_all es' (handle e st)
  end.

(** The states a call screen can reach from its mount. *)
Definition reachable (st : St) : Prop :=
  exists uid c ts db es, st = handle_all es (mount uid c ts db).

(** ** [onEndCall] is reported at most once *)

(** A step that leaves [callEndedRef] and the reported ends alone. *)
Definition end_frame (st st' : St) : Prop :=
  callEnded (view st') = callEnded (view st) /\ end_calls (view st') = end_calls (view st).

Ltac frame := unfold end_frame; repeat (case_match; simplify_eq/=); try done.

Lemma on_manager_frame {A} i (c : SE Manager.t A) st : end_frame st (snd (on_manager i c st)).
Proof. unfold on_manager. frame. Qed.

Lemma hang_up_frame i st : end_frame st (hang_up i st).
Proof. unfold hang_up. frame. Qed.

Lemma effect_run_frame st : end_frame st (effect_run st).
Proof. unfold effect_run. frame. Qed.

Lemma effect_cleanup_frame st : end_frame st (effect_cleanup st).
Proof.
  unfold effect_cleanup. destruct (current (view st)) as [i|]; [|frame].
  pose proof (hang_up_frame i (mkSt (with_run (pred (length (runs (view st)))) run_unsubscribe (view st)) (tracks st) (db st))) as [H1 H2].
  unfold end_frame; simpl. rewrite H1, H2. done.
Qed.

Lemma end_frame_trans st1 st2 st3 : end_frame st1 st2 -> end_frame st2 st3 -> end_frame st1 st3.
Proof. unfold end_frame. intros [-> ->] [-> ->]. done. Qed.

Lemma sig_step_frame k st : end_frame st (sig_step k st).
Proof. unfold sig_step, on_manager. frame. Qed.

Lemma candidate_snapshot_frame k b n st : end_frame st (candidate_snapshot k b n st).
Proof. unfold candidate_snapshot, on_manager. frame. Qed.

Lemma local_candidate_frame k c st : end_frame st (local_candidate k c st).
Proof. unfold local_candidate. frame. Qed.

Lemma media_granted_frame ids st : end_frame st (media_granted ids st).
Proof.
  unfold media_granted.
  eapply end_frame_trans; [|apply effect_run_frame].
  eapply end_frame_trans; [|apply effect_cleanup_frame]. frame.
Qed.

Lemma media_denied_frame st : end_frame st (media_denied st).
Proof. unfold media_denied. frame. Qed.

Lemma toggleMute_frame st : end_frame st (toggleMute st).
Proof. unfold toggleMute. frame. Qed.

Lemma toggleCamera_frame st : end_frame st (toggleCamera st).
Proof. unfold toggleCamera. frame. Qed.

Lemma doc_snapshot_cases k st :
  (exists s, doc_snapshot k st = handleEndCall s st) \/ end_frame st (doc_snapshot k st).
Proof.
  unfold doc_snapshot.
  destruct (runs (view st) !! k) as [r|]; [|right; frame].
  destruct (subscribed r); simpl; [|right; frame].
  destruct (Store.getCall _ _) as [c|]; [|left; eauto].
  destruct (is_over (Call.status c)); [left; eauto|right].
  unfold on_manager. frame.
Qed.

Lemma connection_change_cases k s st :
  (exists t0, connection_change k s st = handleEndCall t0 st) \/ end_frame st (connection_change k s st).
Proof.
  unfold connection_change. destruct (runs (view st) !! k); [|right; frame].
  destruct s; [right; frame..|left; by eexists|left; by eexists|left; by eexists].
Qed.

Definition once (st : St) : Prop :=
  length (end_calls (view st)) <= 1 /\ (callEnded (view st) = false -> end_calls (view st) = []).

Lemma once_frame st st' : end_frame st st' -> once st -> once st'.
Proof. unfold end_frame, once. intros [-> ->]. done. Qed.

Lemma once_push_end d st0 st2 :
  end_calls (view st0) = [] ->
  end_frame (mkSt (set_ended (view st0)) (tracks st0) (db st0)) st2 ->
  once (mkSt (push_end d (view st2)) (tracks st2) (db st2)).
Proof. intros He [H1 H2]. unfold once. simpl in *. split; [rewrite H2, He; simpl; lia|congruence]. Qed.

Lemma handleEndCall_once s st : once st -> once (handleEndCall s st).
Proof.
  intros [Hl He]. unfold handleEndCall. cbv zeta.
  destruct (callEnded (view st)) eqn:Hc; [split; [done|by rewrite Hc]|].
  apply (once_push_end _ st); [by apply He|].
  repeat case_match; try (eapply end_frame_trans; [apply hang_up_frame|done]); done.
Qed.

Lemma handle_once e st : once st -> once (handle e st).
Proof.
  intros H. destruct e; simpl.
  - destruct (media_state (view st)); try done; exact (once_frame _ _ (media_granted_frame ids st) H).
  - destruct (media_state (view st)); try done; exact (once_frame _ _ (media_denied_frame st) H).
  - exact (once_frame _ _ (sig_step_frame k st) H).
  - exact (once_frame _ _ (candidate_snapshot_frame k batch n st) H).
  - destruct (doc_snapshot_cases k st) as [[s ->]|Hf]; [by apply handleEndCall_once|].
    exact (once_frame _ _ Hf H).
  - exact (once_frame _ _ (local_candidate_frame k c st) H).
  - destruct (connection_change_cases k s st) as [[s' ->]|Hf]; [by apply handleEndCall_once|].
    exact (once_frame _ _ Hf H).
  - by apply handleEndCall_once.
  - exact (once_frame _ _ (toggleMute_frame st) H).
  - exact (once_frame _ _ (toggleCamera_frame st) H).
  - done.
Qed.

(** C2: In every state a mounted call screen can reach, through any
    interleaving of media, signaling, snapshot, connection and user events
    and any change of the store, [onEndCall] has been called at most once:
    [callEndedRef] guards [handleEndCall]. *)
Theorem onEndCall_at_most_once st : reachable st -> length (end_calls (view st)) <= 1.
Proof.
  intros (uid & c & ts & db & es & ->).
  assert (once (mount uid c ts db)) as H0.
  { eapply once_frame; [apply effect_run_frame|]. split; simpl; [lia|done]. }
  revert H0. generalize (mount uid c ts db). induction es as [|e es IH]; intros st H; simpl.
  - apply H.
  - apply IH. by apply handle_once.
Qed.

(** C19: The first [handleEndCall] hangs up the manager the ref
    holds (connection closed, its tracks stopped), clears the ref, sets
    [callEndedRef], and reports the duration computed from the start time
    its caller passed, in that one step. *)
Theorem handleEndCall_tears_down s st i m :
  callEnded (view st) = false -> current (view st) = Some i -> managers (view st) !! i = Some m ->
  let st' := handleEndCall s st in
  current (view st') = None /\ callEnded (view st') = true /\
  managers (view st') !! i = Some (fst (Manager.hangUp m (tracks st))) /\
  tracks st' = snd (Manager.hangUp m (tracks st)) /\
  end_calls (view st') = end_calls (view st) ++ [duration_of s (Store.clock (db st))].
Proof.
  intros Hc Hi Hm. unfold handleEndCall. cbv zeta. rewrite Hc, Hi.
  unfold hang_up. simpl. rewrite Hm.
  destruct (Manager.hangUp m (tracks st)) as [m' ts'] eqn:E. simpl.
  split; [done|]. split; [done|]. split; [|done].
  apply list_lookup_insert_eq. by eapply lookup_lt_Some.
Qed.

(** C35: When the call document is gone or ended/declined, a
    run of the WebRTC effect, still subscribed, whose closures captured no start time reports
    a duration of 0 to [onEndCall], however long the call has lasted: the
    listener's [handleEndCall] sees the [callStartTime] of the render that
    ran the effect. *)
Theorem remote_end_reports_zero k r st :
  runs (view st) !! k = Some r -> subscribed r = true -> captured_start r = None -> callEnded (view st) = false ->
  (forall c, Store.getCall (Call.id (call (view st))) (db st) = Some c -> is_over (Call.status c) = true) ->
  end_calls (view (doc_snapshot k st)) = end_calls (view st) ++ [0%Z].
Proof.
  intros Hr Hsub Hs He Hover. unfold doc_snapshot. cbv zeta. rewrite Hr, Hsub. simpl.
  assert (forall st0, end_calls (view (handleEndCall None st0)) =
            if callEnded (view st0) then end_calls (view st0) else end_calls (view st0) ++ [0%Z]) as Hh.
  { intros st0. unfold handleEndCall. cbv zeta.
    destruct (callEnded (view st0)); [done|].
    destruct (current (view st0)) as [i|]; simpl; [|done].
    pose proof (hang_up_frame i (mkSt (set_ended (view st0)) (tracks st0) (db st0))) as [_ H2].
    simpl in H2. by rewrite H2. }
  destruct (Store.getCall _ _) as [c|] eqn:Hg.
  - rewrite (Hover c eq_refl), Hs, Hh, He. done.
  - rewrite Hs, Hh, He. done.
Qed.

(** ** Without media nothing is ever sent *)

(** No manager sends a track. *)

Definition silent (ms : list Manager.t) : Prop :=
  Forall (fun m => Peer.senders (Manager.pc m) = []) ms.

Definition media_inv (st : St) : Prop :=
  (media_state (view st) <> MediaGranted -> localStream (view st) = None) /\
  (localStream (view st) = None -> silent (managers (view st))).

Lemma silent_insert ms i m :
  silent ms -> Peer.senders (Manager.pc m) = [] -> silent (<[i := m]> ms).
Proof. intros Hs Hm. by apply Forall_insert. Qed.

Lemma on_manager_silent {A} i (c : SE Manager.t A) st :
  Manager.keeps_senders c -> silent (managers (view st)) ->
  silent (managers (view (snd (on_manager i c st)))).
Proof.
  intros Hc Hs. unfold on_manager.
  destruct (managers (view st) !! i) as [m|] eqn:Hm; [|done].
  destruct (c m) as [r m'] eqn:E. simpl. apply silent_insert; [done|].
  specialize (Hc m). unfold se_state in Hc. rewrite E in Hc. simpl in Hc. rewrite Hc.
  eapply Forall_lookup_1 in Hs; [|done]. exact Hs.
Qed.

Lemma hang_up_silent i st : silent (managers (view st)) -> silent (managers (view (hang_up i st))).
Proof.
  intros Hs. unfold hang_up.
  destruct (managers (view st) !! i) as [m|] eqn:Hm; [|done].
  destruct (Manager.hangUp m (tracks st)) as [m' ts'] eqn:E. simpl. apply silent_insert; [done|].
  pose proof (Manager.hangUp_senders m (tracks st)) as H. rewrite E in H. simpl in H. rewrite H.
  eapply Forall_lookup_1 in Hs; [|done]. exact Hs.
Qed.

Definition mframe (st st' : St) : Prop :=
  media_state (view st') = media_state (view st) /\
  localStream (view st') = localStream (view st) /\
  (silent (managers (view st)) -> silent (managers (view st'))).

Lemma mframe_trans st1 st2 st3 : mframe st1 st2 -> mframe st2 st3 -> mframe st1 st3.
Proof. intros (H1 & H2 & H3) (H4 & H5 & H6). repeat split; congruence || auto. Qed.

Lemma mframe_same_managers st st' :
  media_state (view st') = media_state (view st) ->
  localStream (view st') = localStream (view st) ->
  managers (view st') = managers (view st) -> mframe st st'.
Proof. intros H1 H2 H3. repeat split; [done|done|]. by rewrite H3. Qed.

Ltac same := apply mframe_same_managers; reflexivity.

Lemma on_manager_mframe {A} i (c : SE Manager.t A) st :
  Manager.keeps_senders c -> mframe st (snd (on_manager i c st)).
Proof.
  intros Hc. split; [|split]; [unfold on_manager; by repeat case_match; simplify_eq/=..|].
  by apply on_manager_silent.
Qed.

Lemma on_manager_pair {A} i (c : SE Manager.t A) st r st' :
  Manager.keeps_senders c -> on_manager i c st = (r, st') -> mframe st st'.
Proof. intros Hc E. pose proof (on_manager_mframe i c st Hc) as H. by rewrite E in H. Qed.

Lemma hang_up_mframe i st : mframe st (hang_up i st).
Proof.
  split; [|split]; [unfold hang_up; by repeat case_match; simplify_eq/=..|].
  by apply hang_up_silent.
Qed.

Lemma handleEndCall_mframe s st : mframe st (handleEndCall s st).
Proof.
  unfold handleEndCall. cbv zeta. destruct (callEnded (view st)); [same|].
  destruct (current (view st)) as [i|]; [|same].
  eapply mframe_trans; [|same].
  eapply mframe_trans; [|apply hang_up_mframe]. same.
Qed.

Lemma effect_cleanup_mframe st : mframe st (effect_cleanup st).
Proof.
  unfold effect_cleanup. destruct (current (view st)) as [i|]; [|same].
  eapply mframe_trans; [|same].
  eapply mframe_trans; [|apply hang_up_mframe]. same.
Qed.

Lemma sig_step_mframe k st : mframe st (sig_step k st).
Proof.
  unfold sig_step. cbv zeta. destruct (runs (view st) !! k) as [r|]; [|same].
  destruct (sig r).
  - destruct (on_manager (mgr r) Manager.createOffer st) as [res st'] eqn:E.
    eapply mframe_trans; [eapply on_manager_pair; [|exact E]; eauto with mitho|].
    destruct res; same.
  - try destruct (Store.updateCall _ _ _); same.
  - destruct (Store.getCall _ _) as [c|]; [destruct (Call.offer c)|]; same.
  - destruct (on_manager (mgr r) (Manager.createAnswer o) st) as [res st'] eqn:E.
    eapply mframe_trans; [eapply on_manager_pair; [|exact E]; eauto with mitho|].
    destruct res; same.
  - try destruct (Store.updateCall _ _ _); same.
  - same.
  - same.
Qed.

Lemma candidate_snapshot_mframe k b n st : mframe st (candidate_snapshot k b n st).
Proof.
  unfold candidate_snapshot. destruct (runs (view st) !! k) as [r|]; [|same].
  destruct (subscribed r); simpl; [|same].
  destruct (on_manager (mgr r) (Manager.addIceCandidates b) st) as [res st'] eqn:E.
  eapply mframe_trans; [eapply on_manager_pair; [|exact E]; eauto with mitho|]. same.
Qed.

Lemma doc_snapshot_mframe k st : mframe st (doc_snapshot k st).
Proof.
  unfold doc_snapshot. cbv zeta. destruct (runs (view st) !! k) as [r|]; [|same].
  destruct (subscribed r); simpl; [|same].
  destruct (Store.getCall _ _) as [c|]; [|apply handleEndCall_mframe].
  destruct (is_over (Call.status c)); [apply handleEndCall_mframe|].
  assert (mframe st (mkSt (set_call c (view st)) (tracks st) (db st))) as H0 by same.
  assert (forall st2, mframe (mkSt (set_call c (view st)) (tracks st) (db st)) st2 ->
            mframe st (if bool_decide (Call.status c = Connected) && bool_decide (captured_start r = None)
                       then mkSt (set_start (Some (Store.clock (db st))) (view st2)) (tracks st2) (db st2)
                       else st2)) as Hend.
  { intros st2 H2. destruct (_ && _); (eapply mframe_trans; [eapply mframe_trans; [exact H0|exact H2]|]); same. }
  apply Hend. destruct (Call.answer c), (managers (view st) !! mgr r); try same.
  destruct (isCaller (view st) && _); [|same]. apply on_manager_mframe. eauto with mitho.
Qed.

Lemma connection_change_mframe k s st : mframe st (connection_change k s st).
Proof.
  unfold connection_change. destruct (runs (view st) !! k); [|same].
  destruct s; (same || apply handleEndCall_mframe).
Qed.

Lemma media_inv_frame st st' : mframe st st' -> media_inv st -> media_inv st'.
Proof.
  intros (H1 & H2 & H3) (I1 & I2). split; rewrite H2; [rewrite H1; exact I1|].
  intros Hn. apply H3, I2, Hn.
Qed.

Lemma effect_run_media_inv st : media_inv st -> media_inv (effect_run st).
Proof.
  intros [I1 I2]. unfold effect_run. case_bool_decide; [by split|]. split; simpl; [exact I1|].
  intros Hn. rewrite Hn. apply Forall_app. split; [by apply I2|]. by constructor.
Qed.

Lemma handle_media_inv e st : media_inv st -> media_inv (handle e st).
Proof.
  intros H. destruct e; simpl.
  - destruct (media_state (view st)) eqn:Hm; try done.
    unfold media_granted. apply effect_run_media_inv.
    eapply media_inv_frame; [apply effect_cleanup_mframe|]. split; simpl; done.
  - destruct (media_state (view st)) eqn:Hm; try done.
    destruct H as [I1 I2]. unfold media_denied. split; simpl.
    + intros _. apply I1. by rewrite Hm.
    + exact I2.
  - eapply media_inv_frame; [apply sig_step_mframe|done].
  - eapply media_inv_frame; [apply candidate_snapshot_mframe|done].
  - eapply media_inv_frame; [apply doc_snapshot_mframe|done].
  - done.
  - eapply media_inv_frame; [apply connection_change_mframe|done].
  - eapply media_inv_frame; [apply handleEndCall_mframe|done].
  - unfold toggleMute. by repeat case_match; simplify_eq/=.
  - unfold toggleCamera. by repeat case_match; simplify_eq/=.
  - done.
Qed.

(** C36: If [getUserMedia] fails, no manager the call screen
    ever builds sends a track, the microphone included: the call goes on
    with no local media at all rather than audio-only. *)
Theorem no_media_no_senders st :
  reachable st -> media_state (view st) = MediaDenied -> silent (managers (view st)).
Proof.
  intros (uid & c & ts & db & es & ->) Hd.
  assert (media_inv (mount uid c ts db)) as H0.
  { apply effect_run_media_inv. split; simpl; [done|]. intros _. constructor. }
  assert (forall st, media_inv st -> media_inv (handle_all es st)) as Hall.
  { clear Hd. induction es as [|e es IH]; intros st H; simpl; [done|]. apply IH. by apply handle_media_inv. }
  destruct (Hall _ H0) as [I1 I2]. apply I2, I1. by rewrite Hd.
Qed.

(** ** Every local stream brings a new offer *)

Lemma add_stream_signaling ids ts m :
  Peer.signalingState (Manager.pc (add_stream ids ts m)) = Peer.signalingState (Manager.pc m).
Proof.
  revert m. induction ids as [|tid ids IH]; intros m; [done|]. simpl. rewrite IH.
  case_match; [apply Manager.addTrack_signaling|done].
Qed.

(** The effect's cleanup keeps the call, the user, the stream, the store,
    and the number of runs and managers. *)
Lemma effect_cleanup_shape st :
  let st' := effect_cleanup st in
  call (view st') = call (view st) /\ uid (view st') = uid (view st) /\
  localStream (view st') = localStream (view st) /\ db st' = db st /\
  length (runs (view st')) = length (runs (view st)) /\
  length (managers (view st')) = length (managers (view st)).
Proof.
  unfold effect_cleanup, hang_up, with_run. cbv zeta.
  repeat (case_match; simplify_eq/=); rewrite ?length_insert, ?length_alter; done.
Qed.

(** A run of the effect of a screen with a call id: its run and its
    manager are the last ones; the store and the call stay. *)
Lemma effect_run_new st :
  Call.id (call (view st)) <> EmptyString ->
  let st' := effect_run st in
  runs (view st') !! length (runs (view st)) =
    Some {| mgr := length (managers (view st)); captured_start := callStartTime (view st);
            cand_seen := 0; subscribed := true;
            sig := if isCaller (view st) then SigCreateOffer else SigReadCall |} /\
  managers (view st') !! length (managers (view st)) =
    Some (match localStream (view st) with
          | Some ids => add_stream ids (tracks st) Manager.create
          | None => Manager.create
          end) /\
  db st' = db st /\ call (view st') = call (view st).
Proof.
  intros Hid. unfold effect_run. rewrite bool_decide_false by done. cbn.
  by rewrite !lookup_app_r, !Nat.sub_diag by lia.
Qed.

(** A run at [SigCreateOffer] whose manager can make an offer, on a call
    the store holds: its next two steps write one offer to the call. *)
Lemma sig_offer_written k r m st :
  runs (view st) !! k = Some r -> sig r = SigCreateOffer -> managers (view st) !! mgr r = Some m ->
  Peer.signalingState (Manager.pc m) = Peer.Stable ->
  is_Some (Store.getCall (Call.id (call (view st))) (db st)) ->
  count (Store.is_offer_write (Call.id (call (view st)))) (Store.journal (db (sig_step k (sig_step k st)))) =
    S (count (Store.is_offer_write (Call.id (call (view st)))) (Store.journal (db st))).
Proof.
  intros Hr Hs Hm Hsig [c0 Hc0]. unfold sig_step at 2. rewrite Hr, Hs.
  unfold on_manager. rewrite Hm, Manager.createOffer_spec, Hsig. cbn.
  unfold sig_step. cbn. rewrite list_lookup_alter, Hr. cbn.
  destruct (decide (k = k)) as [_|]; [|done]. cbn. unfold Store.getCall in Hc0. rewrite (Store.updateCall_present _ _ _ c0) by done. cbn [db Store.journal Store.with_calls].
  rewrite count_snoc. cbn. rewrite bool_decide_true by done. lia.
Qed.

(** C13: whenever the local stream arrives, the WebRTC effect, which
    depends on it, runs again with a new manager whose [setupSignaling]
    creates and writes a new offer: a caller's screen, which already wrote
    the offer of the run it started with at mount, writes one more for
    the same call. *)
Theorem offer_written_twice ids st :
  media_state (view st) = MediaPending -> isCaller (view st) = true ->
  Call.id (call (view st)) <> EmptyString -> is_Some (Store.getCall (Call.id (call (view st))) (db st)) ->
  let k := length (runs (view st)) in
  let st' := handle (EvSig k) (handle (EvSig k) (handle (EvMediaGranted ids) st)) in
  count (Store.is_offer_write (Call.id (call (view st)))) (Store.journal (db st')) =
    S (count (Store.is_offer_write (Call.id (call (view st)))) (Store.journal (db st))).
Proof.
  intros Hm Hc Hid Hcall. cbv zeta. simpl handle at 3. rewrite Hm. unfold media_granted.
  set (st0 := mkSt _ (tracks st) (db st)).
  destruct (effect_cleanup_shape st0) as (Hcl & Huid & Hls & Hdb & Hr & Hmg). cbv zeta in *.
  set (st1 := effect_cleanup st0) in *.
  assert (Hid1 : Call.id (call (view st1)) <> EmptyString) by (rewrite Hcl; done).
  destruct (effect_run_new st1 Hid1) as (Hrun & Hmgr & Hdb2 & Hcl2).
  assert (Hk : length (runs (view st1)) = length (runs (view st))) by (rewrite Hr; done).
  assert (Hic : isCaller (view st1) = true) by (unfold isCaller; rewrite Hcl, Huid; exact Hc).
  rewrite Hic, Hk in Hrun. simpl handle.
  change (Call.id (call (view st))) with (Call.id (call (view st0))).
  rewrite <-Hcl, <-Hcl2. change (Store.journal (db st)) with (Store.journal (db st0)). rewrite <-Hdb, <-Hdb2.
  eapply sig_offer_written; [exact Hrun|done|exact Hmgr| |].
  - rewrite Hls. cbn. apply add_stream_signaling.
  - rewrite Hcl2, Hdb2, Hdb, Hcl. exact Hcall.
Qed.

(** ** Concrete runs *)

(** A video call from alice to bob, as [handleInitiateCall] creates it. *)
Definition call0 : Call.t := {|
  Call.id := "call1"; Call.chatId := "alice_bob"; Call.callerId := "alice";
  Call.calleeId := "bob"; Call.members := ["alice"; "bob"]; Call.type := Video;
  Call.status := Ringing; Call.createdAt := 0; Call.endedAt := None;
  Call.offer := None; Call.answer := None |}.

(** The store once the call has been ended. *)
Definition db_ended : Store.t :=
  Store.empty |> Store.setCall call0 |> Store.updateCall "call1" PatchEnd.

(** Bob's screen whose camera and microphone request failed. *)
Definition bob_no_media : St := handle_all [EvMediaDenied] (mount "bob" call0 ∅ Store.empty).

(** Alice's screen on her ringing call, its first run's offer written,
    her media not yet there. *)
Definition alice_offered : St :=
  handle_all [EvSig 0; EvSig 0] (mount "alice" call0 ∅ (Store.empty |> Store.setCall call0)).

Lemma offer_written_twice_witness :
  count (Store.is_offer_write "call1") (Store.journal (db alice_offered)) = 1%nat /\
  let st' := handle (EvSig 1) (handle (EvSig 1) (handle (EvMediaGranted [0%nat; 1%nat]) alice_offered)) in
  count (Store.is_offer_write (Call.id (call (view alice_offered)))) (Store.journal (db st')) =
    S (count (Store.is_offer_write (Call.id (call (view alice_offered)))) (Store.journal (db alice_offered))).
Proof.
  split; [vm_compute; reflexivity|].
  apply (offer_written_twice [0%nat; 1%nat] alice_offered); [reflexivity|reflexivity|discriminate|].
  vm_compute. by eexists.
Defined.

Lemma no_media_no_senders_witness :
  reachable bob_no_media /\ media_state (view bob_no_media) = MediaDenied /\
  silent (managers (view bob_no_media)).
Proof.
  assert (reachable bob_no_media) as Hr by (exists "bob", call0, ∅, Store.empty, [EvMediaDenied]; reflexivity).
  assert (media_state (view bob_no_media) = MediaDenied) as Hd by reflexivity.
  split; [exact Hr|]. split; [exact Hd|]. exact (no_media_no_senders _ Hr Hd).
Defined.

(** Alice's screen after a click on the end button and a terminal
    snapshot. *)
Definition alice_ended : St := handle_all [EvClickEnd; EvDoc 0] (mount "alice" call0 ∅ db_ended).

Lemma onEndCall_at_most_once_witness :
  reachable alice_ended /\ length (end_calls (view alice_ended)) <= 1.
Proof.
  assert (reachable alice_ended) as Hr
    by (exists "alice", call0, ∅, db_ended, [EvClickEnd; EvDoc 0]; reflexivity).
  split; [exact Hr|]. exact (onEndCall_at_most_once _ Hr).
Defined.

Lemma handleEndCall_tears_down_witness :
  callEnded (view (mount "alice" call0 ∅ Store.empty)) = false /\
  current (view (mount "alice" call0 ∅ Store.empty)) = Some 0 /\
  managers (view (mount "alice" call0 ∅ Store.empty)) !! 0 = Some Manager.create /\
  (let st' := handleEndCall (Some 0%Z) (mount "alice" call0 ∅ Store.empty) in
   current (view st') = None /\ callEnded (view st') = true /\
   managers (view st') !! 0 = Some (fst (Manager.hangUp Manager.create ∅)) /\
   tracks st' = snd (Manager.hangUp Manager.create ∅) /\
   end_calls (view st') = end_calls (view (mount "alice" call0 ∅ Store.empty)) ++
                            [duration_of (Some 0%Z) (Store.clock Store.empty)]).
Proof.
  split; [reflexivity|]. split; [reflexivity|]. split; [reflexivity|].
  apply handleEndCall_tears_down; reflexivity.
Defined.

Lemma remote_end_reports_zero_witness :
  runs (view (mount "alice" call0 ∅ db_ended)) !! 0 =
    Some {| mgr := 0; captured_start := None; cand_seen := 0; subscribed := true;
            sig := SigCreateOffer |} /\
  callEnded (view (mount "alice" call0 ∅ db_ended)) = false /\
  end_calls (view (doc_snapshot 0 (mount "alice" call0 ∅ db_ended))) =
    end_calls (view (mount "alice" call0 ∅ db_ended)) ++ [0%Z].
Proof.
  split; [reflexivity|]. split; [reflexivity|].
  eapply remote_end_reports_zero; [reflexivity|reflexivity|reflexivity|reflexivity|].
  intros c Hc. vm_compute in Hc. injection Hc as <-. reflexivity.
Defined.

End CallView.
