(* ===== verification/Home.v ===== *)
(** * The call orchestrator and the call log: [src/src/app/page.tsx], component [Home]

    The calling part of the page: the listener for ringing calls addressed
    to the user (lines 222-245), [handleCallAction] (accept or decline,
    lines 444-469), [handleInitiateCall] (lines 471-503), the listener of
    the active call (lines 248-260), [handleEndCall] (lines 505-527) and the
    call-log writer [createCallMessage] (lines 423-442), with the render
    that mounts the call screen when [activeCall && selectedChat]
    (lines 541-549).

    A handler suspended at an [await] is a [task]; a task runs as one step,
    and the tasks of a client run in any order, as their promises settle.
    The effects whose dependencies change re-subscribe ([resubscribe]), and
    each step ends with the render ([settle]). *)

From S2P Require Import Prelude Data WebRTC Store CallView.

Module Home.

(** A handler suspended at an [await].  A handler that sends a fixed
    list of writes ([op], below) is suspended on the last write it sent,
    and remembers the position [n] of the next one. *)
Inductive task :=
| EndRead (c : Call.t) (d : Z)                  (** [handleEndCall]: [await getDoc(callRef)] *)
| EndAwait (c : Call.t) (d : Z) (snap : option Call.t) (n : nat)
                                               (** [handleEndCall], after the read [snap]: awaiting
                                                   a write; the next is write [n] of [end_ops] *)
| AcceptAwait (c : Call.t)                     (** accept: [await updateDoc(callRef, {status: 'connected'})] *)
| AcceptChat (c : Call.t)                      (** accept: [await getDoc(chats/chatId)] *)
| AcceptUser (c : Call.t)                      (** accept: [await getDoc(users/otherUserId)] *)
| DeclineAwait (c : Call.t) (n : nat)          (** decline: awaiting a write; the next is write [n]
                                                   of [createCallMessage(call, 'missed')] *)
| InitiateAwait (id : string)                  (** [handleInitiateCall]: [await setDoc(newCallRef, ...)] *)
| InitiateRead (id : string)                   (** [handleInitiateCall]: [await getDoc(newCallRef)] *)
| IncomingFetch (c : Call.t) (seen : option string).
                                               (** ringing listener: [await getDoc(users/callerId)],
                                                   with the [incomingCall?.id] its closure saw *)

Record t := {
  uid : string;                          (** [user.uid] *)
  incomingCall : option Call.t;
  activeCall : option Call.t;
  selectedChat : option string;          (** the id of [selectedChat] *)
  inc_seen : list (string * Call.t);     (** the ringing query's last result *)
  inc_sub : option string;               (** [incomingCall?.id] when that listener subscribed *)
  tasks : list task;
  screen : option CallView.t;            (** the mounted [CallView] *)
  screen_call : option Call.t;           (** the [activeCall] the screen's [onEndCall] closes over *)
  ends_taken : nat;                      (** [onEndCall] calls already handled *)
  tracks : Tracks;                       (** the browser's track objects *)
  next_track : nat;
  stray : list media                     (** [getUserMedia] requests of unmounted screens *)
}.

Record St := mkSt { home : t; db : Store.t }.

(** ** Field updates *)

Definition mk (h : t) inc act sel seen sub tks scr scall taken ts nt str : t := {|
  uid := uid h; incomingCall := inc; activeCall := act; selectedChat := sel;
  inc_seen := seen; inc_sub := sub; tasks := tks; screen := scr; screen_call := scall;
  ends_taken := taken; tracks := ts; next_track := nt; stray := str |}.

Definition set_incoming o h := mk h o (activeCall h) (selectedChat h) (inc_seen h) (inc_sub h)
  (tasks h) (screen h) (screen_call h) (ends_taken h) (tracks h) (next_track h) (stray h).
Definition set_active o h := mk h (incomingCall h) o (selectedChat h) (inc_seen h) (inc_sub h)
  (tasks h) (screen h) (screen_call h) (ends_taken h) (tracks h) (next_track h) (stray h).
Definition set_selected o h := mk h (incomingCall h) (activeCall h) o (inc_seen h) (inc_sub h)
  (tasks h) (screen h) (screen_call h) (ends_taken h) (tracks h) (next_track h) (stray h).
Definition set_listener seen sub h := mk h (incomingCall h) (activeCall h) (selectedChat h) seen sub
  (tasks h) (screen h) (screen_call h) (ends_taken h) (tracks h) (next_track h) (stray h).
Definition set_tasks tks h := mk h (incomingCall h) (activeCall h) (selectedChat h) (inc_seen h)
  (inc_sub h) tks (screen h) (screen_call h) (ends_taken h) (tracks h) (next_track h) (stray h).
Definition set_screen scr scall taken ts h := mk h (incomingCall h) (activeCall h) (selectedChat h)
  (inc_seen h) (inc_sub h) (tasks h) scr scall taken ts (next_track h) (stray h).
Definition set_media_env ts nt str h := mk h (incomingCall h) (activeCall h) (selectedChat h)
  (inc_seen h) (inc_sub h) (tasks h) (screen h) (screen_call h) (ends_taken h) ts nt str.

Definition push (tk : task) (st : St) : St :=
  mkSt (set_tasks (tasks (home st) ++ [tk]) (home st)) (db st).

Definition set_home (f : t -> t) (st : St) : St := mkSt (f (home st)) (db st).

(** ** The call log writer *)

(** The summary line of a chat after a message. *)
Definition chat_summary (text sender : string) (now : Z) (c : Chat.t) : Chat.t := {|
  Chat.id := Chat.id c; Chat.type := Chat.type c; Chat.members := Chat.members c;
  Chat.unreadCount := Chat.unreadCount c; Chat.lastMessage := text;
  Chat.lastMessageTimestamp := now; Chat.lastMessageSenderId := sender;
  Chat.muted := Chat.muted c |}.

(** A write the page's call handlers send, as data: the handler awaits
    each one before it sends the next. *)
Inductive op :=
| OpAddMessage (chatId : string) (m : Message.t)    (** [addDoc(collection(db, 'chats', chatId, 'messages'), m)] *)
| OpUpdateChat (chatId text sender : string)        (** [updateDoc(chatRef, {lastMessage, ...})] *)
| OpUpdateCall (id : string) (p : call_patch).      (** [updateDoc(callRef, p)] *)

#[export] Instance op_eq_dec : EqDecision op.
Proof. solve_decision. Defined.

Definition exec_op (o : op) : SE Store.t unit :=
  match o with
  | OpAddMessage chatId m => Store.addMessage chatId m
  | OpUpdateChat chatId text sender => Store.updateChat chatId (chat_summary text sender)
  | OpUpdateCall id p => Store.updateCall id p
  end.

(** The writes sent one after the other, each awaited: the first
    rejection ends the run. *)
Fixpoint exec_ops (l : list op) : SE Store.t unit :=
  match l with
  | [] => mret tt
  | o :: l' => exec_op o;; exec_ops l'
  end.

(** [createCallMessage(call, status, duration?)] (lines 423-442): one call
    message, then the chat's summary; [duration || 0]. *)
Definition call_message_ops (c : Call.t) (status : outcome) (duration : option Z) : list op :=
  [OpAddMessage (Call.chatId c) {|
     Message.senderId := Call.callerId c; Message.text := None; Message.timestamp := 0;
     Message.type := MsgCall; Message.attachmentUrl := None;
     Message.callInfo := Some {| CallInfo.type := Call.type c; CallInfo.status := status;
                                 CallInfo.duration := default 0%Z duration |};
     Message.fileName := None; Message.fileSize := None |};
   OpUpdateChat (Call.chatId c) (if status is OutcomeMissed then "Missed call" else "Call ended")
     (Call.callerId c)].

Definition createCallMessage (c : Call.t) (status : outcome) (duration : option Z)
    : SE Store.t unit := exec_ops (call_message_ops c status duration).

(** ** [handleEndCall(duration)] (lines 505-527) *)

(** The writes after [getDoc(callRef)] (lines 511-525), given the snapshot
    read: only the caller logs, a still-ringing call as missed, a call with
    a positive duration as ended; then the final status. *)
Definition end_ops (me : string) (c : Call.t) (d : Z) (snap : option Call.t) : list op :=
  match snap with
  | Some doc =>
      if bool_decide (Call.status doc <> Ended) then
        let isMissed := bool_decide (Call.status doc = Ringing) in
        let isCaller := bool_decide (Call.callerId doc = me) in
        (if isCaller then
           if isMissed then call_message_ops c OutcomeMissed None
           else if bool_decide (0 < d)%Z then call_message_ops c OutcomeEnded (Some d)
           else []
         else []) ++ [OpUpdateCall (Call.id c) PatchEnd]
      else []
  | None => []
  end.

(** The same writes with nothing in between. *)
Definition end_writes (me : string) (c : Call.t) (d : Z) (snap : option Call.t) : SE Store.t unit :=
  exec_ops (end_ops me c d snap).

(** Send write [n] of a handler's [ops] and suspend on it, as task
    [k (S n)]; once every write is sent and awaited, the rest of the
    handler, [fin].  A rejected write rejects the handler, which ends
    there. *)
Definition send_op (ops : list op) (n : nat) (k : nat -> task) (fin : St -> St) (st : St) : St :=
  match ops !! n with
  | Some o =>
      let '(r, db') := exec_op o (db st) in
      match r with
      | Ok _ => push (k (S n)) (mkSt (home st) db')
      | Err _ => mkSt (home st) db'
      end
  | None => fin st
  end.

(** [onEndCall(duration)] reaching [handleEndCall]: the closure's
    [activeCall] is the call the screen was rendered with, so the guard
    [!activeCall] never holds; the handler starts with the read. *)
Definition handleEndCall (c : Call.t) (d : Z) (st : St) : St := push (EndRead c d) st.

(** Once the writes are done: [setActiveCall(null)] (line 526). *)
Definition end_fin (st : St) : St := set_home (set_active None) st.

(** ** [handleCallAction(call, action)] (lines 444-469) *)

(** Accept: [status: 'connected'] with no check of the current status;
    once it is written, the call (as the dialog got it) becomes the active
    call (lines 447-448). *)
Definition accept (c : Call.t) (st : St) : St :=
  let '(r, db') := Store.updateCall (Call.id c) (PatchStatus Connected) (db st) in
  match r with
  | Ok _ => push (AcceptAwait c) (mkSt (home st) db')
  | Err _ => mkSt (home st) db'
  end.

(** Once the chat is selected or found missing: [setIncomingCall(null)]
    (line 467). *)
Definition action_fin (st : St) : St := set_home (set_incoming None) st.

(** Decline: [status: 'declined'] with no check of the current status, then
    a missed-call log entry (lines 463-464). *)
Definition decline (c : Call.t) (st : St) : St :=
  let '(r, db') := Store.updateCall (Call.id c) (PatchStatus Declined) (db st) in
  match r with
  | Ok _ => push (DeclineAwait c 0) (mkSt (home st) db')
  | Err _ => mkSt (home st) db'
  end.

(** ** [handleInitiateCall(chat, type)] (lines 471-503) *)

(** The new call document; [newId] is the id [doc(callsCollection)] drew. *)
Definition new_call (me : string) (chat : Chat.t) (type : media) (newId callee : string) : Call.t := {|
  Call.id := newId; Call.chatId := Chat.id chat; Call.callerId := me; Call.calleeId := callee;
  Call.members := [me; callee]; Call.type := type; Call.status := Ringing;
  Call.createdAt := 0; Call.endedAt := None; Call.offer := None; Call.answer := None |}.

Definition handleInitiateCall (chat : Chat.t) (type : media) (newId : string) (st : St) : St :=
  match list_find (fun m => m <> uid (home st)) (Chat.members chat) with
  | None => st
  | Some (_, callee) =>
      if bool_decide (callee = EmptyString) then st
      else
        let '(_, db') := Store.setCall (new_call (uid (home st)) chat type newId callee) (db st) in
        push (InitiateAwait newId) (mkSt (home st) db')
  end.

(** ** The listener of ringing calls (lines 222-245) *)

Inductive change_type := Added | Modified | Removed.

(** [snapshot.docChanges()] between two results: removals, then additions,
    then modifications, each in the query's order. *)
Definition doc_changes (old new : list (string * Call.t)) : list (change_type * Call.t) :=
  map (fun p => (Removed, p.2)) (filter (fun p => p.1 ∉ map fst new) old) ++
  map (fun p => (Added, p.2)) (filter (fun p => p.1 ∉ map fst old) new) ++
  map (fun p => (Modified, p.2))
      (filter (fun p => p.1 ∈ map fst old /\ (p.1, p.2) ∉ old) new).

(** The query's current result, with the documents. *)
Definition ringing_docs (me : string) (s : Store.t) : list (string * Call.t) :=
  omap (fun id => (fun c => (id, c)) <$> Store.getCall id s) (Store.ringing_for me s).

(** A snapshot of the query: only a first change that is an addition
    counts, and its caller's profile is fetched. *)
Definition incoming_snapshot (st : St) : St :=
  let h := home st in
  let now := ringing_docs (uid h) (db st) in
  let changes := doc_changes (inc_seen h) now in
  let st' := set_home (set_listener now (inc_sub h)) st in
  match changes with
  | (Added, c) :: _ => push (IncomingFetch c (inc_sub h)) st'
  | _ => st'
  end.

(** ** The listener of the active call (lines 248-260) *)

Definition active_snapshot (st : St) : St :=
  match activeCall (home st) with
  | Some a =>
      match Store.getCall (Call.id a) (db st) with
      | Some d => if is_live (Call.status d) then set_home (set_active (Some d)) st
                  else set_home (set_active None) st
      | None => set_home (set_active None) st
      end
  | None => st
  end.

(** ** Suspended handlers *)

(** What a suspended handler does when its promise settles. *)
Definition resume (tk : task) (st : St) : St :=
  match tk with
  | EndRead c d =>
      let snap := Store.getCall (Call.id c) (db st) in
      send_op (end_ops (uid (home st)) c d snap) 0 (EndAwait c d snap) end_fin st
  | EndAwait c d snap n => send_op (end_ops (uid (home st)) c d snap) n (EndAwait c d snap) end_fin st
  | AcceptAwait c => push (AcceptChat c) (set_home (set_active (Some c)) st)
  | AcceptChat c =>
      match Store.chats (db st) !! Call.chatId c with
      | Some ch =>
          (** [chatData.members.find(m => m !== user?.uid)], then [if (otherUserId)] *)
          match list_find (fun m => m <> uid (home st)) (Chat.members ch) with
          | Some (_, other) =>
              if bool_decide (other = EmptyString)
              then action_fin (set_home (set_selected (Some (Call.chatId c))) st)
              else push (AcceptUser c) st
          | None => action_fin (set_home (set_selected (Some (Call.chatId c))) st)
          end
      | None => action_fin st
      end
  | AcceptUser c =>
      (** the contact's name and avatar, not modelled, go into [selectedChat] *)
      action_fin (set_home (set_selected (Some (Call.chatId c))) st)
  | DeclineAwait c n => send_op (call_message_ops c OutcomeMissed None) n (DeclineAwait c) action_fin st
  | InitiateAwait id => push (InitiateRead id) st
  | InitiateRead id => set_home (set_active (Store.getCall id (db st))) st
  | IncomingFetch c seen =>
      if bool_decide (is_Some (Store.users (db st) !! Call.callerId c))
         && bool_decide (seen <> Some (Call.id c))
      then set_home (set_incoming (Some c)) st
      else st
  end.

(** The promise of the [i]-th suspended handler settles. *)
Definition run_task (i : nat) (st : St) : St :=
  match tasks (home st) !! i with
  | None => st
  | Some tk => resume tk (mkSt (set_tasks (delete i (tasks (home st))) (home st)) (db st))
  end.

(** ** Effects and render *)

(** [onEndCall] calls the screen made since the last step start
    [handleEndCall] with the call the screen was rendered with. *)
Definition collect_ends (st : St) : St :=
  let h := home st in
  match screen h, screen_call h with
  | Some v, Some c =>
      let new := drop (ends_taken h) (CallView.end_calls v) in
      let st' := foldl (fun st0 d => handleEndCall c d st0) st new in
      set_home (fun h' => set_screen (screen h') (screen_call h')
                            (length (CallView.end_calls v)) (tracks h') h') st'
  | _, _ => st
  end.

(** The ringing-call effect depends on [incomingCall?.id]: when it changed,
    the listener is replaced and its next snapshot starts afresh. *)
Definition resubscribe (st : St) : St :=
  let h := home st in
  let id := Call.id <$> incomingCall h in
  if bool_decide (id = inc_sub h) then st else set_home (set_listener [] id) st.

(** The render of lines 541-549: the screen is mounted while [activeCall]
    and [selectedChat] are set, and unmounted otherwise; an unmounted
    screen leaves its [getUserMedia] request behind if it had not
    settled. *)
Definition render (st : St) : St :=
  let h := home st in
  match screen h, activeCall h, selectedChat h with
  | None, Some a, Some _ =>
      let cst := CallView.mount (uid h) a (tracks h) (db st) in
      mkSt (set_screen (Some (CallView.view cst)) (Some a) 0 (CallView.tracks cst) h)
           (CallView.db cst)
  | Some v, None, _ | Some v, _, None =>
      let cst := CallView.unmount (CallView.mkSt v (tracks h) (db st)) in
      let str := if CallView.media_state v is CallView.MediaPending
                 then stray h ++ [Call.type (CallView.call v)] else stray h in
      mkSt (set_media_env (CallView.tracks cst) (next_track h) str
              (set_screen None None 0 (CallView.tracks cst) h)) (CallView.db cst)
  | _, _, _ => st
  end.

Definition settle (st : St) : St := render (resubscribe (collect_ends st)).

(** An event of the mounted screen. *)
Definition screen_event (e : CallView.event) (st : St) : St :=
  let h := home st in
  match screen h with
  | Some v =>
      let cst := CallView.handle e (CallView.mkSt v (tracks h) (db st)) in
      mkSt (set_screen (Some (CallView.view cst)) (screen_call h) (ends_taken h)
              (CallView.tracks cst) h) (CallView.db cst)
  | None => st
  end.

(** [getUserMedia] granting live, enabled tracks: a microphone, and a
    camera for a video call. *)
Definition new_tracks (type : media) (nt : nat) (ts : Tracks) : list nat * Tracks :=
  let mic := {| Track.kind := Audio; Track.enabled := true; Track.live := true |} in
  let cam := {| Track.kind := Video; Track.enabled := true; Track.live := true |} in
  match type with
  | Audio => ([nt], <[nt := mic]> ts)
  | Video => ([nt; S nt], <[S nt := cam]> (<[nt := mic]> ts))
  end.

Definition track_count (type : media) : nat := if type is Video then 2 else 1.

(** The screen's [getUserMedia] resolving. *)
Definition media_resolved (st : St) : St :=
  let h := home st in
  match screen h with
  | Some v =>
      let '(ids, ts) := new_tracks (Call.type (CallView.call v)) (next_track h) (tracks h) in
      let h' := set_media_env ts (next_track h + track_count (Call.type (CallView.call v))) (stray h) h in
      screen_event (CallView.EvMediaGranted ids) (mkSt h' (db st))
  | None => st
  end.

(** A request of an unmounted screen resolving: its tracks are live and
    nothing will stop them. *)
Definition stray_resolved (st : St) : St :=
  let h := home st in
  match stray h with
  | type :: rest =>
      let '(_, ts) := new_tracks type (next_track h) (tracks h) in
      set_home (set_media_env ts (next_track h + track_count type) rest) st
  | [] => st
  end.

(** The page before any call. *)
Definition init (me : string) (chat : option string) : t := {|
  uid := me; incomingCall := None; activeCall := None; selectedChat := chat;
  inc_seen := []; inc_sub := None; tasks := []; screen := None; screen_call := None;
  ends_taken := 0; tracks := ∅; next_track := 0; stray := [] |}.

(** ** The call log and the end of a call *)

(** The message [createCallMessage] stores at server time [now]. *)
Definition log_entry (c : Call.t) (o : outcome) (d now : Z) : Message.t := {|
  Message.senderId := Call.callerId c; Message.text := None; Message.timestamp := now;
  Message.type := MsgCall; Message.attachmentUrl := None;
  Message.callInfo := Some {| CallInfo.type := Call.type c; CallInfo.status := o;
                              CallInfo.duration := d |};
  Message.fileName := None; Message.fileSize := None |}.

(** ** Writes run back to back *)

Lemma se_then_ret {S} (c : SE S unit) s : (c;; mret tt) s = c s.
Proof. unfold mbind, se_mbind, se_bind. by destruct (c s) as [[[]|e] s']. Qed.

Lemma exec_ops_app l1 l2 s :
  exec_ops (l1 ++ l2) s = (exec_ops l1;; exec_ops l2) s.
Proof.
  revert s. induction l1 as [|o l1 IH]; intros s; simpl; unfold mbind, se_mbind, se_bind; [done|].
  destruct (exec_op o s) as [[u|e] s1]; [|done]. rewrite IH. unfold mbind, se_mbind, se_bind.
  by destruct (exec_ops l1 s1) as [[[]|e] s2].
Qed.

Lemma exec_ops_one o s : exec_ops [o] s = exec_op o s.
Proof. apply se_then_ret. Qed.

Lemma exec_ops_cons_ok o l s s1 :
  exec_op o s = (Ok tt, s1) -> exec_ops (o :: l) s = exec_ops l s1.
Proof. intros H. simpl. unfold mbind, se_mbind, se_bind. by rewrite H. Qed.

Lemma exec_ops_cons_err o l s e s1 :
  exec_op o s = (Err e, s1) -> exec_ops (o :: l) s = (Err e, s1).
Proof. intros H. simpl. unfold mbind, se_mbind, se_bind. by rewrite H. Qed.

Lemma createCallMessage_post c o d s :
  createCallMessage c o d s =
    (Store.addMessage (Call.chatId c) {|
       Message.senderId := Call.callerId c; Message.text := None; Message.timestamp := 0;
       Message.type := MsgCall; Message.attachmentUrl := None;
       Message.callInfo := Some {| CallInfo.type := Call.type c; CallInfo.status := o;
                                   CallInfo.duration := default 0%Z d |};
       Message.fileName := None; Message.fileSize := None |};;
     Store.updateChat (Call.chatId c)
       (chat_summary (if o is OutcomeMissed then "Missed call" else "Call ended") (Call.callerId c))) s.
Proof.
  unfold createCallMessage, call_message_ops. simpl exec_ops. unfold mbind at 1 3, se_mbind, se_bind.
  destruct (Store.addMessage _ _ s) as [[u|e] s1]; [|done]. apply se_then_ret.
Qed.

(** ** Suspended handlers run with nothing in between *)

(** The handler just suspended, the last of the queue, resuming. *)
Lemma run_task_push tk st : run_task (length (tasks (home st))) (push tk st) = resume tk st.
Proof.
  unfold run_task, push. simpl. rewrite snoc_lookup. simpl. rewrite snoc_delete.
  by destruct st as [[] s].
Qed.

Lemma run_task_push_mk tk h s : run_task (length (tasks h)) (push tk (mkSt h s)) = resume tk (mkSt h s).
Proof. apply (run_task_push tk (mkSt h s)). Qed.

(** Resuming the task at position [i], [j] times. *)
Fixpoint run_at (i j : nat) (st : St) : St :=
  match j with
  | O => st
  | S j' => run_at i j' (run_task i st)
  end.

Lemma run_at_S i j st : run_at i (S j) st = run_at i j (run_task i st).
Proof. done. Qed.

Lemma run_at_none i j st : tasks (home st) !! i = None -> run_at i j st = st.
Proof. intros H. induction j as [|j IH]; simpl; [done|]. unfold run_task at 1. by rewrite H. Qed.

(** A handler sending [ops] from position [n], each resumption following
    the previous one with nothing in between, sends [drop n ops] back to
    back: it ends with [fin] when every write succeeds, and at the first
    rejection otherwise. *)
Lemma send_op_run ops n k fin h s :
  (forall m s', resume (k m) (mkSt h s') = send_op ops m k fin (mkSt h s')) ->
  run_at (length (tasks h)) (length ops - n) (send_op ops n k fin (mkSt h s)) =
    match exec_ops (drop n ops) s with
    | (Ok _, s') => fin (mkSt h s')
    | (Err _, s') => mkSt h s'
    end.
Proof.
  intros Hk. remember (length ops - n) as j eqn:Hj. revert n s Hj.
  induction j as [|j IH]; intros n s Hj; simpl.
  - rewrite drop_ge by lia. unfold send_op. rewrite lookup_ge_None_2 by lia. done.
  - unfold send_op at 1. destruct (ops !! n) as [o|] eqn:Ho; [|apply lookup_ge_None in Ho; lia].
    rewrite (drop_S _ _ _ Ho). cbn [db home]. destruct (exec_op o s) as [[[]|e] s1] eqn:E.
    + rewrite (exec_ops_cons_ok _ _ _ _ E), run_task_push_mk, Hk, (IH (S n)) by lia. done.
    + rewrite (exec_ops_cons_err _ _ _ _ _ E).
      change (run_at (length (tasks h)) (S j) (mkSt h s1) = mkSt h s1).
      apply run_at_none. simpl. apply lookup_ge_None_2. lia.
Qed.

(** [handleEndCall] resumed at each of its awaits with nothing in
    between: its read, then [end_writes] on what it read, then
    [setActiveCall(null)] unless a write rejected. *)
Lemma handleEndCall_run c d st :
  let snap := Store.getCall (Call.id c) (db st) in
  run_at (length (tasks (home st))) (S (length (end_ops (uid (home st)) c d snap))) (handleEndCall c d st) =
    match end_writes (uid (home st)) c d snap (db st) with
    | (Ok _, s') => end_fin (mkSt (home st) s')
    | (Err _, s') => mkSt (home st) s'
    end.
Proof.
  cbv zeta. rewrite run_at_S. unfold handleEndCall. rewrite run_task_push. cbn [resume].
  rewrite <-(Nat.sub_0_r (length (end_ops (uid (home st)) c d (Store.getCall (Call.id c) (db st))))).
  destruct st as [h s0]. cbn [home db]. rewrite send_op_run by done. by rewrite drop_0.
Qed.

(** With the chat present, [createCallMessage] appends exactly the entry to
    the chat's messages, updates its summary, and touches nothing else. *)
Lemma createCallMessage_ok c o d s ch :
  Store.chats s !! Call.chatId c = Some ch ->
  exists s', createCallMessage c o d s = (Ok tt, s') /\
    Store.chat_messages (Call.chatId c) s' =
      Store.chat_messages (Call.chatId c) s ++ [log_entry c o (default 0%Z d) (Store.clock s)] /\
    (forall k, k <> Call.chatId c -> Store.chat_messages k s' = Store.chat_messages k s) /\
    Store.calls s' = Store.calls s /\ Store.clock s' = Store.clock s /\
    Store.journal s' = Store.journal s ++
      [WMessage (Call.chatId c) (log_entry c o (default 0%Z d) (Store.clock s)); WChatUpdate (Call.chatId c)] /\
    is_Some (Store.chats s' !! Call.chatId c).
Proof.
  intros Hch. destruct (Store.post_message (Call.chatId c)
    {| Message.senderId := Call.callerId c; Message.text := None; Message.timestamp := 0;
       Message.type := MsgCall; Message.attachmentUrl := None;
       Message.callInfo := Some {| CallInfo.type := Call.type c; CallInfo.status := o;
                                   CallInfo.duration := default 0%Z d |};
       Message.fileName := None; Message.fileSize := None |}
    (chat_summary (if o is OutcomeMissed then "Missed call" else "Call ended") (Call.callerId c))
    s ch Hch) as (s' & E & Hm & Hk & Hchs & Hc & _ & Ht & Hj).
  exists s'. rewrite createCallMessage_post. split_and!; try done.
  rewrite Hchs, lookup_insert_eq. by eexists.
Qed.

(** The final status write after writes that succeeded. *)
Lemma end_tail_ok pre c s s1 cc :
  exec_ops pre s = (Ok tt, s1) -> Store.calls s1 !! Call.id c = Some cc ->
  (exec_ops pre;; exec_ops [OpUpdateCall (Call.id c) PatchEnd]) s =
    (Ok tt, Store.with_calls (<[Call.id c := Store.apply_patch (Store.clock s1) PatchEnd cc]> (Store.calls s1))
              (WCallUpdate (Call.id c) PatchEnd) s1).
Proof.
  intros E Hc. unfold mbind at 1, se_mbind, se_bind. rewrite E, exec_ops_one.
  by apply Store.updateCall_present.
Qed.

(** The outcome the caller logs for a call read with [status] and a
    reported duration [d]: [missed] for a call still ringing, [ended] with
    [d] seconds for a positive duration, nothing otherwise. *)
Definition expected_log (status : call_status) (d : Z) : option (outcome * Z) :=
  if bool_decide (status = Ringing) then Some (OutcomeMissed, 0%Z)
  else if bool_decide (0 < d)%Z then Some (OutcomeEnded, d) else None.

(** The entries [handleEndCall] appends, on page [me], after reading [doc]. *)
Definition end_entries (me : string) (c doc : Call.t) (d now : Z) : list Message.t :=
  if bool_decide (Call.callerId doc = me) then
    match expected_log (Call.status doc) d with
    | Some (o, d') => [log_entry c o d' now]
    | None => []
    end
  else [].

(** [handleEndCall]'s writes after reading a call that is not [ended],
    its chat and document present: they succeed, append [end_entries],
    end the call at the server time, keep the chat and the clock. *)
Lemma end_writes_ok me c d doc s ch cc :
  Call.status doc <> Ended ->
  Store.chats s !! Call.chatId c = Some ch -> Store.calls s !! Call.id c = Some cc ->
  exists s', end_writes me c d (Some doc) s = (Ok tt, s') /\
    Store.chat_messages (Call.chatId c) s' =
      Store.chat_messages (Call.chatId c) s ++ end_entries me c doc d (Store.clock s) /\
    Store.calls s' = <[Call.id c := Store.apply_patch (Store.clock s) PatchEnd cc]> (Store.calls s) /\
    is_Some (Store.chats s' !! Call.chatId c) /\ Store.clock s' = Store.clock s.
Proof.
  intros Hst Hch Hc. unfold end_writes, end_ops, end_entries, expected_log. rewrite bool_decide_true by done.
  cbv zeta. rewrite exec_ops_app.
  destruct (bool_decide (Call.callerId doc = me));
    [destruct (bool_decide (Call.status doc = Ringing)); [|destruct (bool_decide (0 < d)%Z)]|].
  1: destruct (createCallMessage_ok c OutcomeMissed None s ch Hch) as (s1 & E & Hm & _ & Hcs & Hk & _ & Hch1).
  2: destruct (createCallMessage_ok c OutcomeEnded (Some d) s ch Hch) as (s1 & E & Hm & _ & Hcs & Hk & _ & Hch1).
  1,2: eexists; rewrite (end_tail_ok _ _ _ _ cc E) by (by rewrite Hcs);
       split_and!; [done|exact Hm|simpl; by rewrite Hcs, Hk|exact Hch1|done].
  all: eexists; rewrite (end_tail_ok [] c s s cc) by done;
       split_and!; [done|by rewrite app_nil_r|done|simpl; by rewrite Hch|done].
Qed.

(** C10: [handleEndCall] after a read of a call that is not [ended]: on the
    caller's page it appends exactly the expected call-log entry ([missed]
    for a ringing call, [ended] with the duration for a positive one, none
    otherwise); on the callee's page it appends none; in every case it
    then sets the call to [ended] at the server time, and the result is a
    success. *)
Theorem end_writes_spec me c d doc s ch cc :
  Call.status doc <> Ended ->
  Store.chats s !! Call.chatId c = Some ch -> Store.calls s !! Call.id c = Some cc ->
  exists s', end_writes me c d (Some doc) s = (Ok tt, s') /\
    Store.chat_messages (Call.chatId c) s' =
      Store.chat_messages (Call.chatId c) s ++
        (if bool_decide (Call.callerId doc = me) then
           match expected_log (Call.status doc) d with
           | Some (o, d') => [log_entry c o d' (Store.clock s)]
           | None => []
           end
         else []) /\
    Store.calls s' !! Call.id c = Some (Store.apply_patch (Store.clock s) PatchEnd cc).
Proof.
  intros Hst Hch Hc. destruct (end_writes_ok me c d doc s ch cc Hst Hch Hc) as (s' & E & Hm & Hcs & _).
  exists s'. split_and!; [exact E|exact Hm|]. by rewrite Hcs, lookup_insert_eq.
Qed.

(** [handleEndCall] writes nothing when the call is gone or already
    [ended]: neither a call-log entry nor the final status. *)
Theorem end_writes_over me c d snap s :
  (forall doc, snap = Some doc -> Call.status doc = Ended) ->
  end_writes me c d snap s = (Ok tt, s).
Proof.
  intros H. unfold end_writes, end_ops. destruct snap as [doc|]; [|done].
  by rewrite bool_decide_false by (rewrite (H doc); auto).
Qed.

(** ** Accept, decline, initiate *)

(** accepting writes [connected] over whatever status the call has
    (also [ended] or [declined]); once the write is done the call as the
    dialog got it is the active call, and the chat is read next; on a call
    that is gone it fails and nothing changes. *)
Theorem accept_unguarded c st doc :
  Store.calls (db st) !! Call.id c = Some doc ->
  let st1 := run_at (length (tasks (home st))) 1 (accept c st) in
  Call.status <$> Store.calls (db (accept c st)) !! Call.id c = Some Connected /\
  db st1 = db (accept c st) /\ activeCall (home st1) = Some c /\
  last (tasks (home st1)) = Some (AcceptChat c).
Proof.
  intros H. unfold accept. rewrite (Store.updateCall_present _ _ _ doc) by done. cbv zeta.
  simpl run_at. rewrite run_task_push_mk. simpl. rewrite lookup_insert_eq.
  split_and!; [done..|]. by rewrite last_snoc.
Qed.

Lemma accept_missing c st : Store.calls (db st) !! Call.id c = None -> accept c st = st.
Proof. intros H. unfold accept. rewrite Store.updateCall_missing by done. by destruct st. Qed.

(** declining a stored call of a chat that exists, and then running
    the suspended rest of the handler (its two writes and the end), sets
    the call to [declined], appends one [missed] call-log entry in the
    caller's name, and closes the dialog. *)
Theorem decline_logs_missed c st doc ch :
  Store.calls (db st) !! Call.id c = Some doc -> Store.chats (db st) !! Call.chatId c = Some ch ->
  let st' := run_at (length (tasks (home st))) 3 (decline c st) in
  Call.status <$> Store.calls (db st') !! Call.id c = Some Declined /\
  Store.chat_messages (Call.chatId c) (db st') =
    Store.chat_messages (Call.chatId c) (db st) ++
      [log_entry c OutcomeMissed 0 (Store.clock (db st))] /\
  incomingCall (home st') = None /\ tasks (home st') = tasks (home st) /\
  is_Some (Store.chats (db st') !! Call.chatId c) /\ Store.clock (db st') = Store.clock (db st).
Proof.
  intros Hc Hch. unfold decline. rewrite (Store.updateCall_present _ _ _ doc) by done. cbv zeta.
  set (s1 := Store.with_calls _ _ (db st)).
  rewrite run_at_S, run_task_push_mk. simpl resume.
  pose proof (send_op_run (call_message_ops c OutcomeMissed None) 0 (DeclineAwait c) action_fin
                (home st) s1 ltac:(done)) as R.
  change (length (call_message_ops c OutcomeMissed None) - 0) with 2 in R.
  cbn [home db drop] in R. rewrite R.
  destruct (createCallMessage_ok c OutcomeMissed None s1 ch Hch) as (s2 & E & Hm & _ & Hcs & Hk & _ & Hch2).
  unfold createCallMessage in E. rewrite drop_0, E. simpl. rewrite Hcs. unfold s1, Store.with_calls. simpl.
  rewrite lookup_insert_eq. split_and!; [done|exact Hm|done|done|exact Hch2|exact Hk].
Qed.

(** initiating a call in a chat that has a member other than the user
    creates the call document for that member (the first one, as
    [members.find] returns, when it is not empty): [ringing], from the
    user, with the two as its members, the chat's id, the media asked for
    and the server time; once the write and the read that follows have
    completed, that document is the active call. *)
Theorem initiate_creates_ringing chat type newId st j callee :
  list_find (fun m => m <> uid (home st)) (Chat.members chat) = Some (j, callee) -> callee <> EmptyString ->
  let st' := run_at (length (tasks (home st))) 2 (handleInitiateCall chat type newId st) in
  exists c, Store.getCall newId (db st') = Some c /\ activeCall (home st') = Some c /\
    Call.id c = newId /\ Call.status c = Ringing /\
    Call.callerId c = uid (home st) /\ Call.calleeId c = callee /\
    Call.members c = [uid (home st); callee] /\ Call.chatId c = Chat.id chat /\
    Call.type c = type /\ Call.createdAt c = Store.clock (db st).
Proof.
  intros Hf He. unfold handleInitiateCall. rewrite Hf, bool_decide_false by done. cbv zeta.
  simpl run_at. rewrite run_task_push_mk. simpl resume. rewrite run_task_push_mk. simpl. unfold Store.getCall. simpl. rewrite lookup_insert_eq.
  eexists. split; [done|]. split; [done|]. by repeat split.
Qed.

Lemma initiate_no_callee chat type newId st :
  list_find (fun m => m <> uid (home st)) (Chat.members chat) = None ->
  handleInitiateCall chat type newId st = st.
Proof. intros Hf. unfold handleInitiateCall. by rewrite Hf. Qed.

(** ** Concrete pages *)

Definition chat0 : Chat.t := {|
  Chat.id := "alice_bob"; Chat.type := Direct; Chat.members := ["alice"; "bob"];
  Chat.unreadCount := 0; Chat.lastMessage := "Chat created"; Chat.lastMessageTimestamp := 0;
  Chat.lastMessageSenderId := "alice"; Chat.muted := false |}.

(** A store holding the chat and the call [c], at time 1000. *)
Definition db_with (c : Call.t) : Store.t := {|
  Store.calls := {[ Call.id c := c ]}; Store.callerCandidates := ∅; Store.calleeCandidates := ∅;
  Store.chats := {[ "alice_bob" := chat0 ]}; Store.messages := ∅; Store.users := ∅;
  Store.friendRequests := ∅; Store.clock := 1000; Store.journal := [] |}.

Definition call_ended : Call.t := Store.apply_patch 500 PatchEnd CallView.call0.

Lemma end_writes_spec_witness :
  exists s', end_writes "alice" CallView.call0 42 (Some CallView.call0) (db_with CallView.call0) = (Ok tt, s') /\
    Store.chat_messages (Call.chatId CallView.call0) s' =
      Store.chat_messages (Call.chatId CallView.call0) (db_with CallView.call0) ++
        (if bool_decide (Call.callerId CallView.call0 = "alice") then
           match expected_log (Call.status CallView.call0) 42 with
           | Some (o, d') => [log_entry CallView.call0 o d' (Store.clock (db_with CallView.call0))]
           | None => []
           end
         else []) /\
    Store.calls s' !! Call.id CallView.call0 =
      Some (Store.apply_patch (Store.clock (db_with CallView.call0)) PatchEnd CallView.call0).
Proof. apply (end_writes_spec _ _ _ _ _ chat0 CallView.call0); [discriminate|reflexivity|reflexivity]. Defined.

Lemma end_writes_over_witness :
  end_writes "bob" CallView.call0 42 (Some call_ended) (db_with call_ended) = (Ok tt, db_with call_ended).
Proof. apply end_writes_over. intros doc [= <-]. reflexivity. Defined.

Lemma accept_unguarded_witness :
  let st := mkSt (init "bob" None) (db_with call_ended) in
  let st1 := run_at (length (tasks (home st))) 1 (accept CallView.call0 st) in
  Call.status <$> Store.calls (db (accept CallView.call0 st)) !! Call.id CallView.call0 = Some Connected /\
  db st1 = db (accept CallView.call0 st) /\ activeCall (home st1) = Some CallView.call0 /\
  last (tasks (home st1)) = Some (AcceptChat CallView.call0).
Proof. apply (accept_unguarded _ _ call_ended). reflexivity. Defined.

Lemma decline_logs_missed_witness :
  let st := mkSt (init "bob" None) (db_with CallView.call0) in
  let st' := run_at (length (tasks (home st))) 3 (decline CallView.call0 st) in
  Call.status <$> Store.calls (db st') !! Call.id CallView.call0 = Some Declined /\
  Store.chat_messages (Call.chatId CallView.call0) (db st') =
    Store.chat_messages (Call.chatId CallView.call0) (db st) ++
      [log_entry CallView.call0 OutcomeMissed 0 (Store.clock (db st))] /\
  incomingCall (home st') = None /\ tasks (home st') = tasks (home st) /\
  is_Some (Store.chats (db st') !! Call.chatId CallView.call0) /\ Store.clock (db st') = Store.clock (db st).
Proof. apply (decline_logs_missed _ _ CallView.call0 chat0); reflexivity. Defined.

Lemma initiate_creates_ringing_witness :
  let st := mkSt (init "alice" (Some "alice_bob")) (db_with call_ended) in
  let st' := run_at (length (tasks (home st))) 2 (handleInitiateCall chat0 Audio "call2" st) in
  exists c, Store.getCall "call2" (db st') = Some c /\ activeCall (home st') = Some c /\
    Call.id c = "call2" /\ Call.status c = Ringing /\
    Call.callerId c = uid (home st) /\ Call.calleeId c = "bob" /\
    Call.members c = [uid (home st); "bob"] /\ Call.chatId c = Chat.id chat0 /\
    Call.type c = Audio /\ Call.createdAt c = Store.clock (db st).
Proof. apply (initiate_creates_ringing _ _ _ _ 1); [vm_compute; reflexivity|discriminate]. Defined.

End Home.
