(* ===== verification/ChatView.v ===== *)
(** * The chat screen: [src/src/components/chat-view.tsx]

    The pure helpers of the file ([formatCallDuration], [getFileType], the
    text [MessageItem] shows for a call-log entry, [String.prototype.trim])
    and the component [ChatView]: its state, and each handler that writes
    to the store or changes the state ([handleSendMessage],
    [handleSendAttachment], [handleFileSelect], [handleClosePreview],
    [startRecording], [handleVoiceMessageSent], [handleMuteToggle],
    [handleClearChat], [handleDeleteChat], [handleBlockUser],
    [handleConfirmAction]).  A file upload is the environment's: its
    outcome (a download URL or a failure) is an argument of the handler.
    [handleClearChat] is cut at its [getDocs] so that writes of other
    clients can come between the read and the batch. *)

From S2P Require Import Prelude Data Store CallView Home.
From stdpp Require Import pretty.

Module ChatView.

(** ** Strings *)

(** A string given by its bytes: the non-ASCII literals of the source, as
    they are stored in the file. *)
Definition bytes (l : list nat) : string :=
  fold_right (fun n s => String (Ascii.ascii_of_nat n) s) EmptyString l.

(** The separator of line 166: the bytes the file holds there, a bullet
    encoded twice. *)
Definition bullet : string := bytes [195; 162; 226; 130; 172; 194; 162].

(** The icons of lines 522-524, as the file stores them. *)
Definition image_icon : string := bytes [195; 176; 197; 184; 226; 128; 156; 194; 183].
Definition video_icon : string := bytes [195; 176; 197; 184; 226; 128; 156; 194; 185].
Definition document_icon : string := bytes [195; 176; 197; 184; 226; 128; 156; 226; 128; 158].

(** The characters [trim] removes (the ASCII ones: tab, line feed,
    vertical tab, form feed, carriage return, space). *)
Definition is_ws (c : Ascii.ascii) : bool :=
  match Ascii.nat_of_ascii c with
  | 9 | 10 | 11 | 12 | 13 | 32 => true
  | _ => false
  end.

Fixpoint trim_start (s : string) : string :=
  match s with
  | EmptyString => EmptyString
  | String c s' => if is_ws c then trim_start s' else s
  end.

Fixpoint trim_end (s : string) : string :=
  match s with
  | EmptyString => EmptyString
  | String c s' =>
      let r := trim_end s' in
      if is_ws c && bool_decide (r = EmptyString) then EmptyString else String c r
  end.

(** [s.trim()]. *)
Definition trim (s : string) : string := trim_end (trim_start s).

(** [`${n}`] for an integer: its decimal digits, with a minus sign. *)
Definition show_Z (n : Z) : string :=
  match n with
  | Z0 => "0"
  | Zpos p => pretty (Npos p)
  | Zneg p => "-" +:+ pretty (Npos p)
  end.

(** [formatCallDuration(seconds)] (lines 65-70). *)
Definition formatCallDuration (seconds : Z) : string :=
  if bool_decide (seconds < 60)%Z then show_Z seconds +:+ "s"
  else show_Z (seconds `div` 60) +:+ "m " +:+ show_Z (seconds `mod` 60) +:+ "s".

(** A file the user picked: [name], MIME [type], [size]. *)
Record file := { name : string; mime : string; size : Z }.

(** [getFileType(file)] (lines 373-377). *)
Definition getFileType (f : file) : message_type :=
  if String.prefix "image/" (mime f) then MsgImage
  else if String.prefix "video/" (mime f) then MsgVideo
  else MsgDocument.

(** The text [MessageItem] shows for a call-log entry (lines 163-174), to
    the user [isMe] says whether they sent it. *)
Definition call_text (isMe : bool) (info : CallInfo.t) : string :=
  let isVideo := bool_decide (CallInfo.type info = Video) in
  let durationText := if bool_decide (CallInfo.duration info = 0)%Z then ""
                      else " " +:+ bullet +:+ " " +:+ formatCallDuration (CallInfo.duration info) in
  if bool_decide (CallInfo.status info = OutcomeMissed) then
    (if isMe then "You missed a " else "Missed ") +:+ (if isVideo then "video " else "") +:+ "call"
  else (if isVideo then "Video call ended" else "Call ended") +:+ durationText.

(** What [MessageItem] shows for a message to [viewer]: the call text of a
    call-log entry, [None] for the other kinds (rendered as bubbles). *)
Definition message_call_text (viewer : string) (m : Message.t) : option string :=
  match Message.type m, Message.callInfo m with
  | MsgCall, Some info => Some (call_text (bool_decide (Message.senderId m = viewer)) info)
  | _, _ => None
  end.

(** ** The component *)

Inductive dialog_action := DClear | DBlock | DDelete.

#[export] Instance dialog_action_eq_dec : EqDecision dialog_action.
Proof. solve_decision. Defined.

Record t := {
  uid : string;                          (** [user.uid] *)
  chat : Chat.t;                         (** the [chat] prop *)
  blockedUsers : option (list string);   (** [userProfile?.blockedUsers] *)
  inputText : string;
  isSending : bool;
  uploadProgress : Z;
  dialogAction : option dialog_action;
  attachment : option file;
  isRecording : bool;
  exited : bool;                         (** [onExitChat()] was called *)
  clearing : list (list nat)             (** [handleClearChat]s suspended after [getDocs]:
                                             the ids of the messages each read *)
}.

Record St := mkSt { view : t; db : Store.t }.

Definition mk (v : t) input sending progress action att recording ex cl : t := {|
  uid := uid v; chat := chat v; blockedUsers := blockedUsers v; inputText := input;
  isSending := sending; uploadProgress := progress; dialogAction := action;
  attachment := att; isRecording := recording; exited := ex; clearing := cl |}.

Definition set_input s v := mk v s (isSending v) (uploadProgress v) (dialogAction v) (attachment v) (isRecording v) (exited v) (clearing v).
Definition set_sending b v := mk v (inputText v) b (uploadProgress v) (dialogAction v) (attachment v) (isRecording v) (exited v) (clearing v).
Definition set_progress p v := mk v (inputText v) (isSending v) p (dialogAction v) (attachment v) (isRecording v) (exited v) (clearing v).
Definition set_dialog a v := mk v (inputText v) (isSending v) (uploadProgress v) a (attachment v) (isRecording v) (exited v) (clearing v).
Definition set_attachment a v := mk v (inputText v) (isSending v) (uploadProgress v) (dialogAction v) a (isRecording v) (exited v) (clearing v).
Definition set_recording b v := mk v (inputText v) (isSending v) (uploadProgress v) (dialogAction v) (attachment v) b (exited v) (clearing v).
Definition set_exited v := mk v (inputText v) (isSending v) (uploadProgress v) (dialogAction v) (attachment v) (isRecording v) true (clearing v).
Definition set_clearing l v := mk v (inputText v) (isSending v) (uploadProgress v) (dialogAction v) (attachment v) (isRecording v) (exited v) l.

(** [chat.members.find(m => m !== user?.uid)] (line 396). *)
Definition otherUserId (v : t) : option string :=
  snd <$> list_find (fun m => m <> uid v) (Chat.members (chat v)).

(** [userProfile?.blockedUsers?.includes(otherUserId || '')] (line 397). *)
Definition isBlocked (v : t) : bool :=
  match blockedUsers v with
  | Some l => bool_decide (default "" (otherUserId v) ∈ l)
  | None => false
  end.

(** The chat's summary after a message of [sender]. *)
Definition summary (text sender : string) (now : Z) (c : Chat.t) : Chat.t := {|
  Chat.id := Chat.id c; Chat.type := Chat.type c; Chat.members := Chat.members c;
  Chat.unreadCount := Chat.unreadCount c; Chat.lastMessage := text;
  Chat.lastMessageTimestamp := now; Chat.lastMessageSenderId := sender;
  Chat.muted := Chat.muted c |}.

(** The text message [handleSendMessage] stores. *)
Definition text_message (sender text : string) : Message.t := {|
  Message.senderId := sender; Message.text := Some text; Message.timestamp := 0;
  Message.type := MsgText; Message.attachmentUrl := None; Message.callInfo := None;
  Message.fileName := None; Message.fileSize := None |}.

(** [handleSendMessage] (lines 441-473): the guard, the message, the
    chat's summary; whatever the outcome, the input is cleared. *)
Definition handleSendMessage (st : St) : St :=
  let v := view st in
  let text := trim (inputText v) in
  if isBlocked v || isSending v || bool_decide (text = EmptyString) then st
  else
    let '(_, db') := (Store.addMessage (Chat.id (chat v)) (text_message (uid v) text);;
                      Store.updateChat (Chat.id (chat v)) (summary text (uid v))) (db st) in
    mkSt (set_input EmptyString (set_sending false v)) db'.

(** The summary line of an attachment (lines 520-525). *)
Definition attachment_summary (type : message_type) (f : file) (caption : string) : string :=
  if bool_decide (caption = EmptyString) then
    match type with
    | MsgImage => image_icon +:+ " Image"
    | MsgVideo => video_icon +:+ " Video"
    | MsgDocument => document_icon +:+ " " +:+ name f
    | _ => EmptyString
    end
  else caption.

Definition attachment_message (sender caption url : string) (f : file) : Message.t := {|
  Message.senderId := sender; Message.text := Some caption; Message.timestamp := 0;
  Message.type := getFileType f; Message.attachmentUrl := Some url; Message.callInfo := None;
  Message.fileName := Some (name f); Message.fileSize := Some (size f) |}.

(** [handleSendAttachment(file, caption)] (lines 475-543), [upload] being
    the outcome of [uploadBytesResumable] and [getDownloadURL]. *)
Definition handleSendAttachment (f : file) (caption : string) (upload : result string)
    (st : St) : St :=
  let v := view st in
  if isBlocked v || isSending v then st
  else
    let c := Chat.id (chat v) in
    let '(r, db') :=
      (url ← se_lift upload;
       (if bool_decide (url = EmptyString) then mthrow ScriptError else mret tt);;
       Store.addMessage c (attachment_message (uid v) caption url f);;
       Store.updateChat c (summary (attachment_summary (getFileType f) f caption) (uid v))) (db st) in
    let v' := match r with Ok _ => set_attachment None v | Err _ => v end in
    mkSt (set_progress 0 (set_sending false v')) db'.

(** [handleFileSelect] (lines 545-553): the first file picked, if any. *)
Definition handleFileSelect (picked : option file) (st : St) : St :=
  match picked with
  | Some f => mkSt (set_attachment (Some f) (view st)) (db st)
  | None => st
  end.

(** [handleClosePreview] (lines 555-557). *)
Definition handleClosePreview (st : St) : St := mkSt (set_attachment None (view st)) (db st).

(** [handleVoiceMessageSent] (lines 559-561). *)
Definition handleVoiceMessageSent (st : St) : St := mkSt (set_recording false (view st)) (db st).

(** [startRecording] (lines 563-566). *)
Definition startRecording (st : St) : St :=
  if isBlocked (view st) then st else mkSt (set_recording true (view st)) (db st).

(** [handleMuteToggle] (lines 568-574): the negation of the prop's
    [muted], whatever the stored value is now. *)
Definition muted_to (b : bool) (_ : Z) (c : Chat.t) : Chat.t := {|
  Chat.id := Chat.id c; Chat.type := Chat.type c; Chat.members := Chat.members c;
  Chat.unreadCount := Chat.unreadCount c; Chat.lastMessage := Chat.lastMessage c;
  Chat.lastMessageTimestamp := Chat.lastMessageTimestamp c;
  Chat.lastMessageSenderId := Chat.lastMessageSenderId c; Chat.muted := b |}.

Definition handleMuteToggle (st : St) : St :=
  let v := view st in
  if bool_decide (Chat.id (chat v) = EmptyString) then st
  else mkSt v (db st |> Store.updateChat (Chat.id (chat v)) (muted_to (negb (Chat.muted (chat v))))).

(** [handleClearChat] up to [getDocs] (lines 576-579): the ids of the
    messages read. *)
Definition handleClearChat (st : St) : St :=
  let v := view st in
  mkSt (set_clearing (clearing v ++ [Store.message_ids (Chat.id (chat v)) (db st)]) v) (db st).

Definition cleared (now : Z) (c : Chat.t) : Chat.t := {|
  Chat.id := Chat.id c; Chat.type := Chat.type c; Chat.members := Chat.members c;
  Chat.unreadCount := Chat.unreadCount c; Chat.lastMessage := "Chat cleared";
  Chat.lastMessageTimestamp := now; Chat.lastMessageSenderId := Chat.lastMessageSenderId c;
  Chat.muted := Chat.muted c |}.

(** The rest of the [i]th suspended [handleClearChat] (lines 580-592): the
    batch deleting the messages read, the summary, the dialog closed. *)
Definition clear_commit (i : nat) (st : St) : St :=
  let v := view st in
  match clearing v !! i with
  | None => st
  | Some ids =>
      let v0 := set_clearing (delete i (clearing v)) v in
      let '(r, db') := (Store.deleteMessages (Chat.id (chat v)) ids;;
                        Store.updateChat (Chat.id (chat v)) cleared) (db st) in
      match r with
      | Ok _ => mkSt (set_dialog None v0) db'
      | Err _ => mkSt v0 db'
      end
  end.

(** [handleDeleteChat] (lines 595-601). *)
Definition handleDeleteChat (st : St) : St :=
  let v := view st in
  mkSt (set_dialog None (set_exited v)) (db st |> Store.deleteChat (Chat.id (chat v))).

Definition with_blocked (l : list string) (u : User.t) : User.t := {|
  User.id := User.id u; User.uid := User.uid u; User.displayName := User.displayName u;
  User.email := User.email u; User.photoURL := User.photoURL u; User.handle := User.handle u;
  User.createdAt := User.createdAt u; User.theme := User.theme u; User.friends := User.friends u;
  User.blockedUsers := l |}.

(** [handleBlockUser] (lines 603-612): [arrayRemove] or [arrayUnion] of the
    other member on the user's profile, then [refreshUserProfile]. *)
Definition handleBlockUser (st : St) : St :=
  let v := view st in
  match otherUserId v with
  | None => st
  | Some o =>
      let f := if isBlocked v then Store.array_remove o else Store.array_union o in
      let '(r, db') := Store.updateUser (uid v) (fun u => with_blocked (f (User.blockedUsers u)) u) (db st) in
      match r with
      | Ok _ =>
          let v' := mk v (inputText v) (isSending v) (uploadProgress v) None (attachment v)
                      (isRecording v) (exited v) (clearing v) in
          mkSt {| uid := uid v; chat := chat v;
                  blockedUsers := User.blockedUsers <$> Store.getUser (uid v) db';
                  inputText := inputText v'; isSending := isSending v';
                  uploadProgress := uploadProgress v'; dialogAction := dialogAction v';
                  attachment := attachment v'; isRecording := isRecording v';
                  exited := exited v'; clearing := clearing v' |} db'
      | Err _ => mkSt v db'
      end
  end.

(** [handleConfirmAction] (lines 614-628). *)
Definition handleConfirmAction (st : St) : St :=
  match dialogAction (view st) with
  | Some DClear => handleClearChat st
  | Some DDelete => handleDeleteChat st
  | Some DBlock => handleBlockUser st
  | None => mkSt (set_dialog None (view st)) (db st)
  end.

(** ** [trim] *)

Lemma trim_start_shape s :
  trim_start s = EmptyString \/ exists c r, trim_start s = String c r /\ is_ws c = false.
Proof.
  induction s as [|c s IH]; simpl; [by left|].
  destruct (is_ws c) eqn:Hc; [done|]. right. eauto.
Qed.

Lemma trim_end_nonws c r : is_ws c = false -> trim_end (String c r) = String c (trim_end r).
Proof. intros Hc. simpl. by rewrite Hc. Qed.

Lemma trim_end_idem s : trim_end (trim_end s) = trim_end s.
Proof.
  induction s as [|c s IH]; [done|]. simpl.
  destruct (is_ws c && bool_decide (trim_end s = EmptyString)) eqn:E; [done|].
  simpl. rewrite IH, E. done.
Qed.

(** Trimming twice is trimming once. *)
Lemma trim_idem s : trim (trim s) = trim s.
Proof.
  unfold trim. destruct (trim_start_shape s) as [->|(c & r & -> & Hc)]; [done|].
  rewrite trim_end_nonws by done. simpl. rewrite Hc, <- trim_end_nonws by done.
  apply trim_end_idem.
Qed.

(** ** Sending a text message *)

Definition send_blocked (v : t) : bool :=
  isBlocked v || isSending v || bool_decide (trim (inputText v) = EmptyString).

Lemma handleSendMessage_guard st : send_blocked (view st) = true -> handleSendMessage st = st.
Proof. unfold handleSendMessage, send_blocked. cbv zeta. by intros ->. Qed.

Lemma handleSendMessage_run st :
  send_blocked (view st) = false ->
  handleSendMessage st =
    let v := view st in
    mkSt (set_input EmptyString (set_sending false v))
         (snd ((Store.addMessage (Chat.id (chat v)) (text_message (uid v) (trim (inputText v)));;
                Store.updateChat (Chat.id (chat v)) (summary (trim (inputText v)) (uid v))) (db st))).
Proof.
  unfold handleSendMessage, send_blocked. cbv zeta. intros ->.
  match goal with |- (let '(_, _) := ?e in _) = _ => by destruct e end.
Qed.

(** C21: [handleSendMessage] past its guard, on a chat that exists:
    exactly one text message, the trimmed input in the user's name at
    server time, is appended to the chat; the chat's summary shows that
    text and sender; the input is cleared and sending is over. *)
Theorem send_text_spec st ch :
  send_blocked (view st) = false ->
  Store.chats (db st) !! Chat.id (chat (view st)) = Some ch ->
  let st' := handleSendMessage st in
  Store.chat_messages (Chat.id (chat (view st))) (db st') =
    Store.chat_messages (Chat.id (chat (view st))) (db st) ++
      [Store.stamp (Store.clock (db st)) (text_message (uid (view st)) (trim (inputText (view st))))] /\
  Store.chats (db st') !! Chat.id (chat (view st)) =
    Some (summary (trim (inputText (view st))) (uid (view st)) (Store.clock (db st)) ch) /\
  inputText (view st') = EmptyString /\ isSending (view st') = false.
Proof.
  intros Hg Hch. rewrite handleSendMessage_run by done. cbv zeta.
  destruct (Store.post_message _ (text_message (uid (view st)) (trim (inputText (view st))))
              (summary (trim (inputText (view st))) (uid (view st))) _ _ Hch)
    as (s' & E & Hm & _ & Hc & _).
  rewrite E. simpl. rewrite Hm, Hc, lookup_insert_eq. done.
Qed.

(** no handler path of [handleSendMessage] stores a blank message: in
    every chat, either nothing is appended or exactly one text message in
    the user's name whose text is non-empty and already trimmed. *)
Theorem send_no_blank st k :
  let st' := handleSendMessage st in
  Store.chat_messages k (db st') = Store.chat_messages k (db st) \/
  exists txt, Store.chat_messages k (db st') =
                Store.chat_messages k (db st) ++ [Store.stamp (Store.clock (db st)) (text_message (uid (view st)) txt)] /\
              txt <> EmptyString /\ trim txt = txt.
Proof.
  cbv zeta. destruct (send_blocked (view st)) eqn:Hg.
  { left. by rewrite handleSendMessage_guard. }
  rewrite handleSendMessage_run by done. simpl. rewrite Store.post_message_messages.
  destruct (decide _) as [->|]; [right|by left].
  exists (trim (inputText (view st))). split; [done|]. split; [|apply trim_idem].
  unfold send_blocked in Hg. apply orb_false_iff in Hg as [_ Hg].
  by apply bool_decide_eq_false in Hg.
Qed.

(** sending into a chat that was deleted meanwhile fails at the
    summary update, yet the message is appended to the chat's orphaned
    messages and the input is cleared: the text is gone from the screen
    although the user was told the send failed. *)
Theorem send_to_deleted_chat st :
  send_blocked (view st) = false ->
  Store.chats (db st) !! Chat.id (chat (view st)) = None ->
  let st' := handleSendMessage st in
  Store.chat_messages (Chat.id (chat (view st))) (db st') =
    Store.chat_messages (Chat.id (chat (view st))) (db st) ++
      [Store.stamp (Store.clock (db st)) (text_message (uid (view st)) (trim (inputText (view st))))] /\
  Store.chats (db st') = Store.chats (db st) /\ inputText (view st') = EmptyString.
Proof.
  intros Hg Hch. rewrite handleSendMessage_run by done. cbv zeta.
  rewrite Store.post_message_missing by done. simpl.
  by rewrite Store.chat_messages_with, fmap_app.
Qed.

(** ** Blocking *)

Lemma handleBlockUser_ok st o u l :
  otherUserId (view st) = Some o ->
  Store.getUser (uid (view st)) (db st) = Some u ->
  blockedUsers (view st) = Some (User.blockedUsers u) ->
  l = (if bool_decide (o ∈ User.blockedUsers u) then Store.array_remove o else Store.array_union o)
        (User.blockedUsers u) ->
  exists u', Store.getUser (uid (view st)) (db (handleBlockUser st)) = Some u' /\
    User.blockedUsers u' = l /\ blockedUsers (view (handleBlockUser st)) = Some l /\
    otherUserId (view (handleBlockUser st)) = Some o.
Proof.
  intros Ho Hu Hb ->. unfold handleBlockUser. rewrite Ho.
  unfold isBlocked. rewrite Hb, Ho. simpl. unfold Store.updateUser. unfold Store.getUser in Hu.
  rewrite Hu. simpl. unfold Store.getUser. simpl. rewrite lookup_insert_eq. simpl.
  eexists. split; [reflexivity|]. split; [|split]; [|done|]; by destruct (bool_decide _).
Qed.

(** blocking the other member and then unblocking them restores the
    user's stored block list and the screen's view of it. *)
Theorem block_unblock_roundtrip st o u :
  otherUserId (view st) = Some o ->
  Store.getUser (uid (view st)) (db st) = Some u ->
  blockedUsers (view st) = Some (User.blockedUsers u) ->
  o ∉ User.blockedUsers u ->
  let st2 := handleBlockUser (handleBlockUser st) in
  (User.blockedUsers <$> Store.getUser (uid (view st)) (db st2)) = Some (User.blockedUsers u) /\
  blockedUsers (view st2) = Some (User.blockedUsers u).
Proof.
  intros Ho Hu Hb Hn. cbv zeta.
  destruct (handleBlockUser_ok st o u _ Ho Hu Hb eq_refl) as (u1 & Hu1 & Hl1 & Hb1 & Ho1).
  rewrite bool_decide_false in Hl1, Hb1 by done. rewrite <- Hl1 in Hb1.
  assert (uid (view (handleBlockUser st)) = uid (view st)) as Huid.
  { unfold handleBlockUser. rewrite Ho. by repeat case_match. }
  rewrite <- Huid in Hu1 |- *.
  destruct (handleBlockUser_ok _ o u1 _ Ho1 Hu1 Hb1 eq_refl)
    as (u2 & Hu2 & Hl2 & Hb2 & _).
  assert (o ∈ User.blockedUsers u1) as Hin by (rewrite Hl1; apply Store.array_union_elem).
  rewrite bool_decide_true in Hl2, Hb2 by exact Hin.
  rewrite Hl1, Store.array_remove_union in Hl2, Hb2 by done.
  rewrite Hu2. simpl. by rewrite Hl2, Hb2.
Qed.

(** ** Clearing and deleting *)

Lemma clear_commit_docs i ids st :
  clearing (view st) !! i = Some ids ->
  Store.chat_docs (Chat.id (chat (view st))) (db (clear_commit i st)) =
    filter (fun p => p.1 ∉ ids) (Store.chat_docs (Chat.id (chat (view st))) (db st)).
Proof.
  intros Hi. unfold clear_commit. rewrite Hi. cbv zeta.
  unfold mbind, se_mbind, se_bind, Store.deleteMessages.
  match goal with |- context [Store.updateChat ?c ?f ?s] =>
    destruct (Store.updateChat c f s) as [r s''] eqn:E end.
  apply Store.updateChat_messages in E.
  destruct r; unfold Store.chat_docs at 1; simpl; rewrite E; simpl; by rewrite lookup_insert_eq.
Qed.

(** C38: clearing deletes only the messages [getDocs] returned: messages
    that reach the chat between the read and the batch (sent by the other
    member, say) survive, although the dialog promises to delete all
    messages of the conversation. *)
Theorem clear_keeps_late_messages st s' late :
  let c := Chat.id (chat (view st)) in
  Store.chat_docs c s' = Store.chat_docs c (db st) ++ late -> NoDup (fst <$> Store.chat_docs c s') ->
  let st1 := handleClearChat st in
  Store.chat_docs c (db (clear_commit (length (clearing (view st))) (mkSt (view st1) s'))) = late.
Proof.
  cbv zeta. intros Hs Hd.
  etrans; [apply (clear_commit_docs _ (Store.message_ids (Chat.id (chat (view st))) (db st))
                   (mkSt (view (handleClearChat st)) s')), snoc_lookup|].
  simpl. rewrite Hs. apply filter_keys_app. by rewrite <-Hs.
Qed.

(** deleting a chat removes the chat document, for both members, but
    not its messages, which stay in the store; the screen is left. *)
Theorem delete_keeps_messages st :
  let st' := handleDeleteChat st in
  Store.chats (db st') !! Chat.id (chat (view st)) = None /\
  (forall k, Store.chat_messages k (db st') = Store.chat_messages k (db st)) /\
  exited (view st') = true.
Proof. cbv zeta. simpl. split; [apply lookup_delete_eq|done]. Qed.

(** ** What the call log shows *)

(** a [missed] entry, which the caller's page writes in the caller's
    name, reads "You missed a call" on the caller's screen, the one side
    that did not miss it, and "Missed call" on the callee's. *)
Theorem missed_entry_texts c now :
  Call.callerId c <> Call.calleeId c ->
  message_call_text (Call.callerId c) (Home.log_entry c OutcomeMissed 0 now) =
    Some ("You missed a " +:+ (if bool_decide (Call.type c = Video) then "video " else "") +:+ "call") /\
  message_call_text (Call.calleeId c) (Home.log_entry c OutcomeMissed 0 now) =
    Some ("Missed " +:+ (if bool_decide (Call.type c = Video) then "video " else "") +:+ "call").
Proof.
  intros Hne. unfold message_call_text, call_text. simpl.
  rewrite bool_decide_true by done. rewrite (bool_decide_false (Call.callerId c = Call.calleeId c)) by done.
  done.
Qed.

(** ** Concrete screens *)

Definition profile (u : string) (blocked : list string) : User.t := {|
  User.id := u; User.uid := u; User.displayName := u; User.email := u; User.photoURL := "";
  User.handle := u; User.createdAt := None; User.theme := None; User.friends := [];
  User.blockedUsers := blocked |}.

(** Alice and bob's chat, bob having blocked alice. *)
Definition db_ab : Store.t := {|
  Store.calls := ∅; Store.callerCandidates := ∅; Store.calleeCandidates := ∅;
  Store.chats := {[ "alice_bob" := Home.chat0 ]}; Store.messages := ∅;
  Store.users := {[ "alice" := profile "alice" []; "bob" := profile "bob" ["alice"] ]};
  Store.friendRequests := ∅; Store.clock := 5000; Store.journal := [] |}.

Definition screen (me : string) (blocked : list string) (input : string) : t := {|
  uid := me; chat := Home.chat0; blockedUsers := Some blocked; inputText := input;
  isSending := false; uploadProgress := 0; dialogAction := None; attachment := None;
  isRecording := false; exited := false; clearing := [] |}.

Definition alice_types (input : string) : St := mkSt (screen "alice" [] input) db_ab.

(** blocking is one-sided: with bob having blocked alice, alice's
    message still reaches the chat, while bob cannot send; the block
    dialog says the blocked user can no longer send messages. *)
Theorem blocked_user_still_sends :
  (User.blockedUsers <$> Store.getUser "bob" db_ab) = Some ["alice"] /\
  Store.chat_messages "alice_bob" (db (handleSendMessage (alice_types "hi"))) =
    [Store.stamp 5000 (text_message "alice" "hi")] /\
  handleSendMessage (mkSt (screen "bob" ["alice"] "hi") db_ab) = mkSt (screen "bob" ["alice"] "hi") db_ab.
Proof. split; [reflexivity|]. split; vm_compute; reflexivity. Qed.

Lemma send_text_spec_witness :
  let st := alice_types "  hi " in
  let st' := handleSendMessage st in
  Store.chat_messages (Chat.id (chat (view st))) (db st') =
    Store.chat_messages (Chat.id (chat (view st))) (db st) ++
      [Store.stamp (Store.clock (db st)) (text_message (uid (view st)) (trim (inputText (view st))))] /\
  Store.chats (db st') !! Chat.id (chat (view st)) =
    Some (summary (trim (inputText (view st))) (uid (view st)) (Store.clock (db st)) Home.chat0) /\
  inputText (view st') = EmptyString /\ isSending (view st') = false.
Proof. apply send_text_spec; vm_compute; reflexivity. Defined.

Lemma send_to_deleted_chat_witness :
  let st := mkSt (screen "alice" [] "hi") (db_ab |> Store.deleteChat "alice_bob") in
  let st' := handleSendMessage st in
  Store.chat_messages (Chat.id (chat (view st))) (db st') =
    Store.chat_messages (Chat.id (chat (view st))) (db st) ++
      [Store.stamp (Store.clock (db st)) (text_message (uid (view st)) (trim (inputText (view st))))] /\
  Store.chats (db st') = Store.chats (db st) /\ inputText (view st') = EmptyString.
Proof. apply send_to_deleted_chat; vm_compute; reflexivity. Defined.

Lemma block_unblock_roundtrip_witness :
  let st := alice_types "" in
  let st2 := handleBlockUser (handleBlockUser st) in
  (User.blockedUsers <$> Store.getUser (uid (view st)) (db st2)) = Some (User.blockedUsers (profile "alice" [])) /\
  blockedUsers (view st2) = Some (User.blockedUsers (profile "alice" [])).
Proof.
  apply (block_unblock_roundtrip _ "bob"); [vm_compute; reflexivity..|].
  apply not_elem_of_nil.
Defined.

Lemma clear_keeps_late_messages_witness :
  let st := alice_types "" in
  let s' := db st |> Store.addMessage "alice_bob" (text_message "bob" "late") in
  Store.chat_docs (Chat.id (chat (view st))) (db (clear_commit (length (clearing (view st)))
      (mkSt (view (handleClearChat st)) s'))) = [(0%nat, Store.stamp 5000 (text_message "bob" "late"))].
Proof. apply clear_keeps_late_messages; vm_compute; [reflexivity|]. repeat constructor; set_solver. Defined.

Lemma missed_entry_texts_witness :
  message_call_text "alice" (Home.log_entry CallView.call0 OutcomeMissed 0 7000) =
    Some ("You missed a " +:+ (if bool_decide (Call.type CallView.call0 = Video) then "video " else "") +:+ "call") /\
  message_call_text "bob" (Home.log_entry CallView.call0 OutcomeMissed 0 7000) =
    Some ("Missed " +:+ (if bool_decide (Call.type CallView.call0 = Video) then "video " else "") +:+ "call").
Proof. apply (missed_entry_texts CallView.call0 7000). discriminate. Defined.

End ChatView.
