(* ===== verification/Voice.v ===== *)
(** * Voice messages: [src/src/components/voice-recorder.tsx]

    The component [VoiceRecorder], mounted by the chat screen while it
    records.  Its mount effect (lines 64-141) asks for the microphone and,
    once granted, creates and starts a [MediaRecorder], starts the timer
    ([setInterval]) and returns its cleanup from inside the async
    function, where React never sees it.  [sendVoiceMessage] (lines
    143-179) uploads the recorded chunks and writes the message;
    [handleCancel] (lines 181-186) stops and leaves.

    The browser's [MediaRecorder] is the environment: started without a
    timeslice, it delivers its data in one [dataavailable] event after
    [stop()] ([pending]), and [onstop] then releases the microphone.  The
    browser may also stop a recording recorder on its own, when the
    microphone's track ends (the device is unplugged, the permission
    revoked) or the recorder fails: it then delivers its data and runs
    [onstop] just as after [stop()] ([EvStopped]).  The
    chat screen unmounts the recorder as soon as [onCancel] or
    [onRecordingSent] is called, so those calls also run the effect's
    cleanup. *)

From S2P Require Import Prelude Data Store Home.

Module Voice.

Inductive rec_state := Inactive | Recording.

#[export] Instance rec_state_eq_dec : EqDecision rec_state.
Proof. solve_decision. Defined.

(** A [MediaRecorder]: its state, and whether its [dataavailable] event is
    due. *)
Record recorder := { state : rec_state; pending : bool }.

Record t := {
  chatId : string;
  uid : option string;              (** [user?.uid] *)
  duration : Z;
  isSending : bool;
  mediaRecorder : option recorder;  (** [mediaRecorderRef.current] *)
  chunks : list nat;                (** [recordingChunksRef.current], blobs by id *)
  mic_live : bool;                  (** the microphone stream's track is live *)
  timer : bool;                     (** the [setInterval] of line 97 is running *)
  mounted : bool;
  settled : bool;                   (** the [getUserMedia] promise has settled *)
  sent : bool                       (** [onRecordingSent()] was called *)
}.

Record St := mkSt { view : t; db : Store.t }.

Definition mk (v : t) dur sending mr ch mic tm mnt snt : t := {|
  chatId := chatId v; uid := uid v; duration := dur; isSending := sending;
  mediaRecorder := mr; chunks := ch; mic_live := mic; timer := tm; mounted := mnt;
  settled := settled v; sent := snt |}.

Definition set_settled (v : t) : t := {|
  chatId := chatId v; uid := uid v; duration := duration v; isSending := isSending v;
  mediaRecorder := mediaRecorder v; chunks := chunks v; mic_live := mic_live v; timer := timer v;
  mounted := mounted v; settled := true; sent := sent v |}.

(** [mediaRecorderRef.current.stop()] when it records: the data is due and
    [onstop] releases the microphone. *)
Definition stop_if_recording (v : t) : t :=
  match mediaRecorder v with
  | Some {| state := Recording |} =>
      mk v (duration v) (isSending v) (Some {| state := Inactive; pending := true |})
         (chunks v) false (timer v) (mounted v) (sent v)
  | _ => v
  end.

(** The mount effect's cleanup (lines 132-139); the interval is not
    cleared, its [clearInterval] being in the cleanup React never got. *)
Definition unmount (v : t) : t :=
  let v' := stop_if_recording v in
  mk v' (duration v') (isSending v') (mediaRecorder v') (chunks v') (mic_live v') (timer v') false (sent v').

(** [getUserMedia] granted (lines 67-108): a recorder, started; the timer. *)
Definition mic_granted (v : t) : t :=
  mk v (duration v) (isSending v) (Some {| state := Recording; pending := false |}) [] true true
     (mounted v) (sent v).

(** [getUserMedia] refused (lines 120-128): [onCancel()], which unmounts. *)
Definition mic_denied (v : t) : t := unmount v.

(** A tick of the interval: [setDuration(prev => prev + 1)], a no-op once
    unmounted. *)
Definition tick (v : t) : t :=
  if timer v && mounted v
  then mk v (duration v + 1) (isSending v) (mediaRecorder v) (chunks v) (mic_live v) (timer v) (mounted v) (sent v)
  else v.

(** The recorder's [dataavailable] event with the blob [b] (lines 79-83). *)
Definition data_available (b : nat) (v : t) : t :=
  match mediaRecorder v with
  | Some {| state := s; pending := true |} =>
      mk v (duration v) (isSending v) (Some {| state := s; pending := false |}) (chunks v ++ [b])
         (mic_live v) (timer v) (mounted v) (sent v)
  | _ => v
  end.

(** The voice message. *)
Definition voice_message (sender url : string) : Message.t := {|
  Message.senderId := sender; Message.text := None; Message.timestamp := 0;
  Message.type := MsgVoice; Message.attachmentUrl := Some url; Message.callInfo := None;
  Message.fileName := None; Message.fileSize := None |}.

(** The summary line of line 168: a microphone emoji (four bytes) and the
    words. *)
Definition voice_summary : string :=
  String (Ascii.ascii_of_nat 240) (String (Ascii.ascii_of_nat 159) (String (Ascii.ascii_of_nat 142)
    (String (Ascii.ascii_of_nat 164) " Voice message"))).

Definition summary (sender : string) (now : Z) (c : Chat.t) : Chat.t := {|
  Chat.id := Chat.id c; Chat.type := Chat.type c; Chat.members := Chat.members c;
  Chat.unreadCount := Chat.unreadCount c; Chat.lastMessage := voice_summary;
  Chat.lastMessageTimestamp := now; Chat.lastMessageSenderId := sender;
  Chat.muted := Chat.muted c |}.

(** [sendVoiceMessage] (lines 143-179), [upload] being the outcome of
    [uploadBytes] and [getDownloadURL]. *)
Definition sendVoiceMessage (upload : result string) (st : St) : St :=
  let v := view st in
  match uid v with
  | None => st
  | Some me =>
      if bool_decide (chatId v = EmptyString) || bool_decide (chunks v = []) then st
      else
        let v1 := stop_if_recording v in
        let '(r, db') := (url ← se_lift upload;
                          Store.addMessage (chatId v) (voice_message me url);;
                          Store.updateChat (chatId v) (summary me)) (db st) in
        let v2 := match r with
                  | Ok _ => unmount (mk v1 (duration v1) (isSending v1) (mediaRecorder v1) (chunks v1)
                                        (mic_live v1) (timer v1) (mounted v1) true)
                  | Err _ => v1
                  end in
        mkSt (mk v2 (duration v2) false (mediaRecorder v2) (chunks v2) (mic_live v2) (timer v2)
                 (mounted v2) (sent v2)) db'
  end.

(** [handleCancel] (lines 181-186): stop, then [onCancel()], which
    unmounts. *)
Definition handleCancel (v : t) : t := unmount (stop_if_recording v).

Inductive event :=
| EvMicGranted | EvMicDenied | EvTick | EvData (b : nat)
| EvSend (upload : result string) | EvCancel | EvUnmount
| EvStopped  (** the recorder stops on its own: track ended or error *).

(** The clicks reach a mounted recorder only, which is unmounted once; the
    [getUserMedia] promise settles once; the browser's events arrive
    whenever they do. *)
Definition handle (e : event) (st : St) : St :=
  let v := view st in
  match e with
  | EvMicGranted => if settled v then st else mkSt (mic_granted (set_settled v)) (db st)
  | EvMicDenied => if settled v then st else mkSt (mic_denied (set_settled v)) (db st)
  | EvTick => mkSt (tick v) (db st)
  | EvData b => mkSt (data_available b v) (db st)
  | EvSend r => if mounted v then sendVoiceMessage r st else st
  | EvCancel => if mounted v then mkSt (handleCancel v) (db st) else st
  | EvUnmount => if mounted v then mkSt (unmount v) (db st) else st
  | EvStopped => mkSt (stop_if_recording v) (db st)
  end.

Fixpoint handle_all (es : list event) (st : St) : St :=
  match es with
  | [] => st
  | e :: es' => handle_all es' (handle e st)
  end.

(** The recorder as mounted by the chat screen. *)
Definition init (chatId : string) (uid : option string) : t := {|
  chatId := chatId; uid := uid; duration := 0; isSending := false; mediaRecorder := None;
  chunks := []; mic_live := false; timer := false; mounted := true; settled := false;
  sent := false |}.

(** ** Nothing is ever sent *)

(** A property every event of a sequence keeps holds after it. *)
Lemma handle_all_keeps_on (Q : event -> Prop) (P : St -> Prop) es st :
  (forall e st, Q e -> P st -> P (handle e st)) -> Forall Q es -> P st -> P (handle_all es st).
Proof.
  intros HP Hes. revert st. induction Hes as [|e es He Hes IH]; intros st H; [done|]. simpl. auto.
Qed.

Lemma handle_all_keeps (P : St -> Prop) es st :
  (forall e st, P st -> P (handle e st)) -> P st -> P (handle_all es st).
Proof. intros HP. apply (handle_all_keeps_on (fun _ => True)); [auto|by apply Forall_true]. Qed.

Lemma not_stopped_Forall es : EvStopped ∉ es -> Forall (fun e => e <> EvStopped) es.
Proof. intros H. apply Forall_forall. intros e He ->. exact (H He). Qed.

(** While mounted, the recorder has no chunk and no data due, and
    [onRecordingSent] was never called. *)
Definition quiet (v : t) : Prop :=
  sent v = false /\
  (mounted v = true -> chunks v = [] /\ forall r, mediaRecorder v = Some r -> pending r = false).

Lemma stop_if_recording_sent v : sent (stop_if_recording v) = sent v.
Proof. unfold stop_if_recording. by repeat case_match. Qed.

Lemma unmount_quiet v : sent v = false -> quiet (unmount v).
Proof. intros Hs. split; [|done]. simpl. by rewrite stop_if_recording_sent. Qed.

Lemma mic_granted_quiet v : sent v = false -> quiet (mic_granted (set_settled v)).
Proof. intros Hs. split; [done|]. intros _. split; [done|]. by intros r [= <-]. Qed.

Lemma tick_quiet v : quiet v -> quiet (tick v).
Proof. unfold tick. by destruct (timer v && mounted v). Qed.

Lemma data_available_quiet b v : quiet v -> quiet (data_available b v).
Proof.
  intros Hq0. pose proof Hq0 as [Hs Hq]. unfold data_available.
  destruct (mediaRecorder v) as [[r []]|] eqn:E; try exact Hq0.
  split; [done|]. simpl. intros Hm. destruct (Hq Hm) as [_ Hp]. by specialize (Hp _ eq_refl).
Qed.

(** A mounted, quiet recorder's send button does nothing. *)
Lemma send_quiet r st : quiet (view st) -> mounted (view st) = true -> sendVoiceMessage r st = st.
Proof.
  intros [_ Hq] Hm. destruct (Hq Hm) as [Hc _]. unfold sendVoiceMessage.
  case_match; [|done]. by rewrite Hc, orb_true_r.
Qed.

Lemma handle_quiet e st : e <> EvStopped -> quiet (view st) -> quiet (view (handle e st)) /\ db (handle e st) = db st.
Proof.
  intros He Hq. pose proof (proj1 Hq) as Hs. destruct e; simpl.
  - case_match; [done|]. split; [by apply mic_granted_quiet|done].
  - case_match; [done|]. split; [by apply unmount_quiet|done].
  - split; [by apply tick_quiet|done].
  - split; [by apply data_available_quiet|done].
  - case_match eqn:Hm; [by rewrite send_quiet|done].
  - case_match; [|done]. split; [apply unmount_quiet; by rewrite stop_if_recording_sent|done].
  - case_match; [|done]. split; [by apply unmount_quiet|done].
  - done.
Qed.

(** C14: whatever happens to a mounted voice recorder (the microphone
    granted or refused, ticks, the recorder's data, any number of clicks
    on send with any upload outcome, cancel, unmount), no voice message
    is ever written and [onRecordingSent] is never called, unless the
    browser stops the recorder on its own: the recorder is started
    without a timeslice, so no chunk exists before [stop()], and
    [sendVoiceMessage] returns at its empty-chunks guard before it would
    stop the recorder. *)
Theorem voice_never_sent cid u d es :
  EvStopped ∉ es ->
  let st := handle_all es (mkSt (init cid u) d) in
  db st = d /\ sent (view st) = false.
Proof.
  intros Hes%not_stopped_Forall. cbv zeta. cut (quiet (view (handle_all es (mkSt (init cid u) d))) /\
                 db (handle_all es (mkSt (init cid u) d)) = d).
  { intros [[Hs _] Hd]. done. }
  assert (quiet (view (mkSt (init cid u) d)) /\ db (mkSt (init cid u) d) = d) as H0.
  { split; [split; [done|]; intros _; split; [done|]; by intros r|done]. }
  apply (handle_all_keeps_on (fun e => e <> EvStopped) (fun st => quiet (view st) /\ db st = d)); [|exact Hes|exact H0].
  intros e st He [Hq Hd].
  destruct (handle_quiet e st He Hq) as [Hq' Hd']. by rewrite Hd', Hd.
Qed.

Lemma voice_never_sent_witness :
  EvStopped ∉ [EvMicGranted; EvTick; EvData 1; EvSend (Ok "u"); EvCancel] /\
  let st := handle_all [EvMicGranted; EvTick; EvData 1; EvSend (Ok "u"); EvCancel]
                       (mkSt (init "alice_bob" (Some "alice")) Store.empty) in
  db st = Store.empty /\ sent (view st) = false.
Proof. split; [set_solver|apply voice_never_sent; set_solver]. Defined.


(** ** What is never released *)

Lemma stop_if_recording_timer v : timer (stop_if_recording v) = timer v.
Proof. unfold stop_if_recording. by repeat case_match. Qed.

Lemma handle_timer e st : timer (view st) = true -> timer (view (handle e st)) = true.
Proof.
  intros Ht. destruct e; simpl.
  - by case_match.
  - case_match; [done|]. simpl. by rewrite stop_if_recording_timer.
  - unfold tick. by case_match.
  - unfold data_available. by repeat case_match.
  - case_match; [|done]. unfold sendVoiceMessage. case_match; [|done]. case_match; [done|].
    match goal with |- context [let '(_, _) := ?e in _] => destruct e as [[] ?] end;
      simpl; by rewrite ?stop_if_recording_timer.
  - case_match; [|done]. simpl. by rewrite !stop_if_recording_timer.
  - case_match; [|done]. simpl. by rewrite stop_if_recording_timer.
  - by rewrite stop_if_recording_timer.
Qed.

(** once the microphone is granted, the recorder's one-second interval
    runs for good: no path clears it, unmounting included, as its
    [clearInterval] is in a cleanup function returned from inside the
    async [start], which React never receives. *)
Theorem timer_never_cleared cid u d es :
  timer (view (handle_all (EvMicGranted :: es) (mkSt (init cid u) d))) = true.
Proof.
  simpl. apply (handle_all_keeps (fun st => timer (view st) = true)); [apply handle_timer|done].
Qed.

(** An unmounted recorder whose [getUserMedia] has settled: nothing
    reaches it but ticks and the recorder's data, which keep the
    microphone as it is. *)
Lemma handle_detached e st :
  e <> EvStopped -> mounted (view st) = false -> settled (view st) = true ->
  mounted (view (handle e st)) = false /\ settled (view (handle e st)) = true /\
  mic_live (view (handle e st)) = mic_live (view st).
Proof.
  intros He Hm Hs. destruct e; simpl; rewrite ?Hm, ?Hs; try done.
  - unfold tick. rewrite Hm, andb_false_r. done.
  - unfold data_available. by repeat case_match.
Qed.

(** C37: a recorder unmounted before the microphone permission resolves
    (the user cancels at the prompt, or leaves the chat) starts recording
    when it does, and nothing the page does ever stops it: the microphone
    stays on with no recorder on screen, whatever happens next short of
    the browser ending the track itself. *)
Theorem mic_left_on cid u d es :
  EvStopped ∉ es ->
  let st := handle_all (EvUnmount :: EvMicGranted :: es) (mkSt (init cid u) d) in
  mic_live (view st) = true /\ mounted (view st) = false.
Proof.
  intros Hes%not_stopped_Forall. cbv zeta. simpl.
  cut (mounted (view (handle_all es (mkSt (mic_granted (set_settled (unmount (init cid u)))) d))) = false /\
       settled (view (handle_all es (mkSt (mic_granted (set_settled (unmount (init cid u)))) d))) = true /\
       mic_live (view (handle_all es (mkSt (mic_granted (set_settled (unmount (init cid u)))) d))) = true).
  { intros (? & _ & ?). done. }
  apply (handle_all_keeps_on (fun e => e <> EvStopped) (fun st => mounted (view st) = false /\ settled (view st) = true /\
                                        mic_live (view st) = true)); [|exact Hes|done].
  intros e st He (Hm & Hs & Hl). destruct (handle_detached e st He Hm Hs) as (? & ? & ->). done.
Qed.

Lemma mic_left_on_witness :
  EvStopped ∉ [EvTick; EvSend (Ok "u"); EvCancel] /\
  let st := handle_all [EvUnmount; EvMicGranted; EvTick; EvSend (Ok "u"); EvCancel]
                       (mkSt (init "alice_bob" (Some "alice")) Store.empty) in
  mic_live (view st) = true /\ mounted (view st) = false.
Proof. split; [set_solver|apply (mic_left_on _ _ _ [EvTick; EvSend (Ok "u"); EvCancel]); set_solver]. Defined.

(** ** The send path itself *)

(** were there a chunk, [sendVoiceMessage] with a successful upload
    would append one voice message with the download URL in the user's
    name, set the chat's summary, call [onRecordingSent] and leave. *)
Theorem send_voice_spec url me st ch :
  uid (view st) = Some me -> chatId (view st) <> EmptyString -> chunks (view st) <> [] ->
  Store.chats (db st) !! chatId (view st) = Some ch ->
  let st' := sendVoiceMessage (Ok url) st in
  Store.chat_messages (chatId (view st)) (db st') =
    Store.chat_messages (chatId (view st)) (db st) ++ [Store.stamp (Store.clock (db st)) (voice_message me url)] /\
  Store.chats (db st') !! chatId (view st) = Some (summary me (Store.clock (db st)) ch) /\
  sent (view st') = true /\ mounted (view st') = false.
Proof.
  intros Hu Hc Hk Hch. cbv zeta. unfold sendVoiceMessage. rewrite Hu.
  rewrite bool_decide_false by done. rewrite bool_decide_false by done. simpl.
  destruct (Store.post_message _ (voice_message me url) (summary me) _ _ Hch) as (s' & E & Hm & _ & Hcs & _).
  assert (Hrun : (se_lift (Ok url) ≫= (fun url => Store.addMessage (chatId (view st)) (voice_message me url);;
                   Store.updateChat (chatId (view st)) (summary me))) (db st) = (Ok tt, s')) by exact E.
  rewrite Hrun. simpl. rewrite Hm, Hcs, lookup_insert_eq, stop_if_recording_sent. done.
Qed.

(** A recorder holding one chunk, over a store with alice and bob's chat. *)
Definition db_voice : Store.t := {|
  Store.calls := ∅; Store.callerCandidates := ∅; Store.calleeCandidates := ∅;
  Store.chats := {[ "alice_bob" := Home.chat0 ]}; Store.messages := ∅; Store.users := ∅;
  Store.friendRequests := ∅; Store.clock := 9000; Store.journal := [] |}.

Definition recorded : St :=
  mkSt (mk (init "alice_bob" (Some "alice")) 3 false (Some {| state := Inactive; pending := false |})
           [1] false true true false) db_voice.

Lemma send_voice_spec_witness :
  let st' := sendVoiceMessage (Ok "https://files/v.webm") recorded in
  Store.chat_messages "alice_bob" (db st') =
    Store.chat_messages "alice_bob" (db recorded) ++
      [Store.stamp (Store.clock (db recorded)) (voice_message "alice" "https://files/v.webm")] /\
  Store.chats (db st') !! "alice_bob" = Some (summary "alice" (Store.clock (db recorded)) Home.chat0) /\
  sent (view st') = true /\ mounted (view st') = false.
Proof. apply send_voice_spec; [reflexivity|discriminate|discriminate|reflexivity]. Defined.

(** Only the browser's own stop gets a voice message out: once the
    microphone's track ends during a recording, the recorder delivers its
    data, and a click on send with a successful upload writes the message
    and calls [onRecordingSent]. *)
Lemma voice_sent_after_track_ended :
  let st := handle_all [EvMicGranted; EvTick; EvStopped; EvData 1; EvSend (Ok "u")]
                       (mkSt (init "alice_bob" (Some "alice")) db_voice) in
  Store.chat_messages "alice_bob" (db st) = [Store.stamp 9000 (voice_message "alice" "u")] /\
  sent (view st) = true.
Proof. vm_compute. split; reflexivity. Qed.

End Voice.
