(* ===== verification/Friends.v ===== *)
(** * Friends and chats: the rest of [src/src/app/page.tsx], component [Home]

    The handlers of the page that make and break friendships and open
    chats ([handleCreateChat], [handleSendFriendRequest],
    [handleCancelFriendRequest], [handleFriendRequest], [handleUnfriend],
    lines 263-421) and the listeners that feed the lists they act on (the
    friend-request effect, lines 122-164, and the chat list, lines
    167-219); the buttons of [src/src/components/people-tab.tsx] that call
    them, and the friend list and [handleUnfriend] of
    [src/src/app/friends/page.tsx].  A direct chat's id is its two
    members, sorted and joined by an underscore.  Firestore's write
    batches are atomic: every update of a batch applies, or, when one of
    its documents is missing, none.  Line numbers are those of [page.tsx]
    unless a section names another file. *)

From Stdlib Require Import Sorted.
From S2P Require Import Prelude Data Store.

Module Friends.

(** ** Chat ids *)

(** [[a, b].sort()]: JavaScript's default order on strings, which on the
    ASCII ids Firebase issues is [String.leb]. *)
Definition sort2 (a b : string) : list string := if String.leb a b then [a; b] else [b; a].

(** [members.join('_')]. *)
Definition join_us (l : list string) : string :=
  match l with
  | [] => EmptyString
  | x :: l' => fold_left (fun acc y => acc +:+ "_" +:+ y) l' x
  end.

(** The id of the direct chat of [a] and [b] (lines 268-269, 398-399). *)
Definition chat_id (a b : string) : string := join_us (sort2 a b).

(** ** Batches *)

Definition with_friends (l : list string) (u : User.t) : User.t := {|
  User.id := User.id u; User.uid := User.uid u; User.displayName := User.displayName u;
  User.email := User.email u; User.photoURL := User.photoURL u; User.handle := User.handle u;
  User.createdAt := User.createdAt u; User.theme := User.theme u; User.friends := l;
  User.blockedUsers := User.blockedUsers u |}.

Definition with_status (st : request_status) (r : FriendRequest.t) : FriendRequest.t := {|
  FriendRequest.id := FriendRequest.id r; FriendRequest.from := FriendRequest.from r;
  FriendRequest.to := FriendRequest.to r; FriendRequest.status := st;
  FriendRequest.createdAt := FriendRequest.createdAt r |}.

(** [batch.update(doc(db, 'users', u), { friends: f(friends) })]. *)
Definition update_friends (f : list string -> list string) (u : string)
    (us : gmap string User.t) : gmap string User.t :=
  alter (fun x => with_friends (f (User.friends x)) x) u us.

(** The batch of an accepted request (lines 361-370): the request
    [accepted], each user in the other's [friends]. *)
Definition accept_batch (r : FriendRequest.t) : SE Store.t unit :=
  fun s =>
    let i := FriendRequest.id r in
    let a := FriendRequest.to r in
    let b := FriendRequest.from r in
    match Store.friendRequests s !! i, Store.users s !! a, Store.users s !! b with
    | Some q, Some _, Some _ =>
        let s1 := Store.with_requests (<[i := with_status Accepted q]> (Store.friendRequests s)) (WRequest i) s in
        let s2 := Store.with_users (update_friends (Store.array_union b) a (Store.users s1)) (WUserUpdate a) s1 in
        (Ok tt, Store.with_users (update_friends (Store.array_union a) b (Store.users s2)) (WUserUpdate b) s2)
    | _, _, _ => (Err FirestoreNotFound, s)
    end.

(** The batch of [handleUnfriend] (lines 390-394): each user out of the
    other's [friends]. *)
Definition unfriend_batch (me friendId : string) : SE Store.t unit :=
  fun s =>
    match Store.users s !! me, Store.users s !! friendId with
    | Some _, Some _ =>
        let s1 := Store.with_users (update_friends (Store.array_remove friendId) me (Store.users s)) (WUserUpdate me) s in
        (Ok tt, Store.with_users (update_friends (Store.array_remove me) friendId (Store.users s1)) (WUserUpdate friendId) s1)
    | _, _ => (Err FirestoreNotFound, s)
    end.

(** ** The page *)

(** The values of [requestStatus]. *)
Inductive req_status := RPending | RFriends.

#[export] Instance req_status_eq_dec : EqDecision req_status.
Proof. solve_decision. Defined.

Inductive tab := TabChats | TabPeoples | TabSettings.

Record t := {
  uid : string;                          (** [user.uid] *)
  profile : option User.t;               (** [userProfile] *)
  selectedChat : option Chat.t;
  chats : list Chat.t;
  isCreatingChat : bool;
  requestStatus : gmap string req_status;
  friendRequests : list FriendRequest.t; (** received, pending, with a sender profile *)
  activeTab : tab
}.

Record St := mkSt { view : t; db : Store.t }.

Definition mk (v : t) prof sel cs creating rs reqs tb : t := {|
  uid := uid v; profile := prof; selectedChat := sel; chats := cs; isCreatingChat := creating;
  requestStatus := rs; friendRequests := reqs; activeTab := tb |}.

Definition set_profile p v := mk v p (selectedChat v) (chats v) (isCreatingChat v) (requestStatus v) (friendRequests v) (activeTab v).
Definition set_selected o v := mk v (profile v) o (chats v) (isCreatingChat v) (requestStatus v) (friendRequests v) (activeTab v).
Definition set_chats cs v := mk v (profile v) (selectedChat v) cs (isCreatingChat v) (requestStatus v) (friendRequests v) (activeTab v).
Definition set_status rs v := mk v (profile v) (selectedChat v) (chats v) (isCreatingChat v) rs (friendRequests v) (activeTab v).
Definition set_requests reqs v := mk v (profile v) (selectedChat v) (chats v) (isCreatingChat v) (requestStatus v) reqs (activeTab v).
Definition set_tab tb v := mk v (profile v) (selectedChat v) (chats v) (isCreatingChat v) (requestStatus v) (friendRequests v) tb.

(** [refreshUserProfile()]: the profile read again. *)
Definition refresh (st : St) : St := mkSt (set_profile (Store.getUser (uid (view st)) (db st)) (view st)) (db st).

(** The chat [handleCreateChat] writes (lines 279-288). *)
Definition new_chat (me other : string) (now : Z) : Chat.t := {|
  Chat.id := chat_id me other; Chat.type := Direct; Chat.members := sort2 me other;
  Chat.unreadCount := 0; Chat.lastMessage := "Chat created"; Chat.lastMessageTimestamp := now;
  Chat.lastMessageSenderId := me; Chat.muted := false |}.

(** [handleCreateChat(otherUser, { setActive })] (lines 263-302): the
    existing chat, or a new one; selected if [setActive]. *)
Definition handleCreateChat (other : string) (setActive : bool) (st : St) : St :=
  let v := view st in
  let cid := chat_id (uid v) other in
  let '(c, db') := match Store.chats (db st) !! cid with
                   | Some c => (c, db st)
                   | None => let c := new_chat (uid v) other (Store.clock (db st)) in
                             (c, db st |> Store.setChat c)
                   end in
  let v' := if setActive then set_tab TabChats (set_selected (Some c) v) else v in
  mkSt v' db'.

(** The requests from [a] to [b], of any status (line 309). *)
Definition requests_between (a b : string) (s : Store.t) : list FriendRequest.t :=
  Store.requests_where (fun r => bool_decide (FriendRequest.from r = a /\ FriendRequest.to r = b)) s.

(** The pending ones (line 338). *)
Definition pending_between (a b : string) (s : Store.t) : list FriendRequest.t :=
  Store.requests_where (fun r => bool_decide (FriendRequest.from r = a /\ FriendRequest.to r = b /\
                                              FriendRequest.status r = Pending)) s.

(** [handleSendFriendRequest(toId)] (lines 304-332), [newId] being the id
    [addDoc] draws. *)
Definition handleSendFriendRequest (toId newId : string) (st : St) : St :=
  let v := view st in
  let v1 := set_status (<[toId := RPending]> (requestStatus v)) v in
  if bool_decide (requests_between (uid v) toId (db st) = []) then
    mkSt v1 (db st |> Store.addRequest newId {| FriendRequest.id := newId; FriendRequest.from := uid v;
                                                 FriendRequest.to := toId; FriendRequest.status := Pending;
                                                 FriendRequest.createdAt := 0 |})
  else mkSt v1 (db st).

(** [handleCancelFriendRequest(toId)] (lines 334-355): the first pending
    request deleted. *)
Definition handleCancelFriendRequest (toId : string) (st : St) : St :=
  let v := view st in
  match pending_between (uid v) toId (db st) with
  | r :: _ => mkSt (set_status (delete toId (requestStatus v)) v)
                   (db st |> Store.deleteRequest (FriendRequest.id r))
  | [] => st
  end.

(** [handleFriendRequest(request, action)] (lines 357-382); [fromUser]
    says whether the listener found the sender's profile, [isMobile]
    whether the new chat is selected. *)
Definition handleFriendRequest (r : FriendRequest.t) (accept fromUser isMobile : bool) (st : St) : St :=
  if accept then
    let '(res, db') := accept_batch r (db st) in
    match res with
    | Ok _ =>
        let st1 := refresh (mkSt (view st) db') in
        if fromUser then handleCreateChat (FriendRequest.from r) isMobile st1 else st1
    | Err _ => mkSt (view st) db'
    end
  else mkSt (view st) (db st |> Store.deleteRequest (FriendRequest.id r)).

(** [handleUnfriend(friendId)] (lines 384-421): the batch, the profile
    read again, the direct chat deleted, and deselected if it was open. *)
Definition handleUnfriend (friendId : string) (st : St) : St :=
  let v := view st in
  let '(res, db1) := unfriend_batch (uid v) friendId (db st) in
  match res with
  | Err _ => mkSt v db1
  | Ok _ =>
      let st1 := refresh (mkSt v db1) in
      let cid := chat_id (uid v) friendId in
      let db2 := if bool_decide (is_Some (Store.chats db1 !! cid))
                 then db1 |> Store.deleteChat cid else db1 in
      let v2 := if bool_decide ((Chat.id <$> selectedChat (view st1)) = Some cid)
                then set_selected None (view st1) else view st1 in
      mkSt v2 db2
  end.

(** ** The listeners *)

(** Insertion into a list ordered by [lastMessageTimestamp], latest first,
    after the chats with the same time: [Array.prototype.sort] is stable. *)
Fixpoint insert_by_time (c : Chat.t) (l : list Chat.t) : list Chat.t :=
  match l with
  | [] => [c]
  | d :: l' => if bool_decide (Chat.lastMessageTimestamp d < Chat.lastMessageTimestamp c)%Z
               then c :: l else d :: insert_by_time c l'
  end.

(** [.sort((a,b) => b.lastMessageTimestamp - a.lastMessageTimestamp)]. *)
Definition sort_by_time (l : list Chat.t) : list Chat.t := fold_right insert_by_time [] (rev l).

(** The chats where the user is a member, in document-id order (line 171). *)
Definition member_chats (me : string) (s : Store.t) : list Chat.t :=
  omap (fun id => Store.chats s !! id)
       (Store.sort_ids (map fst (List.filter (fun kv => bool_decide (me ∈ Chat.members kv.2))
                                             (map_to_list (Store.chats s))))).

(** A snapshot of the chat list (lines 173-216): the list, latest first;
    the open chat refreshed, or closed if it is gone. *)
Definition chats_snapshot (st : St) : St :=
  let v := view st in
  let cs := sort_by_time (member_chats (uid v) (db st)) in
  let sel := match selectedChat v with
             | Some c => snd <$> list_find (fun d => Chat.id d = Chat.id c) cs
             | None => None
             end in
  mkSt (set_selected sel (set_chats cs v)) (db st).

(** The union of two status maps, the second winning: [{...prev, ...m}]. *)
Definition merge (prev m : gmap string req_status) : gmap string req_status := m ∪ prev.

(** The friend-request effect on a new profile (lines 122-130, 158): every
    friend marked [friends]. *)
Definition requests_effect (st : St) : St :=
  let v := view st in
  match profile v with
  | Some p =>
      let current := list_to_map ((fun f => (f, RFriends)) <$> User.friends p) in
      mkSt (set_status (merge (requestStatus v) current) v) (db st)
  | None => st
  end.

(** A snapshot of the sent requests (lines 135-142): each pending one
    marked [pending]. *)
Definition sent_snapshot (st : St) : St :=
  let v := view st in
  let sent := Store.requests_where (fun r => bool_decide (FriendRequest.from r = uid v /\
                                                          FriendRequest.status r = Pending)) (db st) in
  let m := list_to_map ((fun r => (FriendRequest.to r, RPending)) <$> sent) in
  mkSt (set_status (merge (requestStatus v) m) v) (db st).

(** A snapshot of the received requests (lines 145-156): the pending ones
    whose sender has a profile. *)
Definition received_snapshot (st : St) : St :=
  let v := view st in
  let recv := Store.requests_where (fun r => bool_decide (FriendRequest.to r = uid v /\
                                                          FriendRequest.status r = Pending)) (db st) in
  mkSt (set_requests (List.filter (fun r => bool_decide (is_Some (Store.getUser (FriendRequest.from r) (db st)))) recv) v)
       (db st).

(** The page before any snapshot. *)
Definition init (me : string) : t := {|
  uid := me; profile := None; selectedChat := None; chats := []; isCreatingChat := false;
  requestStatus := ∅; friendRequests := []; activeTab := TabChats |}.

(** ** The people tab ([src/src/components/people-tab.tsx]) *)

(** The button the tab shows next to a user (lines 152-187). *)
Inductive people_action := ActMessage | ActCancel | ActAdd.

Definition action_for (s : option req_status) : people_action :=
  match s with
  | Some RFriends => ActMessage
  | Some RPending => ActCancel
  | None => ActAdd
  end.

(** A click on that button for user [u] ([onCreateChat] being
    [handleCreateChat(u, { setActive })], lines 626 and 730 of
    [page.tsx]). *)
Definition people_click (u : string) (setActive : bool) (newId : string) (st : St) : St :=
  match action_for (requestStatus (view st) !! u) with
  | ActMessage => handleCreateChat u setActive st
  | ActCancel => handleCancelFriendRequest u st
  | ActAdd => handleSendFriendRequest u newId st
  end.

(** ** The friends page ([src/src/app/friends/page.tsx]) *)

(** The friends effect (lines 28-41): each friend's document read; a
    missing one gives an object with its id only. *)
Definition friends_list (prof : option User.t) (s : Store.t) : list (string * option User.t) :=
  match prof with
  | Some p => (fun f => (f, Store.getUser f s)) <$> User.friends p
  | None => []
  end.

(** [handleUnfriend(friendId)] of the friends page (lines 44-77): the same
    batch and chat deletion as the home page's, with no chat to close. *)
Definition page_handleUnfriend (friendId : string) (st : St) : St :=
  let v := view st in
  let '(res, db1) := unfriend_batch (uid v) friendId (db st) in
  match res with
  | Err _ => mkSt v db1
  | Ok _ =>
      let st1 := refresh (mkSt v db1) in
      let cid := chat_id (uid v) friendId in
      let db2 := if bool_decide (is_Some (Store.chats db1 !! cid))
                 then db1 |> Store.deleteChat cid else db1 in
      mkSt (view st1) db2
  end.

(** ** Chat ids *)

Lemma sort2_comm a b : sort2 a b = sort2 b a.
Proof.
  unfold sort2. destruct (String.leb a b) eqn:Hab, (String.leb b a) eqn:Hba; try done.
  - by rewrite (String.leb_antisym a b Hab Hba).
  - destruct (String.leb_total a b); congruence.
Qed.

Lemma chat_id_comm a b : chat_id b a = chat_id a b.
Proof. unfold chat_id. by rewrite sort2_comm. Qed.

(** ** Friend lists *)

(** The friends list of [x], if [x] has a profile. *)
Definition fset (us : gmap string User.t) (x : string) : option (list string) := User.friends <$> us !! x.

(** [y] is in [x]'s friends list. *)
Definition fr (s : Store.t) (x y : string) : Prop := exists l, fset (Store.users s) x = Some l /\ y ∈ l.

Definition friends_sym (s : Store.t) : Prop := forall x y, fr s x y -> fr s y x.

Lemma fset_update f u us x :
  fset (update_friends f u us) x = if decide (x = u) then f <$> fset us x else fset us x.
Proof.
  unfold fset, update_friends. destruct (decide (x = u)) as [->|Hne].
  - rewrite lookup_alter_eq. by destruct (us !! u).
  - by rewrite lookup_alter_ne.
Qed.

Lemma array_union_iff z y l : y ∈ Store.array_union z l <-> y ∈ l \/ y = z.
Proof.
  unfold Store.array_union. destruct (bool_decide (z ∈ l)) eqn:E.
  - apply bool_decide_eq_true in E. split; [by left|]. intros [?| ->]; done.
  - rewrite elem_of_app, list_elem_of_singleton. done.
Qed.

Lemma array_remove_iff z y l : y ∈ Store.array_remove z l <-> y ∈ l /\ y <> z.
Proof.
  unfold Store.array_remove. rewrite !list_elem_of_In, List.filter_In.
  rewrite negb_true_iff, bool_decide_eq_false. done.
Qed.

Lemma some_fmap_elem (f : list string -> list string) o y :
  (exists l, f <$> o = Some l /\ y ∈ l) <-> exists l, o = Some l /\ y ∈ f l.
Proof. destruct o; naive_solver. Qed.

(** Who is whose friend after an accepted request. *)
Lemma accept_batch_fr r s s' :
  accept_batch r s = (Ok tt, s') ->
  forall x y, fr s' x y <-> fr s x y \/ (x = FriendRequest.to r /\ y = FriendRequest.from r /\ is_Some (fset (Store.users s) x))
                        \/ (x = FriendRequest.from r /\ y = FriendRequest.to r /\ is_Some (fset (Store.users s) x)).
Proof.
  unfold accept_batch. cbv zeta. intros H.
  destruct (Store.friendRequests s !! _) eqn:E1; [|discriminate].
  destruct (Store.users s !! FriendRequest.to r) eqn:E2; [|discriminate].
  destruct (Store.users s !! FriendRequest.from r) eqn:E3; [|discriminate].
  injection H as <-. intros x y. unfold fr. simpl. rewrite !fset_update.
  assert (is_Some (fset (Store.users s) (FriendRequest.to r))) by (unfold fset; rewrite E2; eauto).
  assert (is_Some (fset (Store.users s) (FriendRequest.from r))) by (unfold fset; rewrite E3; eauto).
  repeat case_decide; subst; rewrite <-?option_fmap_compose, ?some_fmap_elem; unfold compose;
    try setoid_rewrite array_union_iff;
    try setoid_rewrite array_union_iff; unfold is_Some in *; naive_solver.
Qed.

(** Who is whose friend after an unfriend batch. *)
Lemma unfriend_batch_fr me f s s' :
  unfriend_batch me f s = (Ok tt, s') ->
  forall x y, fr s' x y <-> fr s x y /\ ~ (x = me /\ y = f) /\ ~ (x = f /\ y = me).
Proof.
  unfold unfriend_batch. intros H.
  destruct (Store.users s !! me) eqn:E1; [|discriminate].
  destruct (Store.users s !! f) eqn:E2; [|discriminate].
  injection H as <-. intros x y. unfold fr. simpl. rewrite !fset_update.
  repeat case_decide; subst; rewrite <-?option_fmap_compose, ?some_fmap_elem; unfold compose;
    try setoid_rewrite array_remove_iff;
    try setoid_rewrite array_remove_iff; naive_solver.
Qed.

Lemma accept_batch_ok r s s' :
  accept_batch r s = (Ok tt, s') ->
  is_Some (fset (Store.users s) (FriendRequest.to r)) /\ is_Some (fset (Store.users s) (FriendRequest.from r)).
Proof.
  unfold accept_batch, fset. cbv zeta. repeat case_match; intros; simplify_eq; eauto.
Qed.

Lemma accept_batch_err r s e s' : accept_batch r s = (Err e, s') -> s' = s.
Proof. unfold accept_batch. cbv zeta. repeat case_match; by intros [= _ <-]. Qed.

Lemma unfriend_batch_err me f s e s' : unfriend_batch me f s = (Err e, s') -> s' = s.
Proof. unfold unfriend_batch. repeat case_match; by intros [= _ <-]. Qed.

Lemma accept_batch_sym r s s' : accept_batch r s = (Ok tt, s') -> friends_sym s -> friends_sym s'.
Proof.
  intros H Hs x y. pose proof (accept_batch_ok _ _ _ H) as [??].
  rewrite !(accept_batch_fr _ _ _ H). naive_solver.
Qed.

Lemma unfriend_batch_sym me f s s' : unfriend_batch me f s = (Ok tt, s') -> friends_sym s -> friends_sym s'.
Proof. intros H Hs x y. rewrite !(unfriend_batch_fr _ _ _ _ H). naive_solver. Qed.

(** The friend lists a handler leaves as they were. *)
Definition same_users (st st' : St) : Prop := Store.users (db st') = Store.users (db st).

Lemma handleCreateChat_users o a st : same_users st (handleCreateChat o a st).
Proof. unfold same_users, handleCreateChat. by repeat case_match; simplify_eq. Qed.

(** ** Steps of the friends pages

    Any handler or listener of a page, of any signed-in user: a page of
    another user acting on the same store is a change of [view]. *)
Inductive fstep : St -> St -> Prop :=
| FsAccept r fromUser isMobile st : fstep st (handleFriendRequest r true fromUser isMobile st)
| FsDecline r st : fstep st (handleFriendRequest r false false false st)
| FsSend toId newId st : fstep st (handleSendFriendRequest toId newId st)
| FsCancel toId st : fstep st (handleCancelFriendRequest toId st)
| FsUnfriend f st : fstep st (handleUnfriend f st)
| FsCreate other setActive st : fstep st (handleCreateChat other setActive st)
| FsChats st : fstep st (chats_snapshot st)
| FsEffect st : fstep st (requests_effect st)
| FsSent st : fstep st (sent_snapshot st)
| FsReceived st : fstep st (received_snapshot st)
| FsPage v st : fstep st (mkSt v (db st))
| FsFriendsPage f st : fstep st (page_handleUnfriend f st)
| FsPeople u setActive newId st : fstep st (people_click u setActive newId st).

Section Keeps.
Variable st : St.
Hypothesis Hsym : friends_sym (db st).

Lemma accept_keeps_sym r fromUser isMobile : friends_sym (db (handleFriendRequest r true fromUser isMobile st)).
Proof.
  unfold handleFriendRequest. destruct (accept_batch r (db st)) as [[[]|e] s'] eqn:E.
  - assert (friends_sym s') by (apply (accept_batch_sym _ _ _ E Hsym)).
    destruct fromUser; [unfold friends_sym, fr; rewrite (handleCreateChat_users _ _ _)|]; done.
  - rewrite (accept_batch_err _ _ _ _ E). exact Hsym.
Qed.

Lemma send_keeps_sym toId newId : friends_sym (db (handleSendFriendRequest toId newId st)).
Proof. unfold handleSendFriendRequest. cbv zeta. case_bool_decide; exact Hsym. Qed.

Lemma cancel_keeps_sym toId : friends_sym (db (handleCancelFriendRequest toId st)).
Proof. unfold handleCancelFriendRequest. cbv zeta. case_match; exact Hsym. Qed.

Lemma unfriend_keeps_sym f : friends_sym (db (handleUnfriend f st)).
Proof.
  unfold handleUnfriend. destruct (unfriend_batch _ f (db st)) as [[[]|e] s'] eqn:E; simpl.
  - repeat case_bool_decide; simpl; apply (unfriend_batch_sym _ _ _ _ E Hsym).
  - rewrite (unfriend_batch_err _ _ _ _ _ E). exact Hsym.
Qed.

Lemma page_unfriend_keeps_sym f : friends_sym (db (page_handleUnfriend f st)).
Proof.
  unfold page_handleUnfriend. destruct (unfriend_batch _ f (db st)) as [[[]|e] s'] eqn:E; simpl.
  - repeat case_bool_decide; simpl; apply (unfriend_batch_sym _ _ _ _ E Hsym).
  - rewrite (unfriend_batch_err _ _ _ _ _ E). exact Hsym.
Qed.

Lemma create_keeps_sym o a : friends_sym (db (handleCreateChat o a st)).
Proof. unfold friends_sym, fr. by rewrite (handleCreateChat_users _ _ _). Qed.

Lemma effect_keeps_sym : friends_sym (db (requests_effect st)).
Proof. unfold requests_effect. cbv zeta. case_match; exact Hsym. Qed.

Lemma people_keeps_sym u a newId : friends_sym (db (people_click u a newId st)).
Proof.
  unfold people_click. case_match; auto using create_keeps_sym, cancel_keeps_sym, send_keeps_sym.
Qed.

End Keeps.

Lemma fstep_sym st st' : fstep st st' -> friends_sym (db st) -> friends_sym (db st').
Proof.
  intros Hs Hsym. destruct Hs; try exact Hsym;
    auto using accept_keeps_sym, send_keeps_sym, cancel_keeps_sym, unfriend_keeps_sym,
      page_unfriend_keeps_sym, create_keeps_sym, effect_keeps_sym, people_keeps_sym.
Qed.

(** ** Handler lemmas *)

Lemma handleUnfriend_requests f st :
  Store.friendRequests (db (handleUnfriend f st)) = Store.friendRequests (db st).
Proof.
  unfold handleUnfriend, unfriend_batch. cbv zeta.
  repeat (case_match || case_bool_decide); simplify_eq; done.
Qed.

Lemma handleUnfriend_uid f st : uid (view (handleUnfriend f st)) = uid (view st).
Proof. unfold handleUnfriend. cbv zeta. by repeat (case_match || case_bool_decide). Qed.

(** A request from [uid] to [toId] is stored, of any status: the send
    only marks the status. *)
Lemma send_existing toId newId st id r :
  Store.friendRequests (db st) !! id = Some r ->
  FriendRequest.from r = uid (view st) -> FriendRequest.to r = toId ->
  handleSendFriendRequest toId newId st =
    mkSt (set_status (<[toId := RPending]> (requestStatus (view st))) (view st)) (db st).
Proof.
  intros Hr Hf Ht. unfold handleSendFriendRequest. rewrite bool_decide_false; [done|].
  unfold requests_between. rewrite Store.requests_where_nil. intros Hn.
  specialize (Hn id r Hr). rewrite bool_decide_eq_false in Hn. tauto.
Qed.

Lemma handleCreateChat_uid o a st : uid (view (handleCreateChat o a st)) = uid (view st).
Proof. unfold handleCreateChat. cbv zeta. by repeat case_match; simplify_eq. Qed.

Lemma handleCreateChat_requests o a st :
  Store.friendRequests (db (handleCreateChat o a st)) = Store.friendRequests (db st).
Proof. unfold handleCreateChat. cbv zeta. by repeat case_match; simplify_eq. Qed.

(** [handleCreateChat] finds the chat of the two users, or writes it, and
    selects it when asked to. *)
Lemma handleCreateChat_spec o a st :
  let cid := chat_id (uid (view st)) o in
  let st' := handleCreateChat o a st in
  exists c, Store.chats (db st') !! cid = Some c /\
    (a = true -> selectedChat (view st') = Some c) /\
    ((Store.chats (db st) !! cid = Some c /\ db st' = db st) \/
     (Store.chats (db st) !! cid = None /\ c = new_chat (uid (view st)) o (Store.clock (db st)))).
Proof.
  unfold handleCreateChat. cbv zeta.
  destruct (Store.chats (db st) !! _) as [c|] eqn:E; simpl.
  - exists c. destruct a; naive_solver.
  - eexists. rewrite lookup_insert_eq. destruct a; naive_solver.
Qed.

Lemma accept_batch_run r s q ua ub :
  Store.friendRequests s !! FriendRequest.id r = Some q ->
  Store.users s !! FriendRequest.to r = Some ua -> Store.users s !! FriendRequest.from r = Some ub ->
  exists s', accept_batch r s = (Ok tt, s') /\
    Store.friendRequests s' !! FriendRequest.id r = Some (with_status Accepted q).
Proof.
  intros Hq Ha Hb. unfold accept_batch. rewrite Hq, Ha, Hb. eexists. split; [done|].
  simpl. by rewrite lookup_insert_eq.
Qed.

(** ** The chat list *)

(** [c] comes before [d] in the list: its last message is not older. *)
Definition later (c d : Chat.t) : Prop := (Chat.lastMessageTimestamp d <= Chat.lastMessageTimestamp c)%Z.

Lemma insert_by_time_perm c l : insert_by_time c l ≡ₚ c :: l.
Proof.
  induction l as [|d l IH]; simpl; [done|]. case_bool_decide; [done|].
  rewrite IH. apply perm_swap.
Qed.

Lemma insert_by_time_hd d c l : HdRel later d l -> later d c -> HdRel later d (insert_by_time c l).
Proof.
  intros Hd Hc. destruct l as [|e l]; simpl; [by constructor|].
  case_bool_decide; constructor; [done|]. by inversion Hd.
Qed.

Lemma insert_by_time_sorted c l : Sorted later l -> Sorted later (insert_by_time c l).
Proof.
  induction l as [|d l IH]; simpl; intros Hl; [by repeat constructor|].
  case_bool_decide.
  - constructor; [done|]. constructor. unfold later. lia.
  - inversion Hl; subst. constructor; [by apply IH|].
    apply insert_by_time_hd; [done|]. unfold later. lia.
Qed.

Lemma sort_by_time_sorted l : Sorted later (sort_by_time l).
Proof.
  unfold sort_by_time. induction (rev l) as [|c l' IH]; simpl; [constructor|].
  by apply insert_by_time_sorted.
Qed.

Lemma sort_by_time_perm l : sort_by_time l ≡ₚ l.
Proof.
  unfold sort_by_time. rewrite <-(reverse_Permutation l) at 2. unfold reverse.
  rewrite <-rev_alt. induction (rev l) as [|c l' IH]; simpl; [done|].
  by rewrite insert_by_time_perm, IH.
Qed.

Lemma member_chats_elem me s c :
  c ∈ member_chats me s <-> exists id, Store.chats s !! id = Some c /\ me ∈ Chat.members c.
Proof.
  pose proof (Store.query_elem (Store.chats s) (fun c => bool_decide (me ∈ Chat.members c)) c) as H.
  unfold member_chats. etransitivity; [exact H|].
  by setoid_rewrite bool_decide_eq_true.
Qed.

Lemma unfriend_batch_run me f s um uf :
  Store.users s !! me = Some um -> Store.users s !! f = Some uf ->
  exists s', unfriend_batch me f s = (Ok tt, s').
Proof. intros Hm Hf. unfold unfriend_batch. rewrite Hm, Hf. eauto. Qed.

(** What [handleUnfriend] leaves once its batch committed. *)
Lemma handleUnfriend_ok f st s' :
  unfriend_batch (uid (view st)) f (db st) = (Ok tt, s') ->
  let cid := chat_id (uid (view st)) f in
  let st' := handleUnfriend f st in
  Store.users (db st') = Store.users s' /\ Store.chats (db st') !! cid = None /\
  (Chat.id <$> selectedChat (view st')) <> Some cid /\
  requestStatus (view st') = requestStatus (view st) /\
  profile (view st') = Store.getUser (uid (view st)) s'.
Proof.
  intros E. cbv zeta. unfold handleUnfriend. rewrite E. cbv zeta. simpl.
  assert (Hc : forall b : bool, Store.chats (if b then s' |> Store.deleteChat (chat_id (uid (view st)) f) else s')
                           !! chat_id (uid (view st)) f = None \/ b = false).
  { intros []; simpl; [left; apply lookup_delete_eq|by right]. }
  case_bool_decide as Hp; case_bool_decide as Hs; simpl; split_and!; try done;
    try (destruct (Hc true) as [?|?]; done); destruct (Store.chats s' !! _) eqn:E'; naive_solver.
Qed.

(** A decidable form of [friends_sym], for concrete stores. *)
Definition friends_sym_check (us : gmap string User.t) : Prop :=
  map_Forall (fun x u => Forall (fun y => x ∈ default [] (User.friends <$> us !! y)) (User.friends u)) us.

#[export] Instance friends_sym_check_dec us : Decision (friends_sym_check us).
Proof. unfold friends_sym_check. apply _. Defined.

Lemma friends_sym_check_sym s : friends_sym_check (Store.users s) -> friends_sym s.
Proof.
  intros H x y (l & Hl & Hy). unfold fset in Hl.
  destruct (Store.users s !! x) as [u|] eqn:E; simplify_eq/=.
  specialize (H x u E). rewrite Forall_forall in H. specialize (H y Hy).
  unfold fr, fset. destruct (Store.users s !! y); simpl in H; [eauto|by inversion H].
Qed.

(** ** Concrete pages *)

Local Open Scope string_scope.

Definition person (u : string) (fs : list string) : User.t := {|
  User.id := u; User.uid := u; User.displayName := u; User.email := u; User.photoURL := "";
  User.handle := u; User.createdAt := None; User.theme := None; User.friends := fs;
  User.blockedUsers := [] |}.

(** Alice's request to bob, with its status. *)
Definition req_ab (st : request_status) : FriendRequest.t := {|
  FriendRequest.id := "r1"; FriendRequest.from := "alice"; FriendRequest.to := "bob";
  FriendRequest.status := st; FriendRequest.createdAt := 1000 |}.

Definition chat_ab : Chat.t := new_chat "alice" "bob" 1000.

(** Alice has asked bob; neither has friends. *)
Definition db_pending : Store.t := {|
  Store.calls := ∅; Store.callerCandidates := ∅; Store.calleeCandidates := ∅;
  Store.chats := ∅; Store.messages := ∅;
  Store.users := {[ "alice" := person "alice" []; "bob" := person "bob" [] ]};
  Store.friendRequests := {[ "r1" := req_ab Pending ]}; Store.clock := 5000; Store.journal := [] |}.

(** Bob accepted: they are friends and have their chat. *)
Definition db_friends : Store.t := {|
  Store.calls := ∅; Store.callerCandidates := ∅; Store.calleeCandidates := ∅;
  Store.chats := {[ "alice_bob" := chat_ab ]}; Store.messages := ∅;
  Store.users := {[ "alice" := person "alice" ["bob"]; "bob" := person "bob" ["alice"] ]};
  Store.friendRequests := {[ "r1" := req_ab Accepted ]}; Store.clock := 5000; Store.journal := [] |}.

Definition page (me : string) (fs : list string) (sel : option Chat.t) (rs : gmap string req_status) : t := {|
  uid := me; profile := Some (person me fs); selectedChat := sel; chats := [];
  isCreatingChat := false; requestStatus := rs; friendRequests := []; activeTab := TabChats |}.

(** Alice's page on the chat with her friend bob. *)
Definition alice_with_bob : St := mkSt (page "alice" ["bob"] (Some chat_ab) {[ "bob" := RFriends ]}) db_friends.

(** Bob's page with alice's request pending. *)
Definition bob_asked : St := mkSt (page "bob" [] None ∅) db_pending.

(** ** Friendship is mutual *)

(** C7: every run of the friends handlers and listeners, of any users'
    pages on a shared store, keeps friendship mutual: [y] is in [x]'s
    [friends] exactly when [x] is in [y]'s. *)
Theorem friends_symmetric st st' :
  friends_sym (db st) -> rtc fstep st st' -> friends_sym (db st').
Proof. intros Hs Hr. induction Hr; eauto using fstep_sym. Qed.

Lemma friends_symmetric_witness :
  friends_sym (db bob_asked) /\
  rtc fstep bob_asked
    (handleUnfriend "bob" (mkSt (page "alice" ["bob"] None ∅)
      (db (handleFriendRequest (req_ab Pending) true true false bob_asked)))) /\
  friends_sym (db (handleUnfriend "bob" (mkSt (page "alice" ["bob"] None ∅)
      (db (handleFriendRequest (req_ab Pending) true true false bob_asked))))).
Proof.
  assert (Hs : friends_sym (db bob_asked)) by (apply friends_sym_check_sym, (bool_decide_unpack (friends_sym_check (Store.users (db bob_asked)))); vm_compute; reflexivity).
  assert (Hr : rtc fstep bob_asked
    (handleUnfriend "bob" (mkSt (page "alice" ["bob"] None ∅)
      (db (handleFriendRequest (req_ab Pending) true true false bob_asked))))).
  { eapply rtc_l; [apply FsAccept|]. eapply rtc_l; [apply FsPage|]. apply rtc_once, FsUnfriend. }
  split; [exact Hs|]. split; [exact Hr|]. exact (friends_symmetric _ _ Hs Hr).
Defined.

(** C24: accepting a request whose document and both profiles exist makes
    the two users friends of each other, marks the request [accepted], and,
    when the sender's profile was found, leaves the store holding the
    direct chat of the page's user and the sender. *)
Theorem accept_makes_friends r fromUser isMobile st q ua ub :
  Store.friendRequests (db st) !! FriendRequest.id r = Some q ->
  Store.users (db st) !! FriendRequest.to r = Some ua ->
  Store.users (db st) !! FriendRequest.from r = Some ub ->
  let st' := handleFriendRequest r true fromUser isMobile st in
  fr (db st') (FriendRequest.to r) (FriendRequest.from r) /\
  fr (db st') (FriendRequest.from r) (FriendRequest.to r) /\
  Store.friendRequests (db st') !! FriendRequest.id r = Some (with_status Accepted q) /\
  (fromUser = true -> is_Some (Store.chats (db st') !! chat_id (uid (view st)) (FriendRequest.from r))).
Proof.
  intros Hq Ha Hb. destruct (accept_batch_run _ _ _ _ _ Hq Ha Hb) as (s' & E & Hst).
  cbv zeta. unfold handleFriendRequest. rewrite E.
  assert (Hfr : forall x y, (x = FriendRequest.to r /\ y = FriendRequest.from r \/
                            x = FriendRequest.from r /\ y = FriendRequest.to r) -> fr s' x y).
  { intros x y Hxy. apply (accept_batch_fr _ _ _ E). unfold fset.
    destruct Hxy as [[-> ->]|[-> ->]]; rewrite ?Ha, ?Hb; simpl; eauto. }
  destruct fromUser; simpl.
  - destruct (handleCreateChat_spec (FriendRequest.from r) isMobile (refresh (mkSt (view st) s')))
      as (c & Hc & _). unfold fr. rewrite !handleCreateChat_users, handleCreateChat_requests.
    simpl. split_and!; eauto; apply Hfr; tauto.
  - split_and!; [apply Hfr; tauto|apply Hfr; tauto|done|discriminate].
Qed.

Lemma accept_makes_friends_witness :
  fr (db (handleFriendRequest (req_ab Pending) true true false bob_asked)) "bob" "alice" /\
  fr (db (handleFriendRequest (req_ab Pending) true true false bob_asked)) "alice" "bob" /\
  Store.friendRequests (db (handleFriendRequest (req_ab Pending) true true false bob_asked)) !! "r1" =
    Some (req_ab Accepted) /\
  is_Some (Store.chats (db (handleFriendRequest (req_ab Pending) true true false bob_asked)) !! "alice_bob").
Proof.
  destruct (accept_makes_friends (req_ab Pending) true false bob_asked (req_ab Pending)
              (person "bob" []) (person "alice" [])) as (H1 & H2 & H3 & H4);
    [reflexivity|reflexivity|reflexivity|].
  split_and!; [exact H1|exact H2|exact H3|exact (H4 eq_refl)].
Defined.

(** ** Unfriending *)

(** C25: unfriending, when both profiles exist, takes each user out of the
    other's [friends] and leaves every other friendship as it was, deletes
    their direct chat, and closes it if it was open. *)
Theorem unfriend_spec f st um uf :
  Store.users (db st) !! uid (view st) = Some um -> Store.users (db st) !! f = Some uf ->
  let me := uid (view st) in
  let st' := handleUnfriend f st in
  ~ fr (db st') me f /\ ~ fr (db st') f me /\
  (forall x y, ~ (x = me /\ y = f) -> ~ (x = f /\ y = me) -> fr (db st') x y <-> fr (db st) x y) /\
  Store.chats (db st') !! chat_id me f = None /\
  (Chat.id <$> selectedChat (view st')) <> Some (chat_id me f).
Proof.
  intros Hm Hf. destruct (unfriend_batch_run _ _ _ _ _ Hm Hf) as [s' E].
  destruct (handleUnfriend_ok _ _ _ E) as (Hu & Hc & Hs & _). cbv zeta.
  assert (Hfr : forall x y, fr (db (handleUnfriend f st)) x y <-> fr s' x y) by (unfold fr; by rewrite Hu).
  rewrite !Hfr, !(unfriend_batch_fr _ _ _ _ E). split_and!; try done; [tauto|tauto|].
  intros x y H1 H2. rewrite Hfr, (unfriend_batch_fr _ _ _ _ E). tauto.
Qed.

Lemma unfriend_spec_witness :
  ~ fr (db (handleUnfriend "bob" alice_with_bob)) "alice" "bob" /\
  ~ fr (db (handleUnfriend "bob" alice_with_bob)) "bob" "alice" /\
  Store.chats (db (handleUnfriend "bob" alice_with_bob)) !! "alice_bob" = None /\
  selectedChat (view (handleUnfriend "bob" alice_with_bob)) = None.
Proof.
  destruct (unfriend_spec "bob" alice_with_bob (person "alice" ["bob"]) (person "bob" ["alice"]))
    as (H1 & H2 & _ & H4 & _); [reflexivity|reflexivity|].
  split_and!; [exact H1|exact H2|exact H4|vm_compute; reflexivity].
Defined.

(** [handleUnfriend] leaves [requestStatus] as it was, and the
    friend-request effect, run on the refreshed profile, only adds
    entries. *)
Lemma unfriend_status_kept f st um uf :
  Store.users (db st) !! uid (view st) = Some um -> Store.users (db st) !! f = Some uf ->
  requestStatus (view st) !! f = Some RFriends ->
  let st' := requests_effect (handleUnfriend f st) in
  ~ fr (db st') (uid (view st)) f /\ requestStatus (view st') !! f = Some RFriends.
Proof.
  intros Hm Hf Hr. destruct (unfriend_batch_run _ _ _ _ _ Hm Hf) as [s' E].
  destruct (handleUnfriend_ok _ _ _ E) as (Hu & _ & _ & Hrs & Hp).
  assert (Hn : ~ fr s' (uid (view st)) f) by (rewrite (unfriend_batch_fr _ _ _ _ E); naive_solver).
  cbv zeta. unfold requests_effect. cbv zeta. rewrite Hp.
  destruct (Store.getUser _ s') as [p|] eqn:Ep; simpl; unfold fr; rewrite Hu; split; try done.
  - unfold merge. rewrite lookup_union_r, Hrs; [done|].
    apply not_elem_of_list_to_map_1. rewrite <-list_fmap_compose, list_fmap_id.
    intros Hin. apply Hn. exists (User.friends p). unfold fset, Store.getUser in *. by rewrite Ep.
  - by rewrite Hrs.
Qed.

Lemma requests_effect_db st : db (requests_effect st) = db st.
Proof. unfold requests_effect. cbv zeta. by case_match. Qed.

Lemma requests_effect_uid st : uid (view (requests_effect st)) = uid (view st).
Proof. unfold requests_effect. cbv zeta. by case_match. Qed.

(** after unfriending, the page still shows the former friend as a
    friend: the status stays [friends] while the store no longer has them
    as friends, so the people tab offers [Message], and clicking it writes
    back the direct chat the unfriend deleted. *)
Theorem unfriend_status_stale f newId st um uf :
  Store.users (db st) !! uid (view st) = Some um -> Store.users (db st) !! f = Some uf ->
  requestStatus (view st) !! f = Some RFriends ->
  let me := uid (view st) in
  let st' := requests_effect (handleUnfriend f st) in
  ~ fr (db st') me f /\ action_for (requestStatus (view st') !! f) = ActMessage /\
  Store.chats (db st') !! chat_id me f = None /\
  Store.chats (db (people_click f true newId st')) !! chat_id me f =
    Some (new_chat me f (Store.clock (db st'))).
Proof.
  intros Hm Hf Hr. destruct (unfriend_status_kept f st um uf Hm Hf Hr) as [Hn Hs].
  destruct (unfriend_batch_run _ _ _ _ _ Hm Hf) as [s' E].
  destruct (handleUnfriend_ok _ _ _ E) as (_ & Hc & _).
  cbv zeta in *. rewrite Hs. split_and!; [done|done|by rewrite requests_effect_db|].
  unfold people_click. rewrite Hs. simpl.
  destruct (handleCreateChat_spec f true (requests_effect (handleUnfriend f st)))
    as (c & Hc' & _ & [[Hold _]|[_ ->]]);
    rewrite requests_effect_uid, handleUnfriend_uid in *; rewrite requests_effect_db in *; congruence.
Qed.

Lemma unfriend_status_stale_witness :
  let st' := requests_effect (handleUnfriend "bob" alice_with_bob) in
  ~ fr (db st') "alice" "bob" /\ action_for (requestStatus (view st') !! "bob") = ActMessage /\
  Store.chats (db st') !! "alice_bob" = None /\
  Store.chats (db (people_click "bob" true "r2" st')) !! "alice_bob" = Some (new_chat "alice" "bob" 5000).
Proof.
  exact (unfriend_status_stale "bob" "r2" alice_with_bob (person "alice" ["bob"]) (person "bob" ["alice"])
           eq_refl eq_refl eq_refl).
Defined.

(** C15: after unfriending, asking the former friend again writes nothing:
    the query of [handleSendFriendRequest] matches requests of any status,
    so the old request, [accepted] and never deleted, counts as one
    already sent; the page still marks the request [pending]. *)
Theorem resend_after_unfriend_writes_nothing f newId st id r :
  Store.friendRequests (db st) !! id = Some r ->
  FriendRequest.from r = uid (view st) -> FriendRequest.to r = f ->
  let st1 := handleUnfriend f st in
  let st2 := handleSendFriendRequest f newId st1 in
  db st2 = db st1 /\ Store.friendRequests (db st2) = Store.friendRequests (db st) /\
  requestStatus (view st2) !! f = Some RPending.
Proof.
  intros Hr Hf Ht. cbv zeta.
  rewrite (send_existing f newId (handleUnfriend f st) id r); [|by rewrite handleUnfriend_requests
    |by rewrite handleUnfriend_uid|done].
  simpl. split_and!; [done|apply handleUnfriend_requests|apply lookup_insert_eq].
Qed.

Lemma resend_after_unfriend_writes_nothing_witness :
  let st2 := handleSendFriendRequest "bob" "r2" (handleUnfriend "bob" alice_with_bob) in
  db st2 = db (handleUnfriend "bob" alice_with_bob) /\
  Store.friendRequests (db st2) = {[ "r1" := req_ab Accepted ]} /\
  requestStatus (view st2) !! "bob" = Some RPending /\
  ~ fr (db st2) "alice" "bob".
Proof.
  destruct (resend_after_unfriend_writes_nothing "bob" "r2" alice_with_bob "r1" (req_ab Accepted))
    as (H1 & H2 & H3); [reflexivity|reflexivity|reflexivity|].
  split_and!; [exact H1|exact H2|exact H3|]. rewrite H1.
  intros (l & Hl & Hin). vm_compute in Hl. injection Hl as <-. inversion Hin.
Defined.

(** ** Chats *)

(** the two users of a direct chat share it: after one opens the chat
    with the other, the other's [handleCreateChat] writes nothing and
    selects the same document, the id being the sorted pair of members. *)
Theorem create_chat_shared a b va vb s setActive :
  uid va = a -> uid vb = b ->
  let st1 := handleCreateChat b setActive (mkSt va s) in
  let st2 := handleCreateChat a true (mkSt vb (db st1)) in
  db st2 = db st1 /\
  exists c, Store.chats (db st1) !! chat_id a b = Some c /\ selectedChat (view st2) = Some c.
Proof.
  intros Ha Hb. cbv zeta.
  destruct (handleCreateChat_spec b setActive (mkSt va s)) as (c & Hc & _). simpl in Hc. rewrite Ha in Hc.
  destruct (handleCreateChat_spec a true (mkSt vb (db (handleCreateChat b setActive (mkSt va s)))))
    as (c' & _ & Hsel & [[Hc' Hdb]|[Hn _]]); simpl in *; rewrite Hb, (chat_id_comm a b) in *; [|congruence].
  rewrite Hc in Hc'. injection Hc' as <-. eauto.
Qed.

Lemma create_chat_shared_witness :
  let st1 := handleCreateChat "bob" true (mkSt (page "alice" ["bob"] None ∅) db_pending) in
  db (handleCreateChat "alice" true (mkSt (page "bob" ["alice"] None ∅) (db st1))) = db st1 /\
  Store.chats (db st1) !! "alice_bob" = Some (new_chat "alice" "bob" 5000) /\
  selectedChat (view (handleCreateChat "alice" true (mkSt (page "bob" ["alice"] None ∅) (db st1)))) =
    Some (new_chat "alice" "bob" 5000).
Proof.
  destruct (create_chat_shared "alice" "bob" (page "alice" ["bob"] None ∅) (page "bob" ["alice"] None ∅)
              db_pending true) as (H1 & c & H2 & H3); [reflexivity|reflexivity|].
  assert (Hc : c = new_chat "alice" "bob" 5000).
  { vm_compute in H2. injection H2 as <-. vm_compute. reflexivity. }
  subst c.
  split_and!; [exact H1|exact H2|exact H3].
Defined.

(** a snapshot of the chat list shows exactly the chats the user is
    a member of, latest message first, and keeps open only a chat still in
    the list, refreshed, with the id of the chat that was open. *)
Theorem chats_snapshot_spec st :
  let v' := view (chats_snapshot st) in
  Sorted later (chats v') /\
  (forall c, c ∈ chats v' <-> exists id, Store.chats (db st) !! id = Some c /\ uid (view st) ∈ Chat.members c) /\
  (forall c, selectedChat v' = Some c ->
     c ∈ chats v' /\ exists c0, selectedChat (view st) = Some c0 /\ Chat.id c = Chat.id c0).
Proof.
  cbv zeta. unfold chats_snapshot. cbv zeta. simpl. split_and!.
  - apply sort_by_time_sorted.
  - intros c. by rewrite sort_by_time_perm, member_chats_elem.
  - intros c. destruct (selectedChat (view st)) as [c0|]; [|done].
    destruct (list_find _ _) as [[i d]|] eqn:E; intros [= <-].
    apply list_find_Some in E as (Hi & Hid & _). split; [by eapply list_elem_of_lookup_2|eauto].
Qed.

End Friends.
