(* ===== verification/FriendGraph.v ===== *)
(** * The friendship graph: what the friend handlers promise, and that
    they keep the promise

    The specification the friend handlers of [src/src/app/page.tsx] and
    [src/src/app/friends/page.tsx] implement, stated on an abstract,
    undirected friendship graph: a step adds one edge (an accepted
    request), removes one (an unfriend) or leaves the graph as it was.
    Graphs are relations compared pointwise, a setoid coarser than
    equality, with the operations [Proper] for it.  The refinement
    theorem maps each step of [Friends.fstep] to a step of the graph
    through [abs], the friends lists of the stored profiles; the graph
    steps keep symmetry, so mutual friendship follows again, this time
    from the specification. *)

From S2P Require Import Prelude Data Store Friends.

Module FriendGraph.
Import Friends.

(** ** The specification *)

Definition graph := string -> string -> Prop.

#[export] Instance graph_equiv : Equiv graph := fun R S => forall x y, R x y <-> S x y.

#[export] Instance graph_equivalence : Equivalence (≡@{graph}).
Proof.
  unfold equiv, graph_equiv. split; [intros R x y|intros R S H x y|intros R S T H1 H2 x y]; naive_solver.
Qed.

(** An accepted request between [a] and [b]: each in the other's list. *)
Definition link (a b : string) (R : graph) : graph :=
  fun x y => R x y \/ (x = a /\ y = b) \/ (x = b /\ y = a).

(** An unfriend: neither in the other's list. *)
Definition unlink (a b : string) (R : graph) : graph :=
  fun x y => R x y /\ ~ (x = a /\ y = b) /\ ~ (x = b /\ y = a).

Definition symmetric (R : graph) : Prop := forall x y, R x y -> R y x.

(** A step of the specification, up to [≡]. *)
Inductive gstep (R : graph) : graph -> Prop :=
| GLink a b R' : R' ≡ link a b R -> gstep R R'
| GUnlink a b R' : R' ≡ unlink a b R -> gstep R R'
| GSkip R' : R' ≡ R -> gstep R R'.

(** The graph of a store: [y] is in the friends list of [x]'s profile. *)
Definition abs (s : Store.t) : graph := fr s.

(** ** The setoid *)

#[export] Instance link_proper a b : Proper ((≡) ==> (≡)) (link a b).
Proof. intros R S H x y. unfold link. by rewrite (H x y). Qed.

#[export] Instance unlink_proper a b : Proper ((≡) ==> (≡)) (unlink a b).
Proof. intros R S H x y. unfold unlink. by rewrite (H x y). Qed.

#[export] Instance symmetric_proper : Proper ((≡) ==> iff) symmetric.
Proof. intros R S H. unfold symmetric. split; intros Hs x y Hxy; apply (H y x), Hs, (H x y), Hxy. Qed.

Lemma gstep_resp R1 R2 S1 S2 : R1 ≡ R2 -> S1 ≡ S2 -> gstep R1 S1 -> gstep R2 S2.
Proof.
  intros H1 H2 Hs. revert H2.
  destruct Hs as [a b R' H|a b R' H|R' H]; intros H2;
    [apply (GLink _ a b)|apply (GUnlink _ a b)|apply GSkip]; by rewrite <-H2, H, H1.
Qed.

#[export] Instance gstep_proper : Proper ((≡) ==> (≡) ==> iff) gstep.
Proof. intros R1 R2 H1 S1 S2 H2. split; apply gstep_resp; by symmetry || done. Qed.

(** ** The specification keeps friendship mutual *)

Lemma link_symmetric a b R : symmetric R -> symmetric (link a b R).
Proof. unfold symmetric, link. naive_solver. Qed.

Lemma unlink_symmetric a b R : symmetric R -> symmetric (unlink a b R).
Proof. unfold symmetric, unlink. naive_solver. Qed.

Lemma gstep_symmetric R R' : gstep R R' -> symmetric R -> symmetric R'.
Proof.
  intros [a b G H|a b G H|G H] Hs; rewrite H; auto using link_symmetric, unlink_symmetric.
Qed.

Lemma gsteps_symmetric R R' : rtc gstep R R' -> symmetric R -> symmetric R'.
Proof. induction 1; eauto using gstep_symmetric. Qed.

(** ** The handlers refine the specification *)

Lemma abs_same_users s s' : Store.users s' = Store.users s -> abs s' ≡ abs s.
Proof. intros H x y. unfold abs, fr, fset. by rewrite H. Qed.

Lemma skip_step st st' : Store.users (db st') = Store.users (db st) -> gstep (abs (db st)) (abs (db st')).
Proof. intros H. by apply GSkip, abs_same_users. Qed.

(** An accepted batch adds the edge between the request's two users. *)
Lemma accept_batch_link r s s' :
  accept_batch r s = (Ok tt, s') -> abs s' ≡ link (FriendRequest.to r) (FriendRequest.from r) (abs s).
Proof.
  intros H x y. destruct (accept_batch_ok _ _ _ H).
  unfold abs, link. rewrite (accept_batch_fr _ _ _ H). naive_solver.
Qed.

(** An unfriend batch removes the edge between the user and the friend. *)
Lemma unfriend_batch_unlink me f s s' : unfriend_batch me f s = (Ok tt, s') -> abs s' ≡ unlink me f (abs s).
Proof. intros H x y. exact (unfriend_batch_fr _ _ _ _ H x y). Qed.

Lemma accept_gstep r fromUser isMobile st :
  gstep (abs (db st)) (abs (db (handleFriendRequest r true fromUser isMobile st))).
Proof.
  unfold handleFriendRequest. destruct (accept_batch r (db st)) as [[[]|e] s'] eqn:E.
  - apply (GLink _ (FriendRequest.to r) (FriendRequest.from r)).
    destruct fromUser; [rewrite (abs_same_users _ _ (handleCreateChat_users _ _ _))|];
      exact (accept_batch_link _ _ _ E).
  - rewrite (accept_batch_err _ _ _ _ E). by apply GSkip.
Qed.

(** Both unfriend handlers: the batch, then a store that differs from the
    batch's only in its chats. *)
Ltac unfriend_gstep_tac f E :=
  lazymatch goal with |- gstep (abs (db ?st)) _ =>
    destruct (unfriend_batch (uid (view st)) f (db st)) as [[[]|e] s'] eqn:E; simpl;
    [apply (GUnlink _ (uid (view st)) f); rewrite <-(unfriend_batch_unlink _ _ _ _ E);
     apply abs_same_users; by case_bool_decide
    |rewrite (unfriend_batch_err _ _ _ _ _ E); by apply GSkip]
  end.

Lemma unfriend_gstep f st : gstep (abs (db st)) (abs (db (handleUnfriend f st))).
Proof. unfold handleUnfriend. unfriend_gstep_tac f E. Qed.

Lemma page_unfriend_gstep f st : gstep (abs (db st)) (abs (db (page_handleUnfriend f st))).
Proof. unfold page_handleUnfriend. unfriend_gstep_tac f E. Qed.

Lemma send_users toId newId st : Store.users (db (handleSendFriendRequest toId newId st)) = Store.users (db st).
Proof. unfold handleSendFriendRequest. cbv zeta. by case_bool_decide. Qed.

Lemma cancel_users toId st : Store.users (db (handleCancelFriendRequest toId st)) = Store.users (db st).
Proof. unfold handleCancelFriendRequest. cbv zeta. by case_match. Qed.

Lemma people_users u a newId st : Store.users (db (people_click u a newId st)) = Store.users (db st).
Proof.
  unfold people_click. case_match; [apply handleCreateChat_users|apply cancel_users|apply send_users].
Qed.

#[local] Hint Resolve accept_gstep unfriend_gstep page_unfriend_gstep skip_step
  send_users cancel_users people_users : core.

(** Each step of the friends pages is a step of the specification. *)
Lemma fstep_gstep st st' : fstep st st' -> gstep (abs (db st)) (abs (db st')).
Proof.
  destruct 1; auto; apply skip_step; rewrite ?requests_effect_db; try reflexivity.
  apply handleCreateChat_users.
Qed.

(** C8: every run of the friends handlers and listeners, of any users'
    pages on a shared store, is a run of the friendship graph: each step
    adds one undirected edge (an accepted request), removes one (an
    unfriend) or leaves every friends list as it was. *)
Theorem friends_refinement st st' : rtc fstep st st' -> rtc gstep (abs (db st)) (abs (db st')).
Proof. induction 1; [done|]. eapply rtc_l; [apply fstep_gstep|]; eassumption. Qed.

(** Bob accepts alice's request, then alice unfriends him. *)
Lemma friends_refinement_witness :
  rtc gstep (abs (db bob_asked))
    (abs (db (handleUnfriend "bob" (mkSt (page "alice" ["bob"] None ∅)
      (db (handleFriendRequest (req_ab Pending) true true false bob_asked)))))).
Proof.
  apply friends_refinement.
  eapply rtc_l; [apply FsAccept|]. eapply rtc_l; [apply FsPage|]. apply rtc_once, FsUnfriend.
Defined.

End FriendGraph.
