(* ===== verification/FriendsAsync.v ===== *)
(** * Friend requests across awaits: [handleSendFriendRequest] of
    [src/src/app/page.tsx] (lines 304-332) cut at its [await]s

    [Friends.handleSendFriendRequest] runs the handler to completion.  The
    handler awaits the query for an earlier request ([getDocs], line 310)
    before it writes the new one ([addDoc], line 313), and another page of
    the same user (a second tab or device) can run in between.  Here the
    handler is cut in two: [send_start] marks the target [pending] and
    issues the query, whose answer is the store as it is then;
    [send_settle] resumes one pending handler, in any order, and writes
    the request when the query found none.  Run without interleaving, the
    two halves are [Friends.handleSendFriendRequest]; interleaved or not,
    each half refines the friendship graph's [GSkip]. *)

From S2P Require Import Prelude Data Store Friends FriendGraph.

Module FriendsAsync.
Import Friends.

(** A handler waiting on its query: the target, and the query's answer
    ([None] when [getDocs] rejected). *)
Record sending := mkSending { s_to : string; s_empty : option bool }.

(** Lines 305-311: the status set, the query issued. *)
Definition send_start (toId : string) (q_ok : bool) (st : St) (ps : list sending) : St * list sending :=
  let v := view st in
  (mkSt (set_status (<[toId := RPending]> (requestStatus v)) v) (db st),
   ps ++ [mkSending toId (if q_ok then Some (bool_decide (requests_between (uid v) toId (db st) = [])) else None)]).

(** The request [send_settle] writes. *)
Definition new_request (me toId newId : string) : FriendRequest.t :=
  {| FriendRequest.id := newId; FriendRequest.from := me; FriendRequest.to := toId;
     FriendRequest.status := Pending; FriendRequest.createdAt := 0 |}.

(** Lines 312-330: the [i]-th pending handler resumes; [newId] is the id
    [addDoc] draws.  A rejected query runs the [catch], which removes the
    target's status. *)
Definition send_settle (i : nat) (newId : string) (st : St) (ps : list sending) : St * list sending :=
  let v := view st in
  match ps !! i with
  | None => (st, ps)
  | Some sd =>
      let ps' := delete i ps in
      match s_empty sd with
      | Some true => (mkSt v (db st |> Store.addRequest newId (new_request (uid v) (s_to sd) newId)), ps')
      | Some false => (st, ps')
      | None => (mkSt (set_status (delete (s_to sd) (requestStatus v)) v) (db st), ps')
      end
  end.

(** ** Lemmas *)

(** Without interleaving, the two halves are the atomic handler. *)
Lemma send_start_settle toId newId st :
  fst (let '(st1, ps1) := send_start toId true st [] in send_settle 0 newId st1 ps1) =
  handleSendFriendRequest toId newId st.
Proof.
  unfold send_start, send_settle, handleSendFriendRequest. cbn.
  by case_bool_decide.
Qed.

(** Neither half touches a profile: seen through the friendship graph,
    each is a step that changes nothing. *)
Lemma send_start_gstep toId q st ps :
  FriendGraph.gstep (FriendGraph.abs (db st)) (FriendGraph.abs (db (fst (send_start toId q st ps)))).
Proof. by apply FriendGraph.skip_step. Qed.

Lemma send_settle_gstep i newId st ps :
  FriendGraph.gstep (FriendGraph.abs (db st)) (FriendGraph.abs (db (fst (send_settle i newId st ps)))).
Proof.
  apply FriendGraph.skip_step. unfold send_settle.
  destruct (ps !! i) as [sd|]; [|done]. by destruct (s_empty sd) as [[]|].
Qed.

(** The request a settled sender stores. *)
Definition stored_request (me toId newId : string) (now : Z) : FriendRequest.t :=
  {| FriendRequest.id := newId; FriendRequest.from := me; FriendRequest.to := toId;
     FriendRequest.status := Pending; FriendRequest.createdAt := now |}.

(** After two requests from [me] to [toId] were added to a store that held
    none, the pending ones between them are exactly those two. *)
Lemma two_requests_pending me toId idA idB s r :
  requests_between me toId s = [] -> idA <> idB ->
  let s2 := s |> Store.addRequest idA (new_request me toId idA) |> Store.addRequest idB (new_request me toId idB) in
  r ∈ pending_between me toId s2 ->
  r = stored_request me toId idA (Store.clock s) \/ r = stored_request me toId idB (Store.clock s).
Proof.
  intros Hn Hne. cbv zeta. unfold pending_between. rewrite Store.requests_where_elem.
  intros (id & Hid & HP). simpl in Hid.
  destruct (decide (id = idB)) as [->|HB]; [rewrite lookup_insert_eq in Hid; right; by injection Hid as <-|].
  rewrite lookup_insert_ne in Hid by done.
  destruct (decide (id = idA)) as [->|HA]; [rewrite lookup_insert_eq in Hid; left; by injection Hid as <-|].
  rewrite lookup_insert_ne in Hid by done.
  apply Store.requests_where_nil with (id := id) (r := r) in Hn; [|done].
  apply bool_decide_eq_true in HP as (? & ? & _). rewrite bool_decide_true in Hn by done. done.
Qed.

(** C3: Two pages of the same user send a request to the same user, each
    before the other's query has answered, to a user who had none; then
    one of them cancels.  That page shows no request any more, yet a
    pending request from the user is still stored, and the recipient
    keeps seeing it. *)
Theorem two_tabs_request_survives_cancel va vb s toId idA idB :
  uid va = uid vb -> requests_between (uid va) toId s = [] -> idA <> idB ->
  let '(a1, qa) := send_start toId true (mkSt va s) [] in
  let '(b1, qb) := send_start toId true (mkSt vb (db a1)) [] in
  let '(a2, _) := send_settle 0 idA (mkSt (view a1) (db b1)) qa in
  let '(b2, _) := send_settle 0 idB (mkSt (view b1) (db a2)) qb in
  let a3 := handleCancelFriendRequest toId (mkSt (view a2) (db b2)) in
  requestStatus (view a3) !! toId = None /\ exists r, r ∈ pending_between (uid va) toId (db a3).
Proof.
  intros Hu Hn Hne. unfold send_start, send_settle.
  cbn -[se_state Store.addRequest pending_between requests_between].
  rewrite <-Hu, bool_decide_true by done. cbn -[se_state Store.addRequest pending_between requests_between].
  set (s2 := s |> Store.addRequest idA (new_request (uid va) toId idA)
               |> Store.addRequest idB (new_request (uid va) toId idB)).
  assert (HA0 : stored_request (uid va) toId idA (Store.clock s) ∈ pending_between (uid va) toId s2).
  { unfold pending_between. apply Store.requests_where_elem. exists idA. split.
    - cbn. by rewrite lookup_insert_ne, lookup_insert_eq by done.
    - by apply bool_decide_eq_true. }
  unfold handleCancelFriendRequest. cbn [view db].
  match goal with |- context [match pending_between ?a ?b ?ss with _ => _ end] =>
    assert (HA : stored_request (uid va) toId idA (Store.clock s) ∈ pending_between a b ss) by exact HA0;
    destruct (pending_between a b ss) as [|r rs] eqn:E end; [by apply elem_of_nil in HA|].
  cbn -[se_state Store.deleteRequest pending_between].
  split; [apply lookup_delete_eq|].
  assert (Hr : r ∈ r :: rs) by left. rewrite <-E in Hr.
  destruct (two_requests_pending _ _ _ _ _ _ Hn Hne Hr) as [->| ->]; cbn;
    [exists (stored_request (uid va) toId idB (Store.clock s))|exists (stored_request (uid va) toId idA (Store.clock s))];
    unfold pending_between; apply Store.requests_where_elem;
    [exists idB|exists idA]; (split; [|by apply bool_decide_eq_true]); cbn.
  - by rewrite lookup_delete_ne, lookup_insert_eq by done.
  - by rewrite lookup_delete_ne, lookup_insert_ne, lookup_insert_eq by done.
Qed.

(** Alice has two tabs open on the people tab; bob has never been asked. *)
Definition db_two : Store.t := {|
  Store.calls := ∅; Store.callerCandidates := ∅; Store.calleeCandidates := ∅;
  Store.chats := ∅; Store.messages := ∅;
  Store.users := {[ "alice" := person "alice" []; "bob" := person "bob" [] ]};
  Store.friendRequests := ∅; Store.clock := 5000; Store.journal := [] |}.

Definition tab : t := page "alice" [] None ∅.

(** Both tabs of alice send a request to bob before either query
    answers; alice cancels from one tab. *)
Lemma two_tabs_request_survives_cancel_witness :
  let '(a1, qa) := send_start "bob" true (mkSt tab db_two) [] in
  let '(b1, qb) := send_start "bob" true (mkSt tab (db a1)) [] in
  let '(a2, _) := send_settle 0 "rA" (mkSt (view a1) (db b1)) qa in
  let '(b2, _) := send_settle 0 "rB" (mkSt (view b1) (db a2)) qb in
  let a3 := handleCancelFriendRequest "bob" (mkSt (view a2) (db b2)) in
  requestStatus (view a3) !! "bob" = None /\ exists r, r ∈ pending_between (uid tab) "bob" (db a3).
Proof. apply two_tabs_request_survives_cancel; [reflexivity|vm_compute; reflexivity|discriminate]. Defined.

(** What bob's page then lists: the request of alice. *)
Lemma two_tabs_bob_sees_request :
  let '(a1, qa) := send_start "bob" true (mkSt tab db_two) [] in
  let '(b1, qb) := send_start "bob" true (mkSt tab (db a1)) [] in
  let '(a2, _) := send_settle 0 "rA" (mkSt (view a1) (db b1)) qa in
  let '(b2, _) := send_settle 0 "rB" (mkSt (view b1) (db a2)) qb in
  let a3 := handleCancelFriendRequest "bob" (mkSt (view a2) (db b2)) in
  length (pending_between "alice" "bob" (db b2)) = 2%nat /\
  FriendRequest.from <$> friendRequests (view (received_snapshot (mkSt (page "bob" [] None ∅) (db a3)))) = ["alice"].
Proof. vm_compute. split; reflexivity. Qed.

End FriendsAsync.
