(* ===== verification/Profile.v ===== *)
(** * Profiles: [src/src/hooks/use-auth.tsx] and [src/src/app/settings/page.tsx]

    The [AuthProvider] creates the profile document of a user signing in
    for the first time (display name, avatar URL and handle derived from
    the sign-in data, default theme) and reads it back otherwise.  The
    settings page edits the display name and handle (after checking that
    the handle is free), the theme, the ringtone and the avatar.  Strings
    are byte strings: the ASCII characters are the ones the code's regular
    expressions and [toLowerCase] act on. *)

From Stdlib Require Import Ascii.
From stdpp Require Import pretty.
From S2P Require Import Prelude Data Store ChatView.

Module Profile.
Import ChatView.
Local Open Scope string_scope.

(** ** Strings (the helpers of [use-auth.tsx]) *)

(** Every character of [s] satisfies [f]. *)
Fixpoint all_chars (f : Ascii.ascii -> bool) (s : string) : bool :=
  match s with
  | EmptyString => true
  | String c s' => f c && all_chars f s'
  end.

Definition in_range (lo hi : nat) (c : Ascii.ascii) : bool :=
  Nat.leb lo (Ascii.nat_of_ascii c) && Nat.leb (Ascii.nat_of_ascii c) hi.

Definition is_digit : Ascii.ascii -> bool := in_range 48 57.

(** [toLowerCase()] on one character: [A-Z] to [a-z]. *)
Definition lower (c : Ascii.ascii) : Ascii.ascii :=
  if in_range 65 90 c then Ascii.ascii_of_nat (Ascii.nat_of_ascii c + 32)%nat else c.

Fixpoint to_lower (s : string) : string :=
  match s with
  | EmptyString => EmptyString
  | String c s' => String (lower c) (to_lower s')
  end.

(** [.replace(/\s+/g, '_')]: each maximal run of white space becomes one
    underscore; [in_run] says the previous character was white space. *)
Fixpoint ws_runs (in_run : bool) (s : string) : string :=
  match s with
  | EmptyString => EmptyString
  | String c s' =>
      if is_ws c then (if in_run then ws_runs true s' else String "_"%char (ws_runs true s'))
      else String c (ws_runs false s')
  end.

(** The characters [/[^a-z0-9_]/g] keeps. *)
Definition handle_char (c : Ascii.ascii) : bool :=
  in_range 97 122 c || is_digit c || bool_decide (c = "_"%char).

(** [.replace(/[^a-z0-9_]/g, '')]. *)
Fixpoint keep_handle_chars (s : string) : string :=
  match s with
  | EmptyString => EmptyString
  | String c s' => if handle_char c then String c (keep_handle_chars s') else keep_handle_chars s'
  end.

(** [s.slice(-4)]. *)
Definition last4 (s : string) : string :=
  let n := String.length s in
  if Nat.leb n 4 then s else String.substring (n - 4)%nat 4 s.

(** [generateHandle(displayName)] (lines 22-25), [now] being [Date.now()];
    the empty name is falsy like [null]. *)
Definition generateHandle (displayName : option string) (now : Z) : string :=
  match displayName with
  | Some d =>
      if bool_decide (d = EmptyString) then "user_" +:+ show_Z now
      else keep_handle_chars (ws_runs false (to_lower d)) +:+ "_" +:+ last4 (show_Z now)
  | None => "user_" +:+ show_Z now
  end.

(** [email.split('@')[0]]. *)
Fixpoint before_at (s : string) : string :=
  match s with
  | EmptyString => EmptyString
  | String c s' => if bool_decide (c = "@"%char) then EmptyString else String c (before_at s')
  end.

(** [getDisplayNameFromEmail(email)] (lines 27-30). *)
Definition getDisplayNameFromEmail (email : option string) : string :=
  match email with
  | Some e => if bool_decide (e = EmptyString) then "New User" else before_at e
  | None => "New User"
  end.

(** [a || b] on a [string | null]. *)
Definition or_else (o : option string) (d : string) : string :=
  match o with
  | Some s => if bool_decide (s = EmptyString) then d else s
  | None => d
  end.

(** [encodeURIComponent]: the unreserved characters stay, every other
    byte becomes [%XY]; on the UTF-8 bytes of a string this is the
    function's definition. *)
Definition uri_unreserved (c : Ascii.ascii) : bool :=
  in_range 65 90 c || in_range 97 122 c || is_digit c ||
  bool_decide (c ∈ ["-"; "_"; "."; "!"; "~"; "*"; "'"; "("; ")"]%char).

Definition hex_digit (n : nat) : Ascii.ascii :=
  if Nat.ltb n 10 then Ascii.ascii_of_nat (48 + n)%nat else Ascii.ascii_of_nat (55 + n)%nat.

Fixpoint encodeURIComponent (s : string) : string :=
  match s with
  | EmptyString => EmptyString
  | String c s' =>
      if uri_unreserved c then String c (encodeURIComponent s')
      else let n := Ascii.nat_of_ascii c in
           String "%"%char (String (hex_digit (Nat.div n 16)) (String (hex_digit (Nat.modulo n 16)) (encodeURIComponent s')))
  end.

(** ** The [AuthProvider] ([src/src/hooks/use-auth.tsx]; line numbers of that file) *)

(** The Firebase Auth user the handler receives: its fields are
    [string | null]. *)
Record auth_user := {
  a_uid : string;
  a_displayName : option string;
  a_email : option string;
  a_photoURL : option string
}.

Definition default_primary : string := "356 79% 56%".
Definition default_ringtone : string := "/sounds/incoming-call.mp3".

Definition new_display_name (u : auth_user) : string :=
  or_else (a_displayName u) (getDisplayNameFromEmail (a_email u)).

Definition new_photo_url (u : auth_user) : string :=
  or_else (a_photoURL u) ("https://api.dicebear.com/8.x/initials/svg?seed=" +:+ encodeURIComponent (new_display_name u)).

(** [newUserProfile] (lines 86-99), with [createdAt] as given: the
    server's time in the stored document, the [serverTimestamp()] sentinel
    (no time) in the copy the page keeps.  [friends] and [blockedUsers]
    are absent, read as empty. *)
Definition newUserProfile (u : auth_user) (now : Z) (createdAt : option Z) : User.t := {|
  User.id := a_uid u; User.uid := a_uid u; User.displayName := new_display_name u;
  User.email := or_else (a_email u) ""; User.photoURL := new_photo_url u;
  User.handle := generateHandle (Some (new_display_name u)) now; User.createdAt := createdAt;
  User.theme := Some {| ThemeSettings.mode := System; ThemeSettings.primaryColor := default_primary;
                        ThemeSettings.ringtoneUrl := Some default_ringtone |};
  User.friends := []; User.blockedUsers := [] |}.

(** The provider's state, with the two page-wide effects of a profile:
    the theme ([setTheme]) and the [--primary] colour. *)
Record t := {
  user : option auth_user;
  userProfile : option User.t;
  loading : bool;
  theme : option theme_mode;
  primary : option string
}.

Definition init : t := {| user := None; userProfile := None; loading := true; theme := None; primary := None |}.

(** The theme of a profile applied to the page (lines 47-52). *)
Definition apply_theme (p : User.t) (v : t) : t :=
  match User.theme p with
  | Some th => {| user := user v; userProfile := userProfile v; loading := loading v;
                  theme := Some (ThemeSettings.mode th);
                  primary := if bool_decide (ThemeSettings.primaryColor th = EmptyString) then primary v
                             else Some (ThemeSettings.primaryColor th) |}
  | None => v
  end.

(** [fetchUserProfile(user)] (lines 39-56). *)
Definition fetchUserProfile (u : auth_user) (s : Store.t) (v : t) : t * option User.t :=
  match Store.getUser (a_uid u) s with
  | Some p => (apply_theme p v, Some p)
  | None => (v, None)
  end.

Definition set_profile (o : option User.t) (v : t) : t :=
  {| user := user v; userProfile := o; loading := loading v; theme := theme v; primary := primary v |}.

(** [refreshUserProfile()] (lines 58-70). *)
Definition refreshUserProfile (s : Store.t) (v : t) : t :=
  match user v with
  | Some u => let '(v1, p) := fetchUserProfile u s v in set_profile p v1
  | None => v
  end.

(** [updateProfile(user, {displayName, photoURL})] when they differ. *)
Definition sync_auth (u : auth_user) : auth_user :=
  let dn := new_display_name u in
  let ph := new_photo_url u in
  if bool_decide (a_displayName u = Some dn /\ a_photoURL u = Some ph) then u
  else {| a_uid := a_uid u; a_displayName := Some dn; a_email := a_email u; a_photoURL := Some ph |}.

(** The [onAuthStateChanged] callback (lines 74-120), [now] being the
    client's [Date.now()]. *)
Definition onAuthStateChanged (o : option auth_user) (now : Z) (st : t * Store.t) : t * Store.t :=
  let '(v, s) := st in
  match o with
  | Some u =>
      match Store.getUser (a_uid u) s with
      | None =>
          let s' := s |> Store.setUser (a_uid u) (newUserProfile u now (Some (Store.clock s))) in
          ({| user := Some (sync_auth u); userProfile := Some (newUserProfile u now None); loading := false;
              theme := Some System; primary := Some default_primary |}, s')
      | Some _ =>
          let '(v1, p) := fetchUserProfile u s
                            {| user := Some u; userProfile := userProfile v; loading := true;
                               theme := theme v; primary := primary v |} in
          ({| user := user v1; userProfile := p; loading := false; theme := theme v1; primary := primary v1 |}, s)
      end
  | None => ({| user := None; userProfile := None; loading := false; theme := theme v; primary := primary v |}, s)
  end.

(** ** The settings page ([src/src/app/settings/page.tsx]; line numbers of that file) *)

Definition with_user_fields (name handle photo : string) (th : option ThemeSettings.t) (u : User.t) : User.t := {|
  User.id := User.id u; User.uid := User.uid u; User.displayName := name; User.email := User.email u;
  User.photoURL := photo; User.handle := handle; User.createdAt := User.createdAt u; User.theme := th;
  User.friends := User.friends u; User.blockedUsers := User.blockedUsers u |}.

(** [updateDoc(userRef, { displayName, handle })]. *)
Definition set_name_handle (name handle : string) (u : User.t) : User.t :=
  with_user_fields name handle (User.photoURL u) (User.theme u) u.

(** [updateDoc(userDocRef, { photoURL })]. *)
Definition set_photo (photo : string) (u : User.t) : User.t :=
  with_user_fields (User.displayName u) (User.handle u) photo (User.theme u) u.

(** [updateDoc(userRef, { 'theme.mode': m, 'theme.primaryColor': c })]:
    the two fields of the [theme] map, created if absent. *)
Definition set_mode_color (m : theme_mode) (c : string) (u : User.t) : User.t :=
  with_user_fields (User.displayName u) (User.handle u) (User.photoURL u)
    (Some {| ThemeSettings.mode := m; ThemeSettings.primaryColor := c;
             ThemeSettings.ringtoneUrl := User.theme u ≫= ThemeSettings.ringtoneUrl |}) u.

(** [updateDoc(userRef, { 'theme.ringtoneUrl': url })] on a profile with a
    theme.  Every profile the [AuthProvider] writes has one; a theme map
    holding only a ringtone, which the update would create on a profile
    without theme, has no [ThemeSettings] value, and the profile is left
    as it is. *)
Definition set_ringtone (url : string) (u : User.t) : User.t :=
  with_user_fields (User.displayName u) (User.handle u) (User.photoURL u)
    ((fun th => {| ThemeSettings.mode := ThemeSettings.mode th; ThemeSettings.primaryColor := ThemeSettings.primaryColor th;
                   ThemeSettings.ringtoneUrl := Some url |}) <$> User.theme u) u.

Record page := {
  form_displayName : string;
  form_handle : string;
  isHandleAvailable : option bool;
  isSaving : bool;
  isSavingTheme : bool;
  playingRingtone : option string
}.

Record S := mkS { pg : page; auth : t; db : Store.t }.

Definition page0 : page := {| form_displayName := ""; form_handle := ""; isHandleAvailable := None;
                              isSaving := false; isSavingTheme := false; playingRingtone := None |}.

Definition mkpage (p : page) name handle avail : page := {|
  form_displayName := name; form_handle := handle; isHandleAvailable := avail;
  isSaving := isSaving p; isSavingTheme := isSavingTheme p; playingRingtone := playingRingtone p |}.

(** The effect on [userProfile] (lines 88-98): the form reset to the
    profile, and its colour applied to the page. *)
Definition form_reset (st : S) : S :=
  match userProfile (auth st) with
  | Some u =>
      let a := auth st in
      let c := ThemeSettings.primaryColor <$> User.theme u in
      let a' := {| user := user a; userProfile := userProfile a; loading := loading a; theme := theme a;
                   primary := if bool_decide (or_else c "" = "") then primary a else c |} in
      mkS (mkpage (pg st) (User.displayName u) (User.handle u) (isHandleAvailable (pg st))) a' (db st)
  | None => st
  end.

(** [query(usersRef, where("handle", "==", h))] is empty. *)
Definition handle_free (h : string) (s : Store.t) : bool :=
  bool_decide (map_Forall (fun _ u => User.handle u <> h) (Store.users s)).

(** [checkHandle] (lines 100-126), run on the debounced value [h]. *)
Definition checkHandle (h : string) (st : S) : S :=
  let p := pg st in
  let set a := mkS (mkpage p (form_displayName p) (form_handle p) a) (auth st) (db st) in
  if bool_decide (h = EmptyString) || bool_decide (user (auth st) = None) then st
  else if Nat.ltb (String.length h) 3 then set None
  else if bool_decide (Some h = User.handle <$> userProfile (auth st)) then set (Some true)
  else set (Some (handle_free h (db st))).

(** [profileFormSchema] (lines 29-32). *)
Definition valid_form (name handle : string) : bool :=
  Nat.leb 2 (String.length name) && Nat.leb (String.length name) 50 &&
  Nat.leb 3 (String.length handle) && Nat.leb (String.length handle) 20 &&
  all_chars (fun c => in_range 65 90 c || handle_char c) handle.

(** [onSubmit(data)] (lines 129-167). *)
Definition onSubmit (name handle : string) (st : S) : S :=
  match user (auth st) with
  | None => st
  | Some u =>
      if negb (bool_decide (isHandleAvailable (pg st) = Some true)) then st
      else
        let a1 := {| user := Some {| a_uid := a_uid u; a_displayName := Some name; a_email := a_email u;
                                     a_photoURL := a_photoURL u |};
                     userProfile := userProfile (auth st); loading := loading (auth st);
                     theme := theme (auth st); primary := primary (auth st) |} in
        let '(res, s') := Store.updateUser (a_uid u) (set_name_handle name handle) (db st) in
        match res with
        | Ok _ => mkS (pg st) (refreshUserProfile s' a1) s'
        | Err _ => mkS (pg st) a1 s'
        end
  end.

(** The form's submit: [form.handleSubmit(onSubmit)] validates first. *)
Definition submit (name handle : string) (st : S) : S :=
  if valid_form name handle then onSubmit name handle st else st.

Definition set_saving_theme (b : bool) (p : page) : page := {|
  form_displayName := form_displayName p; form_handle := form_handle p; isHandleAvailable := isHandleAvailable p;
  isSaving := isSaving p; isSavingTheme := b; playingRingtone := playingRingtone p |}.

Definition set_playing (o : option string) (p : page) : page := {|
  form_displayName := form_displayName p; form_handle := form_handle p; isHandleAvailable := isHandleAvailable p;
  isSaving := isSaving p; isSavingTheme := isSavingTheme p; playingRingtone := o |}.

Definition set_look (m : option theme_mode) (c : option string) (a : t) : t :=
  {| user := user a; userProfile := userProfile a; loading := loading a; theme := m; primary := c |}.

(** An [updateDoc] of the user's profile followed by
    [refreshUserProfile()]; on a rejection the page is left as it was. *)
Definition update_profile (f : User.t -> User.t) (a : t) (st : S) : S :=
  match user (auth st) with
  | None => st
  | Some u =>
      let '(res, s') := Store.updateUser (a_uid u) f (db st) in
      match res with
      | Ok _ => mkS (pg st) (refreshUserProfile s' a) s'
      | Err _ => mkS (pg st) (auth st) s'
      end
  end.

(** [handleThemeChange(newTheme, newColor)] (lines 228-260). *)
Definition handleThemeChange (newTheme : theme_mode) (newColor : option string) (st : S) : S :=
  match user (auth st) with
  | None => st
  | Some u =>
      let currentPrimary := or_else (ThemeSettings.primaryColor <$> (userProfile (auth st) ≫= User.theme)) default_primary in
      let primaryColor := or_else newColor currentPrimary in
      let '(res, s') := Store.updateUser (a_uid u) (set_mode_color newTheme primaryColor) (db st) in
      match res with
      | Ok _ =>
          let a1 := set_look (Some newTheme)
                      (if bool_decide (or_else newColor "" = "") then primary (auth st) else Some primaryColor) (auth st) in
          mkS (set_saving_theme false (pg st)) (refreshUserProfile s' a1) s'
      | Err _ => mkS (set_saving_theme false (pg st)) (auth st) s'
      end
  end.

(** [playRingtone(file)] (lines 277-291): the previous audio stopped, the
    new one playing. *)
Definition playRingtone (file : option string) (p : page) : page := set_playing file p.

(** [handleRingtoneChange(ringtoneFile)] (lines 262-275). *)
Definition handleRingtoneChange (file : string) (st : S) : S :=
  match user (auth st) with
  | None => st
  | Some u =>
      let '(res, s') := Store.updateUser (a_uid u) (set_ringtone file) (db st) in
      match res with
      | Ok _ => mkS (playRingtone (Some file) (pg st)) (refreshUserProfile s' (auth st)) s'
      | Err _ => mkS (pg st) (auth st) s'
      end
  end.

(** [handleAvatarFileChange] (lines 173-200), [upload] being the outcome
    of [uploadBytes] and [getDownloadURL]: the URL, or the error. *)
Definition handleAvatarFileChange (upload : result string) (st : S) : S :=
  match user (auth st), upload with
  | Some u, Ok url =>
      let a1 := {| user := Some {| a_uid := a_uid u; a_displayName := a_displayName u; a_email := a_email u;
                                   a_photoURL := Some url |};
                   userProfile := userProfile (auth st); loading := loading (auth st);
                   theme := theme (auth st); primary := primary (auth st) |} in
      update_profile (set_photo url) a1 (mkS (pg st) a1 (db st))
  | _, _ => st
  end.

(** [handleRingtoneFileChange] (lines 202-225). *)
Definition handleRingtoneFileChange (upload : result string) (st : S) : S :=
  match upload with
  | Ok url => update_profile (set_ringtone url) (auth st) st
  | Err _ => st
  end.

(** [getInitials(name)] (lines 294-301): the first letters of the first
    and last words, or the first two characters. *)
Fixpoint split_spaces (acc : string) (s : string) : list string :=
  match s with
  | EmptyString => [acc]
  | String c s' => if bool_decide (c = " "%char) then acc :: split_spaces EmptyString s'
                   else split_spaces (acc +:+ String c EmptyString) s'
  end.

(** [w[0]]: the first character, or [undefined]. *)
Definition first_char (w : string) : option string :=
  match w with
  | EmptyString => None
  | String c _ => Some (String c EmptyString)
  end.

(** [a + b] on two values of type [string | undefined]: [undefined] reads
    as ["undefined"] next to a string, and two of them add up to [NaN]. *)
Definition js_plus (a b : option string) : string :=
  match a, b with
  | Some x, Some y => x +:+ y
  | Some x, None => x +:+ "undefined"
  | None, Some y => "undefined" +:+ y
  | None, None => "NaN"
  end.

Definition getInitials (name : option string) : string :=
  match name with
  | None => ""
  | Some n =>
      if bool_decide (n = EmptyString) then ""
      else match split_spaces EmptyString n with
           | w0 :: (_ :: _) as rest => js_plus (first_char w0) (first_char (List.last rest EmptyString))
           | _ => String.substring 0 2 n
           end
  end.

(** [getInitials] of a name with a trailing space, or of spaces only. *)
Lemma getInitials_trailing_space :
  getInitials (Some "Mukesh ") = "Mundefined" /\ getInitials (Some "  ") = "NaN".
Proof. split; vm_compute; reflexivity. Qed.

(** ** Lemmas on strings *)

Lemma string_length_app s1 s2 : String.length (s1 +:+ s2) = (String.length s1 + String.length s2)%nat.
Proof. induction s1 as [|c s1 IH]; simpl; [done|]. by rewrite IH. Qed.

Lemma all_chars_app f s1 s2 : all_chars f (s1 +:+ s2) = all_chars f s1 && all_chars f s2.
Proof. induction s1 as [|c s1 IH]; simpl; [done|]. by rewrite IH, andb_assoc. Qed.

Lemma all_chars_substring f s n m : all_chars f s = true -> all_chars f (String.substring n m s) = true.
Proof.
  revert n m. induction s as [|c s IH]; intros [|n] [|m] H; simpl in *; try done.
  - apply andb_prop in H as [-> ?]. simpl. by apply IH.
  - apply andb_prop in H as [_ ?]. by apply IH.
  - apply andb_prop in H as [_ ?]. by apply IH.
Qed.

Lemma keep_handle_chars_ok s : all_chars handle_char (keep_handle_chars s) = true.
Proof. induction s as [|c s IH]; simpl; [done|]. destruct (handle_char c) eqn:E; simpl; [rewrite E|]; done. Qed.

Lemma pretty_N_char_digit x : is_digit (pretty_N_char x) = true.
Proof. unfold pretty_N_char. by repeat case_match. Qed.

Lemma pretty_N_go_digits x s : all_chars is_digit s = true -> all_chars is_digit (pretty_N_go x s) = true.
Proof.
  revert s. induction (N.lt_wf_0 x) as [x _ IH]; intros s Hs.
  destruct (decide (x = 0%N)) as [->|Hx]; [by rewrite pretty_N_go_0|].
  rewrite pretty_N_go_step by lia. apply IH; [apply N.div_lt; lia|].
  simpl. by rewrite pretty_N_char_digit, Hs.
Qed.

Lemma show_Z_digits n : (0 <= n)%Z -> all_chars is_digit (show_Z n) = true.
Proof.
  intros Hn. destruct n as [|p|p]; [done| |lia]. simpl. unfold pretty, pretty_N.
  case_decide; [done|]. by apply pretty_N_go_digits.
Qed.

Lemma all_chars_weaken (f g : Ascii.ascii -> bool) s :
  (forall c, f c = true -> g c = true) -> all_chars f s = true -> all_chars g s = true.
Proof.
  intros Hfg. induction s as [|c s IH]; simpl; [done|].
  intros [Hc Hs]%andb_prop. by rewrite Hfg, IH.
Qed.

Lemma digit_handle_char c : is_digit c = true -> handle_char c = true.
Proof. unfold handle_char. intros ->. by rewrite orb_true_r. Qed.

(** ** Settings lemmas *)

Definition signed_in (u : auth_user) (p : User.t) : t :=
  {| user := Some u; userProfile := Some p; loading := false; theme := None; primary := None |}.

Lemma valid_form_length name h : valid_form name h = true -> (3 <= String.length h)%nat.
Proof. unfold valid_form. intros H. repeat apply andb_prop in H as [H ?]. by apply Nat.leb_le. Qed.


(** A check of a free handle says it is available. *)
Lemma checkHandle_free h st u :
  user (auth st) = Some u -> (3 <= String.length h)%nat -> handle_free h (db st) = true ->
  isHandleAvailable (pg (checkHandle h st)) = Some true /\ db (checkHandle h st) = db st /\
  auth (checkHandle h st) = auth st.
Proof.
  intros Hu Hl Hf. unfold checkHandle. rewrite Hu.
  rewrite (bool_decide_false (h = EmptyString)) by (intros ->; simpl in Hl; lia).
  rewrite (bool_decide_false (Some u = None)) by done. simpl.
  destruct (Nat.ltb_spec (String.length h) 3); [lia|]. by case_bool_decide; simpl; rewrite ?Hf.
Qed.

(** A submit past its checks writes the name and the handle, whatever
    the store holds. *)
Lemma submit_writes name h st u p :
  user (auth st) = Some u -> isHandleAvailable (pg st) = Some true -> valid_form name h = true ->
  Store.users (db st) !! a_uid u = Some p ->
  Store.users (db (submit name h st)) = <[a_uid u := set_name_handle name h p]> (Store.users (db st)).
Proof.
  intros Hu Ha Hv Hp. unfold submit, onSubmit. rewrite Hv, Hu, Ha. simpl.
  unfold Store.updateUser. by rewrite Hp.
Qed.


(** ** Handles *)

(** C32: a handle [generateHandle] makes (for a clock past 1970) holds
    only the characters [a-z], [0-9] and [_], whatever the display
    name. *)
Theorem generateHandle_chars d now :
  (0 <= now)%Z -> all_chars handle_char (generateHandle d now) = true.
Proof.
  intros Hn. assert (Hs : all_chars handle_char (show_Z now) = true)
    by (eapply all_chars_weaken; [apply digit_handle_char|by apply show_Z_digits]).
  unfold generateHandle. destruct d as [d|]; [case_bool_decide|]; rewrite ?all_chars_app, ?Hs; try done.
  rewrite keep_handle_chars_ok. simpl. unfold last4. case_match; [done|]. by apply all_chars_substring.
Qed.

Lemma generateHandle_chars_witness :
  all_chars handle_char (generateHandle (Some "Mukesh Kumar") 1731100012345%Z) = true.
Proof. apply generateHandle_chars. lia. Defined.

(** C34: a display name with 20 or more handle characters gets a handle
    the settings form refuses (more than 20 characters): the user cannot
    save a new display name without also changing the handle. *)
Theorem generated_handle_rejected name d now :
  (20 <= String.length (keep_handle_chars (ws_runs false (to_lower d))))%nat ->
  valid_form name (generateHandle (Some d) now) = false.
Proof.
  intros Hl. unfold generateHandle.
  rewrite bool_decide_false by (intros ->; simpl in Hl; lia).
  unfold valid_form. rewrite string_length_app.
  set (k := keep_handle_chars _) in *.
  assert (1 <= String.length ("_" +:+ last4 (show_Z now)))%nat by (simpl; lia).
  rewrite (proj2 (Nat.leb_gt (String.length k + _) 20)) by lia. by rewrite andb_false_r.
Qed.

Lemma generated_handle_rejected_witness :
  valid_form "Mukesh Kumar Sharma Ji" (generateHandle (Some "Mukesh Kumar Sharma Ji") 1731100012345%Z) = false.
Proof. apply generated_handle_rejected. vm_compute. lia. Defined.

(** ** Signing in *)

(** C31: the first sign-in of a user stores the new profile (name, avatar
    and handle derived from the sign-in data, the default theme, the
    server's time) and shows it; any later sign-in writes nothing and
    shows the stored profile with its theme. *)
Theorem sign_in_creates_profile u now now' v v' s :
  Store.getUser (a_uid u) s = None ->
  let '(v1, s1) := onAuthStateChanged (Some u) now (v, s) in
  let '(v2, s2) := onAuthStateChanged (Some u) now' (v', s1) in
  Store.getUser (a_uid u) s1 = Some (newUserProfile u now (Some (Store.clock s))) /\
  userProfile v1 = Some (newUserProfile u now None) /\
  s2 = s1 /\ userProfile v2 = Store.getUser (a_uid u) s1 /\ theme v2 = Some System.
Proof.
  intros Hn. unfold onAuthStateChanged. rewrite Hn. simpl.
  unfold fetchUserProfile, Store.getUser. simpl. rewrite lookup_insert_eq. simpl. done.
Qed.

Definition new_user : auth_user :=
  {| a_uid := "u1"; a_displayName := None; a_email := Some "mukesh@example.com"; a_photoURL := None |}.

Definition empty_store : Store.t := {|
  Store.calls := ∅; Store.callerCandidates := ∅; Store.calleeCandidates := ∅;
  Store.chats := ∅; Store.messages := ∅; Store.users := ∅;
  Store.friendRequests := ∅; Store.clock := 7000; Store.journal := [] |}.

Lemma sign_in_creates_profile_witness :
  let '(v1, s1) := onAuthStateChanged (Some new_user) 1731100012345%Z (init, empty_store) in
  let '(v2, s2) := onAuthStateChanged (Some new_user) 1731100099999%Z (init, s1) in
  Store.getUser "u1" s1 = Some (newUserProfile new_user 1731100012345%Z (Some 7000%Z)) /\
  userProfile v1 = Some (newUserProfile new_user 1731100012345%Z None) /\
  s2 = s1 /\ userProfile v2 = Store.getUser "u1" s1 /\ theme v2 = Some System.
Proof. exact (sign_in_creates_profile new_user 1731100012345%Z 1731100099999%Z init init empty_store eq_refl). Defined.

(** ** Editing the profile *)

(** C16: handles are not unique: two users who both check the same free
    handle and then submit both get it.  The check is a query run before
    the write, and nothing ties the write to it. *)
Theorem handle_taken_twice h name_a name_b ua ub pa pb s :
  a_uid ua <> a_uid ub -> Store.users s !! a_uid ua = Some pa -> Store.users s !! a_uid ub = Some pb ->
  handle_free h s = true -> valid_form name_a h = true -> valid_form name_b h = true ->
  let A1 := checkHandle h (mkS page0 (signed_in ua pa) s) in
  let B1 := checkHandle h (mkS page0 (signed_in ub pb) s) in
  let A2 := submit name_a h A1 in
  let B2 := submit name_b h (mkS (pg B1) (auth B1) (db A2)) in
  User.handle <$> Store.users (db B2) !! a_uid ua = Some h /\
  User.handle <$> Store.users (db B2) !! a_uid ub = Some h.
Proof.
  intros Hne Ha Hb Hf Hva Hvb. cbv zeta.
  destruct (checkHandle_free h (mkS page0 (signed_in ua pa) s) ua) as (HA & HAdb & HAauth);
    [done|by eapply valid_form_length|done|].
  destruct (checkHandle_free h (mkS page0 (signed_in ub pb) s) ub) as (HB & HBdb & HBauth);
    [done|by eapply valid_form_length|done|].
  assert (HA2 : Store.users (db (submit name_a h (checkHandle h (mkS page0 (signed_in ua pa) s)))) =
                <[a_uid ua := set_name_handle name_a h pa]> (Store.users s)).
  { rewrite (submit_writes _ _ _ ua pa); rewrite ?HAauth, ?HAdb; done. }
  rewrite (submit_writes _ _ _ ub pb); simpl; rewrite ?HBauth, ?HA2; try done.
  - split; [rewrite lookup_insert_ne by done|]; by rewrite lookup_insert_eq.
  - by rewrite lookup_insert_ne.
Qed.

Definition alice_auth : auth_user :=
  {| a_uid := "alice"; a_displayName := Some "Alice"; a_email := Some "alice@example.com"; a_photoURL := None |}.
Definition bob_auth : auth_user :=
  {| a_uid := "bob"; a_displayName := Some "Bob"; a_email := Some "bob@example.com"; a_photoURL := None |}.

(** Alice and bob, as their first sign-ins stored them. *)
Definition two_users : Store.t := {|
  Store.calls := ∅; Store.callerCandidates := ∅; Store.calleeCandidates := ∅;
  Store.chats := ∅; Store.messages := ∅;
  Store.users := {[ "alice" := newUserProfile alice_auth 1731100011111%Z (Some 5000%Z);
                    "bob" := newUserProfile bob_auth 1731100022222%Z (Some 6000%Z) ]};
  Store.friendRequests := ∅; Store.clock := 7000; Store.journal := [] |}.

Lemma handle_taken_twice_witness :
  let A1 := checkHandle "mitho" (mkS page0 (signed_in alice_auth (newUserProfile alice_auth 1731100011111%Z (Some 5000%Z))) two_users) in
  let B1 := checkHandle "mitho" (mkS page0 (signed_in bob_auth (newUserProfile bob_auth 1731100022222%Z (Some 6000%Z))) two_users) in
  let A2 := submit "Alice" "mitho" A1 in
  let B2 := submit "Bob" "mitho" (mkS (pg B1) (auth B1) (db A2)) in
  User.handle <$> Store.users (db B2) !! "alice" = Some "mitho" /\
  User.handle <$> Store.users (db B2) !! "bob" = Some "mitho".
Proof.
  exact (handle_taken_twice "mitho" "Alice" "Bob" alice_auth bob_auth _ _ two_users
           ltac:(discriminate) eq_refl eq_refl ltac:(vm_compute; reflexivity) eq_refl eq_refl).
Defined.

(** a theme change writes the mode and the colour (the new one, or
    the page's current one, or the default) into the stored profile,
    keeps its ringtone, and applies the stored profile to the page. *)
Theorem theme_change_spec m c st u p :
  user (auth st) = Some u -> Store.users (db st) !! a_uid u = Some p ->
  let color := or_else c (or_else (ThemeSettings.primaryColor <$> (userProfile (auth st) ≫= User.theme)) default_primary) in
  let st' := handleThemeChange m c st in
  User.theme <$> Store.users (db st') !! a_uid u =
    Some (Some {| ThemeSettings.mode := m; ThemeSettings.primaryColor := color;
                  ThemeSettings.ringtoneUrl := User.theme p ≫= ThemeSettings.ringtoneUrl |}) /\
  userProfile (auth st') = Store.users (db st') !! a_uid u /\
  theme (auth st') = Some m.
Proof.
  intros Hu Hp. cbv zeta. unfold handleThemeChange. rewrite Hu. unfold Store.updateUser. rewrite Hp.
  unfold refreshUserProfile, fetchUserProfile, Store.getUser. simpl.
  rewrite ?Hu, !lookup_insert_eq. simpl. done.
Qed.

Lemma theme_change_spec_witness :
  let st' := handleThemeChange Dark None
               (mkS page0 (signed_in alice_auth (newUserProfile alice_auth 1731100011111%Z (Some 5000%Z))) two_users) in
  User.theme <$> Store.users (db st') !! "alice" =
    Some (Some {| ThemeSettings.mode := Dark; ThemeSettings.primaryColor := default_primary;
                  ThemeSettings.ringtoneUrl := Some default_ringtone |}) /\
  userProfile (auth st') = Store.users (db st') !! "alice" /\ theme (auth st') = Some Dark.
Proof.
  exact (theme_change_spec Dark None
           (mkS page0 (signed_in alice_auth (newUserProfile alice_auth 1731100011111%Z (Some 5000%Z))) two_users)
           alice_auth (newUserProfile alice_auth 1731100011111%Z (Some 5000%Z)) eq_refl eq_refl).
Defined.

End Profile.
