(* ===== verification/SettingsView.v ===== *)
(** * The settings page on screen: the render of [SettingsPage] in
    [src/src/app/settings/page.tsx]

    [Profile.v] holds the page's handlers on its form and the store; this
    file adds the state the page keeps beside them (the debounced handle,
    the handle check in flight, the two upload flags and the image
    viewed, lines 59-80), what the page shows as a function of that state
    (lines 303-508), and the handlers as the page wires them.  The handle
    check of lines 100-126 is split at its [await]: the effect's
    synchronous part starts a query, and the query settles later, in any
    order with the others in flight.  Line numbers are those of
    [settings/page.tsx]. *)

From S2P Require Import Prelude Data Store ChatView Profile.

Module SettingsView.
Import Profile.
Local Open Scope string_scope.

(** [colors] (lines 37-45) and [ringtones] (lines 47-52): name and value. *)
Definition colors : list (string * string) :=
  [("Default", "356 79% 56%"); ("Orange", "24 93% 54%"); ("Rose", "346 89% 60%");
   ("Green", "142 71% 45%"); ("Blue", "221 83% 53%"); ("Yellow", "48 96% 53%");
   ("Violet", "262 84% 59%")].

Definition ringtones : list (string * string) :=
  [("Default", "/sounds/incoming-call.mp3"); ("Chime", "/sounds/chime.mp3");
   ("Signal", "/sounds/signal.mp3"); ("Uplift", "/sounds/uplift.mp3")].

(** The state of lines 61-80 that [Profile.page] does not hold:
    [debouncedHandle], [isCheckingHandle], the handles whose queries are
    in flight, [isUploading], [isUploadingRingtone] and [viewedImage]. *)
Record extra := mkExtra {
  debouncedHandle : string; isCheckingHandle : bool; checks : list string;
  isUploading : bool; isUploadingRingtone : bool; viewedImage : option string }.

Definition extra0 : extra := mkExtra "" false [] false false None.

Definition set_checks (b : bool) (l : list string) (x : extra) : extra :=
  mkExtra (debouncedHandle x) b l (isUploading x) (isUploadingRingtone x) (viewedImage x).
Definition set_debounced (h : string) (x : extra) : extra :=
  mkExtra h (isCheckingHandle x) (checks x) (isUploading x) (isUploadingRingtone x) (viewedImage x).
Definition set_uploading (b : bool) (x : extra) : extra :=
  mkExtra (debouncedHandle x) (isCheckingHandle x) (checks x) b (isUploadingRingtone x) (viewedImage x).
Definition set_uploading_ringtone (b : bool) (x : extra) : extra :=
  mkExtra (debouncedHandle x) (isCheckingHandle x) (checks x) (isUploading x) b (viewedImage x).
Definition set_viewed (o : option string) (x : extra) : extra :=
  mkExtra (debouncedHandle x) (isCheckingHandle x) (checks x) (isUploading x) (isUploadingRingtone x) o.

(** The redirect effect (lines 82-86). *)
Definition redirect (loading : bool) (user : option auth_user) (pushed : list string) : list string :=
  if negb loading && bool_decide (user = None) then pushed ++ ["/login"] else pushed.

(** The form's fields, as typing sets them ([field.onChange]). *)
Definition set_avail (a : option bool) (st : S) : S :=
  let p := pg st in mkS (mkpage p (form_displayName p) (form_handle p) a) (auth st) (db st).
Definition type_name (n : string) (st : S) : S :=
  let p := pg st in mkS (mkpage p n (form_handle p) (isHandleAvailable p)) (auth st) (db st).
Definition type_handle (h : string) (st : S) : S :=
  let p := pg st in mkS (mkpage p (form_displayName p) h (isHandleAvailable p)) (auth st) (db st).

(** ** What the page shows *)

(** The line under the handle (lines 372-386). *)
Inductive handle_status := HChecking | HAvailable | HTaken | HNone.

Definition handle_status_view (avail : option bool) (x : extra) : handle_status :=
  if isCheckingHandle x then HChecking
  else if negb (bool_decide (debouncedHandle x = EmptyString)) && Nat.ltb 2 (String.length (debouncedHandle x))
  then match avail with Some true => HAvailable | Some false => HTaken | None => HNone end
  else HNone.

(** A colour button (lines 431-446): name, value, ringed, disabled. *)
Record color_button := mkColor { cb_name : string; cb_hsl : string; cb_selected : bool; cb_disabled : bool }.

(** The ringtone rows (lines 461-492): the four tones, and the stored
    URL as "Custom" when it is none of them. *)
Definition tone_rows (url : option string) : list (string * string) :=
  ringtones ++ match url with
               | Some u => if bool_decide (u = EmptyString) || existsb (fun t => String.eqb (snd t) u) ringtones
                           then [] else [("Custom", u)]
               | None => []
               end.

Record view := mkView {
  sv_avatar : string; sv_initials : string; sv_upload_disabled : bool;
  sv_name : string; sv_handle : string; sv_status : handle_status;
  sv_save_disabled : bool; sv_save_spinner : bool;
  sv_mode : theme_mode; sv_mode_disabled : bool; sv_colors : list color_button; sv_applying : bool;
  sv_ringtone : string; sv_tones : list (string * string); sv_tone_upload_disabled : bool;
  sv_image : option string }.

Inductive screen := SLoading | SPage (v : view).

(** The render (lines 303-508); [loading || !user] shows the spinner. *)
Definition settings_view (st : S) (x : extra) : screen :=
  let a := auth st in let p := pg st in
  let prof := userProfile a in
  let th := prof ≫= User.theme in
  if loading a || bool_decide (user a = None) then SLoading
  else SPage (mkView
    (or_else (User.photoURL <$> prof) "") (getInitials (User.displayName <$> prof)) (isUploading x)
    (form_displayName p) (form_handle p) (handle_status_view (isHandleAvailable p) x)
    (isSaving p || isCheckingHandle x || negb (bool_decide (isHandleAvailable p = Some true))) (isSaving p)
    (default System (ThemeSettings.mode <$> th)) (isSavingTheme p)
    ((fun c => mkColor (fst c) (snd c) (bool_decide (ThemeSettings.primaryColor <$> th = Some (snd c)))
                       (isSavingTheme p)) <$> colors)
    (isSavingTheme p)
    (or_else (th ≫= ThemeSettings.ringtoneUrl) default_ringtone) (tone_rows (th ≫= ThemeSettings.ringtoneUrl))
    (isUploadingRingtone x) (viewedImage x)).

(** ** The handlers the page wires *)

(** The handle check (lines 100-126) when [debouncedHandle] becomes [h]:
    the early returns are [Profile.checkHandle]'s; past them the flag is
    raised and a query for [h] starts. *)
Definition check_quick (h : string) (st : S) : bool :=
  bool_decide (h = EmptyString) || bool_decide (user (auth st) = None) || Nat.ltb (String.length h) 3
  || bool_decide (Some h = User.handle <$> userProfile (auth st)).

Definition check_start (h : string) (st : S) (x : extra) : S * extra :=
  let x1 := set_debounced h x in
  if check_quick h st then (checkHandle h st, x1)
  else (st, set_checks true (checks x1 ++ [h]) x1).

(** The [i]-th query in flight settles: [querySnapshot.empty] on the
    store as it is then, or [false] when [getDocs] rejects; [finally]
    lowers the flag whatever else is in flight. *)
Definition check_settle (i : nat) (ok : bool) (st : S) (x : extra) : S * extra :=
  match checks x !! i with
  | None => (st, x)
  | Some h => (set_avail (Some (ok && handle_free h (db st))) st, set_checks false (delete i (checks x)) x)
  end.

(** The Save button (line 391): the form's submit when enabled. *)
Definition save_click (st : S) (x : extra) : S :=
  if isSaving (pg st) || isCheckingHandle x || negb (bool_decide (isHandleAvailable (pg st) = Some true)) then st
  else submit (form_displayName (pg st)) (form_handle (pg st)) st.

(** The avatar (line 323), the image dialog's close (line 505). *)
Definition avatar_click (st : S) (x : extra) : extra :=
  set_viewed (match User.photoURL <$> userProfile (auth st) with
              | Some u => if bool_decide (u = EmptyString) then None else Some u
              | None => None end) x.
Definition close_image (x : extra) : extra := set_viewed None x.

(** The avatar upload (lines 172-199): the flag while the upload runs. *)
Definition avatar_upload_start (st : S) (x : extra) : extra :=
  if bool_decide (user (auth st) = None) then x else set_uploading true x.
Definition avatar_upload_done (upload : result string) (st : S) (x : extra) : S * extra :=
  (handleAvatarFileChange upload st, set_uploading false x).

(** The ringtone upload (lines 201-224). *)
Definition ringtone_upload_start (st : S) (x : extra) : extra :=
  if bool_decide (user (auth st) = None) then x else set_uploading_ringtone true x.
Definition ringtone_upload_done (upload : result string) (st : S) (x : extra) : S * extra :=
  (handleRingtoneFileChange upload st, set_uploading_ringtone false x).

(** The mode radio (line 406), a colour (line 436):
    [userProfile?.theme?.mode || theme || 'system'] with its value. *)
Definition mode_change (m : theme_mode) (st : S) : S := handleThemeChange m None st.
Definition color_click (hsl : string) (st : S) : S :=
  let m := match userProfile (auth st) ≫= User.theme with
           | Some t => ThemeSettings.mode t
           | None => default System (theme (auth st))
           end in
  handleThemeChange m (Some hsl) st.

(** A tone's play button (lines 471, 487): stop it if it plays, else play it. *)
Definition tone_play (file : string) (st : S) : S :=
  mkS (playRingtone (if bool_decide (playingRingtone (pg st) = Some file) then None else Some file) (pg st))
      (auth st) (db st).

(** ** Lemmas *)

Lemma check_quick_false h st u :
  user (auth st) = Some u -> (3 <= String.length h)%nat -> Some h <> User.handle <$> userProfile (auth st) ->
  check_quick h st = false.
Proof.
  intros Hu Hl Hh. unfold check_quick. rewrite Hu.
  rewrite (bool_decide_false (h = EmptyString)) by (intros ->; simpl in Hl; lia).
  rewrite bool_decide_false by done. rewrite bool_decide_false by done.
  by destruct (Nat.ltb_spec (String.length h) 3); [lia|].
Qed.

(** Past its early returns the effect only starts a query. *)
Lemma check_start_slow h st x :
  check_quick h st = false ->
  check_start h st x = (st, set_checks true (checks x ++ [h]) (set_debounced h x)).
Proof. intros Hq. unfold check_start. by rewrite Hq. Qed.

(** The effect and then its one query, settled, are [Profile.checkHandle]. *)
Lemma check_start_settle h st x :
  checks x = [] ->
  let '(st1, x1) := check_start h st x in
  let '(st2, x2) := (if check_quick h st then (st1, x1) else check_settle 0 true st1 x1) in
  st2 = checkHandle h st /\ isCheckingHandle x2 = (if check_quick h st then isCheckingHandle x else false) /\
  checks x2 = [].
Proof.
  intros Hx. unfold check_start. destruct (check_quick h st) eqn:Hq; [done|].
  unfold check_settle. cbn [checks set_checks set_debounced]. rewrite Hx. cbn.
  split_and!; [|done|done].
  unfold check_quick in Hq. apply orb_false_elim in Hq as [Hq H4]. apply orb_false_elim in Hq as [Hq H3].
  apply orb_false_elim in Hq as [H1 H2]. unfold checkHandle, set_avail. by rewrite H1, H2, H3, H4.
Qed.

(** An enabled Save submits the form's fields. *)
Lemma save_click_enabled st x :
  isSaving (pg st) = false -> isCheckingHandle x = false -> isHandleAvailable (pg st) = Some true ->
  save_click st x = submit (form_displayName (pg st)) (form_handle (pg st)) st.
Proof. intros Hs Hc Ha. unfold save_click. by rewrite Hs, Hc, Ha. Qed.

(** A query that rejects reads as a taken handle: the page says
    "Handle is already taken." for a network error, and Save stays
    disabled. *)
Lemma check_error_reads_taken h st x :
  checks x = [h] -> (3 <= String.length h)%nat -> debouncedHandle x = h ->
  let '(st1, x1) := check_settle 0 false st x in
  handle_status_view (isHandleAvailable (pg st1)) x1 = HTaken /\ save_click st1 x1 = st1.
Proof.
  intros Hx Hl Hd. unfold check_settle. rewrite Hx. cbn. rewrite Hd.
  rewrite bool_decide_false by (intros ->; simpl in Hl; lia).
  split; [by destruct (String.length h) as [|[|[|n]]]; [lia..|]|].
  unfold save_click. cbn. by rewrite orb_true_r.
Qed.

(** A failed upload changes nothing but lowers its flag. *)
Lemma upload_failure_keeps_state e st x :
  avatar_upload_done (Err e) st x = (st, set_uploading false x) /\
  ringtone_upload_done (Err e) st x = (st, set_uploading_ringtone false x).
Proof. unfold avatar_upload_done, ringtone_upload_done, handleAvatarFileChange, handleRingtoneFileChange. by destruct (user _). Qed.

(** Opening the page: the form takes the profile's name and handle, the
    check of the user's own handle answers without a query, and the page
    shows the handle available with Save enabled (unless a save runs). *)
Lemma settings_open_own_handle st x u p :
  loading (auth st) = false -> user (auth st) = Some u -> userProfile (auth st) = Some p ->
  (3 <= String.length (User.handle p))%nat -> isCheckingHandle x = false ->
  let '(st2, x2) := check_start (User.handle p) (form_reset st) x in
  exists v, settings_view st2 x2 = SPage v /\
    sv_name v = User.displayName p /\ sv_handle v = User.handle p /\
    sv_status v = HAvailable /\ sv_save_disabled v = isSaving (pg st).
Proof.
  intros Hl Hu Hp Hh Hc. unfold form_reset. rewrite Hp. unfold check_start, check_quick. cbn. rewrite Hu.
  rewrite (bool_decide_true (Some (User.handle p) = Some (User.handle p))) by done. rewrite !orb_true_r. cbv iota.
  unfold checkHandle. cbn.
  rewrite (bool_decide_false (User.handle p = "")) by (intros E; rewrite E in Hh; simpl in Hh; lia).
  rewrite orb_false_r. assert (E : (String.length (User.handle p) <=? 2)%nat = false) by (apply Nat.leb_gt; lia).
  rewrite E, bool_decide_true by done. unfold settings_view. cbn. rewrite Hl, Hc. cbn.
  eexists. split; [reflexivity|]. cbn. split_and!; [done|done| |rewrite bool_decide_true by done; simpl; by rewrite !orb_false_r].
  unfold handle_status_view. cbn. rewrite Hc, bool_decide_false by (intros E'; rewrite E' in Hh; simpl in Hh; lia). clear E. by destruct (String.length (User.handle p)) as [|[|[|n]]]; [lia..|].
Qed.

(** ** Stale handle checks *)

(** C26: the handle checks are not tied to the handle they answer: when
    the query for a free handle [h1] settles after the query for a taken
    handle [h2] typed next, the page shows "Handle is available!" under
    [h2], enables Save, and Save writes the taken [h2] into the profile. *)
Theorem stale_check_saves_taken name h1 h2 st x u p :
  user (auth st) = Some u -> Store.users (db st) !! a_uid u = Some p ->
  Some h1 <> User.handle <$> userProfile (auth st) -> Some h2 <> User.handle <$> userProfile (auth st) ->
  checks x = [] -> isSaving (pg st) = false -> form_displayName (pg st) = name ->
  (3 <= String.length h1)%nat -> handle_free h1 (db st) = true -> handle_free h2 (db st) = false ->
  valid_form name h2 = true ->
  let '(st1, x1) := check_start h1 (type_handle h1 st) x in
  let '(st2, x2) := check_start h2 (type_handle h2 st1) x1 in
  let '(st3, x3) := check_settle 1 true st2 x2 in
  let '(st4, x4) := check_settle 0 true st3 x3 in
  form_handle (pg st4) = h2 /\ debouncedHandle x4 = h2 /\
  handle_status_view (isHandleAvailable (pg st4)) x4 = HAvailable /\
  Store.users (db (save_click st4 x4)) !! a_uid u = Some (set_name_handle name h2 p).
Proof.
  intros Hu Hp Hh1 Hh2 Hx Hs Hn Hl1 Hf1 Hf2 Hv.
  rewrite check_start_slow by (eapply check_quick_false; eauto). cbv iota.
  rewrite check_start_slow by (eapply check_quick_false; [exact Hu|by apply (valid_form_length name)|exact Hh2]).
  cbv iota. unfold check_settle. cbn. rewrite Hx. cbn. rewrite Hf1.
  split_and!; [done|done| |].
  - cbn. apply valid_form_length in Hv as Hl2. rewrite bool_decide_false by (intros ->; simpl in Hl2; lia).
    destruct (String.length h2) as [|[|[|n]]]; [lia..|done].
  - rewrite save_click_enabled by done. cbn. rewrite Hn. rewrite (submit_writes _ _ _ u p) by done. by rewrite lookup_insert_eq.
Qed.

(** Alice types the free [alice_x], then bob's [bob_2222]; the second
    query answers first ("taken"), the first answers last. *)
Definition alice_settings : S :=
  mkS (mkpage page0 "Alice" "alice_1111" (Some true))
      (signed_in alice_auth (newUserProfile alice_auth 1731100011111%Z (Some 5000%Z))) two_users.

Lemma stale_check_saves_taken_witness :
  let '(st1, x1) := check_start "alice_x" (type_handle "alice_x" alice_settings) extra0 in
  let '(st2, x2) := check_start "bob_2222" (type_handle "bob_2222" st1) x1 in
  let '(st3, x3) := check_settle 1 true st2 x2 in
  let '(st4, x4) := check_settle 0 true st3 x3 in
  form_handle (pg st4) = "bob_2222" /\ debouncedHandle x4 = "bob_2222" /\
  handle_status_view (isHandleAvailable (pg st4)) x4 = HAvailable /\
  Store.users (db (save_click st4 x4)) !! "alice" =
    Some (set_name_handle "Alice" "bob_2222" (newUserProfile alice_auth 1731100011111%Z (Some 5000%Z))).
Proof.
  apply (stale_check_saves_taken "Alice" "alice_x" "bob_2222" alice_settings extra0 alice_auth
           (newUserProfile alice_auth 1731100011111%Z (Some 5000%Z)));
    first [vm_compute; reflexivity | vm_compute; congruence | simpl; lia].
Defined.

End SettingsView.
