(* ===== verification/Login.v ===== *)
(** * The sign-in page: [src/src/app/login/page.tsx], component [LoginPage]

    The page signs a user up or in with an e-mail and a password, or with
    Google, and leaves the rest to the [AuthProvider] of
    [src/src/hooks/use-auth.tsx] ([Profile.onAuthStateChanged]): once it
    reports a user, the page's effect redirects to [/].  Firebase Auth is
    the environment: its accounts by e-mail, the signed-in user and the
    verification mails it has sent.  Each handler is cut at its first
    await into a pending handler ([pending]) that a later step resolves,
    with the outcome of the calls the environment does not decide itself
    (the new account's id, whether the verification mail goes out, the
    Google account of the popup) as the step's parameters.  The zod check
    [z.string().email()] is a library's; it is the [Variable email_ok] of
    the section, which every definition that uses it takes as argument.
    Line numbers are those of [login/page.tsx]. *)

From S2P Require Import Prelude Data Store Profile.

Module Login.
Import Profile.

(** ** Firebase Auth *)

Record account := mkAccount { acc_uid : string; acc_password : string; acc_verified : bool }.

Record auth := mkAuth {
  accounts : gmap string account;   (** by e-mail *)
  current : option auth_user;
  mails : list string               (** the uids a verification mail went to *)
}.

(** The user of an e-mail account: no name or photo yet. *)
Definition email_user (uid email : string) : auth_user :=
  {| a_uid := uid; a_displayName := None; a_email := Some email; a_photoURL := None |}.

Definition sign_in_as (u : auth_user) (a : auth) : auth := mkAuth (accounts a) (Some u) (mails a).

(** [createUserWithEmailAndPassword]: a new, unverified account, signed in. *)
Definition createUserWithEmailAndPassword (email password newUid : string) : SE auth auth_user :=
  fun a =>
    match accounts a !! email with
    | Some _ => (Err (AuthError "auth/email-already-in-use"), a)
    | None =>
        if Nat.ltb (String.length password) 6 then (Err (AuthError "auth/weak-password"), a)
        else let u := email_user newUid email in
             (Ok u, mkAuth (<[email := mkAccount newUid password false]> (accounts a)) (Some u) (mails a))
    end.

(** [sendEmailVerification]: [sent] is whether the service accepts it. *)
Definition sendEmailVerification (sent : bool) (u : auth_user) : SE auth unit :=
  fun a => if sent then (Ok tt, mkAuth (accounts a) (current a) (mails a ++ [a_uid u]))
           else (Err (AuthError "auth/too-many-requests"), a).

(** [signInWithEmailAndPassword]: any account with that password, verified or not. *)
Definition signInWithEmailAndPassword (email password : string) : SE auth auth_user :=
  fun a =>
    match accounts a !! email with
    | Some acc =>
        if bool_decide (acc_password acc = password)
        then let u := email_user (acc_uid acc) email in (Ok u, sign_in_as u a)
        else (Err (AuthError "auth/invalid-credential"), a)
    | None => (Err (AuthError "auth/invalid-credential"), a)
    end.

(** [signInWithPopup]: the Google account chosen, or the popup closed. *)
Definition signInWithPopup (g : option auth_user) : SE auth auth_user :=
  fun a => match g with
           | Some u => (Ok u, sign_in_as u a)
           | None => (Err (AuthError "auth/popup-closed-by-user"), a)
           end.

(** [signOut(auth)]: no user signed in. *)
Definition signOut : SE auth unit := fun a => (Ok tt, mkAuth (accounts a) None (mails a)).

(** The provider's [logout] (lines 125-128 of [use-auth.tsx]): sign out,
    then go to the sign-in page; [pushed] is the calling page's router. *)
Definition logout (pushed : list string) : SE auth (list string) :=
  fun a => let '(r, a') := signOut a in
           match r with Ok _ => (Ok (pushed ++ ["/login"]), a') | Err e => (Err e, a') end.

(** [error.message] of a Firebase error. *)
Definition message (e : error) : string :=
  match e with
  | AuthError c => "Firebase: Error (" +:+ c +:+ ")."
  | _ => EmptyString
  end.

(** ** The page *)

Record toast := mkToast { title : string; description : string; destructive : bool }.

(** A handler waiting on its first await: the e-mail form as submitted,
    with [isSignUp] as the handler's closure saw it, or the Google popup. *)
Inductive pending := PEmail (signUp : bool) (email password : string) | PGoogle.

(** The page's state (lines 62-63), the toasts shown, the routes pushed,
    and the handlers awaiting. *)
Record t := mkPage {
  isSubmitting : bool;
  isSignUp : bool;
  toasts : list toast;
  pushed : list string;
  pendings : list pending
}.

Definition init : t := mkPage false false [] [] [].

Definition set_submitting (b : bool) (v : t) : t := mkPage b (isSignUp v) (toasts v) (pushed v) (pendings v).
Definition add_toast (x : toast) (v : t) : t :=
  mkPage (isSubmitting v) (isSignUp v) (toasts v ++ [x]) (pushed v) (pendings v).
Definition setIsSignUp (b : bool) (v : t) : t := mkPage (isSubmitting v) b (toasts v) (pushed v) (pendings v).
Definition push (r : string) (v : t) : t := mkPage (isSubmitting v) (isSignUp v) (toasts v) (pushed v ++ [r]) (pendings v).
Definition set_pendings (l : list pending) (v : t) : t := mkPage (isSubmitting v) (isSignUp v) (toasts v) (pushed v) l.

Definition verification_toast : toast :=
  mkToast "Verification Email Sent!" "Please check your inbox to verify your email address." false.

Definition google_failed_toast : toast :=
  mkToast "Sign-in Failed" "Could not sign in with Google. Please try again." true.

(** [handleEmailAuth(data)] up to its first await (lines 80-84, 92):
    [isSignUp] is read by the closure now. *)
Definition handleEmailAuth (email password : string) (v : t) : t :=
  set_pendings (pendings v ++ [PEmail (isSignUp v) email password]) (set_submitting true v).

(** [handleGoogleSignIn()] up to its await (lines 108-112). *)
Definition handleGoogleSignIn (v : t) : t := set_pendings (pendings v ++ [PGoogle]) (set_submitting true v).

(** The calls of [handleEmailAuth]'s [try] block (lines 83-93). *)
Definition email_body (signUp : bool) (email password newUid : string) (sent : bool) : SE auth unit :=
  if signUp then (u ← createUserWithEmailAndPassword email password newUid; sendEmailVerification sent u)
  else (signInWithEmailAndPassword email password;; mret tt).

(** The end of the [try], the [catch] and the [finally] (lines 86-104). *)
Definition email_settle (signUp : bool) (r : result unit) (v : t) : t :=
  let v1 := match r with
            | Ok _ => if signUp then add_toast verification_toast v else v
            | Err e => add_toast (mkToast (if signUp then "Sign-up Failed" else "Sign-in Failed") (message e) true) v
            end in
  set_submitting false v1.

(** The [catch] and [finally] of [handleGoogleSignIn] (lines 114-123). *)
Definition google_settle (r : result auth_user) (v : t) : t :=
  set_submitting false (match r with Ok _ => v | Err _ => add_toast google_failed_toast v end).

(** Pending handler [i] resumed: the environment's outcome is the new
    account's id, whether the verification mail goes out and the Google
    account of the popup. *)
Definition resolve (i : nat) (newUid : string) (sent : bool) (g : option auth_user) (st : t * auth) : t * auth :=
  let '(v, a) := st in
  match pendings v !! i with
  | None => st
  | Some p =>
      let v0 := set_pendings (delete i (pendings v)) v in
      match p with
      | PEmail signUp email password =>
          let '(r, a') := email_body signUp email password newUid sent a in (email_settle signUp r v0, a')
      | PGoogle => let '(r, a') := signInWithPopup g a in (google_settle r v0, a')
      end
  end.

(** The redirect effect (lines 73-77), on the [AuthProvider]'s state. *)
Definition redirect (p : Profile.t) (v : t) : t :=
  if negb (loading p) && bool_decide (is_Some (user p)) then push "/" v else v.

(** The link under the form (lines 181-195). *)
Definition click_switch (v : t) : t := if isSignUp v then setIsSignUp false v else setIsSignUp true v.

(** The Google button (lines 209-214), disabled while submitting. *)
Definition click_google (v : t) : t := if isSubmitting v then v else handleGoogleSignIn v.

(** ** What the page shows (lines 126-222) *)

Record card := mkCard {
  cardTitle : string; cardDescription : string;
  submitLabel : string; submitSpinner : bool; submitDisabled : bool;
  switchPrompt : string; switchLabel : string;
  googleLabel : string; googleDisabled : bool
}.

(** The logo alone while the provider loads or has a user, else the form. *)
Inductive screen := Splash | Form (c : card).

Definition render (p : Profile.t) (v : t) : screen :=
  if loading p || (negb (loading p) && bool_decide (is_Some (user p))) then Splash
  else Form (mkCard
    (if isSignUp v then "Create an Account" else "Welcome Back!")
    (if isSignUp v then "Enter your details to get started." else "Sign in to continue to Mitho Chat.")
    (if isSignUp v then "Sign Up" else "Sign In") (isSubmitting v) (isSubmitting v)
    (if isSignUp v then "Already have an account?" else "Don't have an account?")
    (if isSignUp v then "Sign In" else "Sign Up")
    (if isSubmitting v then "Signing in..." else "Continue with Google") (isSubmitting v)).

(** ** The form and the system *)

Section Form.
Variable email_ok : string -> bool.

(** [loginSchema] (lines 50-53). *)
Definition loginSchema (email password : string) : bool :=
  email_ok email && Nat.leb 6 (String.length password).

(** The submit button (lines 146, 173): disabled while submitting;
    [form.handleSubmit] calls the handler on valid values only. *)
Definition submit (email password : string) (v : t) : t :=
  if isSubmitting v then v else if loginSchema email password then handleEmailAuth email password v else v.

(** The form's fields (lines 65-71, defaults empty) and whether a submit
    was attempted: [react-hook-form] shows the schema's messages
    ([FormMessage], lines 156, 169) once the form was submitted, and
    validates again on every change after that. *)
Record fields := mkFields { f_email : string; f_password : string; f_submitted : bool }.

Definition fields0 : fields := mkFields "" "" false.

Definition type_email (e : string) (f : fields) : fields := mkFields e (f_password f) (f_submitted f).
Definition type_password (pw : string) (f : fields) : fields := mkFields (f_email f) pw (f_submitted f).

(** The messages under the two fields (lines 51-52). *)
Definition field_errors (f : fields) : option string * option string :=
  if f_submitted f then
    (if email_ok (f_email f) then None else Some "Please enter a valid email address.",
     if Nat.leb 6 (String.length (f_password f)) then None else Some "Password must be at least 6 characters.")
  else (None, None).

(** The submit button on the fields (line 173): nothing while it is disabled. *)
Definition submit_form (f : fields) (v : t) : fields * t :=
  if isSubmitting v then (f, v) else (mkFields (f_email f) (f_password f) true, submit (f_email f) (f_password f) v).

(** The page, Firebase Auth, the [AuthProvider] and the document store. *)
Record sys := mkSys { page : t; env : auth; prov : Profile.t; db : Store.t }.

Inductive lstep : sys -> sys -> Prop :=
| LSubmit email password w :
    lstep w (mkSys (submit email password (page w)) (env w) (prov w) (db w))
| LGoogle w : lstep w (mkSys (click_google (page w)) (env w) (prov w) (db w))
| LSwitch w : lstep w (mkSys (click_switch (page w)) (env w) (prov w) (db w))
| LResolve i newUid sent g w :
    lstep w (let '(v, a) := resolve i newUid sent g (page w, env w) in mkSys v a (prov w) (db w))
| LAuth now w :
    lstep w (let '(p, s) := onAuthStateChanged (current (env w)) now (prov w, db w) in mkSys (page w) (env w) p s)
| LRedirect w : lstep w (mkSys (redirect (prov w) (page w)) (env w) (prov w) (db w)).

End Form.

(** ** At most one sign-in in flight *)

(** The spinner shows exactly while a handler is pending, and there is
    at most one. *)
Definition submit_inv (v : t) : Prop :=
  isSubmitting v = bool_decide (pendings v <> []) /\ length (pendings v) <= 1.

Lemma email_settle_submitting b r v : isSubmitting (email_settle b r v) = false.
Proof. unfold email_settle. by repeat case_match. Qed.

Lemma email_settle_pendings b r v : pendings (email_settle b r v) = pendings v.
Proof. unfold email_settle. by repeat case_match. Qed.

Lemma google_settle_submitting r v : isSubmitting (google_settle r v) = false.
Proof. unfold google_settle. by case_match. Qed.

Lemma google_settle_pendings r v : pendings (google_settle r v) = pendings v.
Proof. unfold google_settle. by case_match. Qed.

(** Resuming a pending handler removes it and clears the spinner; the
    other steps of the environment leave the page's handlers alone. *)
Lemma resolve_page i newUid sent g v a p :
  pendings v !! i = Some p ->
  isSubmitting (resolve i newUid sent g (v, a)).1 = false /\
  pendings (resolve i newUid sent g (v, a)).1 = delete i (pendings v).
Proof.
  intros Hp. unfold resolve. rewrite Hp.
  destruct p; repeat case_match; cbn [fst];
    by rewrite ?email_settle_submitting, ?email_settle_pendings, ?google_settle_submitting, ?google_settle_pendings.
Qed.

Lemma resolve_none i newUid sent g v a :
  pendings v !! i = None -> resolve i newUid sent g (v, a) = (v, a).
Proof. intros Hp. unfold resolve. by rewrite Hp. Qed.

Lemma start_inv q v :
  submit_inv v -> isSubmitting v = false ->
  submit_inv (set_pendings (pendings v ++ [q]) (set_submitting true v)).
Proof.
  intros [H1 _] Hs. rewrite Hs in H1. symmetry in H1. apply bool_decide_eq_false, dec_stable in H1.
  unfold submit_inv. cbn [isSubmitting pendings set_pendings set_submitting]. rewrite H1.
  split; [by rewrite bool_decide_true|simpl; lia].
Qed.

Lemma resolve_inv i newUid sent g v a :
  submit_inv v -> submit_inv (resolve i newUid sent g (v, a)).1.
Proof.
  intros [H1 H2]. destruct (pendings v !! i) as [q|] eqn:Hq; [|by rewrite resolve_none].
  unfold submit_inv. destruct (resolve_page i newUid sent g v a q Hq) as [E1 E2]. rewrite E1, E2.
  pose proof (lookup_lt_Some _ _ _ Hq).
  destruct (pendings v) as [|q0 [|]]; [simpl in *; lia| |simpl in *; lia].
  replace (delete i [q0]) with (@nil pending) by (destruct i; simpl in *; [done|lia]).
  rewrite bool_decide_false by (intros Hn; by apply Hn). simpl. split; [done|lia].
Qed.

Section Steps.
Variable email_ok : string -> bool.

Lemma lstep_inv S S' : lstep email_ok S S' -> submit_inv (page S) -> submit_inv (page S').
Proof.
  intros Hs Hi. destruct Hs; cbn [page].
  - unfold submit. destruct (isSubmitting _) eqn:E; [done|].
    case_match; [by apply start_inv|done].
  - unfold click_google. destruct (isSubmitting _) eqn:E; [done|]. by apply start_inv.
  - unfold click_switch. destruct (isSignUp _); exact Hi.
  - generalize (resolve_inv i newUid sent g (page w) (env w) Hi).
    by destruct (resolve _ _ _ _ _).
  - by destruct (onAuthStateChanged _ _ _).
  - unfold redirect. case_match; exact Hi.
Qed.

End Steps.

(** The [AuthProvider] reporting a signed-in user: loaded, with a user. *)
Lemma onAuthStateChanged_signed_in u now p s :
  loading (onAuthStateChanged (Some u) now (p, s)).1 = false /\
  is_Some (user (onAuthStateChanged (Some u) now (p, s)).1).
Proof.
  unfold onAuthStateChanged, fetchUserProfile, apply_theme.
  repeat case_match; simplify_eq; simpl; eauto.
Qed.

Lemma redirect_signed_in p v : loading p = false -> is_Some (user p) -> redirect p v = push "/" v.
Proof. intros Hl Hu. unfold redirect. rewrite Hl, bool_decide_true by done. done. Qed.

(** Logging out signs the user out of Firebase Auth, keeping the
    accounts; the provider's callback then clears the user and the
    profile but keeps the theme and the accent colour applied to the
    page, the previous user's, until the next profile loads. *)
Lemma logout_signs_out pushed a now p s :
  let '(r, a') := logout pushed a in
  let '(p', s') := onAuthStateChanged (current a') now (p, s) in
  r = Ok (pushed ++ ["/login"]) /\ accounts a' = accounts a /\
  user p' = None /\ userProfile p' = None /\ loading p' = false /\
  theme p' = theme p /\ primary p' = primary p /\ s' = s.
Proof. done. Qed.

(** A password under six characters: the submit starts nothing and the
    field says why. *)
Lemma short_password_rejected email_ok f v :
  isSubmitting v = false -> (String.length (f_password f) < 6)%nat ->
  let '(f', v') := submit_form email_ok f v in
  v' = v /\ snd (field_errors email_ok f') = Some "Password must be at least 6 characters.".
Proof.
  intros Hs Hl. unfold submit_form, submit, loginSchema. rewrite Hs.
  assert (E : Nat.leb 6 (String.length (f_password f)) = false) by (apply Nat.leb_gt; lia).
  rewrite E, andb_false_r. split; [done|]. unfold field_errors. cbn [f_submitted f_password snd]. by rewrite E.
Qed.

(** ** Properties *)

(** C9: at most one sign-in is in flight on the sign-in page, and its
    buttons show the spinner and are disabled exactly while one is:
    every run of the page with Firebase Auth, the [AuthProvider] and the
    store keeps this, whatever the user clicks and whenever the calls
    settle. *)
Theorem login_one_in_flight email_ok w w' :
  rtc (lstep email_ok) w w' -> submit_inv (page w) -> submit_inv (page w').
Proof. induction 1; eauto using lstep_inv. Qed.

(** C23: a sign-up whose verification mail the service refuses is
    reported as failed ("Sign-up Failed"), yet the account exists,
    unverified, its user is signed in, the [AuthProvider] stores a
    profile for it and the page redirects to the app. *)
Theorem signup_mail_failure email pw newUid v a p s now g :
  pendings v = [PEmail true email pw] -> accounts a !! email = None -> 6 <= String.length pw ->
  Store.getUser newUid s = None ->
  let '(v1, a1) := resolve 0 newUid false g (v, a) in
  let '(p2, s2) := onAuthStateChanged (current a1) now (p, s) in
  last (toasts v1) = Some (mkToast "Sign-up Failed" "Firebase: Error (auth/too-many-requests)." true) /\
  accounts a1 !! email = Some (mkAccount newUid pw false) /\ current a1 = Some (email_user newUid email) /\
  Store.getUser newUid s2 = Some (newUserProfile (email_user newUid email) now (Some (Store.clock s))) /\
  pushed (redirect p2 v1) = pushed v ++ ["/"].
Proof.
  intros Hp Ha Hl Hs. unfold resolve. rewrite Hp. cbn -[createUserWithEmailAndPassword].
  unfold mbind, se_mbind, se_bind, createUserWithEmailAndPassword.
  rewrite Ha, (proj2 (Nat.ltb_ge _ _) Hl). cbn.
  unfold Store.getUser in *. rewrite Hs. cbn.
  split_and!; [apply last_snoc| | | |]; by rewrite ?lookup_insert_eq.
Qed.

(** C17: e-mail verification is never required: an account whose address
    was never verified signs in with its password, without a toast, and
    once the [AuthProvider] reports the user the page redirects to the
    app. *)
Theorem unverified_sign_in email pw acc v a p s now newUid sent g :
  pendings v = [PEmail false email pw] -> accounts a !! email = Some acc ->
  acc_verified acc = false -> acc_password acc = pw ->
  let '(v1, a1) := resolve 0 newUid sent g (v, a) in
  let '(p2, s2) := onAuthStateChanged (current a1) now (p, s) in
  toasts v1 = toasts v /\ isSubmitting v1 = false /\ current a1 = Some (email_user (acc_uid acc) email) /\
  pushed (redirect p2 v1) = pushed v ++ ["/"].
Proof.
  intros Hp Ha _ Hpw. unfold resolve. rewrite Hp. cbn -[onAuthStateChanged].
  unfold mbind, se_mbind, se_bind, signInWithEmailAndPassword. rewrite Ha, bool_decide_true by done.
  cbn -[onAuthStateChanged]. destruct (onAuthStateChanged_signed_in (email_user (acc_uid acc) email) now p s) as [Hl Hu].
  destruct (onAuthStateChanged _ _ _) as [p2 s2]. simpl in Hl, Hu. rewrite redirect_signed_in by done. done.
Qed.

(** ** Witnesses *)

(** A form check that accepts any non-empty address. *)
Definition nonempty (e : string) : bool := negb (String.eqb e EmptyString).

Definition no_accounts : auth := mkAuth ∅ None [].
Definition ann_account : auth := mkAuth {[ "ann@example.com" := mkAccount "u1" "secret1" false ]} None [].
Definition start : sys := mkSys init no_accounts Profile.init empty_store.

(** Ann submits the form, then clicks Google while it is pending. *)
Lemma login_one_in_flight_witness :
  let w1 := mkSys (submit nonempty "ann@example.com" "secret1" (page start)) no_accounts Profile.init empty_store in
  submit_inv (click_google (page w1)) /\ pendings (click_google (page w1)) = [PEmail false "ann@example.com" "secret1"].
Proof.
  split; [|reflexivity].
  apply (login_one_in_flight nonempty start (mkSys (click_google (page
    (mkSys (submit nonempty "ann@example.com" "secret1" (page start)) no_accounts Profile.init empty_store)))
    no_accounts Profile.init empty_store)).
  - eapply rtc_l; [apply LSubmit|]. apply rtc_once, LGoogle.
  - split; [reflexivity|simpl; lia].
Defined.

Lemma signup_mail_failure_witness :
  let '(v1, a1) := resolve 0 "u1" false None
                     (set_pendings [PEmail true "ann@example.com" "secret1"] (set_submitting true init), no_accounts) in
  let '(p2, s2) := onAuthStateChanged (current a1) 1731100012345%Z (Profile.init, empty_store) in
  last (toasts v1) = Some (mkToast "Sign-up Failed" "Firebase: Error (auth/too-many-requests)." true) /\
  accounts a1 !! "ann@example.com" = Some (mkAccount "u1" "secret1" false) /\
  current a1 = Some (email_user "u1" "ann@example.com") /\
  Store.getUser "u1" s2 = Some (newUserProfile (email_user "u1" "ann@example.com") 1731100012345%Z
                                  (Some (Store.clock empty_store))) /\
  pushed (redirect p2 v1) = ["/"].
Proof. apply signup_mail_failure; [reflexivity|reflexivity|simpl; lia|reflexivity]. Defined.

Lemma unverified_sign_in_witness :
  let '(v1, a1) := resolve 0 "u2" true None
                     (set_pendings [PEmail false "ann@example.com" "secret1"] (set_submitting true init), ann_account) in
  let '(p2, s2) := onAuthStateChanged (current a1) 1731100012345%Z (Profile.init, empty_store) in
  toasts v1 = [] /\ isSubmitting v1 = false /\ current a1 = Some (email_user "u1" "ann@example.com") /\
  pushed (redirect p2 v1) = ["/"].
Proof.
  apply (unverified_sign_in "ann@example.com" "secret1" (mkAccount "u1" "secret1" false)); reflexivity.
Defined.

End Login.
