(* ===== verification/Durations.v ===== *)
(** * Durations on screen: the voice player of [src/src/components/chat-view.tsx]
    and the timer of [src/src/components/voice-recorder.tsx]

    [VoiceMessagePlayer] (lines 78-126 of [chat-view.tsx]) shows the
    length of a voice message as [m:ss] once the audio element has read
    the file's metadata; the recorder shows its tick counter through
    [formatTime] (lines 13-17 of [voice-recorder.tsx]).  [audio.duration]
    is a JavaScript number: a finite value, here a rational, or
    [Infinity], which the browser reports for a MediaRecorder file with no
    duration in its header; [Math.floor] returns an integer or a
    non-finite value, and [toString] prints either. *)

From Stdlib Require Import Ascii QArith Qround Lqa.
From S2P Require Import Prelude ChatView Profile.

Module Durations.
Import ChatView Profile.

(** ** JavaScript numbers *)

(** A number as the code meets it: finite, [Infinity] or [NaN]. *)
Inductive num := Fin (q : Q) | PosInf | NaN.

(** What [Math.floor] returns: an integer, or the non-finite value it was given. *)
Inductive jint := IFin (z : Z) | IPosInf | INaN.

(** [x / 60]. *)
Definition div60 (x : num) : num :=
  match x with Fin q => Fin (q / 60) | PosInf => PosInf | NaN => NaN end.

(** [Math.trunc] on a finite value. *)
Definition qtrunc (q : Q) : Z := if Qle_bool 0 q then Qfloor q else (- Qfloor (- q))%Z.

(** [x % 60]: the remainder of the truncated quotient; [Infinity % 60] is [NaN]. *)
Definition mod60 (x : num) : num :=
  match x with Fin q => Fin (q - 60 * inject_Z (qtrunc (q / 60))) | _ => NaN end.

(** [Math.floor(x)]. *)
Definition floor (x : num) : jint :=
  match x with Fin q => IFin (Qfloor q) | PosInf => IPosInf | NaN => INaN end.

(** [toString()] of an integer or of a non-finite number. *)
Definition int_to_string (n : jint) : string :=
  match n with IFin z => show_Z z | IPosInf => "Infinity" | INaN => "NaN" end.

(** [k] copies of [c]. *)
Fixpoint repeat_char (k : nat) (c : ascii) : string :=
  match k with O => EmptyString | Datatypes.S k' => String c (repeat_char k' c) end.

(** [s.padStart(n, c)] with a one-character [c]. *)
Definition padStart (n : nat) (c : ascii) (s : string) : string :=
  String.append (repeat_char (n - String.length s) c) s.

(** ** The voice player (lines 78-126 of [chat-view.tsx]) *)

(** The [onloadedmetadata] text (lines 98-100):
    [`${minutes}:${seconds.toString().padStart(2, '0')}`]. *)
Definition format_duration (d : num) : string :=
  let minutes := floor (div60 d) in
  let seconds := floor (mod60 d) in
  int_to_string minutes +:+ ":" +:+ padStart 2 "0" (int_to_string seconds).

(** The player's state (lines 80-81), whether its audio element is
    paused, and whether the effect's handlers are attached to it. *)
Record player := mkPlayer { isPlaying : bool; duration : string; paused : bool; attached : bool }.

Definition player0 : player := mkPlayer false "0:00" true false.

(** The effect (lines 95-111) and its cleanup. *)
Definition mount (p : player) : player := mkPlayer (isPlaying p) (duration p) (paused p) true.
Definition unmount (p : player) : player := mkPlayer (isPlaying p) (duration p) (paused p) false.

(** [handlePlayPause] (lines 83-92); [play_ok] is whether the promise of
    [play()], which nothing awaits, fulfils. *)
Definition handlePlayPause (play_ok : bool) (p : player) : player :=
  if isPlaying p then mkPlayer false (duration p) true (attached p)
  else mkPlayer true (duration p) (negb play_ok) (attached p).

(** The element's [loadedmetadata] and [ended] events. *)
Definition loadedmetadata (d : num) (p : player) : player :=
  if attached p then mkPlayer (isPlaying p) (format_duration d) (paused p) true else p.

Definition ended (p : player) : player :=
  mkPlayer (if attached p then false else isPlaying p) (duration p) true (attached p).

(** What the player shows (lines 112-125): the pause icon while
    playing, the play icon otherwise, and the duration text. *)
Record player_view := mkPlayerView { pv_pause_icon : bool; pv_duration : string }.

Definition render_player (p : player) : player_view := mkPlayerView (isPlaying p) (duration p).

(** ** The recorder's timer (lines 13-17 of [voice-recorder.tsx]) *)

(** [formatTime(time)] on the integer tick counter. *)
Definition formatTime (time : Z) : string :=
  padStart 2 "0" (show_Z (time `div` 60)) +:+ ":" +:+ padStart 2 "0" (show_Z (Z.rem time 60)).

(** ** Lemmas *)

(** A message whose audio reports [Infinity] keeps reading
    [Infinity:NaN] while it plays, until it ends. *)
Lemma player_infinite_shown play_ok :
  let p := handlePlayPause play_ok (loadedmetadata PosInf (mount player0)) in
  render_player p = mkPlayerView true "Infinity:NaN" /\
  render_player (ended p) = mkPlayerView false "Infinity:NaN".
Proof. done. Qed.


Lemma qtrunc_nonneg (q : Q) : (0 <= q)%Q -> qtrunc q = Qfloor q.
Proof. intros Hq. unfold qtrunc. by rewrite (proj2 (Qle_bool_iff 0 q) Hq). Qed.

(** The floor of a value between two integers' images. *)
Lemma Qfloor_bounds (q : Q) : (inject_Z (Qfloor q) <= q < inject_Z (Qfloor q) + 1)%Q.
Proof.
  split; [apply Qfloor_le|]. rewrite <-(inject_Z_plus _ 1). apply Qlt_floor.
Qed.

Lemma Qfloor_nonneg (q : Q) : (0 <= q)%Q -> (0 <= Qfloor q)%Z.
Proof. intros Hq. change 0%Z with (Qfloor 0). by apply Qfloor_resp_le. Qed.

(** Every number below 100 prints padded as two characters. *)
Lemma pad_seconds_length s : (0 <= s < 100)%Z -> String.length (padStart 2 "0" (show_Z s)) = 2%nat.
Proof.
  intros Hs. assert (Hall : forallb (fun n => Nat.eqb (String.length (padStart 2 "0" (show_Z (Z.of_nat n)))) 2)
                                    (seq 0 100) = true) by (vm_compute; reflexivity).
  rewrite forallb_forall in Hall. specialize (Hall (Z.to_nat s)).
  rewrite Z2Nat.id in Hall by lia. apply Nat.eqb_eq, Hall, in_seq. lia.
Qed.

(** C33: for every finite, non-negative duration the player shows
    [m:ss]: [m] the whole minutes, [ss] two digits from [00] to [59],
    and [60 m + ss] the whole seconds of the duration. *)
Theorem format_duration_bounds (q : Q) : (0 <= q)%Q ->
  exists m s : Z, format_duration (Fin q) = show_Z m +:+ ":" +:+ padStart 2 "0" (show_Z s) /\
    (0 <= m)%Z /\ (0 <= s < 60)%Z /\ String.length (padStart 2 "0" (show_Z s)) = 2%nat /\
    (inject_Z (60 * m + s) <= q < inject_Z (60 * m + s + 1))%Q.
Proof.
  intros Hq. assert (Hd : (0 <= q / 60)%Q) by (apply Qle_shift_div_l; [reflexivity|lra]).
  unfold format_duration, div60, mod60, floor, int_to_string. rewrite qtrunc_nonneg by exact Hd.
  set (m := Qfloor (q / 60)). set (s := Qfloor (q - 60 * inject_Z m)). exists m, s.
  destruct (Qfloor_bounds (q / 60)) as [Hm1 Hm2]. fold m in Hm1, Hm2.
  destruct (Qfloor_bounds (q - 60 * inject_Z m)) as [Hs1 Hs2]. fold s in Hs1, Hs2.
  assert (Hm : (0 <= m)%Z) by (apply Qfloor_nonneg, Hd).
  assert (H60 : (0 <= q - 60 * inject_Z m < 60)%Q)
    by (unfold Qdiv in Hm1, Hm2; change (/ 60)%Q with (1 # 60)%Q in Hm1, Hm2; split; lra).
  assert (Hs : (0 <= s < 60)%Z).
  { split; [apply Qfloor_nonneg; lra|]. destruct (Z.lt_ge_cases s 60) as [?|Hge]; [done|].
    rewrite Zle_Qle in Hge. change (inject_Z 60) with 60%Q in Hge. lra. }
  split_and!; [reflexivity|exact Hm|lia|lia|apply pad_seconds_length; lia|..];
    rewrite ?inject_Z_plus, inject_Z_mult; change (inject_Z 60) with 60%Q; change (inject_Z 1) with 1%Q; lra.
Qed.

(** A MediaRecorder file with no duration in its header: the browser
    reports [Infinity], and the player shows [Infinity:NaN]. *)
Lemma format_duration_infinite : format_duration PosInf = "Infinity:NaN".
Proof. reflexivity. Qed.

(** The recorder's timer reads [mm:ss] for the first 100 minutes. *)
Lemma formatTime_short t : (0 <= t < 6000)%Z ->
  formatTime t = padStart 2 "0" (show_Z (t `div` 60)) +:+ ":" +:+ padStart 2 "0" (show_Z (t `mod` 60)) /\
  String.length (formatTime t) = 5%nat.
Proof.
  intros Ht. unfold formatTime. rewrite Z.rem_mod_nonneg by lia. split; [done|].
  rewrite !string_length_app. simpl.
  rewrite (pad_seconds_length (t `mod` 60)) by (pose proof (Z.mod_pos_bound t 60); lia).
  rewrite (pad_seconds_length (t `div` 60)); [done|]. split; [apply Z.div_pos|apply Z.div_lt_upper_bound]; lia.
Qed.

(** A message of 125.7 seconds reads [2:05]. *)
Lemma format_duration_bounds_witness :
  format_duration (Fin (1257 # 10)) = "2:05" /\
  exists m s : Z, format_duration (Fin (1257 # 10)) = show_Z m +:+ ":" +:+ padStart 2 "0" (show_Z s) /\
    (0 <= m)%Z /\ (0 <= s < 60)%Z /\ String.length (padStart 2 "0" (show_Z s)) = 2%nat /\
    (inject_Z (60 * m + s) <= 1257 # 10 < inject_Z (60 * m + s + 1))%Q.
Proof. split; [vm_compute; reflexivity|]. apply format_duration_bounds. unfold Qle; simpl; lia. Defined.

End Durations.
