(* ===== verification/ChatMessages.v ===== *)
(** * What a chat shows: the messages listener and [MessageItem] of
    [src/src/components/chat-view.tsx]

    The chat pane subscribes to the [messages] sub-collection of the open
    chat, ordered by [timestamp] (lines 400-415), and fetches the other
    member's profile (lines 418-427); each message is drawn by
    [MessageItem] (lines 136-300), which shows nothing until it has read
    its sender's profile, a centred line for a call-log entry, and a bubble
    for the other kinds.  A chat document and its messages are separate
    in Firestore: deleting the chat document, as unfriending does, leaves
    the messages where they were, and the friends handlers never touch
    them; a chat created again under the same id shows them again.  Line
    numbers are those of [chat-view.tsx]. *)

From Stdlib Require Import Ascii.
From S2P Require Import Prelude Data Store ChatView Friends Profile.

Module ChatMessages.
Import Profile.

(** ** The messages listener *)

(** Insertion after the messages with the same or an earlier timestamp. *)
Fixpoint insert_by_timestamp (m : Message.t) (l : list Message.t) : list Message.t :=
  match l with
  | [] => [m]
  | x :: l' => if Z.ltb (Message.timestamp m) (Message.timestamp x) then m :: l
               else x :: insert_by_timestamp m l'
  end.

(** [orderBy("timestamp", "asc")]: messages with equal timestamps keep
    the order they were written in. *)
Definition sort_by_timestamp (l : list Message.t) : list Message.t :=
  fold_left (fun acc m => insert_by_timestamp m acc) l [].

(** A snapshot of the chat's messages. *)
Definition messages_snapshot (chatId : string) (s : Store.t) : list Message.t :=
  sort_by_timestamp (Store.chat_messages chatId s).

(** The pane's state read from the store (lines 383-384, 390). *)
Record pane := mkPane { messages : list Message.t; loadingMessages : bool; otherUser : option User.t }.

Definition pane0 : pane := mkPane [] true None.

(** The messages effect (lines 400-402): nothing for a chat with no id. *)
Definition messages_effect (c : Chat.t) (p : pane) : pane :=
  if bool_decide (Chat.id c = EmptyString) then p else mkPane (messages p) true (otherUser p).

(** A snapshot (lines 406-410). *)
Definition on_messages (chatId : string) (s : Store.t) (p : pane) : pane :=
  mkPane (messages_snapshot chatId s) false (otherUser p).

(** [fetchOtherUser] (lines 419-425): kept as it was when the profile is missing. *)
Definition fetchOtherUser (otherUserId : option string) (s : Store.t) (p : pane) : pane :=
  match otherUserId with
  | None => p
  | Some id => match Store.getUser id s with
               | Some u => mkPane (messages p) (loadingMessages p) (Some u)
               | None => p
               end
  end.

(** ** [MessageItem] *)

Definition upper (c : ascii) : ascii :=
  if in_range 97 122 c then Ascii.ascii_of_nat (Ascii.nat_of_ascii c - 32)%nat else c.

Fixpoint to_upper (s : string) : string :=
  match s with EmptyString => EmptyString | String c s' => String (upper c) (to_upper s') end.

(** [getInitials] of [MessageItem] (lines 156-159):
    [name.split(' ').map(n => n[0]).join('').substring(0,2).toUpperCase()];
    [join] writes an [undefined] as nothing. *)
Definition item_initials (name : option string) : string :=
  match name with
  | None => ""
  | Some n => if bool_decide (n = EmptyString) then ""
              else to_upper (String.substring 0 2 (String.concat "" (default "" ∘ first_char <$> split_spaces "" n)))
  end.

(** [(b / 1024 / 1024).toFixed(2)] for a byte count [b]: the quotient is
    exact in binary, so [toFixed] gives the nearest hundredth, a tie
    rounded up. *)
Definition mb_fixed2 (b : Z) : string :=
  let n := ((200 * b + 1048576) `div` 2097152)%Z in
  let cents := (n `mod` 100)%Z in
  ChatView.show_Z (n `div` 100) +:+ "." +:+ (if Z.ltb cents 10 then "0" else "") +:+ ChatView.show_Z cents.

(** [message.fileSize ? (fileSize / 1024 / 1024).toFixed(2) + ' MB' : ''] (line 250). *)
Definition size_text (size : option Z) : string :=
  match size with
  | None | Some 0%Z => ""
  | Some b => mb_fixed2 b +:+ " MB"
  end.

(** The parts of a bubble (lines 224-266). *)
Inductive part :=
| PImage (url : string)
| PVideo (url : string)
| PDocument (fileName : option string) (size : string) (url : string)
| PVoice (url : string)
| PText (text : string).

(** What the item shows: nothing, a call-log line, or a bubble on the
    user's side or the other's, with the initials of its avatar (drawn on
    the other's left or on the user's right), the sender's name above it
    and its parts. *)
Inductive item :=
| IHidden
| ICall (missed video : bool) (text : string)
| IBubble (isMe : bool) (avatar : string) (name : option string) (parts : list part).

(** JavaScript's truthiness of an optional string. *)
Definition truthy (o : option string) : option string :=
  match o with Some s => if bool_decide (s = EmptyString) then None else Some s | None => None end.

Definition bubble_parts (m : Message.t) : list part :=
  let url := truthy (Message.attachmentUrl m) in
  (match Message.type m, url with
   | MsgImage, Some u => [PImage u]
   | MsgVideo, Some u => [PVideo u]
   | MsgDocument, Some u => [PDocument (Message.fileName m) (size_text (Message.fileSize m)) u]
   | MsgVoice, Some u => [PVoice u]
   | _, _ => []
   end) ++ (match truthy (Message.text m) with Some t => [PText t] | None => [] end).

(** [MessageItem] for the user [viewer] ([currentUser?.uid]), with the
    sender's profile once [fetchSender] has read it (lines 136-300). *)
Definition message_item (viewer : option string) (sender : option User.t) (m : Message.t) : item :=
  match sender with
  | None => IHidden
  | Some u =>
      let isMe := bool_decide (Some (Message.senderId m) = viewer) in
      let isMedia := bool_decide (Message.type m = MsgImage \/ Message.type m = MsgVideo) in
      match Message.type m, Message.callInfo m with
      | MsgCall, Some info =>
          ICall (bool_decide (CallInfo.status info = OutcomeMissed)) (bool_decide (CallInfo.type info = Video))
                (ChatView.call_text isMe info)
      | _, _ =>
          IBubble isMe
            (item_initials (Some (User.displayName u)))
            (if negb isMe && negb isMedia then Some (User.displayName u) else None)
            (bubble_parts m)
      end
  end.

(** ** The listener shows every stored message *)

Lemma insert_by_timestamp_perm m l : insert_by_timestamp m l ≡ₚ m :: l.
Proof.
  induction l as [|x l IH]; [done|]. simpl. case_match; [done|].
  rewrite IH. apply Permutation_swap.
Qed.

Lemma sort_by_timestamp_perm l : sort_by_timestamp l ≡ₚ l.
Proof.
  unfold sort_by_timestamp. rewrite <-(app_nil_r l) at 2. generalize (@nil Message.t).
  induction l as [|m l IH]; intros acc; [done|]. simpl.
  rewrite IH, insert_by_timestamp_perm. by rewrite Permutation_middle.
Qed.

Lemma elem_of_messages_snapshot m k s : m ∈ messages_snapshot k s <-> m ∈ Store.chat_messages k s.
Proof. unfold messages_snapshot. by rewrite sort_by_timestamp_perm. Qed.

(** ** The friends handlers never touch messages *)

Section Messages.
Import Friends.

Definition same_messages (st st' : St) : Prop := Store.messages (db st') = Store.messages (db st).

Lemma accept_batch_messages r s res s' : accept_batch r s = (res, s') -> Store.messages s' = Store.messages s.
Proof. unfold accept_batch. cbv zeta. repeat case_match; by intros [= _ <-]. Qed.

Lemma unfriend_batch_messages me f s res s' : unfriend_batch me f s = (res, s') -> Store.messages s' = Store.messages s.
Proof. unfold unfriend_batch. repeat case_match; by intros [= _ <-]. Qed.

Lemma create_messages o a st : same_messages st (handleCreateChat o a st).
Proof. unfold same_messages, handleCreateChat. by repeat case_match; simplify_eq. Qed.

Lemma send_messages toId newId st : same_messages st (handleSendFriendRequest toId newId st).
Proof. unfold same_messages, handleSendFriendRequest. cbv zeta. by case_bool_decide. Qed.

Lemma cancel_messages toId st : same_messages st (handleCancelFriendRequest toId st).
Proof. unfold same_messages, handleCancelFriendRequest. cbv zeta. by case_match. Qed.

Lemma request_messages r acc fu m st : same_messages st (handleFriendRequest r acc fu m st).
Proof.
  unfold same_messages, handleFriendRequest. destruct acc; [|done].
  destruct (accept_batch r (db st)) as [res s'] eqn:E.
  rewrite <-(accept_batch_messages _ _ _ _ E). destruct res; [|done].
  destruct fu; [apply (create_messages _ _ (refresh (mkSt (view st) s')))|done].
Qed.

Lemma unfriend_messages f st : same_messages st (handleUnfriend f st).
Proof.
  unfold same_messages, handleUnfriend. destruct (unfriend_batch _ f (db st)) as [res s'] eqn:E.
  rewrite <-(unfriend_batch_messages _ _ _ _ _ E). destruct res; [|done]. simpl. by case_bool_decide.
Qed.

Lemma page_unfriend_messages f st : same_messages st (page_handleUnfriend f st).
Proof.
  unfold same_messages, page_handleUnfriend. destruct (unfriend_batch _ f (db st)) as [res s'] eqn:E.
  rewrite <-(unfriend_batch_messages _ _ _ _ _ E). destruct res; [|done]. simpl. by case_bool_decide.
Qed.

Lemma people_messages u a newId st : same_messages st (people_click u a newId st).
Proof. unfold people_click. case_match; auto using create_messages, cancel_messages, send_messages. Qed.

Lemma fstep_messages st st' : fstep st st' -> same_messages st st'.
Proof.
  destruct 1; try reflexivity;
    auto using request_messages, send_messages, cancel_messages, unfriend_messages, create_messages,
      page_unfriend_messages, people_messages.
  unfold same_messages. by rewrite requests_effect_db.
Qed.

End Messages.

Lemma fsteps_messages st st' : rtc Friends.fstep st st' -> same_messages st st'.
Proof. unfold same_messages. induction 1; [done|]. rewrite IHrtc. by apply fstep_messages. Qed.

(** C27: unfriending deletes the direct chat's document but not its
    messages, though the friends list's dialog says it deletes the chat
    history: whatever the friends handlers and listeners of any page do
    afterwards, the chat's messages listener reads the same messages as
    before the unfriend, so a chat opened again under the same id (the
    two users friends again) shows the old history. *)
Theorem unfriend_keeps_history f st um uf st' :
  Store.users (Friends.db st) !! Friends.uid (Friends.view st) = Some um -> Store.users (Friends.db st) !! f = Some uf ->
  rtc Friends.fstep (Friends.handleUnfriend f st) st' ->
  let k := Friends.chat_id (Friends.uid (Friends.view st)) f in
  Store.chats (Friends.db (Friends.handleUnfriend f st)) !! k = None /\
  messages_snapshot k (Friends.db st') = messages_snapshot k (Friends.db st).
Proof.
  intros Hm Hf Hr. destruct (Friends.unfriend_batch_run _ _ _ _ _ Hm Hf) as [s' Hb].
  split; [apply (Friends.handleUnfriend_ok _ _ _ Hb)|].
  unfold messages_snapshot, Store.chat_messages, Store.chat_docs.
  rewrite (fsteps_messages _ _ Hr). by rewrite (unfriend_messages f st).
Qed.

(** ** Alice unfriends bob, bob asks her again, she accepts *)

Definition hello : Message.t := {|
  Message.senderId := "bob"; Message.text := Some "hi alice"; Message.timestamp := 4000;
  Message.type := MsgText; Message.attachmentUrl := None; Message.callInfo := None;
  Message.fileName := None; Message.fileSize := None |}.

Definition db_history : Store.t := {|
  Store.calls := ∅; Store.callerCandidates := ∅; Store.calleeCandidates := ∅;
  Store.chats := {[ "alice_bob" := Friends.chat_ab ]}; Store.messages := {[ "alice_bob" := [(0%nat, hello)] ]};
  Store.users := {[ "alice" := Friends.person "alice" ["bob"]; "bob" := Friends.person "bob" ["alice"] ]};
  Store.friendRequests := {[ "r1" := Friends.req_ab Accepted ]}; Store.clock := 5000; Store.journal := [] |}.

Definition alice_history : Friends.St :=
  Friends.mkSt (Friends.page "alice" ["bob"] (Some Friends.chat_ab) {[ "bob" := Friends.RFriends ]}) db_history.

Definition req_ba : FriendRequest.t := {|
  FriendRequest.id := "r2"; FriendRequest.from := "bob"; FriendRequest.to := "alice";
  FriendRequest.status := Pending; FriendRequest.createdAt := 0 |}.

(** Bob's page sends the new request, alice's page accepts it. *)
Definition refriended : Friends.St :=
  let st1 := Friends.handleUnfriend "bob" alice_history in
  let st3 := Friends.handleSendFriendRequest "alice" "r2" (Friends.mkSt (Friends.page "bob" [] None ∅) (Friends.db st1)) in
  Friends.handleFriendRequest req_ba true true false (Friends.mkSt (Friends.page "alice" [] None ∅) (Friends.db st3)).

Lemma unfriend_keeps_history_witness :
  is_Some (Store.chats (Friends.db refriended) !! "alice_bob") /\ messages_snapshot "alice_bob" (Friends.db refriended) = [hello] /\
  Store.chats (Friends.db (Friends.handleUnfriend "bob" alice_history)) !! "alice_bob" = None /\
  messages_snapshot "alice_bob" (Friends.db refriended) = messages_snapshot "alice_bob" (Friends.db alice_history).
Proof.
  split; [vm_compute; eexists; reflexivity|]. split; [vm_compute; reflexivity|].
  apply (unfriend_keeps_history "bob" alice_history (Friends.person "alice" ["bob"]) (Friends.person "bob" ["alice"]));
    [reflexivity|reflexivity|].
  unfold refriended. eapply rtc_l; [apply Friends.FsPage|]. eapply rtc_l; [apply Friends.FsSend|].
  eapply rtc_l; [apply Friends.FsPage|]. apply rtc_once, Friends.FsAccept.
Defined.

End ChatMessages.
