(* ===== verification/ChatScreen.v ===== *)
(** * The chat screen: the render of [ChatView] and [AttachmentPreview]
    in [src/src/components/chat-view.tsx]

    What an open chat shows as a function of [ChatView]'s state
    ([ChatView.t]), the messages pane ([ChatMessages.pane]) and the store:
    the header with its call buttons and menu (lines 646-708), the messages
    or the spinner and the blocked banner (lines 710-727), the composer or
    the voice recorder (lines 729-775), the attachment preview (lines
    296-370, 778-786), the confirmation dialog (lines 630-641, 788-803),
    the contact sheet and the image viewer (lines 805-807); and the
    handlers these wire that [ChatView.v] does not already hold.  Line
    numbers are those of [chat-view.tsx]. *)

From S2P Require Import Prelude Data Store Home ChatView Profile ChatMessages.

Module ChatScreen.
Import ChatView ChatMessages.

(** [`${x}`] of a [string | undefined]. *)
Definition js_str (o : option string) : string := default "undefined" o.

(** [getDialogContent()] (lines 630-641). *)
Definition dialog_content (a : option dialog_action) (blocked : bool) (name : option string) : string * string :=
  match a with
  | Some DClear => ("Clear this chat?", "This will permanently delete all messages in this conversation.")
  | Some DDelete => ("Delete this chat?", "This action cannot be undone. The chat will be removed from your list.")
  | Some DBlock =>
      ((if blocked then "Unblock " else "Block ") +:+ js_str name +:+ "?",
       if blocked then "You will be able to send and receive messages again."
       else "You will no longer be able to send or receive messages from this user.")
  | None => ("", "")
  end.

(** The header (lines 646-708): the back button on mobile, the avatar's
    letter, the name, the status line ([chat.online] is never written),
    the call buttons' disabled state and the menu's labels. *)
Record header := mkHeader {
  hd_back : bool; hd_letter : string; hd_title : option string; hd_status : string;
  hd_calls_disabled : bool; hd_mute : string; hd_block : string }.

Definition header_view (isMobile : bool) (name : option string) (v : t) : header :=
  let c := chat v in
  mkHeader isMobile
    (match name with Some (String a _) => String a EmptyString | _ => "C" end)
    name
    ("Offline" +:+ match Chat.type c with
                   | Group => " " +:+ bullet +:+ " " +:+ show_Z (Z.of_nat (length (Chat.members c))) +:+ " members"
                   | Direct => ""
                   end)
    (isBlocked v)
    ((if Chat.muted c then "Unmute" else "Mute") +:+ " Notifications")
    ((if isBlocked v then "Unblock" else "Block") +:+ " user").

(** The messages (lines 710-720): each [MessageItem] with its sender's
    profile as its [fetchSender] read it. *)
Inductive body := BLoading | BItems (items : list item).

Definition body_view (viewer : string) (s : Store.t) (p : pane) : body :=
  if loadingMessages p then BLoading
  else BItems ((fun m => message_item (Some viewer) (Store.getUser (Message.senderId m) s) m) <$> messages p).

(** The composer (lines 729-775): the recorder, or the form with its
    attach button, input, and the send button when the trimmed input is
    not empty, the microphone button otherwise. *)
Inductive send_button := SendButton (spinner : bool) | MicButton.

Inductive composer :=
| CRecorder
| CForm (attach_disabled : bool) (placeholder : string) (input : string) (input_disabled : bool)
        (button : send_button) (button_disabled : bool).

Definition composer_view (v : t) : composer :=
  if isRecording v then CRecorder
  else let dis := isSending v || isBlocked v in
       CForm dis (if isBlocked v then "You can't reply to this conversation" else "Type a message...")
             (inputText v) dis
             (if bool_decide (trim (inputText v) = EmptyString) then MicButton else SendButton (isSending v)) dis.

(** [AttachmentPreview] (lines 296-370): the file by kind, its name and
    size, the progress bar while sending, the caption and the send
    button.  The caption is the component's state (line 310). *)
Record preview := mkPreview {
  pv_kind : message_type; pv_name : string; pv_size : string; pv_progress : option Z;
  pv_caption : string; pv_disabled : bool }.

Definition preview_view (f : file) (caption : string) (uploadProgress : Z) (isSending : bool) : preview :=
  mkPreview (getFileType f) (name f) (mb_fixed2 (size f) +:+ " MB")
            (if isSending then Some uploadProgress else None) caption isSending.

(** The screen's other state: the contact sheet open, the image viewed
    (lines 391-392), and the preview's caption. *)
Record extra := mkExtra { isInfoOpen : bool; viewedImage : option string; caption : string }.

Definition extra0 : extra := mkExtra false None "".

(** Everything on the screen; the image viewer is drawn for a
    non-empty [viewedImage] (line 807). *)
Record screen := mkScreen {
  sc_header : header; sc_body : body; sc_banner : bool; sc_composer : composer;
  sc_preview : option preview; sc_dialog : option (string * string);
  sc_info : option User.t; sc_image : option string }.

Definition screen_view (isMobile : bool) (name : option string) (s : Store.t) (v : t) (p : pane) (x : extra) : screen :=
  mkScreen (header_view isMobile name v) (body_view (uid v) s p) (isBlocked v) (composer_view v)
    ((fun f => preview_view f (caption x) (uploadProgress v) (isSending v)) <$> attachment v)
    ((fun _ => dialog_content (dialogAction v) (isBlocked v) name) <$> dialogAction v)
    (if isInfoOpen x then otherUser p else None)
    (match viewedImage x with Some u => if bool_decide (u = EmptyString) then None else Some u | None => None end).

(** ** The handlers the screen wires *)

(** The menu's items and the dialog's Cancel and close (lines 693-703, 788, 797). *)
Definition choose_action (a : option dialog_action) (st : St) : St := mkSt (set_dialog a (view st)) (db st).

(** The input's [onChange] (line 755) and the recorder's [onCancel] (line 734). *)
Definition input_change (s : string) (st : St) : St := mkSt (set_input s (view st)) (db st).
Definition recorder_cancel (st : St) : St := mkSt (set_recording false (view st)) (db st).

(** The contact sheet (lines 659, 683, 805) and the image viewer (lines 653, 718, 807). *)
Definition set_info_open (b : bool) (x : extra) : extra := mkExtra b (viewedImage x) (caption x).
Definition view_image (url : option string) (x : extra) : extra := mkExtra (isInfoOpen x) url (caption x).

(** The preview's caption box (line 358) and send button (lines 314-316):
    [handleSendAttachment] with the caption. *)
Definition set_caption (c : string) (x : extra) : extra := mkExtra (isInfoOpen x) (viewedImage x) c.

Definition preview_send (upload : result string) (x : extra) (st : St) : St :=
  match attachment (view st) with
  | Some f => handleSendAttachment f (caption x) upload st
  | None => st
  end.

(** ** Blocking does not hide the blocked user's messages *)

Lemma handleSendMessage_posts st ch :
  send_blocked (view st) = false -> Store.chats (db st) !! Chat.id (chat (view st)) = Some ch ->
  let m := Store.stamp (Store.clock (db st)) (text_message (uid (view st)) (trim (inputText (view st)))) in
  Store.chat_messages (Chat.id (chat (view st))) (db (handleSendMessage st)) =
    Store.chat_messages (Chat.id (chat (view st))) (db st) ++ [m] /\
  Store.users (db (handleSendMessage st)) = Store.users (db st).
Proof.
  intros Hb Hch. rewrite handleSendMessage_run by exact Hb. cbv zeta.
  destruct (Store.post_message _ (text_message (uid (view st)) (trim (inputText (view st))))
              (summary (trim (inputText (view st))) (uid (view st))) _ _ Hch)
    as (s' & -> & Hm & _ & _ & _ & Hu & _).
  simpl. by rewrite Hm, Hu.
Qed.

Lemma message_item_shown viewer u m : message_item viewer (Some u) m <> IHidden.
Proof. unfold message_item. by repeat case_match. Qed.

(** C28: blocking hides nothing: after the blocked user sends a message
    into the chat, which their own guard lets through, the screen of the
    user who blocked them shows the message, once its listener has the
    snapshot, next to the banner "You have blocked this user. You can't
    send or receive messages.", and the block dialog had promised the
    same. *)
Theorem blocked_messages_still_shown isMobile name st vb p x u ch :
  send_blocked (view st) = false -> Store.chats (db st) !! Chat.id (chat (view st)) = Some ch ->
  Chat.id (chat vb) = Chat.id (chat (view st)) -> isBlocked vb = true ->
  Store.getUser (uid (view st)) (db st) = Some u ->
  let s' := db (handleSendMessage st) in
  let m := Store.stamp (Store.clock (db st)) (text_message (uid (view st)) (trim (inputText (view st)))) in
  let scr := screen_view isMobile name s' vb (on_messages (Chat.id (chat vb)) s' p) x in
  sc_banner scr = true /\
  snd (dialog_content (Some DBlock) false name) = "You will no longer be able to send or receive messages from this user." /\
  exists items, sc_body scr = BItems items /\ message_item (Some (uid vb)) (Some u) m ∈ items /\
                message_item (Some (uid vb)) (Some u) m <> IHidden.
Proof.
  intros Hb Hch Hid Hbl Hu. destruct (handleSendMessage_posts st ch Hb Hch) as [Hm Hus].
  cbv zeta. split; [exact Hbl|]. split; [done|].
  eexists. split; [reflexivity|]. split; [|apply message_item_shown].
  apply list_elem_of_fmap. eexists. split; [|apply elem_of_messages_snapshot; rewrite Hid, Hm; apply elem_of_app; right; by apply list_elem_of_singleton].
  unfold Store.getUser. rewrite Hus. by rewrite <-Hu.
Qed.

(** Bob has blocked alice; alice sends "hi"; bob's screen shows it. *)
Lemma blocked_messages_still_shown_witness :
  let st := alice_types "hi" in
  let s' := db (handleSendMessage st) in
  let m := Store.stamp (Store.clock (db st)) (text_message (uid (view st)) (trim (inputText (view st)))) in
  let vb := ChatView.screen "bob" ["alice"] "" in
  let scr := screen_view false (Some "alice") s' vb (on_messages (Chat.id (chat vb)) s' pane0) extra0 in
  sc_banner scr = true /\
  snd (dialog_content (Some DBlock) false (Some "alice")) = "You will no longer be able to send or receive messages from this user." /\
  exists items, sc_body scr = BItems items /\ message_item (Some (uid vb)) (Some (profile "alice" [])) m ∈ items /\
                message_item (Some (uid vb)) (Some (profile "alice" [])) m <> IHidden.
Proof.
  apply (blocked_messages_still_shown false (Some "alice") (alice_types "hi") (ChatView.screen "bob" ["alice"] "")
           pane0 extra0 (profile "alice" []) Home.chat0); vm_compute; reflexivity.
Defined.

End ChatScreen.
