(* ===== verification/Presentation.v ===== *)
(** * Presentation components: [src/src/components/user-info-sheet.tsx],
    [src/src/components/image-view-dialog.tsx] and
    [src/src/hooks/use-draggable.ts]

    The contact sheet and the image viewer of the chat screen hold no
    state of their own: what they show is a function of their props, and
    their callbacks are [ChatScreen]'s [set_info_open] and [view_image].
    The drag hook moves the call screen's local preview: at the start of
    a gesture it reads the element's current translation ([from]), and
    every move event translates the element to that origin plus the
    gesture's movement.  Pointer offsets are CSS pixels, rationals. *)

From Stdlib Require Import QArith.
From S2P Require Import Prelude Data ChatView Profile ChatMessages ChatScreen.

Module Presentation.
Import ChatScreen.

(** ** [UserInfoSheet] (lines 23-69 of [user-info-sheet.tsx]) *)

(** A dialog on mobile, titled for screen readers only, a side sheet
    titled "Contact Info" otherwise. *)
Inductive container := CDialog (sr_title : string) | CSheet (title : string).

Record info_view := mkInfo {
  iv_container : container; iv_open : bool;
  iv_photo : string; iv_initials : string; iv_name : string; iv_handle : string }.

Definition info_view_of (isMobile : bool) (u : User.t) (open : bool) : info_view :=
  mkInfo (if isMobile then CDialog "User Information" else CSheet "Contact Info") open
         (User.photoURL u) (Profile.getInitials (Some (User.displayName u))) (User.displayName u) ("@" +:+ User.handle u).

(** The avatar's [onClick] (line 37): [onViewImage(user.photoURL)], the
    chat screen's [setViewedImage]. *)
Definition info_avatar_click (u : User.t) (x : extra) : extra := view_image (Some (User.photoURL u)) x.

(** [onOpenChange] (lines 51, 62): the chat screen's [setIsInfoOpen]. *)
Definition info_open_change (b : bool) (x : extra) : extra := set_info_open b x.

(** ** [ImageViewDialog] (lines 11-25 of [image-view-dialog.tsx]) *)

(** Always open, the image at 1024 by 1024 with the alternative text
    "Profile picture", whatever image it shows. *)
Record image_view := mkImage { im_src : string; im_alt : string; im_width : Z; im_height : Z }.

Definition image_view_of (imageUrl : string) : image_view := mkImage imageUrl "Profile picture" 1024 1024.

(** [onOpenChange] (line 807 of [chat-view.tsx]): [setViewedImage(null)]. *)
Definition image_close (x : extra) : extra := view_image None x.

(** ** [useDraggable] ([use-draggable.ts]) *)

(** The element's translation, and the gesture's origin while one runs. *)
Record drag := mkDrag { tf : Q * Q; origin : option (Q * Q) }.

Definition drag0 : drag := mkDrag (0, 0)%Q None.

(** A gesture starts: [from()] reads the computed transform (lines 20-26). *)
Definition drag_start (d : drag) : drag := mkDrag (tf d) (Some (tf d)).

(** A move of the gesture by [m] since its start (lines 12-17):
    [translate3d(x, y, 0)] with [[x, y]] the origin plus the movement. *)
Definition drag_move (m : Q * Q) (d : drag) : drag :=
  match origin d with
  | Some o => mkDrag (fst o + fst m, snd o + snd m)%Q (Some o)
  | None => d
  end.

Definition drag_end (d : drag) : drag := mkDrag (tf d) None.

(** A whole gesture: start, the moves, end. *)
Definition gesture (moves : list (Q * Q)) (d : drag) : drag :=
  drag_end (foldl (fun d m => drag_move m d) (drag_start d) moves).

(** ** Lemmas *)

(** A user with no photo: clicking the avatar sets [viewedImage] to
    [""], and the chat screen draws no viewer. *)
Lemma info_avatar_no_photo isMobile name s v p x u :
  User.photoURL u = EmptyString ->
  sc_image (screen_view isMobile name s v p (info_avatar_click u x)) = None.
Proof. intros Hp. cbn. rewrite Hp. done. Qed.

Lemma drag_moves_origin moves d :
  origin (foldl (fun d m => drag_move m d) (drag_start d) moves) = Some (tf d).
Proof.
  generalize (drag_start d) (eq_refl : origin (drag_start d) = Some (tf d)).
  induction moves as [|m ms IH]; intros d' Ho; [done|]. cbn. apply IH. unfold drag_move. by rewrite Ho.
Qed.

(** A gesture leaves the element at its translation plus the last
    movement, or where it was without moves. *)
Lemma gesture_last moves m d :
  tf (gesture (moves ++ [m]) d) = (fst (tf d) + fst m, snd (tf d) + snd m)%Q.
Proof.
  unfold gesture. rewrite foldl_app. cbn. unfold drag_move. by rewrite drag_moves_origin.
Qed.

(** Gestures compose: the element ends at the sum of their last
    movements (up to the equality of rationals). *)
Lemma gestures_compose ms1 m1 ms2 m2 d :
  let d' := gesture (ms2 ++ [m2]) (gesture (ms1 ++ [m1]) d) in
  (fst (tf d') == fst (tf d) + fst m1 + fst m2)%Q /\ (snd (tf d') == snd (tf d) + snd m1 + snd m2)%Q.
Proof. cbv zeta. rewrite !gesture_last. cbn. split; reflexivity. Qed.

End Presentation.
