(* ===== verification/CallScreen.v ===== *)
(** * The call screen on display: the render of [CallView] and the
    [CallTimer] component in [src/src/components/call-view.tsx]

    [CallView.v] holds the component's state and handlers; this file adds
    the [CallTimer] component (lines 25-58), its state, effect and interval
    tick, the remote stream [onTrack] delivers and the remote video
    element, and what the call screen shows (lines 274-398) as a function
    of [CallView.t], the contact's name, the remote stream and the timer.
    [isRemoteVideoActive] is read when the screen renders, as here; a
    track muted later does not render the screen again.
    Line numbers are those of [call-view.tsx]. *)

From Stdlib Require Import Ascii.
From S2P Require Import Prelude Data WebRTC CallView ChatView Profile ChatMessages Durations.

Module CallScreen.
Import CallView Durations Profile ChatMessages.
Local Open Scope string_scope.

(** ** [CallTimer] (lines 25-58) *)

(** Its [duration] state, the [startTime] prop its effect last ran with,
    and whether that run's interval is set. *)
Record timer := mkTimer { t_start : option Z; t_duration : Z; t_interval : bool }.

Definition timer0 : timer := mkTimer None 0 false.

(** The effect on a new [startTime] (lines 28-40): the previous run's
    interval cleared; no start sets the duration to 0, a start sets an
    interval. *)
Definition timer_effect (start : option Z) (tm : timer) : timer :=
  match start with
  | None => mkTimer None 0 false
  | Some s => mkTimer (Some s) (t_duration tm) true
  end.

(** A tick of the interval at [now] ms (lines 34-37). *)
Definition timer_tick (now : Z) (tm : timer) : timer :=
  match t_start tm with
  | Some s => if t_interval tm then mkTimer (Some s) ((now - s) `div` 1000) true else tm
  | None => tm
  end.

(** [formatTime(time)] (lines 42-48). *)
Definition formatTime (time : Z) : string :=
  padStart 2 "0" (ChatView.show_Z (time `div` 60)) +:+ ":" +:+ padStart 2 "0" (ChatView.show_Z (Z.rem time 60)).

(** The render (lines 50-57): nothing without a start, else the time. *)
Definition timer_view (start : option Z) (tm : timer) : option string :=
  match start with None => None | Some _ => Some (formatTime (t_duration tm)) end.

(** ** The remote stream (lines 78, 91, 145-150, 161-163) *)

(** [remoteStream]: the video tracks of the stream [onTrack] delivered,
    each [enabled] and [muted] as the browser has them; and the remote
    video element's [muted] property, [true] as rendered (line 300). *)
Record remote := mkRemote { remoteStream : option (list (bool * bool)); el_muted : bool }.

Definition remote0 : remote := mkRemote None true.

(** [onTrack] of a run's manager (lines 145-150): the event's first
    stream becomes [remoteStream] and the element's source. *)
Definition on_track (videoTracks : list (bool * bool)) (r : remote) : remote :=
  mkRemote (Some videoTracks) (el_muted r).

(** [onConnectionStateChange] on [connected] (lines 161-163): the
    element, and with it the remote audio, unmuted. *)
Definition connection_unmute (s : Peer.connection_state) (r : remote) : remote :=
  match s with Peer.PcConnected => mkRemote (remoteStream r) false | _ => r end.

(** [isRemoteVideoActive] (line 91): some video track enabled and not muted. *)
Definition isRemoteVideoActive (r : remote) : bool :=
  match remoteStream r with
  | Some ts => existsb (fun t => fst t && negb (snd t)) ts
  | None => false
  end.

(** ** The screen (lines 274-398) *)

(** [getInitials(name)] (lines 274-277): the words' first characters
    ([undefined] for an empty word joins as nothing), the first two,
    upper-cased. *)
Definition call_initials (name : option string) : string :=
  match name with
  | None => ""
  | Some n =>
      if bool_decide (n = EmptyString) then ""
      else to_upper (String.substring 0 2
             (String.concat "" ((fun w => default "" (first_char w)) <$> split_spaces EmptyString n)))
  end.

(** [getCallStatusText()] (lines 279-287). *)
Definition status_text (v : CallView.t) : string :=
  if bool_decide (Call.status (call v) = Ringing) then (if isCaller v then "Ringing..." else "Incoming call...")
  else if bool_decide (is_Some (callStartTime v)) then "In Call" else "Connecting...".

(** The local preview's placeholder (lines 338-348). *)
Inductive placeholder := CamOff | UserIconPh.

Record screen := mkScreen {
  cs_ringback : bool;                 (** the outgoing ring (lines 291-293) *)
  cs_avatar_shown : bool;             (** the fallback over the remote video *)
  cs_initials : string; cs_name : option string; cs_status : string;
  cs_timer : option string;
  cs_local_video : bool;              (** the local video element visible *)
  cs_placeholder : option placeholder;
  cs_mute_disabled : bool; cs_muted : bool;
  cs_camera : option (bool * bool);   (** the camera button: disabled, off *)
}.

Definition screen_view (name : option string) (r : remote) (tm : timer) (v : CallView.t) : screen :=
  let local_off := isCameraOff v || bool_decide (localStream v = None) in
  mkScreen (isCaller v && bool_decide (Call.status (call v) = Ringing))
    (negb (isRemoteVideoActive r)) (call_initials name) name (status_text v)
    (timer_view (callStartTime v) tm)
    (negb local_off)
    (if local_off then Some (if hasCameraPermission v then UserIconPh else CamOff) else None)
    (negb (hasCameraPermission v)) (isMuted v)
    (if bool_decide (Call.type (call v) = Video) then Some (negb (hasCameraPermission v), isCameraOff v) else None).

(** ** Lemmas *)

(** The timer's [formatTime] is the recorder's. *)
Lemma formatTime_recorder t : formatTime t = Durations.formatTime t.
Proof. reflexivity. Qed.

(** Once the interval has ticked at [now], at most 100 minutes after the
    start, the timer reads [mm:ss] for the whole seconds elapsed. *)
Lemma timer_shows_elapsed s now tm :
  (0 <= now - s < 6000000)%Z ->
  let tm' := timer_tick now (timer_effect (Some s) tm) in
  exists mm ss, timer_view (Some s) tm' = Some (padStart 2 "0" (ChatView.show_Z mm) +:+ ":" +:+ padStart 2 "0" (ChatView.show_Z ss)) /\
    (0 <= ss < 60)%Z /\ (60 * mm + ss = (now - s) `div` 1000)%Z /\
    String.length (formatTime (t_duration tm')) = 5%nat.
Proof.
  intros Hd. cbn. set (d := ((now - s) `div` 1000)%Z).
  assert (Hd' : (0 <= d < 6000)%Z) by (subst d; split; [apply Z.div_pos|apply Z.div_lt_upper_bound]; lia).
  destruct (Durations.formatTime_short d Hd') as [Hf Hl]. exists (Z.div d 60), (Z.modulo d 60).
  pose proof (Z.mod_pos_bound d 60 ltac:(lia)). pose proof (Z.div_mod d 60 ltac:(lia)).
  rewrite formatTime_recorder, Hf. split_and!; [done|lia..|by rewrite <-Hf].
Qed.

(** Without a start the timer shows nothing, and after a reset it reads
    0 however long the previous start ran. *)
Lemma timer_reset tm : timer_view None (timer_effect None tm) = None /\ t_duration (timer_effect None tm) = 0%Z.
Proof. done. Qed.

(** The callee's screen opens on the call as the incoming-call dialog
    had it: until the first snapshot of the call document, it reads
    "Incoming call...". *)
Lemma callee_sees_incoming uid c :
  Call.status c = Ringing -> Call.callerId c <> uid ->
  status_text (CallView.init uid c) = "Incoming call...".
Proof.
  intros Hs Hc. unfold status_text, isCaller, CallView.init. cbn. rewrite Hs.
  rewrite bool_decide_true by done. by rewrite bool_decide_false by done.
Qed.

End CallScreen.
