(* ===== verification/RecorderView.v ===== *)
(** * The voice recorder on screen: [Waveform] and the render of
    [VoiceRecorder] in [src/src/components/voice-recorder.tsx]

    [Voice.v] holds the recorder's state and handlers.  This file adds the
    [waveform] state (line 62) that the draw loop (lines 101-107) refreshes
    from the analyser on every animation frame, the [Waveform] component
    (lines 19-49), which draws one bar per three pixels of its canvas, and
    what the recorder shows (lines 188-202).  Bar heights are JavaScript
    numbers ([Durations.num]): a byte past the end of the array reads
    [undefined], and [undefined / 255] is [NaN].  Line numbers are those
    of [voice-recorder.tsx]. *)

From Stdlib Require Import QArith Lqa Psatz.
From S2P Require Import Prelude Data Voice ChatView Profile Durations.

Module RecorderView.
Import Durations.

(** ** [Waveform] (lines 19-49) *)

(** The canvas (line 48): [width="200" height="32"]. *)
Definition canvas_width : Z := 200.
Definition canvas_height : Z := 32.

(** One [fillRect(x, y, barWidth, barHeight)] (line 43). *)
Record bar := mkBar { bx : Z; by_ : num; bw : Z; bh : num }.

(** [height - barHeight]. *)
Definition sub_from (height : Z) (h : num) : num :=
  match h with Fin q => Fin (inject_Z height - q) | PosInf => NaN | NaN => NaN end.

(** [(audioData[k] / 255) * height]: a byte, or [undefined] past the end. *)
Definition bar_height (data : list Z) (k : nat) (height : Z) : num :=
  match data !! k with
  | Some b => Fin (inject_Z b / 255 * inject_Z height)
  | None => NaN
  end.

(** The effect (lines 22-46): [numBars] bars of width 2 and gap 1, bar
    [i] reading the byte [i * step], [step] the array's length over
    [numBars], both floored. *)
Definition waveform_bars (width height : Z) (data : list Z) : list bar :=
  let numBars := Z.to_nat (width `div` 3) in
  let step := (length data `div` numBars)%nat in
  (fun i => let h := bar_height data (i * step) height in
            mkBar (Z.of_nat i * 3) (sub_from height h) 2 h) <$> seq 0 numBars.

(** ** The recorder's render (lines 188-202) *)

(** The [waveform] state (line 62): 64 zero bytes at first. *)
Definition wave0 : list Z := repeat 0%Z 64.

(** A frame of the draw loop (lines 101-107): [getByteFrequencyData]
    fills the analyser's 64 bins ([fftSize = 128], line 73), copied into
    [waveform]; the loop runs from the grant until [onstop] cancels it
    with the stream's tracks. *)
Definition draw_frame (bins : list Z) (v : Voice.t) (wave : list Z) : list Z :=
  if Voice.mic_live v then bins else wave.

Record rview := mkRView {
  rv_cancel_disabled : bool; rv_time : string; rv_bars : list bar;
  rv_send_disabled : bool; rv_spinner : bool }.

Definition recorder_view (v : Voice.t) (wave : list Z) : rview :=
  mkRView (Voice.isSending v) (formatTime (Voice.duration v))
          (waveform_bars canvas_width canvas_height wave)
          (Voice.isSending v) (Voice.isSending v).

(** ** Lemmas *)

Lemma waveform_bars_length width height data :
  length (waveform_bars width height data) = Z.to_nat (width `div` 3).
Proof. unfold waveform_bars. by rewrite length_fmap, length_seq. Qed.

(** A bar of [waveform_bars], by its index. *)
Lemma waveform_bars_lookup width height data i b :
  waveform_bars width height data !! i = Some b ->
  (i < Z.to_nat (width `div` 3))%nat /\
  bh b = bar_height data (i * (length data `div` Z.to_nat (width `div` 3))) height.
Proof.
  unfold waveform_bars. rewrite list_lookup_fmap.
  destruct (seq 0 _ !! i) eqn:E; [|done]. intros [= <-].
  apply lookup_seq in E as [-> ?]. by split.
Qed.

(** The bars lie inside the canvas when the array holds at least one
    byte per bar: every index read is in range, so no bar is [NaN], and
    every bar's height is between 0 and the canvas height. *)
Lemma waveform_bars_in_canvas width height data b :
  (0 <= height)%Z -> Forall (fun x => 0 <= x <= 255)%Z data ->
  (Z.to_nat (width `div` 3) <= length data)%nat ->
  b ∈ waveform_bars width height data ->
  exists q, bh b = Fin q /\ (0 <= q <= inject_Z height)%Q.
Proof.
  intros Hh Hd Hn (i & Hb)%list_elem_of_lookup. apply waveform_bars_lookup in Hb as [Hi ->].
  set (n := Z.to_nat (width `div` 3)) in *.
  assert (Hk : (i * (length data `div` n) < length data)%nat).
  { apply Nat.lt_le_trans with (n * (length data `div` n))%nat; [apply Nat.mul_lt_mono_pos_r; [|lia]|].
    - apply Nat.div_str_pos. lia.
    - rewrite (Nat.div_mod_eq (length data) n) at 2. lia. }
  unfold bar_height. destruct (lookup_lt_is_Some_2 data _ Hk) as [x Hx]. rewrite Hx.
  eapply Forall_lookup_1 in Hd as [H0 H255]; [|exact Hx]. eexists. split; [done|].
  rewrite Zle_Qle in H0, H255, Hh. change (inject_Z 0) with 0%Q in *. change (inject_Z 255) with 255%Q in *.
  split.
  - apply Qmult_le_0_compat; [apply Qle_shift_div_l; [reflexivity|]|]; lra.
  - unfold Qdiv. change (/ 255)%Q with (1 # 255)%Q. nra.
Qed.

(** A frame keeps the array's length when the analyser fills 64 bins. *)
Lemma draw_frame_length bins v wave :
  length bins = 64%nat -> length wave = 64%nat -> length (draw_frame bins v wave) = 64%nat.
Proof. unfold draw_frame. by destruct (Voice.mic_live v). Qed.

(** The waveform is flat: with the analyser's 64 bins on the 200-pixel
    canvas, [numBars] is 66 and [step] is [floor(64 / 66) = 0], so all 66
    bars are drawn from the first bin, the lowest frequencies. *)
Lemma recorder_waveform_flat v wave :
  length wave = 64%nat ->
  length (rv_bars (recorder_view v wave)) = 66%nat /\
  Forall (fun b => bh b = bar_height wave 0 canvas_height) (rv_bars (recorder_view v wave)).
Proof.
  intros Hl. cbn [rv_bars recorder_view]. split; [by rewrite waveform_bars_length|].
  apply Forall_lookup_2. intros i b Hb. apply waveform_bars_lookup in Hb as [_ ->].
  rewrite Hl. by rewrite Nat.mul_0_r.
Qed.

End RecorderView.
