(* ===== verification/People.v ===== *)
(** * People search: the users listener of [src/src/app/page.tsx] and the
    search of [src/src/components/people-tab.tsx]

    The page keeps every profile of the [users] collection (lines 111-119
    of [page.tsx]); the people tab lists them, without the user, filtered
    by a search term matched, lower-cased, against the display name and
    the handle ([filteredUsers], lines 62-75 of [people-tab.tsx]).  The
    rest of [PeopleTab] (lines 78-205) is what the tab shows: the
    received requests with their accept and decline buttons, the heading,
    and one card per user with the button its request status selects. *)

From S2P Require Import Prelude Data Store ChatView Profile Friends.

Module People.
Import Profile.

(** [s.includes(t)]: [t] occurs in [s]. *)
Fixpoint includes (s t : string) : bool :=
  String.prefix t s || match s with
                       | EmptyString => false
                       | String _ s' => includes s' t
                       end.

(** The users listener: every profile, in document-id order. *)
Definition all_users (s : Store.t) : list User.t :=
  omap (fun id => Store.users s !! id) (Store.sort_ids (map fst (map_to_list (Store.users s)))).

(** A profile matches the lower-cased term. *)
Definition matches (lt : string) (u : User.t) : bool :=
  includes (to_lower (User.displayName u)) lt || includes (to_lower (User.handle u)) lt.

(** [filteredUsers] (lines 62-75 of [people-tab.tsx]): [me] is [user?.uid]. *)
Definition filteredUsers (me : option string) (searchTerm : string) (allUsers : list User.t) : list User.t :=
  match me with
  | None => []
  | Some uid =>
      let lt := to_lower searchTerm in
      let users := List.filter (fun u => negb (bool_decide (User.id u = uid))) allUsers in
      if bool_decide (lt = EmptyString) then users else List.filter (matches lt) users
  end.

(** ** [PeopleTab] on screen (lines 51, 78-205 of [people-tab.tsx]) *)

(** The tab's own state, [searchTerm] (line 51), [""] when it mounts. *)
Record ptab := mkPtab { searchTerm : string }.
Definition ptab0 : ptab := mkPtab "".

(** The search box's [onChange] (line 86). *)
Definition set_search_term (s : string) (p : ptab) : ptab := mkPtab s.

(** A received request's row (lines 103-123): shown when the request
    carries its sender's profile ([req.fromUser &&]). *)
Record request_row := mkReqRow { rr_id : string; rr_initials : string; rr_name : string }.

Definition request_row_of (sender : FriendRequest.t -> option User.t) (r : FriendRequest.t) : option request_row :=
  (fun u => mkReqRow (FriendRequest.id r) (getInitials (Some (User.displayName u))) (User.displayName u)) <$> sender r.

(** The button of a user's card (lines 155-192). *)
Inductive people_button := BMessage (disabled : bool) | BPending | BAdd.

Definition button_of (creating : bool) (a : Friends.people_action) : people_button :=
  match a with Friends.ActMessage => BMessage creating | Friends.ActCancel => BPending | Friends.ActAdd => BAdd end.

Record person_card := mkPerson { pc_id : string; pc_initials : string; pc_name : string; pc_handle : string;
                                 pc_button : people_button }.

Definition person_card_of (creating : bool) (rs : gmap string Friends.req_status) (u : User.t) : person_card :=
  mkPerson (User.id u) (getInitials (Some (User.displayName u))) (User.displayName u) ("@" +:+ User.handle u)
           (button_of creating (Friends.action_for (rs !! User.id u))).

Inductive people_list := PCards (cards : list person_card) | PEmpty (msg : string).

Record people_view := mkPeople {
  pv_search : string; pv_creating : bool;
  pv_requests : option (nat * list request_row);  (** the badge and the rows *)
  pv_heading : string; pv_list : people_list }.

(** The render (lines 78-205); [sender] is the [fromUser] each request
    was read with (lines 145-156 of [page.tsx]). *)
Definition people_view_of (fv : Friends.t) (allUsers : list User.t) (sender : FriendRequest.t -> option User.t)
    (p : ptab) : people_view :=
  let us := filteredUsers (Some (Friends.uid fv)) (searchTerm p) allUsers in
  let searching := negb (bool_decide (searchTerm p = EmptyString)) in
  mkPeople (searchTerm p) (Friends.isCreatingChat fv)
    (if bool_decide (0 < length (Friends.friendRequests fv))%nat && negb searching
     then Some (length (Friends.friendRequests fv), omap (request_row_of sender) (Friends.friendRequests fv))
     else None)
    (if searching then "Search Results (" +:+ ChatView.show_Z (Z.of_nat (length us)) +:+ ")" else "All People")
    (match us with
     | [] => PEmpty (if searching then "No users found." else "No other users have joined yet.")
     | _ => PCards (person_card_of (Friends.isCreatingChat fv) (Friends.requestStatus fv) <$> us)
     end).

(** The accept and decline buttons of a request (lines 116, 119). *)
Definition request_click (sender : FriendRequest.t -> option User.t) (r : FriendRequest.t) (accept isMobile : bool)
    (st : Friends.St) : Friends.St :=
  Friends.handleFriendRequest r accept (bool_decide (is_Some (sender r))) isMobile st.

(** ** Lemmas *)

Lemma to_lower_empty s : to_lower s = EmptyString <-> s = EmptyString.
Proof. destruct s; simpl; split; congruence. Qed.

Lemma includes_empty s : includes s EmptyString = true.
Proof. destruct s; reflexivity. Qed.

(** The tab lists exactly the other users whose lower-cased name or handle
    contains the lower-cased term. *)
Lemma filteredUsers_spec me term all u :
  In u (filteredUsers (Some me) term all) <->
  In u all /\ User.id u <> me /\ matches (to_lower term) u = true.
Proof.
  unfold filteredUsers. cbv zeta. case_bool_decide as Ht.
  - rewrite Ht. unfold matches. rewrite List.filter_In, negb_true_iff, bool_decide_eq_false.
    rewrite includes_empty. tauto.
  - rewrite !List.filter_In, negb_true_iff, bool_decide_eq_false. tauto.
Qed.

Lemma all_users_elem s u : u ∈ all_users s <-> exists id, Store.users s !! id = Some u.
Proof.
  unfold all_users. rewrite list_elem_of_omap. setoid_rewrite Store.elem_of_sort_ids.
  split.
  - intros (id & _ & Hu). eauto.
  - intros (id & Hu). exists id. split; [|done].
    apply list_elem_of_In, in_map_iff. exists (id, u). split; [done|].
    by apply list_elem_of_In, elem_of_map_to_list.
Qed.

(** Every card of the tab is another user matching the term, with the
    button its request status selects. *)
Lemma people_card_of fv all sender p cs c :
  pv_list (people_view_of fv all sender p) = PCards cs -> c ∈ cs ->
  exists u, In u all /\ User.id u <> Friends.uid fv /\ matches (to_lower (searchTerm p)) u = true /\
    pc_id c = User.id u /\
    pc_button c = button_of (Friends.isCreatingChat fv) (Friends.action_for (Friends.requestStatus fv !! User.id u)).
Proof.
  intros Hl Hc. assert (cs = person_card_of (Friends.isCreatingChat fv) (Friends.requestStatus fv) <$>
                              filteredUsers (Some (Friends.uid fv)) (searchTerm p) all) as ->.
  { revert Hl. unfold people_view_of. cbn [pv_list]. destruct (filteredUsers _ _ _); [done|]. by intros [= <-]. }
  apply list_elem_of_fmap in Hc as (u & -> & Hu).
  apply list_elem_of_In, filteredUsers_spec in Hu as (? & ? & ?). by exists u.
Qed.

(** While a search term is typed, the received requests are hidden. *)
Lemma people_search_hides_requests fv all sender p :
  searchTerm p <> EmptyString -> pv_requests (people_view_of fv all sender p) = None.
Proof. intros Hs. cbn. rewrite (bool_decide_false (searchTerm p = EmptyString)) by done. by rewrite andb_false_r. Qed.

End People.
