(* ===== verification/HomeView.v ===== *)
(** * What the home page shows: the render of [src/src/app/page.tsx]
    (lines 528-814) and the components it draws

    The page is a view of the state the other files model: the friends
    and chats state of [Friends.t], the calls of [Home.t], the users
    listener ([People.all_users]), and the page's own search terms and
    desktop tab.  It draws [ChatList] ([components/chat-list.tsx]),
    [BottomNavBar] ([components/bottom-nav-bar.tsx]), [SettingsTab]
    ([components/settings-tab.tsx]) with [FriendsList]
    ([components/friends-list.tsx]), and [IncomingCallDialog]
    ([components/incoming-call-dialog.tsx]).  Each view is a function of
    that state to a record of what is on the screen, and each handler the
    view wires is a function of the state.  The chats listener names a
    direct chat after the other member's profile, which leaves the name
    [undefined] when that profile is missing; the search filters then
    throw a [TypeError] while rendering. *)

From S2P Require Import Prelude Data Store Home Friends People Profile.

Module HomeView.
Import Profile.

(** ** Chat names and the searches *)

(** The name the chats listener gives a direct chat (lines 176-191): the
    other member's [displayName], [undefined] when the profile is missing. *)
Definition chat_name (me : string) (s : Store.t) (c : Chat.t) : option string :=
  match Chat.type c with
  | Direct =>
      match list_find (fun m => m <> me) (Chat.members c) with
      | Some (_, other) => User.displayName <$> Store.getUser other s
      | None => None
      end
  | Group => None
  end.

(** [chats.filter(chat => chat.name.toLowerCase().includes(term.toLowerCase()))]
    (lines 569-571, 712-714): a chat with no name throws. *)
Fixpoint filter_chats (term : string) (name : Chat.t -> option string) (cs : list Chat.t) : result (list Chat.t) :=
  match cs with
  | [] => Ok []
  | c :: cs' =>
      match name c, filter_chats term name cs' with
      | None, _ => Err TypeError
      | _, Err e => Err e
      | Some n, Ok l => Ok (if People.includes (to_lower n) (to_lower term) then c :: l else l)
      end
  end.

(** The user's friends among all users (line 560). *)
Definition friends_of (allUsers : list User.t) (p : option User.t) : list User.t :=
  match p with
  | Some prof => List.filter (fun u => bool_decide (User.id u ∈ User.friends prof)) allUsers
  | None => []
  end.

(** ** [ChatList] ([components/chat-list.tsx]) *)

(** One row (lines 57-93): its chat, whether it is highlighted, the
    avatar's initials, the name, the last message and the unread badge. *)
Record row := mkRow {
  row_chat : string; row_active : bool; row_initials : string; row_name : option string;
  row_last : string; row_badge : option Z }.

(** The list, or "No chats found." (lines 55-99). *)
Inductive chat_list := NoChats | Rows (rows : list row).

Definition chat_row (name : Chat.t -> option string) (selected : option string) (c : Chat.t) : row :=
  mkRow (Chat.id c) (bool_decide (selected = Some (Chat.id c)))
        (match name c with Some n => if bool_decide (n = EmptyString) then "U" else getInitials (Some n)
                           | None => "U" end)
        (name c) (Chat.lastMessage c)
        (if Z.ltb 0 (Chat.unreadCount c) then Some (Chat.unreadCount c) else None).

Definition chat_list_view (name : Chat.t -> option string) (selected : option string) (cs : list Chat.t) : chat_list :=
  match cs with
  | [] => NoChats
  | _ => Rows (chat_row name selected <$> cs)
  end.

(** ** [FriendsList] ([components/friends-list.tsx]) *)

(** A friend as the list receives it: an id and, when its profile was
    read, the profile; the friends page passes [{ id }] alone for a
    missing document (lines 35-39 of [app/friends/page.tsx]). *)
Definition friend := (string * option User.t)%type.

(** Its state (lines 37-38). *)
Record flist := mkFlist { searchTerm : string; userToUnfriend : option friend }.

Definition flist0 : flist := mkFlist "" None.

(** [filteredFriends] (lines 49-52): a friend with no [displayName] throws. *)
Fixpoint filteredFriends (term : string) (fs : list friend) : result (list friend) :=
  match fs with
  | [] => Ok []
  | f :: fs' =>
      match f.2, filteredFriends term fs' with
      | None, _ => Err TypeError
      | _, Err e => Err e
      | Some u, Ok l =>
          Ok (if People.includes (to_lower (User.displayName u)) (to_lower term)
                 || People.includes (to_lower (User.handle u)) (to_lower term) then f :: l else l)
      end
  end.

(** What the list shows (lines 54-118): the rows, or the empty message,
    and the dialog with the name of the friend about to be removed. *)
Inductive flist_body := FRows (rows : list friend) | FEmpty (message : string).
Record flist_view := mkFlistView { fl_body : flist_body; fl_dialog : option (option string) }.

Definition flist_view_of (fs : list friend) (st : flist) : result flist_view :=
  match filteredFriends (searchTerm st) fs with
  | Err e => Err e
  | Ok l =>
      Ok (mkFlistView
            (match l with
             | [] => FEmpty (if bool_decide (searchTerm st = EmptyString)
                             then "No friends yet. Find some in the 'Peoples' tab." else "No friends found.")
             | _ => FRows l
             end)
            ((fun f : friend => User.displayName <$> f.2) <$> userToUnfriend st))
  end.

(** The search box, the menu's Unfriend item, the dialog closed, and
    Continue, which calls the page's [handleUnfriend] with the friend's id. *)
Definition set_search (t : string) (st : flist) : flist := mkFlist t (userToUnfriend st).
Definition choose_unfriend (f : friend) (st : flist) : flist := mkFlist (searchTerm st) (Some f).
Definition close_dialog (st : flist) : flist := mkFlist (searchTerm st) None.

Definition flist_continue {S} (handleUnfriend : string -> S -> S) (st : flist) (s : S) : S :=
  match userToUnfriend st with Some f => handleUnfriend f.1 s | None => s end.

(** ** [SettingsTab] ([components/settings-tab.tsx]) *)

Inductive settings_view :=
| SFriends (count : nat) (list : result flist_view)
| SMain (initials : string) (name : option string) (handle : option string).

Definition settings_view_of (prof : option User.t) (friends : list User.t) (isFriendsOpen : bool) (fl : flist) : settings_view :=
  if isFriendsOpen then SFriends (length friends) (flist_view_of ((fun u => (User.id u, Some u)) <$> friends) fl)
  else SMain (getInitials (User.displayName <$> prof)) (User.displayName <$> prof) (User.handle <$> prof).

(** ** [BottomNavBar] ([components/bottom-nav-bar.tsx]) *)

#[export] Instance tab_eq_dec : EqDecision Friends.tab.
Proof. solve_decision. Defined.

Definition nav_items : list (Friends.tab * string) :=
  [(Friends.TabChats, "Chats"); (Friends.TabPeoples, "Peoples"); (Friends.TabSettings, "Settings")].

(** Each button with its label and whether it is highlighted (lines 18-33). *)
Definition bottom_nav (active : Friends.tab) : list (string * bool) :=
  (fun it => (it.2, bool_decide (active = it.1))) <$> nav_items.

(** ** [IncomingCallDialog] ([components/incoming-call-dialog.tsx]) *)

(** Its [getInitials] (lines 12-19): ["?"] for no name. *)
Definition dialog_initials (name : option string) : string :=
  match name with
  | Some n => if bool_decide (n = EmptyString) then "?" else getInitials (Some n)
  | None => "?"
  end.

Definition media_name (m : media) : string := match m with Audio => "audio" | Video => "video" end.

(** [userProfile?.theme?.ringtoneUrl || '/sounds/incoming-call.mp3'] (line 44). *)
Definition ringtoneSrc (prof : option User.t) : string :=
  match option_bind _ _ ThemeSettings.ringtoneUrl (option_bind _ _ User.theme prof) with
  | Some u => if bool_decide (u = EmptyString) then default_ringtone else u
  | None => default_ringtone
  end.

(** What the dialog shows (lines 42-84), nothing without the caller's profile. *)
Record incoming_view := mkIncoming {
  ic_initials : string; ic_name : string; ic_text : string; ic_video : bool; ic_ringtone : string }.

Definition incoming_view_of (prof : option User.t) (c : Call.t) (caller : option User.t) : option incoming_view :=
  match caller with
  | None => None
  | Some u => Some (mkIncoming (dialog_initials (Some (User.displayName u))) (User.displayName u)
                      ("Incoming " +:+ media_name (Call.type c) +:+ " call...")
                      (bool_decide (Call.type c = Video)) (ringtoneSrc prof))
  end.

(** [handleAction] (lines 31-40): the ringtone paused (the first
    component: whether it still plays), then the page's [handleCallAction]. *)
Definition handleAction (accept : bool) (c : Call.t) (st : Home.St) : bool * Home.St :=
  (false, if accept then Home.accept c st else Home.decline c st).

(** ** The page's own state and the desktop sidebar (lines 562-709) *)

Inductive dtab := DChats | DPeoples.

(** [chatSearchTerm], [desktopChatSearchTerm], [desktopTab] (lines 102-104),
    and the settings tab's [isFriendsOpen] (line 49 of [settings-tab.tsx]). *)
Record ui := mkUI { chatSearchTerm : string; desktopChatSearchTerm : string; desktopTab : dtab; isFriendsOpen : bool }.

Definition ui0 : ui := mkUI "" "" DChats false.

Inductive sb_list := SbChats (l : chat_list) | SbPeople (pv : People.people_view).

(** The sidebar: the highlighted tab button, the search box on the chats
    tab, the list, and the footer's profile, friends badge, the friends it
    lists and the link to all of them. *)
Record sidebar := mkSidebar {
  sb_active : dtab; sb_search : option string; sb_content : sb_list;
  sb_initials : string; sb_name : option string; sb_handle : option string;
  sb_badge : nat; sb_friends : list (string * string); sb_view_all : bool }.

Definition sidebar_view (name : Chat.t -> option string) (fv : Friends.t) (allUsers : list User.t) (u : ui)
    (sender : FriendRequest.t -> option User.t) (pt : People.ptab) : result sidebar :=
  let prof := Friends.profile fv in
  match filter_chats (desktopChatSearchTerm u) name (Friends.chats fv) with
  | Err e => Err e
  | Ok cs =>
      let friends := friends_of allUsers prof in
      Ok (mkSidebar (desktopTab u)
            (match desktopTab u with DChats => Some (desktopChatSearchTerm u) | DPeoples => None end)
            (match desktopTab u with
             | DChats => SbChats (chat_list_view name (Chat.id <$> Friends.selectedChat fv) cs)
             | DPeoples => SbPeople (People.people_view_of fv allUsers sender pt) end)
            (getInitials (User.displayName <$> prof)) (User.displayName <$> prof) (User.handle <$> prof)
            (length friends)
            ((fun f => (getInitials (Some (User.displayName f)), User.displayName f)) <$> take 5 friends)
            (bool_decide (0 < length friends)))
  end.

(** ** The page (lines 528-814) *)

Inductive mcontent := MCChats (l : chat_list) | MCPeople (pv : People.people_view) | MCSettings (v : settings_view).

(** The logo while loading (lines 528-539), the call screen (541-549),
    and otherwise the mobile or the desktop layout with the incoming-call
    dialog over it (746-814). *)
Inductive page :=
| PLoading
| PCall (contact : Chat.t) (call : Call.t)
| PMobileChat (chat : Chat.t) (incoming : option Call.t)
| PMobileTabs (search : option string) (content : mcontent) (nav : list (string * bool)) (incoming : option Call.t)
| PDesktop (sb : sidebar) (main : option Chat.t) (incoming : option Call.t).

(** [renderMobileContent()] (lines 716-744), on the filtered chats. *)
Definition mobile_content (name : Chat.t -> option string) (fv : Friends.t) (allUsers : list User.t) (u : ui)
    (sender : FriendRequest.t -> option User.t) (pt : People.ptab) (fl : flist) (fcs : list Chat.t) : mcontent :=
  let prof := Friends.profile fv in
  match Friends.activeTab fv with
  | Friends.TabChats => MCChats (chat_list_view name (Chat.id <$> Friends.selectedChat fv) fcs)
  | Friends.TabPeoples => MCPeople (People.people_view_of fv allUsers sender pt)
  | Friends.TabSettings => MCSettings (settings_view_of prof (friends_of allUsers prof) (isFriendsOpen u) fl)
  end.

(** The mobile layout (lines 749-780): the open chat, or the logo, the
    search box on the chats tab, the tab's content and the bottom bar. *)
Definition mobile_layout (name : Chat.t -> option string) (fv : Friends.t) (allUsers : list User.t) (u : ui)
    (sender : FriendRequest.t -> option User.t) (pt : People.ptab) (fl : flist) (fcs : list Chat.t)
    (inc : option Call.t) : page :=
  match Friends.selectedChat fv with
  | Some c => PMobileChat c inc
  | None =>
      PMobileTabs (match Friends.activeTab fv with Friends.TabChats => Some (chatSearchTerm u) | _ => None end)
                  (mobile_content name fv allUsers u sender pt fl fcs) (bottom_nav (Friends.activeTab fv)) inc
  end.

(** The desktop layout (lines 781-808): the sidebar and the open chat or
    the placeholder. *)
Definition desktop_layout (name : Chat.t -> option string) (fv : Friends.t) (allUsers : list User.t) (u : ui)
    (sender : FriendRequest.t -> option User.t) (pt : People.ptab) (inc : option Call.t) : result page :=
  match sidebar_view name fv allUsers u sender pt with
  | Err e => Err e
  | Ok sb => Ok (PDesktop sb (Friends.selectedChat fv) inc)
  end.

(** [loading || !user] is [loading]: the page state exists for a user.
    [pt] is the state of the mounted [PeopleTab] and [sender] the sender
    profiles the received requests were read with. *)
Definition page_view (loading isMobile : bool) (name : Chat.t -> option string) (fv : Friends.t) (hv : Home.t)
    (allUsers : list User.t) (u : ui) (sender : FriendRequest.t -> option User.t) (pt : People.ptab) (fl : flist)
    : result page :=
  if loading then Ok PLoading
  else match Home.activeCall hv, Friends.selectedChat fv with
  | Some a, Some c => Ok (PCall c a)
  | _, _ =>
      match filter_chats (chatSearchTerm u) name (Friends.chats fv) with
      | Err e => Err e
      | Ok fcs =>
          if isMobile then Ok (mobile_layout name fv allUsers u sender pt fl fcs (Home.incomingCall hv))
          else desktop_layout name fv allUsers u sender pt (Home.incomingCall hv)
      end
  end.

(** The redirect effect of the page (lines 104-108): to the sign-in
    page once the provider has loaded without a user. *)
Definition to_login (loading : bool) (user : option Profile.auth_user) (pushed : list string) : list string :=
  if negb loading && bool_decide (user = None) then pushed ++ ["/login"] else pushed.

(** ** The handlers the page wires *)

(** A chat picked in the desktop sidebar (lines 607-614). *)
Definition sidebar_select (isMobile : bool) (c : Chat.t) (fv : Friends.t) (u : ui) : Friends.t * ui :=
  let fv1 := Friends.set_selected (Some c) fv in
  if isMobile then (Friends.set_tab Friends.TabChats fv1, u)
  else (fv1, mkUI (chatSearchTerm u) (desktopChatSearchTerm u) DChats (isFriendsOpen u)).

(** The mobile list's [setSelectedChat] (line 719) and [onExitChat] (lines 755, 792). *)
Definition mobile_select (c : Chat.t) (fv : Friends.t) : Friends.t := Friends.set_selected (Some c) fv.
Definition exit_chat (fv : Friends.t) : Friends.t := Friends.set_selected None fv.

(** The bottom bar's and the sidebar's tab buttons (lines 777, 579-583). *)
Definition bottom_tab (t : Friends.tab) (fv : Friends.t) : Friends.t := Friends.set_tab t fv.
Definition sidebar_tab (t : dtab) (u : ui) : ui := mkUI (chatSearchTerm u) (desktopChatSearchTerm u) t (isFriendsOpen u).

(** The search boxes (lines 597, 770). *)
Definition set_chat_search (s : string) (u : ui) : ui := mkUI s (desktopChatSearchTerm u) (desktopTab u) (isFriendsOpen u).
Definition set_desktop_search (s : string) (u : ui) : ui := mkUI (chatSearchTerm u) s (desktopTab u) (isFriendsOpen u).

(** The settings tab's Friends and Back buttons (lines 59, 86 of [settings-tab.tsx]). *)
Definition set_friends_open (b : bool) (u : ui) : ui := mkUI (chatSearchTerm u) (desktopChatSearchTerm u) (desktopTab u) b.

(** The settings tab's mount effect (lines 52-54 of [settings-tab.tsx]). *)
Definition settings_mount (st : Friends.St) : Friends.St := Friends.refresh st.

(** ** Lemmas *)

(** A chat with no name makes the search filter throw, whatever the term. *)
Lemma filter_chats_unnamed term name cs c :
  c ∈ cs -> name c = None -> filter_chats term name cs = Err TypeError.
Proof.
  induction cs as [|c' cs IH]; [by intros ?%elem_of_nil|]. intros Hc Hn. simpl.
  destruct (name c') eqn:E; [|done].
  apply elem_of_cons in Hc as [->|Hc]; [congruence|]. by rewrite IH.
Qed.

(** Every name known: the filter keeps the chats whose lower-cased name
    contains the lower-cased term, in order. *)
Lemma filter_chats_named term name cs :
  (forall c, c ∈ cs -> is_Some (name c)) ->
  filter_chats term name cs =
    Ok (List.filter (fun c => match name c with
                              | Some n => People.includes (to_lower n) (to_lower term) | None => false end) cs).
Proof.
  induction cs as [|c cs IH]; intros Hn; [done|]. simpl.
  destruct (Hn c) as [n ->]; [by apply elem_of_cons; left|].
  rewrite IH by (intros; apply Hn, elem_of_cons; by right). by destruct (People.includes _ _).
Qed.

(** A row is highlighted exactly when its chat is the selected one. *)
Lemma chat_list_rows name sel cs rows :
  chat_list_view name sel cs = Rows rows ->
  (row_chat <$> rows) = (Chat.id <$> cs) /\ forall r, r ∈ rows -> row_active r = bool_decide (sel = Some (row_chat r)).
Proof.
  intros H. assert (rows = chat_row name sel <$> cs) as ->.
  { destruct cs as [|c cs]; [done|]. by injection H as <-. }
  split; [by rewrite <-list_fmap_compose|]. by intros r (c & -> & _)%list_elem_of_fmap.
Qed.

(** A chat with no name in the list makes the page throw while
    rendering, on both layouts. *)
Lemma page_unnamed_chat loading isMobile name fv hv allUsers u sender pt fl c :
  loading = false -> (Home.activeCall hv = None \/ Friends.selectedChat fv = None) ->
  c ∈ Friends.chats fv -> name c = None ->
  page_view loading isMobile name fv hv allUsers u sender pt fl = Err TypeError.
Proof.
  intros -> Hc Hin Hn. unfold page_view. rewrite (filter_chats_unnamed _ _ _ _ Hin Hn).
  destruct Hc as [->| ->]; [done|]. by destruct (Home.activeCall hv).
Qed.

(** With every chat named, the desktop sidebar renders; its friends
    badge counts the user's friends among all users, and its menu lists
    the first five of them (at most five) and the link to all of them
    exactly when there is one. *)
Theorem sidebar_friends_bounds name fv allUsers u sender pt :
  (forall c, c ∈ Friends.chats fv -> is_Some (name c)) ->
  exists sb, sidebar_view name fv allUsers u sender pt = Ok sb /\
    sb_badge sb = length (friends_of allUsers (Friends.profile fv)) /\
    length (sb_friends sb) = Nat.min 5 (sb_badge sb) /\
    (snd <$> sb_friends sb) = User.displayName <$> take 5 (friends_of allUsers (Friends.profile fv)) /\
    sb_view_all sb = bool_decide (0 < sb_badge sb).
Proof.
  intros Hn. unfold sidebar_view. rewrite filter_chats_named by exact Hn.
  eexists. split; [reflexivity|]. cbn [sb_badge sb_friends sb_view_all].
  rewrite length_fmap, length_take, <-list_fmap_compose. split_and!; [done|lia|done|done].
Qed.

(** Seven friends: the badge says 7, the menu lists five. *)
Definition seven : list string := ["u1"; "u2"; "u3"; "u4"; "u5"; "u6"; "u7"].

Definition me_seven : Friends.t := Friends.page "me" seven None ∅.

Definition users_seven : list User.t := (fun x => Friends.person x []) <$> seven.

Lemma sidebar_friends_bounds_witness :
  exists sb, sidebar_view (fun _ => None) me_seven users_seven ui0 (fun _ => None) People.ptab0 = Ok sb /\
    sb_badge sb = length (friends_of users_seven (Friends.profile me_seven)) /\
    length (sb_friends sb) = Nat.min 5 (sb_badge sb) /\
    (snd <$> sb_friends sb) = User.displayName <$> take 5 (friends_of users_seven (Friends.profile me_seven)) /\
    sb_view_all sb = bool_decide (0 < sb_badge sb).
Proof. apply sidebar_friends_bounds. intros c Hc. inversion Hc. Defined.

End HomeView.
