(* ===== verification/FriendsPage.v ===== *)
(** * The friends page: [src/src/app/friends/page.tsx]

    [FriendsPage] lists the user's friends through [FriendsList] and
    unfriends them.  Its [friends] state is filled by an effect on
    [userProfile.friends] (lines 29-42) that reads every friend's document
    and sets the list when all reads are done; nothing cancels a read
    when the effect runs again, so the reads in flight settle in any
    order and the last to settle wins.  [handleUnfriend] is
    [Friends.page_handleUnfriend]; the list and its dialog are
    [HomeView.flist_view_of].  Line numbers are those of
    [app/friends/page.tsx]. *)

From S2P Require Import Prelude Data Store Profile Friends HomeView.

Module FriendsPage.
Import HomeView.

(** The page's state: [friends] (line 21), and the friend lists whose
    [Promise.all] is in flight. *)
Record fpage := mkFP { friends : list friend; fetches : list (list string) }.

Definition fpage0 : fpage := mkFP [] [].

(** The effect on a new [userProfile.friends] (lines 29-42): no friends
    empties the list at once; otherwise the reads start. *)
Definition friends_effect (prof : option User.t) (p : fpage) : fpage :=
  match User.friends <$> prof with
  | Some (_ :: _ as ids) => mkFP (friends p) (fetches p ++ [ids])
  | _ => mkFP [] (fetches p)
  end.

(** The redirect effect (lines 23-27): to the sign-in page once the
    provider has loaded without a user. *)
Definition redirect (loading : bool) (user : option Profile.auth_user) (pushed : list string) : list string :=
  if negb loading && bool_decide (user = None) then pushed ++ ["/login"] else pushed.

(** The [i]-th [Promise.all] settles (lines 37-40): [{id, ...doc.data()}]
    of every document as the store has it. *)
Definition fetch_resolve (i : nat) (s : Store.t) (p : fpage) : fpage :=
  match fetches p !! i with
  | Some ids => mkFP ((fun f => (f, Store.getUser f s)) <$> ids) (delete i (fetches p))
  | None => p
  end.

(** What the page shows (lines 81-108): the spinner, or the header and
    [FriendsList] on the [friends] state. *)
Inductive fview := FPLoading | FPList (l : result flist_view).

Definition friends_page_view (loading : bool) (signed_in : bool) (p : fpage) (fl : flist) : fview :=
  if loading || negb signed_in then FPLoading else FPList (flist_view_of (friends p) fl).

(** The page with the store: the [Friends] page state holds the user's
    profile ([userProfile]) and the store; [handleUnfriend] (lines 45-78)
    is the one of [Friends]; once its batch commits, [refreshUserProfile]
    gives a new [friends] array, and the effect runs on it. *)
Definition unfriend (friendId : string) (st : Friends.St) (p : fpage) : Friends.St * fpage :=
  let st' := Friends.page_handleUnfriend friendId st in
  (st', match fst (Friends.unfriend_batch (Friends.uid (Friends.view st)) friendId (Friends.db st)) with
        | Ok _ => friends_effect (Friends.profile (Friends.view st')) p
        | Err _ => p
        end).

(** ** Lemmas *)

(** C5: A committed unfriend that leaves the user other friends starts a
    second read; when it settles before the read started earlier, the
    removed friend is listed again, with the document the store now
    holds. *)
Lemma unfriended_reappears f st p ids0 ids1 :
  fetches p = [ids0] -> f ∈ ids0 ->
  is_Some (Store.users (Friends.db st) !! Friends.uid (Friends.view st)) ->
  is_Some (Store.users (Friends.db st) !! f) ->
  User.friends <$> Friends.profile (Friends.view (Friends.page_handleUnfriend f st)) = Some ids1 -> ids1 <> [] ->
  let '(st2, p2) := unfriend f st p in
  (f, Store.getUser f (Friends.db st2)) ∈ friends (fetch_resolve 0 (Friends.db st2) (fetch_resolve 1 (Friends.db st2) p2)).
Proof.
  intros Hp Hf [u Hu] [v Hv] Hids Hne. unfold unfriend, Friends.unfriend_batch. rewrite Hu, Hv. cbn [fst].
  unfold friends_effect. rewrite Hids. destruct ids1 as [|i ids1]; [done|]. rewrite Hp. cbn [fetches app].
  cbv zeta. unfold fetch_resolve. cbn [fetches lookup list_lookup delete list_delete friends].
  apply list_elem_of_fmap. by exists f.
Qed.

(** Alice, friends with bob and carol, opens the page; she unfriends
    carol before the first reads return, and the second read, for bob
    alone, returns first. *)
Definition db_three : Store.t :=
  {| Store.calls := ∅; Store.callerCandidates := ∅; Store.calleeCandidates := ∅;
     Store.chats := ∅; Store.messages := ∅;
     Store.users := {[ "alice" := Friends.person "alice" ["bob"; "carol"];
                       "bob" := Friends.person "bob" ["alice"];
                       "carol" := Friends.person "carol" ["alice"] ]};
     Store.friendRequests := ∅; Store.clock := 1000; Store.journal := [] |}.

Definition alice_page : Friends.St := Friends.mkSt (Friends.page "alice" ["bob"; "carol"] None ∅) db_three.

Lemma unfriended_reappears_witness :
  fetches (mkFP [] [["bob"; "carol"]]) = [["bob"; "carol"]] /\
  let '(st2, p2) := unfriend "carol" alice_page (mkFP [] [["bob"; "carol"]]) in
  ("carol", Store.getUser "carol" (Friends.db st2)) ∈
    friends (fetch_resolve 0 (Friends.db st2) (fetch_resolve 1 (Friends.db st2) p2)).
Proof.
  split; [reflexivity|].
  apply (unfriended_reappears "carol" alice_page (mkFP [] [["bob"; "carol"]]) ["bob"; "carol"] ["bob"]);
    [reflexivity|set_solver|eexists; reflexivity|eexists; reflexivity|vm_compute; reflexivity|discriminate].
Defined.

(** The friends page keeps showing a removed friend: once the read
    started before the unfriend settles last, carol is listed again,
    with the Unfriend menu, though neither profile lists the other. *)
Lemma unfriended_friend_listed :
  let p1 := friends_effect (Friends.profile (Friends.view alice_page)) fpage0 in
  let '(st2, p2) := unfriend "carol" alice_page p1 in
  let p3 := fetch_resolve 0 (Friends.db st2) (fetch_resolve 1 (Friends.db st2) p2) in
  (User.friends <$> Friends.profile (Friends.view st2)) = Some ["bob"] /\
  (User.friends <$> Store.getUser "carol" (Friends.db st2)) = Some [] /\
  exists rows, friends_page_view false true p3 flist0 = FPList (Ok (mkFlistView (FRows rows) None)) /\
               "carol" ∈ rows.*1.
Proof. vm_compute. split_and!; [done|done|]. eexists. split; [reflexivity|]. set_solver. Qed.

End FriendsPage.
