(* ===== verification/System.v ===== *)
(** * Two clients and the store: the calling system as a transition system

    A [world] is the store and the page of every signed-in client, by user
    id.  A [label] names one thing that can happen: a user action, a
    snapshot reaching a listener, a promise settling (a suspended handler
    resuming), a media or connectivity event of a browser, or time passing.
    [exec_label] checks the label's precondition (the user can see the
    button; the listener is subscribed; a snapshot brings candidates that
    are in the collection; a connection reports [connected] only when it
    can) and performs it; [step] is the resulting relation and [reach] its
    reflexive-transitive closure.  [run_steps] executes a list of labels,
    so that scenarios run by computation. *)

From S2P Require Import Prelude Data WebRTC Store CallView Home.

Module System.

Record world := mkWorld { db : Store.t; clients : gmap string Home.t }.

(** One step of client [u]'s page, followed by its render. *)
Definition on_client (u : string) (f : Home.St -> Home.St) (w : world) : option world :=
  match clients w !! u with
  | Some h =>
      let st := Home.settle (f (Home.mkSt h (db w))) in
      Some (mkWorld (Home.db st) (<[u := Home.home st]> (clients w)))
  | None => None
  end.

(** What the environment can deliver to a mounted screen. *)
Definition env_ok (v : CallView.t) (s : Store.t) (e : CallView.event) : bool :=
  match e with
  | CallView.EvSig _ | CallView.EvClickEnd | CallView.EvToggleMute
  | CallView.EvToggleCamera => true
  | CallView.EvCandidates k batch n =>
      match CallView.runs v !! k with
      | Some r =>
          CallView.subscribed r && bool_decide (1 <= n) &&
          bool_decide (batch ≡ₚ take n (drop (CallView.cand_seen r)
                          (Store.candidates (CallView.other_role v) (Call.id (CallView.call v)) s)))
      | None => false
      end
  | CallView.EvDoc k =>
      match CallView.runs v !! k with Some r => CallView.subscribed r | None => false end
  | CallView.EvLocalCandidate k _ =>
      match CallView.runs v !! k with
      | Some r =>
          match CallView.managers v !! CallView.mgr r with
          | Some m => negb (Peer.closed (Manager.pc m)) &&
                      bool_decide (is_Some (Peer.localDescription (Manager.pc m)))
          | None => false
          end
      | None => false
      end
  | CallView.EvConnection k s' =>
      match CallView.runs v !! k with
      | Some r =>
          match CallView.managers v !! CallView.mgr r with
          | Some m => negb (Peer.closed (Manager.pc m)) &&
                      (if s' is Peer.PcConnected then Peer.can_connect (Manager.pc m) else true)
          | None => false
          end
      | None => false
      end
  | CallView.EvMediaGranted _ | CallView.EvMediaDenied | CallView.EvStore _ => false
  end.

Inductive label :=
| LInitiate (u chatId : string) (type : media) (newId : string)
| LIncoming (u : string)
| LAccept (u : string)
| LDecline (u : string)
| LTask (u : string) (i : nat)
| LActive (u : string)
| LMedia (u : string)
| LMediaDenied (u : string)
| LStray (u : string)
| LScreen (u : string) (e : CallView.event)
| LTick (dt : Z).

(** The incoming-call dialog, the chat's call buttons and the rest of the
    page are rendered only while no call screen is (line 541). *)
Definition page_visible (h : Home.t) : bool := bool_decide (Home.screen h = None).

Definition exec_label (l : label) (w : world) : option world :=
  match l with
  | LInitiate u chatId type newId =>
      match clients w !! u, Store.chats (db w) !! chatId with
      | Some h, Some chat =>
          if page_visible h && bool_decide (Home.selectedChat h = Some chatId)
             && bool_decide (Store.getCall newId (db w) = None)
          then on_client u (Home.handleInitiateCall chat type newId) w else None
      | _, _ => None
      end
  | LIncoming u => on_client u Home.incoming_snapshot w
  | LAccept u =>
      match clients w !! u with
      | Some h => match Home.incomingCall h with
                  | Some c => if page_visible h then on_client u (Home.accept c) w else None
                  | None => None
                  end
      | None => None
      end
  | LDecline u =>
      match clients w !! u with
      | Some h => match Home.incomingCall h with
                  | Some c => if page_visible h then on_client u (Home.decline c) w else None
                  | None => None
                  end
      | None => None
      end
  | LTask u i =>
      match clients w !! u with
      | Some h => if bool_decide (i < length (Home.tasks h)) then on_client u (Home.run_task i) w
                  else None
      | None => None
      end
  | LActive u => on_client u Home.active_snapshot w
  | LMedia u =>
      match clients w !! u with
      | Some h => match Home.screen h with
                  | Some v => if CallView.media_state v is CallView.MediaPending
                              then on_client u Home.media_resolved w else None
                  | None => None
                  end
      | None => None
      end
  | LMediaDenied u =>
      match clients w !! u with
      | Some h => match Home.screen h with
                  | Some v => if CallView.media_state v is CallView.MediaPending
                              then on_client u (Home.screen_event CallView.EvMediaDenied) w else None
                  | None => None
                  end
      | None => None
      end
  | LStray u =>
      match clients w !! u with
      | Some h => if bool_decide (Home.stray h <> []) then on_client u Home.stray_resolved w
                  else None
      | None => None
      end
  | LScreen u e =>
      match clients w !! u with
      | Some h => match Home.screen h with
                  | Some v => if env_ok v (db w) e then on_client u (Home.screen_event e) w
                              else None
                  | None => None
                  end
      | None => None
      end
  | LTick dt => if bool_decide (0 < dt)%Z then Some (mkWorld (Store.tick dt (db w)) (clients w))
                else None
  end.

Inductive step : world -> world -> Prop :=
| step_exec l w w' : exec_label l w = Some w' -> step w w'.

Inductive reach : world -> world -> Prop :=
| reach_refl w : reach w w
| reach_step w1 w2 w3 : step w1 w2 -> reach w2 w3 -> reach w1 w3.

Fixpoint run_steps (ls : list label) (w : world) : option world :=
  match ls with
  | [] => Some w
  | l :: ls' => match exec_label l w with
                | Some w' => run_steps ls' w'
                | None => None
                end
  end.

(** ** The starting world: alice and bob, friends with a direct chat *)

Definition user (u : string) : User.t := {|
  User.id := u; User.uid := u; User.displayName := u; User.email := u +:+ "@example.com";
  User.photoURL := ""; User.handle := u; User.createdAt := None; User.theme := None;
  User.friends := []; User.blockedUsers := [] |}.

Definition chat_ab : Chat.t := {|
  Chat.id := "alice_bob"; Chat.type := Direct; Chat.members := ["alice"; "bob"];
  Chat.unreadCount := 0; Chat.lastMessage := "Chat created"; Chat.lastMessageTimestamp := 0;
  Chat.lastMessageSenderId := "alice"; Chat.muted := false |}.

Definition db0 : Store.t := {|
  Store.calls := ∅; Store.callerCandidates := ∅; Store.calleeCandidates := ∅;
  Store.chats := {[ "alice_bob" := chat_ab ]}; Store.messages := ∅;
  Store.users := {[ "alice" := user "alice"; "bob" := user "bob" ]};
  Store.friendRequests := ∅; Store.clock := 1000; Store.journal := [] |}.

(** Alice has the chat open; bob is on his chat list. *)
Definition w0 : world :=
  mkWorld db0 {[ "alice" := Home.init "alice" (Some "alice_bob"); "bob" := Home.init "bob" None ]}.

(** ** Executions *)

Lemma run_steps_reach ls w w' : run_steps ls w = Some w' -> reach w w'.
Proof.
  revert w. induction ls as [|l ls IH]; intros w; simpl.
  - intros [= ->]. constructor.
  - destruct (exec_label l w) as [w1|] eqn:E; [|done].
    intros H. econstructor; [by econstructor|]. by apply IH.
Qed.

Lemma run_steps_default ls w : run_steps ls w <> None -> reach w (default w (run_steps ls w)).
Proof. destruct (run_steps ls w) eqn:E; [|done]. intros _. by eapply run_steps_reach. Qed.

Lemma reach_trans w1 w2 w3 : reach w1 w2 -> reach w2 w3 -> reach w1 w3.
Proof. induction 1; eauto using reach. Qed.

(** A scenario: the world a list of labels leads to, proved reachable by
    running it. *)
Ltac run_scenario tr :=
  exists (default w0 (run_steps tr w0));
  split; [apply run_steps_default; vm_compute; discriminate|vm_compute; repeat split; auto 20].

End System.
