(* ===== verification/Invariants.v ===== *)
(** * Invariants of the two-client system

    What every step of [System.step] keeps, proved by induction on [reach]
    from the lemmas of each handler:
    - [db_evolves]: the store only grows: a call document, once created,
      keeps its identity, chat, caller, callee, members, media and
      creation time; messages and candidates are only appended; the
      journal only grows; the clock does not go back;
    - [calls_ok]: every call document is stored under its id, its callee
      is not its caller, its members are the two of them, and its status
      is never [missed] (no code writes it). *)

From S2P Require Import Prelude Data WebRTC Store CallView Home System.

Module Invariants.
Import System.

(** ** The store only grows *)

(** The fields of a call no write changes. *)
Definition fixed (c c' : Call.t) : Prop :=
  Call.id c' = Call.id c /\ Call.chatId c' = Call.chatId c /\
  Call.callerId c' = Call.callerId c /\ Call.calleeId c' = Call.calleeId c /\
  Call.members c' = Call.members c /\ Call.type c' = Call.type c /\
  Call.createdAt c' = Call.createdAt c.

Definition db_evolves (s s' : Store.t) : Prop :=
  (forall id c, Store.calls s !! id = Some c ->
     exists c', Store.calls s' !! id = Some c' /\ fixed c c') /\
  (forall chatId, Store.chat_docs chatId s `prefix_of` Store.chat_docs chatId s') /\
  (forall r id, Store.candidates r id s `prefix_of` Store.candidates r id s') /\
  Store.journal s `prefix_of` Store.journal s' /\
  (Store.clock s <= Store.clock s')%Z.

Lemma fixed_refl c : fixed c c.
Proof. done. Qed.

Lemma fixed_trans c1 c2 c3 : fixed c1 c2 -> fixed c2 c3 -> fixed c1 c3.
Proof. intros (?&?&?&?&?&?&?) (?&?&?&?&?&?&?). repeat split; congruence. Qed.

#[export] Instance db_evolves_preorder : PreOrder db_evolves.
Proof.
  split.
  - intros s. split; [eauto using fixed_refl|]. by repeat split.
  - intros s1 s2 s3 (Hc1 & Hm1 & Hk1 & Hj1 & Ht1) (Hc2 & Hm2 & Hk2 & Hj2 & Ht2).
    split; [|split; [|split; [|split]]]; [|etrans; eauto..|lia].
    intros id c H. destruct (Hc1 _ _ H) as (c2 & H2 & F2).
    destruct (Hc2 _ _ H2) as (c3 & H3 & F3). eauto using fixed_trans.
Qed.

(** Appending to the list stored under one key of a map of lists. *)
Lemma prefix_insert_app {V} (m : gmap string (list V)) k k' l :
  default [] (m !! k') `prefix_of` default [] (<[k := default [] (m !! k) ++ l]> m !! k').
Proof.
  destruct (decide (k = k')) as [<-|Hne].
  - rewrite lookup_insert_eq. by apply prefix_app_r.
  - by rewrite lookup_insert_ne.
Qed.

(** Writes that leave the calls alone. *)
Lemma evolves_same_calls s s' :
  Store.calls s' = Store.calls s ->
  (forall chatId, Store.chat_docs chatId s `prefix_of` Store.chat_docs chatId s') ->
  (forall r id, Store.candidates r id s `prefix_of` Store.candidates r id s') ->
  Store.journal s `prefix_of` Store.journal s' -> (Store.clock s <= Store.clock s')%Z ->
  db_evolves s s'.
Proof. intros Hc. split; [|done]. rewrite Hc. eauto using fixed_refl. Qed.

Lemma tick_evolves dt s : (0 <= dt)%Z -> db_evolves s (Store.tick dt s).
Proof. intros. apply evolves_same_calls; simpl; done || lia. Qed.

Lemma addCandidate_evolves id r c s r0 s' :
  Store.addCandidate id r c s = (r0, s') -> db_evolves s s'.
Proof.
  unfold Store.addCandidate. intros [= <- <-]. apply evolves_same_calls; try done.
  - intros r' id'. unfold Store.candidates.
    destruct r, r'; simpl; first [apply prefix_insert_app | done].
  - by apply prefix_app_r.
Qed.

Lemma addMessage_evolves chatId m s r0 s' :
  Store.addMessage chatId m s = (r0, s') -> db_evolves s s'.
Proof.
  unfold Store.addMessage. intros [= <- <-]. apply evolves_same_calls; try done.
  - intros c. apply prefix_insert_app.
  - by apply prefix_app_r.
Qed.

Lemma updateChat_evolves chatId f s r0 s' :
  Store.updateChat chatId f s = (r0, s') -> db_evolves s s'.
Proof.
  unfold Store.updateChat. case_match; intros [= <- <-]; [|reflexivity].
  apply evolves_same_calls; try done. by apply prefix_app_r.
Qed.

(** Replacing the document of [id] by one with the same fixed fields. *)
Lemma with_calls_evolves s id c' w :
  (forall c, Store.calls s !! id = Some c -> fixed c c') ->
  db_evolves s (Store.with_calls (<[id := c']> (Store.calls s)) w s).
Proof.
  intros Hf. split; [|split; [done|split; [done|split; [by apply prefix_app_r|done]]]].
  intros id' c H. simpl. destruct (decide (id = id')) as [<-|Hne].
  - rewrite lookup_insert_eq. eauto.
  - rewrite lookup_insert_ne; eauto using fixed_refl.
Qed.

Lemma updateCall_evolves id p s r0 s' :
  Store.updateCall id p s = (r0, s') -> db_evolves s s'.
Proof.
  unfold Store.updateCall. case_match eqn:E; intros [= <- <-]; [|reflexivity].
  apply with_calls_evolves. intros c' H. rewrite E in H. by injection H as <-.
Qed.

(** [setDoc] of a new call document. *)
Lemma setCall_evolves c s r0 s' :
  Store.calls s !! Call.id c = None -> Store.setCall c s = (r0, s') -> db_evolves s s'.
Proof.
  intros Hn. unfold Store.setCall. intros [= <- <-].
  apply with_calls_evolves. by rewrite Hn.
Qed.

(** What every call document satisfies: stored under its id, between two
    different users who are its members, never [missed]. *)
Definition call_ok (id : string) (c : Call.t) : Prop :=
  Call.id c = id /\ Call.callerId c <> Call.calleeId c /\
  Call.members c = [Call.callerId c; Call.calleeId c] /\ Call.status c <> Missed.

Definition calls_ok (s : Store.t) : Prop :=
  forall id c, Store.calls s !! id = Some c -> call_ok id c.

(** A change of the store a handler may make: it lets the store grow and
    keeps [calls_ok]. *)
Definition store_step (s s' : Store.t) : Prop := db_evolves s s' /\ (calls_ok s -> calls_ok s').

#[export] Instance store_step_preorder : PreOrder store_step.
Proof.
  split.
  - intros s. split; [reflexivity|done].
  - intros s1 s2 s3 [H1 K1] [H2 K2]. split; [by etrans|auto].
Qed.

Lemma same_calls_step s s' :
  db_evolves s s' -> Store.calls s' = Store.calls s -> store_step s s'.
Proof. intros H Hc. split; [done|]. unfold calls_ok. by rewrite Hc. Qed.

Lemma tick_step dt s : (0 <= dt)%Z -> store_step s (Store.tick dt s).
Proof. intros. apply same_calls_step; [by apply tick_evolves|done]. Qed.

Lemma addCandidate_step id r c s r0 s' : Store.addCandidate id r c s = (r0, s') -> store_step s s'.
Proof. intros H. apply same_calls_step; [by eapply addCandidate_evolves|by injection H as _ <-]. Qed.

Lemma addMessage_step chatId m s r0 s' : Store.addMessage chatId m s = (r0, s') -> store_step s s'.
Proof. intros H. apply same_calls_step; [by eapply addMessage_evolves|by injection H as _ <-]. Qed.

Lemma updateChat_step chatId f s r0 s' : Store.updateChat chatId f s = (r0, s') -> store_step s s'.
Proof.
  intros H. apply same_calls_step; [by eapply updateChat_evolves|].
  revert H. unfold Store.updateChat. case_match; by intros [= _ <-].
Qed.

(** Storing [c'] under [id] keeps [calls_ok] when [c'] is a good document. *)
Lemma insert_calls_ok s id c' :
  calls_ok s -> call_ok id c' -> calls_ok (Store.with_calls (<[id := c']> (Store.calls s)) (WCallCreate id) s).
Proof.
  intros Hok Hc id' c. simpl. destruct (decide (id = id')) as [<-|Hne].
  - rewrite lookup_insert_eq. by intros [= <-].
  - rewrite lookup_insert_ne; [apply Hok|done].
Qed.

(** The code never writes the status [missed]. *)
Definition patch_ok (p : call_patch) : Prop := p <> PatchStatus Missed.

Lemma updateCall_step id p s r0 s' :
  Store.updateCall id p s = (r0, s') -> patch_ok p -> store_step s s'.
Proof.
  intros H Hp. split; [by eapply updateCall_evolves|]. revert H.
  unfold Store.updateCall. case_match eqn:E; intros [= _ <-]; [|done].
  intros Hok id' c'. simpl. destruct (decide (id = id')) as [<-|Hne].
  - rewrite lookup_insert_eq. intros [= <-].
    destruct (Hok _ _ E) as (? & ? & ? & ?). unfold call_ok, patch_ok in *.
    destruct p; simpl; repeat split; congruence.
  - rewrite lookup_insert_ne; [apply Hok|done].
Qed.

(** [setDoc] of a new, good call document. *)
Lemma setCall_step c s r0 s' :
  Store.calls s !! Call.id c = None ->
  Call.callerId c <> Call.calleeId c -> Call.members c = [Call.callerId c; Call.calleeId c] ->
  Call.status c <> Missed ->
  Store.setCall c s = (r0, s') -> store_step s s'.
Proof.
  intros Hn H1 H2 H3 H. split; [by eapply setCall_evolves|]. revert H.
  unfold Store.setCall. intros [= _ <-] Hok. apply insert_calls_ok; [done|].
  by repeat split.
Qed.

#[export] Hint Resolve addCandidate_step addMessage_step updateChat_step updateCall_step : mitho.
#[export] Hint Extern 1 (patch_ok _) => unfold patch_ok; discriminate : mitho.

(** ** The handlers only let the store grow *)

(** A store computation whose every run is a [store_step]. *)
Definition evolving {A} (c : SE Store.t A) : Prop :=
  forall s r s', c s = (r, s') -> store_step s s'.

Lemma evolving_ret {A} (a : A) : evolving (mret a).
Proof. intros s r s' [= _ <-]. reflexivity. Qed.

Lemma evolving_bind {A B} (c : SE Store.t A) (k : A -> SE Store.t B) :
  evolving c -> (forall a, evolving (k a)) -> evolving (c ≫= k).
Proof.
  intros Hc Hk s r s'. unfold mbind, se_mbind, se_bind.
  destruct (c s) as [[a|e] s1] eqn:E; intros H.
  - etrans; [by eapply Hc|]. by eapply Hk.
  - injection H as _ <-. by eapply Hc.
Qed.

(** The writes of the page's call handlers never set [missed]. *)
Definition op_ok (o : Home.op) : Prop :=
  match o with Home.OpUpdateCall _ p => patch_ok p | _ => True end.

Lemma exec_op_evolving o : op_ok o -> evolving (Home.exec_op o).
Proof. destruct o; simpl; intros Ho ???; eauto with mitho. Qed.

Lemma exec_ops_evolving l : Forall op_ok l -> evolving (Home.exec_ops l).
Proof.
  induction 1 as [|o l Ho _ IH]; [apply evolving_ret|].
  apply evolving_bind; [by apply exec_op_evolving|intros _; exact IH].
Qed.

Lemma call_message_ops_ok c o d : Forall op_ok (Home.call_message_ops c o d).
Proof. repeat constructor. Qed.

Lemma end_ops_ok me c d snap : Forall op_ok (Home.end_ops me c d snap).
Proof.
  unfold Home.end_ops. repeat case_match; try by constructor.
  all: apply Forall_app; split; [apply call_message_ops_ok || constructor|repeat constructor].
  all: unfold op_ok, patch_ok; discriminate.
Qed.

Lemma createCallMessage_evolving c o d : evolving (Home.createCallMessage c o d).
Proof. apply exec_ops_evolving, call_message_ops_ok. Qed.

Lemma end_writes_evolving me c d snap : evolving (Home.end_writes me c d snap).
Proof. apply exec_ops_evolving, end_ops_ok. Qed.

#[export] Hint Resolve createCallMessage_evolving end_writes_evolving : mitho.

Lemma local_candidate_step k c st :
  store_step (CallView.db st) (CallView.db (CallView.local_candidate k c st)).
Proof.
  unfold CallView.local_candidate. destruct (Store.addCandidate _ _ _ _) eqn:E.
  simpl. eauto with mitho.
Qed.

(** Every event but [EvStore] (which stands for other clients' writes and
    is not a label of the system) lets the store of a call screen grow. *)
Lemma handle_step e st :
  (forall db', e <> CallView.EvStore db') ->
  store_step (CallView.db st) (CallView.db (CallView.handle e st)).
Proof.
  intros Hs. destruct e; [..|by destruct (Hs db')]; unfold CallView.handle;
    [| | | | |apply local_candidate_step| | | |].
  all: unfold CallView.media_granted, CallView.media_denied, CallView.sig_step,
    CallView.candidate_snapshot, CallView.doc_snapshot,
    CallView.connection_change, CallView.click_end, CallView.toggleMute,
    CallView.toggleCamera, CallView.handleEndCall, CallView.effect_run,
    CallView.effect_cleanup, CallView.on_manager, CallView.hang_up;
  repeat (case_match; simplify_eq/=); try reflexivity; eauto with mitho.
Qed.

Lemma evolving_run {A} (c : SE Store.t A) s r s' :
  c s = (r, s') -> evolving c -> store_step s s'.
Proof. intros H Hc. by eapply Hc. Qed.

#[export] Hint Resolve evolving_run : mitho.

(** ** The page's handlers *)

Lemma effect_run_db st : CallView.db (CallView.effect_run st) = CallView.db st.
Proof. unfold CallView.effect_run. by case_bool_decide. Qed.

Lemma effect_cleanup_db st : CallView.db (CallView.effect_cleanup st) = CallView.db st.
Proof. unfold CallView.effect_cleanup, CallView.hang_up. by repeat (case_match; simplify_eq/=). Qed.

Lemma ends_db c l st :
  Home.db (foldl (fun st0 d => Home.handleEndCall c d st0) st l) = Home.db st.
Proof. revert st. induction l as [|d l IH]; intros st; [done|]. simpl. by rewrite IH. Qed.

(** The render and the effects after a step write nothing. *)
Lemma settle_db st : Home.db (Home.settle st) = Home.db st.
Proof.
  unfold Home.settle, Home.render, Home.resubscribe, Home.collect_ends, CallView.unmount,
    CallView.mount.
  repeat case_match; simplify_eq/=; rewrite ?effect_cleanup_db, ?effect_run_db; try done;
    by rewrite ends_db.
Qed.

Lemma accept_step c st : store_step (Home.db st) (Home.db (Home.accept c st)).
Proof. unfold Home.accept. destruct (Store.updateCall _ _ _) as [[] ?] eqn:E; simpl; eauto with mitho. Qed.

Lemma decline_step c st : store_step (Home.db st) (Home.db (Home.decline c st)).
Proof. unfold Home.decline. destruct (Store.updateCall _ _ _) as [[] ?] eqn:E; simpl; eauto with mitho. Qed.

(** Sending the next write of a handler, or finishing it. *)
Lemma send_op_step ops n k fin st :
  Forall op_ok ops -> (forall st', store_step (Home.db st') (Home.db (fin st'))) ->
  store_step (Home.db st) (Home.db (Home.send_op ops n k fin st)).
Proof.
  intros Hops Hfin. unfold Home.send_op. destruct (ops !! n) as [o|] eqn:Ho; [|apply Hfin].
  destruct (Home.exec_op o (Home.db st)) as [[] s'] eqn:E; simpl;
    (eapply exec_op_evolving; [|exact E]); by eapply Forall_lookup_1.
Qed.

Lemma resume_step tk st : store_step (Home.db st) (Home.db (Home.resume tk st)).
Proof.
  destruct tk; unfold Home.resume;
    try (apply send_op_step; [apply end_ops_ok || apply call_message_ops_ok|intros; reflexivity]);
    repeat case_match; reflexivity.
Qed.

Lemma run_task_step i st : store_step (Home.db st) (Home.db (Home.run_task i st)).
Proof.
  unfold Home.run_task. destruct (_ !! i) as [tk|]; [|reflexivity].
  exact (resume_step tk (Home.mkSt _ (Home.db st))).
Qed.

(** Initiating a call with an id not in use. *)
Lemma handleInitiateCall_step chat type newId st :
  Store.calls (Home.db st) !! newId = None ->
  store_step (Home.db st) (Home.db (Home.handleInitiateCall chat type newId st)).
Proof.
  intros Hn. unfold Home.handleInitiateCall.
  destruct (list_find _ _) as [[j callee]|] eqn:Ef; [|reflexivity].
  apply list_find_Some in Ef as (_ & Hne & _).
  case_bool_decide; [reflexivity|].
  destruct (Store.setCall _ _) as [r s'] eqn:E. simpl.
  eapply setCall_step; [|..|exact E]; simpl; congruence.
Qed.

Lemma screen_event_step e st :
  (forall db', e <> CallView.EvStore db') ->
  store_step (Home.db st) (Home.db (Home.screen_event e st)).
Proof.
  intros He. unfold Home.screen_event. case_match; [|reflexivity].
  exact (handle_step e (CallView.mkSt _ _ (Home.db st)) He).
Qed.

Lemma media_resolved_step st : store_step (Home.db st) (Home.db (Home.media_resolved st)).
Proof.
  unfold Home.media_resolved. repeat case_match; try reflexivity.
  apply (screen_event_step _ (Home.mkSt _ (Home.db st))). done.
Qed.

(** ** Every step of the system *)

Lemma on_client_step u f w w' :
  (forall h, clients w !! u = Some h -> store_step (db w) (Home.db (f (Home.mkSt h (db w))))) ->
  on_client u f w = Some w' -> store_step (db w) (db w').
Proof.
  unfold on_client. intros Hf. case_match eqn:E; [|done]. intros [= <-]. simpl.
  rewrite settle_db. eauto.
Qed.

Ltac bools := repeat match goal with
  | H : _ && _ = true |- _ => apply andb_prop in H as [? ?]
  | H : bool_decide _ = true |- _ => apply bool_decide_eq_true in H
  end.

Lemma exec_label_step l w w' : exec_label l w = Some w' -> store_step (db w) (db w').
Proof.
  destruct l; simpl; repeat case_match; try discriminate; bools;
    try (intros [= <-]; apply tick_step; lia);
    apply on_client_step; intros h' Hh; simplify_eq;
    match goal with |- store_step _ (Home.db (?f ?st)) =>
      change (store_step (Home.db st) (Home.db (f st))) end;
    first [ apply accept_step | apply decline_step | apply run_task_step
          | apply media_resolved_step | by apply handleInitiateCall_step
          | apply screen_event_step; intros ? Heq; subst; simpl in *; discriminate
          | unfold Home.incoming_snapshot, Home.active_snapshot, Home.stray_resolved;
            repeat case_match; reflexivity ].
Qed.

Lemma reach_store_step w w' : reach w w' -> store_step (db w) (db w').
Proof.
  induction 1 as [|w1 w2 w3 Hs _ IH]; [reflexivity|].
  destruct Hs as [l ? ? Hl]. etrans; [by eapply exec_label_step|done].
Qed.

Lemma calls_ok_db0 : calls_ok (db w0).
Proof. intros id c. simpl. by rewrite lookup_empty. Qed.

(** C6: in every reachable world each call document is stored under its
    own id, is between two different users who are its two members, and
    its status is never [missed]: no handler writes that status. *)
Theorem calls_ok_reachable w : reach w0 w -> calls_ok (db w).
Proof. intros H. apply (reach_store_step _ _ H), calls_ok_db0. Qed.

Local Open Scope string_scope.

(** The world after alice calls bob and bob accepts. *)
Definition w_end : world :=
  default w0 (run_steps [LInitiate "alice" "alice_bob" Video "call1"; LTask "alice" 0; LTask "alice" 0;
                         LIncoming "bob"; LTask "bob" 0; LAccept "bob"; LTask "bob" 0; LTask "bob" 0;
                         LTask "bob" 0] w0).

Lemma w_end_reach : reach w0 w_end.
Proof. apply run_steps_default. vm_compute. discriminate. Qed.

Lemma calls_ok_reachable_witness : reach w0 w_end /\ calls_ok (db w_end).
Proof. split; [exact w_end_reach|]. exact (calls_ok_reachable _ w_end_reach). Defined.

End Invariants.
