(* ===== verification/Tasks.v ===== *)
(** * The suspended handlers of the page: draining and completion

    [Home.run_task] resumes one handler suspended at an [await]
    ([Home.task]).  [handleEndCall] suspends on its read and on each of
    its writes, the decline on each write of its call log, the accept on
    its write and its two reads.  This file shows that the pending
    handlers can always all be run ([drain_empties]: a weight every
    resumption lowers), and what the end of a call comes to once they
    have: the call document [ended] when its chat exists, whatever the
    order the page's other tasks run in ([end_call_completes]), and the
    status left as it was when the caller's call log fails on a deleted
    chat ([end_call_chat_deleted]). *)

From S2P Require Import Prelude Data WebRTC Store CallView Home System Invariants.

Module Tasks.
Import Home.

Create HintDb tasks discriminated.

#[export] Instance task_eq_dec : EqDecision task.
Proof. solve_decision. Defined.

(** ** The pending handlers can all finish *)

(** The resumptions a handler has left, at most: [handleEndCall] sends at
    most three writes after its read, the decline two, the accept reads
    twice after its write. *)
Definition task_weight (tk : task) : nat :=
  match tk with
  | EndRead _ _ => 4
  | EndAwait _ _ _ n => S (3 - n)
  | AcceptAwait _ => 3
  | AcceptChat _ => 2
  | DeclineAwait _ n => S (2 - n)
  | InitiateAwait _ => 2
  | _ => 1
  end.

Definition queue_weight (l : list task) : nat := sum_list (task_weight <$> l).

(** One pending handler resumes, any of them. *)
Definition task_step (st st' : St) : Prop :=
  exists i, i < length (tasks (home st)) /\ st' = run_task i st.

Lemma queue_weight_app l1 l2 : queue_weight (l1 ++ l2) = queue_weight l1 + queue_weight l2.
Proof. unfold queue_weight. by rewrite fmap_app, sum_list_with_app. Qed.

Lemma queue_weight_cons tk l : queue_weight (tk :: l) = task_weight tk + queue_weight l.
Proof. done. Qed.

Lemma queue_weight_delete l i tk :
  l !! i = Some tk -> queue_weight (delete i l) + task_weight tk = queue_weight l.
Proof.
  intros Hi. rewrite (delete_take_drop l i).
  rewrite <-(take_drop_middle l i tk Hi) at 3.
  rewrite !queue_weight_app, queue_weight_cons. lia.
Qed.

Lemma length_call_message_ops c o d : length (call_message_ops c o d) = 2.
Proof. done. Qed.

Lemma length_end_ops me c d snap : length (end_ops me c d snap) <= 3.
Proof. unfold end_ops. repeat case_match; simpl; lia. Qed.

(** Sending write [n]: at most the handler's next resumption is queued,
    and only while writes remain. *)
Lemma send_op_tasks ops n k fin st :
  (forall st', tasks (home (fin st')) = tasks (home st')) ->
  tasks (home (send_op ops n k fin st)) = tasks (home st) \/
  (tasks (home (send_op ops n k fin st)) = tasks (home st) ++ [k (S n)] /\ n < length ops).
Proof.
  intros Hfin. unfold send_op. destruct (ops !! n) as [o|] eqn:Ho; [|left; apply Hfin].
  destruct (exec_op o (db st)) as [[] s'] eqn:E; [right|left]; [|done].
  split; [done|]. by apply lookup_lt_Some in Ho.
Qed.

(** A resumption queues continuations of less weight than its own. *)
Lemma resume_tasks tk st :
  exists l, tasks (home (resume tk st)) = tasks (home st) ++ l /\ queue_weight l < task_weight tk.
Proof.
  destruct tk as [c d|c d snap n|c|c|c|c n|id|id|c seen]; simpl.
  1,2: match goal with |- context [send_op (end_ops ?me ?c ?d ?sn) ?m ?k end_fin ?st] =>
         pose proof (length_end_ops me c d sn);
         destruct (send_op_tasks (end_ops me c d sn) m k end_fin st) as [E|[E Hn]]; [done| |] end;
       [exists []; rewrite E, app_nil_r; split; [done|unfold queue_weight; simpl; lia]|];
       eexists; split; [exact E|]; unfold queue_weight; simpl; lia.
  4: match goal with |- context [send_op ?ops ?m ?k action_fin ?st] =>
       destruct (send_op_tasks ops m k action_fin st) as [E|[E Hn]]; [done| |] end;
     [exists []; rewrite E, app_nil_r; split; [done|unfold queue_weight; simpl; lia]|];
     eexists; split; [exact E|]; rewrite length_call_message_ops in Hn; unfold queue_weight; simpl; lia.
  all: repeat case_match; first [ exists []; rewrite app_nil_r; split; [done|cbv; lia]
                                | eexists; split; [reflexivity|cbv; lia] ].
Qed.

Lemma task_step_weight st st' :
  task_step st st' -> queue_weight (tasks (home st')) < queue_weight (tasks (home st)).
Proof.
  intros (i & Hi & ->). destruct (lookup_lt_is_Some_2 _ _ Hi) as [tk Htk].
  unfold run_task. rewrite Htk.
  destruct (resume_tasks tk (mkSt (set_tasks (delete i (tasks (home st))) (home st)) (db st)))
    as (l & -> & Hl).
  rewrite queue_weight_app. simpl. pose proof (queue_weight_delete _ _ _ Htk). lia.
Qed.

(** Running the first pending handler until none is left, with fuel. *)
Fixpoint drain (n : nat) (st : St) : St :=
  match n with
  | O => st
  | S n' => if tasks (home st) is _ :: _ then drain n' (run_task 0 st) else st
  end.

Lemma drain_rtc n st : rtc task_step st (drain n st).
Proof.
  revert st. induction n as [|n IH]; intros st; simpl; [done|].
  destruct (tasks (home st)) eqn:E; [done|].
  eapply rtc_l; [|apply IH]. exists 0. rewrite E. split; [simpl; lia|done].
Qed.

(** Fuel as large as the queue's weight is enough. *)
Lemma drain_empties n st : queue_weight (tasks (home st)) <= n -> tasks (home (drain n st)) = [].
Proof.
  revert st. induction n as [|n IH]; intros st Hn; simpl.
  - destruct (tasks (home st)) as [|tk l] eqn:E; [done|].
    rewrite queue_weight_cons in Hn. destruct tk; simpl in Hn; lia.
  - destruct (tasks (home st)) eqn:E; [done|]. apply IH.
    assert (task_step st (run_task 0 st)) as Hs by (exists 0; rewrite E; split; [simpl; lia|done]).
    apply task_step_weight in Hs. rewrite E in Hs. lia.
Qed.

(** [drain] resumes the first task as long as there is one. *)
Lemma drain_run_at n st : drain n st = run_at 0 n st.
Proof.
  revert st. induction n as [|n IH]; intros st; [done|]. simpl.
  destruct (tasks (home st)) eqn:E; [|apply IH].
  assert (run_task 0 st = st) as -> by (unfold run_task; by rewrite E).
  by rewrite run_at_none by (by rewrite E).
Qed.

(** ** What the tasks keep of the store *)

(** A store predicate every run of a computation keeps. *)
Definition stable (P : Store.t -> Prop) {A} (c : SE Store.t A) : Prop :=
  forall s r s', c s = (r, s') -> P s -> P s'.

Lemma stable_ret P {A} (a : A) : stable P (mret a).
Proof. by intros s r s' [= _ <-]. Qed.

Lemma stable_bind P {A B} (c : SE Store.t A) (k : A -> SE Store.t B) :
  stable P c -> (forall a, stable P (k a)) -> stable P (c ≫= k).
Proof.
  intros Hc Hk s r s'. unfold mbind, se_mbind, se_bind.
  destruct (c s) as [[a|e] s1] eqn:E; intros H Hs.
  - eapply Hk; [done|]. by eapply Hc.
  - injection H as _ <-. by eapply Hc.
Qed.

(** The chat [k] exists. *)
Definition has_chat (k : string) (s : Store.t) : Prop := is_Some (Store.chats s !! k).

(** The call [id] is [ended]. *)
Definition ended (id : string) (s : Store.t) : Prop := Call.status <$> Store.getCall id s = Some Ended.

(** What the pending handlers' writes keep: the writes of the call log
    and the final [{ status: 'ended' }]. *)
Definition kept (P : Store.t -> Prop) : Prop :=
  (forall chatId m, stable P (Store.addMessage chatId m)) /\
  (forall chatId f, stable P (Store.updateChat chatId f)) /\
  (forall id, stable P (Store.updateCall id PatchEnd)).

Lemma kept_chat k : kept (has_chat k).
Proof.
  split_and!.
  - by intros ?? s r s' [= _ <-].
  - intros chatId f s r s'. unfold Store.updateChat, has_chat. case_match eqn:E; intros [= _ <-]; [|done].
    simpl. destruct (decide (chatId = k)) as [->|Hne]; [by rewrite lookup_insert_eq|by rewrite lookup_insert_ne].
  - intros id s r s'. unfold Store.updateCall. case_match; by intros [= _ <-].
Qed.

Lemma kept_ended id : kept (ended id).
Proof.
  split_and!.
  - by intros ?? s r s' [= _ <-].
  - intros ?? s r s'. unfold Store.updateChat. case_match; by intros [= _ <-].
  - intros id' s r s'. unfold Store.updateCall, ended, Store.getCall. case_match eqn:E; intros [= _ <-]; [|done].
    simpl. destruct (decide (id' = id)) as [->|Hne]; [by rewrite lookup_insert_eq|by rewrite lookup_insert_ne].
Qed.

(** The writes of the call log and of [handleEndCall] keep such a
    predicate. *)
Lemma kept_ops P (ops : list op) :
  kept P -> (forall o, o ∈ ops -> match o with OpUpdateCall _ p => p = PatchEnd | _ => True end) ->
  forall n o, ops !! n = Some o -> stable P (exec_op o).
Proof.
  intros (Hm & Hc & He) Hops n o Hn. apply list_elem_of_lookup_2, Hops in Hn.
  destruct o; simpl; [apply Hm|apply Hc|]. subst. apply He.
Qed.

Lemma end_ops_writes me c d snap o :
  o ∈ end_ops me c d snap -> match o with OpUpdateCall _ p => p = PatchEnd | _ => True end.
Proof.
  unfold end_ops, call_message_ops. repeat case_match; rewrite ?elem_of_app; set_solver.
Qed.

Lemma call_message_writes c r d o :
  o ∈ call_message_ops c r d -> match o with OpUpdateCall _ p => p = PatchEnd | _ => True end.
Proof. unfold call_message_ops. set_solver. Qed.

Lemma send_op_keeps P ops n k fin st :
  (forall n o, ops !! n = Some o -> stable P (exec_op o)) -> (forall st', db (fin st') = db st') ->
  P (db st) -> P (db (send_op ops n k fin st)).
Proof.
  intros Hops Hfin Hp. unfold send_op. destruct (ops !! n) as [o|] eqn:Ho; [|by rewrite Hfin].
  destruct (exec_op o (db st)) as [[] s'] eqn:E; simpl; by eapply Hops.
Qed.

(** Every task keeps such a predicate. *)
Lemma run_task_keeps P i st : kept P -> P (db st) -> P (db (run_task i st)).
Proof.
  intros HP Hp. unfold run_task. destruct (_ !! i) as [tk|]; [|done].
  destruct tk; simpl.
  1,2: apply send_op_keeps; [intros ? ? Ho; exact (kept_ops _ _ HP (end_ops_writes _ _ _ _) _ _ Ho)|done|done].
  4: apply send_op_keeps; [intros ? ? Ho; exact (kept_ops _ _ HP (call_message_writes _ _ _) _ _ Ho)|done|done].
  all: repeat case_match; done.
Qed.

(** ** The end of a call completes *)

Lemma elem_of_delete_other {A} (l : list A) i x y :
  x ∈ l -> l !! i = Some y -> y <> x -> x ∈ delete i l.
Proof.
  intros Hx Hi Hne. rewrite delete_take_drop.
  rewrite <-(take_drop_middle l i y Hi) in Hx.
  rewrite elem_of_app, elem_of_cons in Hx. rewrite elem_of_app. naive_solver.
Qed.

Lemma tasks_elem_step st i tk x :
  x ∈ tasks (home st) -> tasks (home st) !! i = Some tk -> tk <> x -> x ∈ tasks (home (run_task i st)).
Proof.
  intros Hx Hi Hne. unfold run_task. rewrite Hi.
  destruct (resume_tasks tk (mkSt (set_tasks (delete i (tasks (home st))) (home st)) (db st))) as (l & -> & _).
  rewrite elem_of_app. left. by eapply elem_of_delete_other.
Qed.

(** The writes [handleEndCall] sends after reading a call that is not
    [ended], when the call and its chat exist: each one succeeds, and the
    last one ends the call. *)
Lemma end_ops_succeed me c d doc n s :
  Call.status doc <> Ended -> n < length (end_ops me c d (Some doc)) ->
  has_chat (Call.chatId c) s -> is_Some (Store.getCall (Call.id c) s) ->
  exists o s', end_ops me c d (Some doc) !! n = Some o /\ exec_op o s = (Ok tt, s') /\
    (S n = length (end_ops me c d (Some doc)) -> ended (Call.id c) s').
Proof.
  intros Hst Hn [ch Hch] [c0 Hc]. unfold end_ops in *. rewrite bool_decide_true in * by done. cbv zeta in *.
  set (pre := if bool_decide (Call.callerId doc = me) then _ else []) in *.
  assert (Hpre : pre = [] \/ exists r x, pre = call_message_ops c r x)
    by (subst pre; repeat case_match; eauto).
  rewrite length_app in Hn. simpl in Hn.
  destruct (decide (n = length pre)) as [->|Hne].
  - rewrite lookup_app_r, Nat.sub_diag by lia. simpl. unfold Store.getCall in Hc.
    do 2 eexists. split; [done|]. cbn [exec_op]. rewrite (Store.updateCall_present _ _ _ c0) by exact Hc.
    split; [done|].
    intros _. unfold ended, Store.getCall. simpl. by rewrite lookup_insert_eq.
  - rewrite lookup_app_l by lia. rewrite length_app. simpl.
    destruct Hpre as [->|(r & x & ->)]; [simpl in *; lia|].
    destruct n as [|[|n]]; [| |simpl in *; lia]; do 2 eexists; (split; [done|]); cbn [exec_op];
      [|unfold Store.updateChat; rewrite Hch]; (split; [done|]); simpl; lia.
Qed.

(** No handler changes whose page it is. *)
Lemma send_op_uid ops n k fin st :
  (forall st', uid (home (fin st')) = uid (home st')) -> uid (home (send_op ops n k fin st)) = uid (home st).
Proof. intros Hf. unfold send_op. repeat case_match; simplify_eq/=; done. Qed.

Lemma run_task_uid i st : uid (home (run_task i st)) = uid (home st).
Proof.
  unfold run_task. destruct (_ !! i) as [tk|]; [|done].
  destruct tk; simpl; try (rewrite send_op_uid; done); repeat case_match; done.
Qed.

(** Where the end of call [c] stands: the call and its chat exist, and
    the call is [ended] or its handler is still pending, with a read that
    found it not [ended] and its final write still to send. *)
Definition end_pending (c : Call.t) (d : Z) (st : St) : Prop :=
  has_chat (Call.chatId c) (db st) /\ is_Some (Store.getCall (Call.id c) (db st)) /\
  (ended (Call.id c) (db st) \/ EndRead c d ∈ tasks (home st) \/
   exists doc n, EndAwait c d (Some doc) n ∈ tasks (home st) /\ Call.status doc <> Ended /\
                 n < length (end_ops (uid (home st)) c d (Some doc))).

(** Sending write [n] of the end of call [c] keeps it pending or ends it. *)
Lemma end_send_pending c d doc n st :
  Call.status doc <> Ended -> n < length (end_ops (uid (home st)) c d (Some doc)) ->
  has_chat (Call.chatId c) (db st) -> is_Some (Store.getCall (Call.id c) (db st)) ->
  let st' := send_op (end_ops (uid (home st)) c d (Some doc)) n (EndAwait c d (Some doc)) end_fin st in
  ended (Call.id c) (db st') \/
  (EndAwait c d (Some doc) (S n) ∈ tasks (home st') /\ S n < length (end_ops (uid (home st)) c d (Some doc))).
Proof.
  intros Hst Hn Hch Hc. destruct (end_ops_succeed (uid (home st)) c d doc n (db st)) as (o & s' & Ho & E & He);
    [done..|].
  cbv zeta. unfold send_op. rewrite Ho, E. cbn [push home db tasks set_tasks mk].
  destruct (decide (S n = length (end_ops (uid (home st)) c d (Some doc)))) as [Hl|Hl]; [left; by apply He|].
  right. split; [apply elem_of_app; right; by left|lia].
Qed.

Lemma end_pending_step c d st st' : end_pending c d st -> task_step st st' -> end_pending c d st'.
Proof.
  intros (Hch & Hc & Hstate) (i & Hi & ->).
  destruct (lookup_lt_is_Some_2 _ _ Hi) as [tk Htk].
  assert (Hch' : has_chat (Call.chatId c) (db (run_task i st))) by (apply run_task_keeps; [apply kept_chat|done]).
  assert (Hc' : is_Some (Store.getCall (Call.id c) (db (run_task i st)))).
  { destruct Hc as [c0 Hc0]. destruct (Invariants.run_task_step i st) as [[Hev _] _].
    destruct (Hev _ _ Hc0) as (c1 & Hc1 & _). eauto. }
  assert (Hend : ended (Call.id c) (db st) -> ended (Call.id c) (db (run_task i st)))
    by (apply run_task_keeps, kept_ended).
  split_and!; [done|done|]. destruct Hstate as [He|[Hr|(doc & n & Hw & Hdoc & Hn)]]; [by left; apply Hend| |].
  - destruct (decide (tk = EndRead c d)) as [->|Hne]; [|right; left; by eapply tasks_elem_step].
    destruct Hc as [c0 Hc0]. destruct (decide (Call.status c0 = Ended)) as [Hen|Hen].
    + left. apply Hend. unfold ended. rewrite Hc0. simpl. by rewrite Hen.
    + unfold run_task. rewrite Htk. simpl resume. rewrite Hc0.
      assert (H0 : 0 < length (end_ops (uid (home st)) c d (Some c0))).
      { unfold end_ops. rewrite bool_decide_true by done. rewrite length_app. simpl. lia. }
      destruct (end_send_pending c d c0 0 (mkSt (set_tasks (delete i (tasks (home st))) (home st)) (db st))
                  Hen H0 Hch (ex_intro _ c0 Hc0)) as [He|[Hw Hn]]; [by left|].
      right; right. exists c0, 1. rewrite send_op_uid by done. split_and!; [exact Hw|done|exact Hn].
  - destruct (decide (tk = EndAwait c d (Some doc) n)) as [->|Hne];
      [|right; right; exists doc, n; rewrite run_task_uid; split_and!; [by eapply tasks_elem_step|done|done]].
    unfold run_task. rewrite Htk. simpl resume.
    destruct (end_send_pending c d doc n (mkSt (set_tasks (delete i (tasks (home st))) (home st)) (db st))
                Hdoc Hn Hch Hc) as [He|[Hw' Hn']]; [by left|].
    right; right. exists doc, (S n). rewrite send_op_uid by done. split_and!; [exact Hw'|done|exact Hn'].
Qed.

Lemma end_pending_rtc c d st st' : end_pending c d st -> rtc task_step st st' -> end_pending c d st'.
Proof. intros H Hr. induction Hr; eauto using end_pending_step. Qed.

(** C4: once [handleEndCall] has started on a call whose document and
    chat exist, the pending handlers can always all finish, and however
    they resume, when none is left the call is [ended]. *)
Theorem end_call_completes c d st :
  is_Some (Store.getCall (Call.id c) (db st)) -> has_chat (Call.chatId c) (db st) ->
  (exists st', rtc task_step (handleEndCall c d st) st' /\ tasks (home st') = []) /\
  (forall st', rtc task_step (handleEndCall c d st) st' -> tasks (home st') = [] ->
     ended (Call.id c) (db st')).
Proof.
  intros Hc Hch. split.
  - eexists. split; [apply drain_rtc|]. by apply drain_empties.
  - intros st' Hr Hn.
    assert (Hp : end_pending c d (handleEndCall c d st)).
    { split_and!; [done|done|]. right; left. unfold handleEndCall, push. simpl.
      apply elem_of_app. right. by left. }
    destruct (end_pending_rtc _ _ _ _ Hp Hr) as (_ & _ & [He|[Hr'|(doc & n & Hw & _)]]); [done| |];
      rewrite Hn in *; by apply elem_of_nil in Hr' || by apply elem_of_nil in Hw.
Qed.

(** ** The end of a call whose chat is gone *)

(** The caller's writes, when a log entry is due: the call-log entry,
    then the summary update, then the status. *)
Lemma end_ops_caller me c d doc :
  Call.status doc <> Ended -> Call.callerId doc = me -> (Call.status doc = Ringing \/ (0 < d)%Z) ->
  exists r x, end_ops me c d (Some doc) = call_message_ops c r x ++ [OpUpdateCall (Call.id c) PatchEnd].
Proof.
  intros Hst Hme Hlog. unfold end_ops. rewrite bool_decide_true by done. cbv zeta.
  rewrite (bool_decide_true (Call.callerId doc = me)) by done.
  destruct (decide (Call.status doc = Ringing)) as [Hr|Hr];
    [rewrite bool_decide_true by done|rewrite bool_decide_false, bool_decide_true by (try destruct Hlog; done || lia)];
    eauto.
Qed.

(** The call log of a deleted chat: the message is added to the orphan
    [messages] collection, then the summary update rejects. *)
Lemma call_message_ops_no_chat c r x s :
  Store.chats s !! Call.chatId c = None ->
  exists o0 o1 s1, call_message_ops c r x = [o0; o1] /\ exec_op o0 s = (Ok tt, s1) /\
    exec_op o1 s1 = (Err FirestoreNotFound, s1) /\ Store.calls s1 = Store.calls s.
Proof.
  intros Hn. do 3 eexists. split; [reflexivity|]. split; [reflexivity|].
  cbn [exec_op]. unfold Store.updateChat. simpl. by rewrite Hn.
Qed.

(** C22: when the chat of a call has been deleted (an unfriend deletes
    the direct chat), the caller's [handleEndCall] never ends the call:
    the call log's summary update rejects, the exception skips the status
    write and [setActiveCall(null)], and once its handler has run the call
    document and the active call are as they were. *)
Theorem end_call_chat_deleted c d st doc :
  tasks (home st) = [] -> Store.chats (db st) !! Call.chatId c = None ->
  Store.getCall (Call.id c) (db st) = Some doc -> Call.status doc <> Ended ->
  Call.callerId doc = uid (home st) -> (Call.status doc = Ringing \/ (0 < d)%Z) ->
  let st' := drain 2 (handleEndCall c d st) in
  tasks (home st') = [] /\ Store.getCall (Call.id c) (db st') = Some doc /\
  activeCall (home st') = activeCall (home st).
Proof.
  intros Ht Hn Hc Hst Hme Hlog. cbv zeta.
  destruct (end_ops_caller (uid (home st)) c d doc) as (r & x & E); [done..|].
  destruct (call_message_ops_no_chat c r x (db st)) as (o0 & o1 & s1 & Eops & E0 & E1 & Hc1); [done|].
  rewrite Eops in E. rewrite drain_run_at, run_at_S.
  assert (H0 : run_task 0 (handleEndCall c d st) = resume (EndRead c d) st)
    by (rewrite <-(run_task_push (EndRead c d) st), Ht; done).
  rewrite H0. cbn [resume]. rewrite Hc, E. unfold send_op. cbn [lookup list_lookup app]. rewrite E0.
  rewrite run_at_S. cbn [run_at].
  assert (H1 : run_task 0 (push (EndAwait c d (Some doc) 1) (mkSt (home st) s1)) =
               resume (EndAwait c d (Some doc) 1) (mkSt (home st) s1))
    by (rewrite <-(run_task_push_mk _ (home st) s1), Ht; done).
  rewrite H1. cbn [resume home db]. rewrite E. unfold send_op. cbn [lookup list_lookup app]. cbn [home db]. rewrite E1. cbn [home db].
  split_and!; [done| |done]. unfold Store.getCall in *. by rewrite Hc1.
Qed.

(** ** Concrete pages *)

(** Alice's page with the chat open; the call rings. *)
Definition alice_page (s : Store.t) : St := mkSt (init "alice" (Some "alice_bob")) s.

(** The ringing call, its chat deleted. *)
Definition db_orphan : Store.t := {|
  Store.calls := {[ "call1" := CallView.call0 ]}; Store.callerCandidates := ∅; Store.calleeCandidates := ∅;
  Store.chats := ∅; Store.messages := ∅; Store.users := ∅;
  Store.friendRequests := ∅; Store.clock := 1000; Store.journal := [] |}.

Lemma end_call_completes_witness :
  (exists st', rtc task_step (handleEndCall CallView.call0 0 (alice_page (db_with CallView.call0))) st' /\
               tasks (home st') = []) /\
  (forall st', rtc task_step (handleEndCall CallView.call0 0 (alice_page (db_with CallView.call0))) st' ->
     tasks (home st') = [] -> ended "call1" (db st')).
Proof. apply end_call_completes; eexists; reflexivity. Defined.

Lemma end_call_chat_deleted_witness :
  let st' := drain 2 (handleEndCall CallView.call0 0 (alice_page db_orphan)) in
  tasks (home st') = [] /\ Store.getCall "call1" (db st') = Some CallView.call0 /\
  activeCall (home st') = None.
Proof.
  apply (end_call_chat_deleted CallView.call0 0 (alice_page db_orphan) CallView.call0);
    [reflexivity|reflexivity|reflexivity|discriminate|reflexivity|left; reflexivity].
Defined.

End Tasks.
