(* ===== verification/Scenarios.v ===== *)
(** * Races of the call handlers, and executions of the two-client system

    First, the interleavings under which the code breaks a promise of the
    specification, each stated for every store and call: both pages
    running [handleEndCall] on one call ([caller_end_logs_once],
    [callee_end_loses_log]), the caller's end racing the callee's decline
    ([cancel_decline_logs_twice]), an accept from a dialog that outlived
    its call ([ended_call_reconnected]), a call screen unmounted with its
    media pending ([camera_left_on]).  Then concrete runs of
    [System.step] from [System.w0] (alice, with the chat open, and bob),
    each given as the list of labels it performs, which show that each of
    these situations is reachable, and that the scenario of the
    specification ends as the specification says. *)

From S2P Require Import Prelude Data WebRTC Store CallView Home System Invariants.

Module Scenarios.
Import System.
Local Open Scope string_scope.

(** ** Observations of a world *)

Definition call_status_of (id : string) (w : world) : option call_status :=
  Call.status <$> Store.getCall id (db w).

Definition call_endedAt (id : string) (w : world) : option Z :=
  Store.getCall id (db w) ≫= Call.endedAt.

(** The call-log entries of a chat: the sender and the [callInfo] of each
    message of type [call], in order. *)
Definition call_log (chatId : string) (w : world) : list (string * CallInfo.t) :=
  omap (fun m => if Message.type m is MsgCall then pair (Message.senderId m) <$> Message.callInfo m
                 else None)
       (Store.chat_messages chatId (db w)).

Definition offer_writes (id : string) (w : world) : nat := count (Store.is_offer_write id) (Store.journal (db w)).

Definition answer_writes (id : string) (w : world) : nat := count (Store.is_answer_write id) (Store.journal (db w)).

(** The updates of a call document, in the order they were written. *)
Definition call_patches (id : string) (w : world) : list call_patch :=
  omap (fun wr => if wr is WCallUpdate id' p then if bool_decide (id' = id) then Some p else None
                  else None) (Store.journal (db w)).

(** Client [u] shows no call: no active call, no call screen. *)
Definition idle (u : string) (w : world) : bool :=
  match clients w !! u with
  | Some h => bool_decide (Home.activeCall h = None /\ Home.screen h = None)
  | None => false
  end.

(** Client [u]'s browser holds a live camera track. *)
Definition camera_live (u : string) (w : world) : bool :=
  match clients w !! u with
  | Some h => existsb (fun t => Track.live t && bool_decide (Track.kind t = Video))
                      (map snd (map_to_list (Home.tracks h)))
  | None => false
  end.

(** ** The runs *)

Definition cA : IceCandidate.t :=
  {| IceCandidate.candidate := "cand-a"; IceCandidate.sdpMid := "0"; IceCandidate.sdpMLineIndex := 0 |}.
Definition cB : IceCandidate.t :=
  {| IceCandidate.candidate := "cand-b"; IceCandidate.sdpMid := "0"; IceCandidate.sdpMLineIndex := 0 |}.

(** Alice calls bob (video); both screens get their media, alice writes
    the offer and a candidate, bob accepts, answers and sends a candidate,
    alice applies the answer and both candidates arrive; the connection
    is up and 42 seconds pass. *)
Definition connected_run : list label := [
  LInitiate "alice" "alice_bob" Video "call1"; LTask "alice" 0; LTask "alice" 0; LMedia "alice";
  LScreen "alice" (CallView.EvSig 1); LScreen "alice" (CallView.EvSig 1);
  LScreen "alice" (CallView.EvLocalCandidate 1 cA);
  LIncoming "bob"; LTask "bob" 0; LAccept "bob"; LTask "bob" 0; LTask "bob" 0; LTask "bob" 0;
  LMedia "bob";
  LScreen "bob" (CallView.EvSig 1); LScreen "bob" (CallView.EvSig 1); LScreen "bob" (CallView.EvSig 1);
  LScreen "bob" (CallView.EvCandidates 1 [cA] 1); LScreen "bob" (CallView.EvLocalCandidate 1 cB);
  LScreen "alice" (CallView.EvDoc 1); LScreen "alice" (CallView.EvCandidates 1 [cB] 1);
  LScreen "alice" (CallView.EvConnection 1 Peer.PcConnected); LTick 42000 ].

(** The caller ends the call; both pages finish their handlers. *)
Definition caller_ends_run : list label := app connected_run [
  LScreen "alice" CallView.EvClickEnd; LTask "alice" 0; LTask "alice" 0; LTask "alice" 0;
  LTask "alice" 0; LScreen "bob" (CallView.EvDoc 1); LTask "bob" 0 ].

(** The callee ends the call instead. *)
Definition callee_ends_run : list label := app connected_run [
  LScreen "bob" CallView.EvClickEnd; LTask "bob" 0; LTask "bob" 0;
  LScreen "alice" (CallView.EvDoc 1); LTask "alice" 0 ].

(** An audio call rings at bob's. *)
Definition ringing_run : list label := [
  LInitiate "alice" "alice_bob" Audio "call1"; LTask "alice" 0; LTask "alice" 0; LIncoming "bob";
  LTask "bob" 0 ].

(** Alice cancels; her read sees [ringing]; bob declines before her writes. *)
Definition cancel_decline_run : list label := app ringing_run [
  LScreen "alice" CallView.EvClickEnd; LTask "alice" 0; LDecline "bob"; LTask "bob" 0; LTask "bob" 0;
  LTask "bob" 0; LTask "alice" 0; LTask "alice" 0; LTask "alice" 0 ].

(** Alice cancels; bob's dialog stays up and he accepts. *)
Definition cancel_accept_run : list label := app ringing_run [
  LScreen "alice" CallView.EvClickEnd; LTask "alice" 0; LTask "alice" 0; LTask "alice" 0;
  LTask "alice" 0; LIncoming "bob"; LAccept "bob" ].

(** Alice cancels before her camera permission resolves. *)
Definition cancel_before_media_run : list label := [
  LInitiate "alice" "alice_bob" Video "call1"; LTask "alice" 0; LTask "alice" 0;
  LScreen "alice" CallView.EvClickEnd; LTask "alice" 0; LTask "alice" 0; LTask "alice" 0;
  LTask "alice" 0; LStray "alice" ].

(** ** The call log when both pages end a call *)

(** The call [c] of the chat [c], connected, as the store holds it. *)
Definition connected_call (c : Call.t) : Call.t := Store.apply_patch 0 (PatchStatus Connected) c.

(** C1: the end of the specification's scenario, for every call, store
    and duration: the caller ends a connected call after [d > 0]
    seconds, and the callee's page, whose listener then sees the call
    [ended], runs its own [handleEndCall]: the chat gets exactly one
    call-log entry, by the caller, [{type, ended, d}], and the call is
    [ended] at the caller's time. *)
Theorem caller_end_logs_once c doc ch s d d' :
  Store.chats s !! Call.chatId c = Some ch -> Store.calls s !! Call.id c = Some doc ->
  Call.status doc = Connected -> Call.callerId doc <> Call.calleeId doc -> (0 < d)%Z ->
  let s1 := snd (Home.end_writes (Call.callerId doc) c d (Store.getCall (Call.id c) s) s) in
  let s2 := snd (Home.end_writes (Call.calleeId doc) c d' (Store.getCall (Call.id c) s1) s1) in
  Store.chat_messages (Call.chatId c) s2 =
    (Store.chat_messages (Call.chatId c) s ++ [Home.log_entry c OutcomeEnded d (Store.clock s)])%list /\
  Store.getCall (Call.id c) s2 = Some (Store.apply_patch (Store.clock s) PatchEnd doc).
Proof.
  intros Hch Hc Hst Hne Hd. cbv zeta.
  assert (Hg : Store.getCall (Call.id c) s = Some doc) by exact Hc. rewrite Hg.
  destruct (Home.end_writes_ok (Call.callerId doc) c d doc s ch doc) as (s1 & E1 & Hm1 & Hc1 & _);
    [by rewrite Hst|done|done|].
  assert (Hg1 : Store.getCall (Call.id c) s1 = Some (Store.apply_patch (Store.clock s) PatchEnd doc))
    by (unfold Store.getCall; by rewrite Hc1, lookup_insert_eq).
  rewrite E1. simpl snd. rewrite Hg1, Home.end_writes_over by (intros ? [= <-]; done). simpl snd.
  rewrite Hg1. split; [|done]. rewrite Hm1.
  unfold Home.end_entries, Home.expected_log. rewrite Hst, bool_decide_true by done.
  by rewrite bool_decide_false, bool_decide_true by done.
Qed.

(** C11: when the callee ends a connected call, the caller's page, whose
    listener then sees it [ended], writes nothing: whatever the store and
    however long the call lasted, the call leaves no call-log entry. *)
Theorem callee_end_loses_log c doc ch s d d' :
  Store.chats s !! Call.chatId c = Some ch -> Store.calls s !! Call.id c = Some doc ->
  Call.status doc = Connected -> Call.callerId doc <> Call.calleeId doc ->
  let s1 := snd (Home.end_writes (Call.calleeId doc) c d' (Store.getCall (Call.id c) s) s) in
  let s2 := snd (Home.end_writes (Call.callerId doc) c d (Store.getCall (Call.id c) s1) s1) in
  Store.chat_messages (Call.chatId c) s2 = Store.chat_messages (Call.chatId c) s /\
  Store.getCall (Call.id c) s2 = Some (Store.apply_patch (Store.clock s) PatchEnd doc).
Proof.
  intros Hch Hc Hst Hne. cbv zeta.
  assert (Hg : Store.getCall (Call.id c) s = Some doc) by exact Hc. rewrite Hg.
  destruct (Home.end_writes_ok (Call.calleeId doc) c d' doc s ch doc) as (s1 & E1 & Hm1 & Hc1 & _);
    [by rewrite Hst|done|done|].
  assert (Hg1 : Store.getCall (Call.id c) s1 = Some (Store.apply_patch (Store.clock s) PatchEnd doc))
    by (unfold Store.getCall; by rewrite Hc1, lookup_insert_eq).
  rewrite E1. simpl snd. rewrite Hg1, Home.end_writes_over by (intros ? [= <-]; done). simpl snd.
  rewrite Hg1. split; [|done]. rewrite Hm1.
  unfold Home.end_entries. rewrite bool_decide_false by congruence. apply app_nil_r.
Qed.

(** C12: a cancel racing a decline: the caller's [handleEndCall] has
    read the call still [ringing] when the callee declines and the
    decline handler completes; the caller's writes then follow.  The chat
    gets two [missed] entries, and the [declined] status is overwritten
    by [ended]. *)
Theorem cancel_decline_logs_twice c doc ch hb s d :
  Store.chats s !! Call.chatId c = Some ch -> Store.calls s !! Call.id c = Some doc ->
  Call.status doc = Ringing ->
  let s1 := Home.db (Home.run_at (length (Home.tasks hb)) 3 (Home.decline c (Home.mkSt hb s))) in
  let s2 := snd (Home.end_writes (Call.callerId doc) c d (Some doc) s1) in
  Store.chat_messages (Call.chatId c) s2 =
    (Store.chat_messages (Call.chatId c) s ++
      [Home.log_entry c OutcomeMissed 0 (Store.clock s); Home.log_entry c OutcomeMissed 0 (Store.clock s)])%list /\
  Call.status <$> Store.getCall (Call.id c) s2 = Some Ended.
Proof.
  intros Hch Hc Hst. cbv zeta.
  destruct (Home.decline_logs_missed c (Home.mkSt hb s) doc ch Hc Hch) as (Hd & Hm1 & _ & _ & [ch1 Hch1] & Hk1).
  cbn [Home.db Home.home] in *.
  set (s1 := Home.db (Home.run_at _ 3 _)) in *.
  destruct (Store.calls s1 !! Call.id c) as [doc1|] eqn:Hc1; [|done].
  destruct (Home.end_writes_ok (Call.callerId doc) c d doc s1 ch1 doc1) as (s2 & E2 & Hm2 & Hc2 & _);
    [by rewrite Hst|done|done|].
  rewrite E2. simpl snd. split.
  - rewrite Hm2, Hm1, Hk1, <-app_assoc. unfold Home.end_entries, Home.expected_log.
    by rewrite !bool_decide_true by done.
  - unfold Store.getCall. by rewrite Hc2, lookup_insert_eq.
Qed.

(** ** An accepted call that had ended *)

Lemma ends_incoming c l st :
  Home.incomingCall (Home.home (foldl (fun st0 d => Home.handleEndCall c d st0) st l)) =
    Home.incomingCall (Home.home st).
Proof. revert st. induction l as [|d l IH]; intros st; [done|]. simpl. by rewrite IH. Qed.

(** The render and the effects after a step leave the dialog alone. *)
Lemma settle_incoming st : Home.incomingCall (Home.home (Home.settle st)) = Home.incomingCall (Home.home st).
Proof.
  unfold Home.settle, Home.render, Home.resubscribe, Home.collect_ends.
  repeat case_match; simplify_eq/=; rewrite ?ends_incoming; done.
Qed.

(** C30: the incoming-call dialog outlives its call: a new snapshot of
    the ringing query (the call has left it) leaves the dialog as it was,
    and accepting from it writes [connected] over whatever status the
    call now has, [ended] or [declined] included. *)
Theorem ended_call_reconnected w u h c doc :
  clients w !! u = Some h -> Home.incomingCall h = Some c -> Home.screen h = None ->
  Store.calls (db w) !! Call.id c = Some doc ->
  (forall w', exec_label (LIncoming u) w = Some w' -> Home.incomingCall <$> clients w' !! u = Some (Some c)) /\
  exists w', exec_label (LAccept u) w = Some w' /\ call_status_of (Call.id c) w' = Some Connected.
Proof.
  intros Hu Hi Hs Hc. split.
  - simpl. unfold on_client. rewrite Hu. intros w' [= <-]. simpl. rewrite lookup_insert_eq. simpl.
    rewrite settle_incoming. unfold Home.incoming_snapshot. repeat case_match; cbn; by rewrite Hi.
  - simpl. rewrite Hu, Hi. unfold page_visible. rewrite bool_decide_true by done.
    unfold on_client. rewrite Hu. eexists. split; [reflexivity|].
    unfold call_status_of. simpl. rewrite Invariants.settle_db. unfold Home.accept.
    rewrite (Store.updateCall_present _ _ _ doc) by done. unfold Store.getCall. simpl.
    by rewrite lookup_insert_eq.
Qed.

(** ** A camera nobody stops *)

(** C20: a call screen whose camera and microphone request is still
    pending when the call goes away is unmounted, and the request lives
    on: when it resolves, a live camera track exists with no call and no
    screen on the page. *)
Theorem camera_left_on st v :
  Home.screen (Home.home st) = Some v -> CallView.media_state v = CallView.MediaPending ->
  Call.type (CallView.call v) = Video -> Home.activeCall (Home.home st) = None ->
  Home.stray (Home.home st) = [] ->
  let st' := Home.stray_resolved (Home.render st) in
  Home.screen (Home.home st') = None /\ Home.activeCall (Home.home st') = None /\
  exists tr, Home.tracks (Home.home st') !! S (Home.next_track (Home.home st)) = Some tr /\
             Track.kind tr = Video /\ Track.live tr = true.
Proof.
  intros Hs Hm Ht Ha Hstr. cbv zeta. unfold Home.render. rewrite Hs, Ha, Hm. simpl.
  unfold Home.stray_resolved. simpl. rewrite Hstr, Ht. simpl.
  split_and!; [done|done|]. eexists. split; [apply lookup_insert_eq|done].
Qed.

(** ** Runs of the system *)

(** The scenario of the specification runs: alice calls bob (video), bob
    accepts, the answer is applied, the connection is up, alice ends
    after 42 seconds.  Exactly one offer and one answer were written, the
    call is [ended] with its end time, the chat holds exactly one call-log
    entry, by alice, [{video, ended, 42}], and both pages are back to no
    call. *)
Lemma caller_ends_after_42s :
  exists w, reach w0 w /\
    call_status_of "call1" w = Some Ended /\ call_endedAt "call1" w = Some 43000%Z /\
    call_log "alice_bob" w =
      [("alice", {| CallInfo.type := Video; CallInfo.status := OutcomeEnded; CallInfo.duration := 42 |})] /\
    offer_writes "call1" w = 1%nat /\ answer_writes "call1" w = 1%nat /\
    idle "alice" w = true /\ idle "bob" w = true.
Proof. run_scenario caller_ends_run. Qed.

(** The interleavings of the theorems above are reachable: the callee
    ending a connected call, a cancel racing a decline, a dialog accepted
    after a cancel, a cancel before the media resolve. *)
Lemma callee_ends_run_no_log :
  exists w, reach w0 w /\
    call_status_of "call1" w = Some Ended /\ call_endedAt "call1" w = Some 43000%Z /\
    In (PatchStatus Connected) (call_patches "call1" w) /\
    call_log "alice_bob" w = [] /\ idle "alice" w = true /\ idle "bob" w = true.
Proof. run_scenario callee_ends_run. Qed.

Lemma cancel_decline_run_twice :
  exists w, reach w0 w /\
    call_log "alice_bob" w =
      [("alice", {| CallInfo.type := Audio; CallInfo.status := OutcomeMissed; CallInfo.duration := 0 |});
       ("alice", {| CallInfo.type := Audio; CallInfo.status := OutcomeMissed; CallInfo.duration := 0 |})] /\
    call_patches "call1" w = [PatchStatus Declined; PatchEnd] /\
    call_status_of "call1" w = Some Ended.
Proof. run_scenario cancel_decline_run. Qed.

Lemma cancel_accept_run_reconnects :
  exists w, reach w0 w /\
    call_patches "call1" w = [PatchEnd; PatchStatus Connected] /\
    call_status_of "call1" w = Some Connected /\ idle "alice" w = true.
Proof. run_scenario cancel_accept_run. Qed.

Lemma cancel_before_media_run_camera :
  exists w, reach w0 w /\
    idle "alice" w = true /\ camera_live "alice" w = true /\ call_status_of "call1" w = Some Ended.
Proof. run_scenario cancel_before_media_run. Qed.

(** ** Witnesses *)

Definition db_connected : Store.t := Home.db_with (connected_call CallView.call0).

Lemma caller_end_logs_once_witness :
  let c := CallView.call0 in let doc := connected_call c in let s := db_connected in
  let s1 := snd (Home.end_writes (Call.callerId doc) c 42 (Store.getCall (Call.id c) s) s) in
  let s2 := snd (Home.end_writes (Call.calleeId doc) c 0 (Store.getCall (Call.id c) s1) s1) in
  Store.chat_messages (Call.chatId c) s2 =
    (Store.chat_messages (Call.chatId c) s ++ [Home.log_entry c OutcomeEnded 42 (Store.clock s)])%list /\
  Store.getCall (Call.id c) s2 = Some (Store.apply_patch (Store.clock s) PatchEnd doc).
Proof. apply (caller_end_logs_once _ _ Home.chat0); [reflexivity..|discriminate|lia]. Defined.

Lemma callee_end_loses_log_witness :
  let c := CallView.call0 in let doc := connected_call c in let s := db_connected in
  let s1 := snd (Home.end_writes (Call.calleeId doc) c 0 (Store.getCall (Call.id c) s) s) in
  let s2 := snd (Home.end_writes (Call.callerId doc) c 42 (Store.getCall (Call.id c) s1) s1) in
  Store.chat_messages (Call.chatId c) s2 = Store.chat_messages (Call.chatId c) s /\
  Store.getCall (Call.id c) s2 = Some (Store.apply_patch (Store.clock s) PatchEnd doc).
Proof. apply (callee_end_loses_log _ _ Home.chat0); [reflexivity..|discriminate]. Defined.

Lemma cancel_decline_logs_twice_witness :
  let c := CallView.call0 in let s := Home.db_with c in let hb := Home.init "bob" None in
  let s1 := Home.db (Home.run_at (length (Home.tasks hb)) 3 (Home.decline c (Home.mkSt hb s))) in
  let s2 := snd (Home.end_writes (Call.callerId c) c 0 (Some c) s1) in
  Store.chat_messages (Call.chatId c) s2 =
    (Store.chat_messages (Call.chatId c) s ++
      [Home.log_entry c OutcomeMissed 0 (Store.clock s); Home.log_entry c OutcomeMissed 0 (Store.clock s)])%list /\
  Call.status <$> Store.getCall (Call.id c) s2 = Some Ended.
Proof. apply (cancel_decline_logs_twice _ _ Home.chat0); reflexivity. Defined.

(** Alice has cancelled the ringing call; bob's dialog is still up. *)
Definition w_cancelled : world :=
  default w0 (run_steps (ringing_run ++ [LScreen "alice" CallView.EvClickEnd; LTask "alice" 0;
                                         LTask "alice" 0; LTask "alice" 0; LTask "alice" 0]) w0).

Definition bob_cancelled : Home.t := default (Home.init "bob" None) (clients w_cancelled !! "bob").

Definition call_cancelled : Call.t := default CallView.call0 (Home.incomingCall bob_cancelled).

Lemma ended_call_reconnected_witness :
  reach w0 w_cancelled /\ call_status_of "call1" w_cancelled = Some Ended /\
  (forall w', exec_label (LIncoming "bob") w_cancelled = Some w' ->
     Home.incomingCall <$> clients w' !! "bob" = Some (Some call_cancelled)) /\
  exists w', exec_label (LAccept "bob") w_cancelled = Some w' /\
             call_status_of (Call.id call_cancelled) w' = Some Connected.
Proof.
  split; [apply run_steps_default; vm_compute; discriminate|]. split; [vm_compute; reflexivity|].
  apply (ended_call_reconnected _ _ bob_cancelled _
           (default CallView.call0 (Store.calls (db w_cancelled) !! "call1"))); vm_compute; reflexivity.
Defined.

(** Alice's screen mounted on a video call, its media still pending; the
    call is gone. *)
Definition page_cancelled : Home.St :=
  Home.set_home (Home.set_active None)
    (Home.render (Home.mkSt (Home.set_active (Some CallView.call0) (Home.init "alice" (Some "alice_bob")))
                            (Home.db_with CallView.call0))).

Lemma camera_left_on_witness :
  let st' := Home.stray_resolved (Home.render page_cancelled) in
  Home.screen (Home.home st') = None /\ Home.activeCall (Home.home st') = None /\
  exists tr, Home.tracks (Home.home st') !! S (Home.next_track (Home.home page_cancelled)) = Some tr /\
             Track.kind tr = Video /\ Track.live tr = true.
Proof.
  apply (camera_left_on _ (default (CallView.init "alice" CallView.call0) (Home.screen (Home.home page_cancelled))));
    vm_compute; reflexivity.
Defined.

End Scenarios.
